(** * The OV5670 sensor driver and the ACPI block reader, embedded in Rocq

    A shallow embedding of [ov5670/ov5670.c] and of [read_acpi_block] from
    [misc/get_acpi_data/get_acpi_data.c].

    The driver's [struct ov5670] is the record [ov5670]; what the driver
    reaches in the kernel (GPIO line values, the runtime-PM usage counter, the
    status every fallible kernel call reports) is the record [kernel].  Driver
    functions are computations in a state monad over the pair of the two.  The
    kernel's answers are not fixed: the field [answers] numbers the fallible
    kernel calls in the order they are made and gives the status of each, so a
    statement quantified over the state holds for every behaviour of the
    kernel.  Every kernel call that has an effect is appended to [trace].

    Diagnostics ([dev_err], [dev_info], [pr_info]) and the mutex, which is taken
    and released around whole operations, have no counterpart here. *)

From Stdlib Require Import String.
From Stdlib Require Import ZArith List Bool Lia.
Import ListNotations.
Open Scope Z_scope.

(** ** Machine integers and error numbers *)

Definition u8 (z : Z) : Z := z mod 2 ^ 8.
Definition u16 (z : Z) : Z := z mod 2 ^ 16.
Definition u32 (z : Z) : Z := z mod 2 ^ 32.
(** Conversion to [int] / [s32]: two's complement wrap-around. *)
Definition s32 (z : Z) : Z := (z + 2 ^ 31) mod 2 ^ 32 - 2 ^ 31.

Definition EIO : Z := 5.
Definition ENODEV : Z := 19.
Definition EINVAL : Z := 22.
Definition ERANGE : Z := 34.

(** ** GPIO lines held by the driver *)

Inductive gpio : Type :=
| xshutdn | pwdnb | led_gpio
| gpio0 | gpio1 | gpio2 | gpio3 | gpio4 | gpio5 | gpio6
| s_enable | s_idle | s_resetn.

Definition gpio_eqb (a b : gpio) : bool :=
  match a, b with
  | xshutdn, xshutdn | pwdnb, pwdnb | led_gpio, led_gpio
  | gpio0, gpio0 | gpio1, gpio1 | gpio2, gpio2 | gpio3, gpio3
  | gpio4, gpio4 | gpio5, gpio5 | gpio6, gpio6
  | s_enable, s_enable | s_idle, s_idle | s_resetn, s_resetn => true
  | _, _ => false
  end.

(** ** Kernel calls the driver makes, as they appear in the trace *)

Inductive event : Type :=
| EvGpiodSetValue (line : gpio) (value : bool)
| EvRegulatorBulkEnable (status : Z)
| EvRegulatorBulkDisable (status : Z)
| EvClkPrepareEnable (status : Z)
| EvClkDisableUnprepare
| EvUsleepRange (lo hi : Z)
| EvPmRuntimeGetSync (status : Z)
| EvPmRuntimeGetIfInUse (status : Z)
| EvPmRuntimePut
| EvPmRuntimePutNoidle
| EvI2cMasterSend (buf : list Z) (count : Z)
| EvI2cTransfer (addr : list Z) (len : Z) (count : Z) (data : list Z)
| EvCtrlHandlerSetup (status : Z)
| EvCtrlHandlerFree.

(** ** Data of the driver *)

Record ov5670_reg : Type := mk_reg { address : Z; val : Z }.

(** [struct ov5670_reg_list]: [num_of_regs] is the length of [regs]. *)
Definition ov5670_reg_list : Type := list ov5670_reg.

(** [struct ov5670_link_freq_config]; its fields [pixel_rate] and
    [reg_list] are [pixel_rate_of] and [link_reg_list] here. *)
Record ov5670_link_freq_config : Type := mk_link_freq_config {
  pixel_rate_of : Z;
  link_reg_list : ov5670_reg_list
}.

Record ov5670_mode : Type := mk_mode {
  width : Z;
  height : Z;
  vts_def : Z;
  vts_min : Z;
  link_freq_index : Z;
  reg_list : ov5670_reg_list
}.

(** Control identities.  The driver's handler tells apart the first eight;
    every other identity takes the [default:] branch. *)
Inductive ctrl_id : Type :=
| V4L2_CID_LINK_FREQ
| V4L2_CID_PIXEL_RATE
| V4L2_CID_VBLANK
| V4L2_CID_HBLANK
| V4L2_CID_ANALOGUE_GAIN
| V4L2_CID_DIGITAL_GAIN
| V4L2_CID_EXPOSURE
| V4L2_CID_TEST_PATTERN
| V4L2_CID_other (cid : Z).

(** [struct v4l2_ctrl], the fields the driver reads or sets.  [cur_val] is
    [ctrl->cur.val]. *)
Record v4l2_ctrl : Type := mk_ctrl {
  id : ctrl_id;
  minimum : Z;
  maximum : Z;
  step : Z;
  default_value : Z;
  cur_val : Z;
  flags : Z
}.

(** [struct ov5670].  The five control pointers are [None] when NULL; the
    mode pointer is the catalog entry it points to. *)
Record ov5670 : Type := mk_ov5670 {
  link_freq : option v4l2_ctrl;
  pixel_rate : option v4l2_ctrl;
  vblank : option v4l2_ctrl;
  hblank : option v4l2_ctrl;
  exposure : option v4l2_ctrl;
  cur_mode : ov5670_mode;
  streaming : bool;
  regulator_enabled : bool;
  clk_enabled : bool
}.

(** The kernel as the driver sees it. *)
Record kernel : Type := mk_kernel {
  gpio_value : gpio -> bool;   (* level last written to each line *)
  usage_count : Z;             (* runtime-PM usage counter of the device *)
  answers : nat -> Z;          (* status of the n-th fallible kernel call *)
  asked : nat;                 (* how many such calls were made so far *)
  trace : list event           (* the calls made, oldest first *)
}.

Record state : Type := mk_state { drv : ov5670; krn : kernel }.

(** *** Field updates *)

Definition set_link_freq (c : option v4l2_ctrl) (d : ov5670) : ov5670 :=
  mk_ov5670 c (pixel_rate d) (vblank d) (hblank d) (exposure d) (cur_mode d)
            (streaming d) (regulator_enabled d) (clk_enabled d).
Definition set_pixel_rate (c : option v4l2_ctrl) (d : ov5670) : ov5670 :=
  mk_ov5670 (link_freq d) c (vblank d) (hblank d) (exposure d) (cur_mode d)
            (streaming d) (regulator_enabled d) (clk_enabled d).
Definition set_vblank (c : option v4l2_ctrl) (d : ov5670) : ov5670 :=
  mk_ov5670 (link_freq d) (pixel_rate d) c (hblank d) (exposure d) (cur_mode d)
            (streaming d) (regulator_enabled d) (clk_enabled d).
Definition set_hblank (c : option v4l2_ctrl) (d : ov5670) : ov5670 :=
  mk_ov5670 (link_freq d) (pixel_rate d) (vblank d) c (exposure d) (cur_mode d)
            (streaming d) (regulator_enabled d) (clk_enabled d).
Definition set_exposure (c : option v4l2_ctrl) (d : ov5670) : ov5670 :=
  mk_ov5670 (link_freq d) (pixel_rate d) (vblank d) (hblank d) c (cur_mode d)
            (streaming d) (regulator_enabled d) (clk_enabled d).
Definition set_cur_mode (m : ov5670_mode) (d : ov5670) : ov5670 :=
  mk_ov5670 (link_freq d) (pixel_rate d) (vblank d) (hblank d) (exposure d) m
            (streaming d) (regulator_enabled d) (clk_enabled d).
Definition set_streaming (b : bool) (d : ov5670) : ov5670 :=
  mk_ov5670 (link_freq d) (pixel_rate d) (vblank d) (hblank d) (exposure d)
            (cur_mode d) b (regulator_enabled d) (clk_enabled d).
Definition set_regulator_enabled (b : bool) (d : ov5670) : ov5670 :=
  mk_ov5670 (link_freq d) (pixel_rate d) (vblank d) (hblank d) (exposure d)
            (cur_mode d) (streaming d) b (clk_enabled d).
Definition set_clk_enabled (b : bool) (d : ov5670) : ov5670 :=
  mk_ov5670 (link_freq d) (pixel_rate d) (vblank d) (hblank d) (exposure d)
            (cur_mode d) (streaming d) (regulator_enabled d) b.

Definition set_gpio_value (g : gpio) (v : bool) (k : kernel) : kernel :=
  mk_kernel (fun g' => if gpio_eqb g g' then v else gpio_value k g')
            (usage_count k) (answers k) (asked k) (trace k).
Definition set_usage_count (n : Z) (k : kernel) : kernel :=
  mk_kernel (gpio_value k) n (answers k) (asked k) (trace k).
Definition next_answer (k : kernel) : kernel :=
  mk_kernel (gpio_value k) (usage_count k) (answers k) (S (asked k)) (trace k).
Definition log (e : event) (k : kernel) : kernel :=
  mk_kernel (gpio_value k) (usage_count k) (answers k) (asked k) (trace k ++ [e]).

(** ** The state monad *)

Definition M (A : Type) : Type := state -> A * state.

Definition pure {A : Type} (a : A) : M A := fun s => (a, s).
Definition bind {A B : Type} (m : M A) (f : A -> M B) : M B :=
  fun s => let r := m s in f (fst r) (snd r).

Declare Scope monad_scope.
Delimit Scope monad_scope with monad.
Notation "x <- m ;; k" := (bind m (fun x => k))
  (at level 61, m at next level, right associativity) : monad_scope.
Notation "m ;; k" := (bind m (fun _ => k))
  (at level 61, right associativity) : monad_scope.
Open Scope monad_scope.

Definition driver (f : ov5670 -> ov5670) : M unit :=
  fun s => (tt, mk_state (f (drv s)) (krn s)).
Definition in_kernel (f : kernel -> kernel) : M unit :=
  fun s => (tt, mk_state (drv s) (f (krn s))).
Definition read {A : Type} (f : ov5670 -> A) : M A := fun s => (f (drv s), s).

(** The status the kernel gives to the next fallible call. *)
Definition ask : M Z :=
  fun s => (answers (krn s) (asked (krn s)), mk_state (drv s) (next_answer (krn s))).

(** ** Kernel services used by the power sequencer *)

Definition gpiod_set_value_cansleep (g : gpio) (v : bool) : M unit :=
  in_kernel (fun k => log (EvGpiodSetValue g v) (set_gpio_value g v k)).

Definition regulator_bulk_enable : M Z :=
  r <- ask ;; in_kernel (log (EvRegulatorBulkEnable r)) ;; pure r.
Definition regulator_bulk_disable : M Z :=
  r <- ask ;; in_kernel (log (EvRegulatorBulkDisable r)) ;; pure r.
Definition clk_prepare_enable : M Z :=
  r <- ask ;; in_kernel (log (EvClkPrepareEnable r)) ;; pure r.
Definition clk_disable_unprepare : M unit :=
  in_kernel (log EvClkDisableUnprepare).
Definition usleep_range (lo hi : Z) : M unit :=
  in_kernel (log (EvUsleepRange lo hi)).

(** ** The power sequencer *)

(** Controls GPIOs defined in dep_dev _CRS. *)
Definition gpio_crs_ctrl (flag : bool) : M Z :=
  gpiod_set_value_cansleep xshutdn flag ;;
  gpiod_set_value_cansleep pwdnb flag ;;
  gpiod_set_value_cansleep led_gpio flag ;;
  pure 0.

(** Controls GPIOs provided by tps68470-gpio. *)
Definition gpio_pmic_ctrl (flag : bool) : M Z :=
  gpiod_set_value_cansleep gpio0 flag ;;
  gpiod_set_value_cansleep gpio1 flag ;;
  gpiod_set_value_cansleep gpio2 flag ;;
  gpiod_set_value_cansleep gpio3 flag ;;
  gpiod_set_value_cansleep gpio4 flag ;;
  gpiod_set_value_cansleep gpio5 flag ;;
  gpiod_set_value_cansleep gpio6 flag ;;
  gpiod_set_value_cansleep s_enable flag ;;
  gpiod_set_value_cansleep s_idle flag ;;
  gpiod_set_value_cansleep s_resetn flag ;;
  pure 0.

(** [power_ctrl].  The local [ret] is assigned by every step and returned at
    the end; the turn-off block is not an [else] branch. *)
Definition power_ctrl (flag : bool) : M Z :=
  (* turn on *)
  (if flag then
     ret <- gpio_crs_ctrl flag ;;
     ret <- gpio_pmic_ctrl flag ;;
     ret <- regulator_bulk_enable ;;
     driver (set_regulator_enabled true) ;;
     ret <- clk_prepare_enable ;;
     driver (set_clk_enabled true)
   else pure tt) ;;
  (* turn off in reverse order *)
  clk_on <- read clk_enabled ;;
  (if clk_on then
     clk_disable_unprepare ;;
     driver (set_clk_enabled false)
   else pure tt) ;;
  regulator_on <- read regulator_enabled ;;
  (if regulator_on then
     ret <- regulator_bulk_disable ;;
     driver (set_regulator_enabled false)
   else pure tt) ;;
  ret <- gpio_pmic_ctrl flag ;;
  ret <- gpio_crs_ctrl flag ;;
  pure ret.

Definition gpio_ctrl (flag : bool) : M Z :=
  (* TODO: enable/disable GPIO here *)
  pure 0.

Definition fail_power (ret : Z) : M Z :=
  power_ctrl false ;; pure ret.

Definition __power_up : M Z :=
  (* power control *)
  ret <- power_ctrl true ;;
  if negb (ret =? 0) then fail_power ret
  else
    (* add some delay (10~11ms) *)
    usleep_range 10000 11000 ;;
    (* gpio ctrl *)
    ret <- gpio_ctrl true ;;
    ret <- (if negb (ret =? 0) then gpio_ctrl true else pure ret) ;;
    if negb (ret =? 0) then fail_power ret
    else
      (* add some delay (30~31ms) *)
      usleep_range 30000 31000 ;;
      pure 0.

Definition power_down : M Z :=
  (* gpio ctrl *)
  ret <- gpio_ctrl false ;;
  ret <- (if negb (ret =? 0) then gpio_ctrl false else pure ret) ;;
  (* power control *)
  ret <- power_ctrl false ;;
  pure ret.

Definition retry_count : nat := 4.

Section Retry.

(** The loop of [power_up], over the attempt it repeats.  [n] is the number
    of iterations left, [ret] the local of that name (it has no initialiser;
    the first iteration assigns it). *)
Variable attempt : M Z.

Fixpoint power_up_loop (n : nat) (ret : Z) : M Z :=
  match n with
  | O => pure ret
  | S n' =>
      ret <- attempt ;;
      if ret =? 0 then pure 0
      else power_down ;; power_up_loop n' ret
  end.

Definition power_up_retry : M Z := power_up_loop retry_count 0.

End Retry.

Definition power_up : M Z := power_up_retry __power_up.

Definition ov5670_s_power (on : Z) : M Z :=
  if on =? 0 then power_down
  else ret <- power_up ;; pure ret.

(** ** Register tables and the mode catalog *)

Definition mipi_data_rate_840mbps : list ov5670_reg :=
  [ mk_reg 0x0300 0x04; mk_reg 0x0301 0x00; mk_reg 0x0302 0x84;
    mk_reg 0x0303 0x00; mk_reg 0x0304 0x03; mk_reg 0x0305 0x01;
    mk_reg 0x0306 0x01; mk_reg 0x030a 0x00; mk_reg 0x030b 0x00;
    mk_reg 0x030c 0x00; mk_reg 0x030d 0x26; mk_reg 0x030e 0x00;
    mk_reg 0x030f 0x06; mk_reg 0x0312 0x01; mk_reg 0x3031 0x0a ].

Definition mode_2592x1944_regs : list ov5670_reg :=
  [ mk_reg 0x3000 0x00; mk_reg 0x3002 0x21; mk_reg 0x3005 0xf0;
    mk_reg 0x3007 0x00; mk_reg 0x3015 0x0f; mk_reg 0x3018 0x32;
    mk_reg 0x301a 0xf0; mk_reg 0x301b 0xf0; mk_reg 0x301c 0xf0;
    mk_reg 0x301d 0xf0; mk_reg 0x301e 0xf0; mk_reg 0x3030 0x00;
    mk_reg 0x3031 0x0a; mk_reg 0x303c 0xff; mk_reg 0x303e 0xff;
    mk_reg 0x3040 0xf0; mk_reg 0x3041 0x00; mk_reg 0x3042 0xf0;
    mk_reg 0x3106 0x11; mk_reg 0x3500 0x00; mk_reg 0x3501 0x80;
    mk_reg 0x3502 0x00; mk_reg 0x3503 0x04; mk_reg 0x3504 0x03;
    mk_reg 0x3505 0x83; mk_reg 0x3508 0x04; mk_reg 0x3509 0x00;
    mk_reg 0x350e 0x04; mk_reg 0x350f 0x00; mk_reg 0x3510 0x00;
    mk_reg 0x3511 0x02; mk_reg 0x3512 0x00; mk_reg 0x3601 0xc8;
    mk_reg 0x3610 0x88; mk_reg 0x3612 0x48; mk_reg 0x3614 0x5b;
    mk_reg 0x3615 0x96; mk_reg 0x3621 0xd0; mk_reg 0x3622 0x00;
    mk_reg 0x3623 0x00; mk_reg 0x3633 0x13; mk_reg 0x3634 0x13;
    mk_reg 0x3635 0x13; mk_reg 0x3636 0x13; mk_reg 0x3645 0x13;
    mk_reg 0x3646 0x82; mk_reg 0x3650 0x00; mk_reg 0x3652 0xff;
    mk_reg 0x3655 0x20; mk_reg 0x3656 0xff; mk_reg 0x365a 0xff;
    mk_reg 0x365e 0xff; mk_reg 0x3668 0x00; mk_reg 0x366a 0x07;
    mk_reg 0x366e 0x10; mk_reg 0x366d 0x00; mk_reg 0x366f 0x80;
    mk_reg 0x3700 0x28; mk_reg 0x3701 0x10; mk_reg 0x3702 0x3a;
    mk_reg 0x3703 0x19; mk_reg 0x3704 0x10; mk_reg 0x3705 0x00;
    mk_reg 0x3706 0x66; mk_reg 0x3707 0x08; mk_reg 0x3708 0x34;
    mk_reg 0x3709 0x40; mk_reg 0x370a 0x01; mk_reg 0x370b 0x1b;
    mk_reg 0x3714 0x24; mk_reg 0x371a 0x3e; mk_reg 0x3733 0x00;
    mk_reg 0x3734 0x00; mk_reg 0x373a 0x05; mk_reg 0x373b 0x06;
    mk_reg 0x373c 0x0a; mk_reg 0x373f 0xa0; mk_reg 0x3755 0x00;
    mk_reg 0x3758 0x00; mk_reg 0x375b 0x0e; mk_reg 0x3766 0x5f;
    mk_reg 0x3768 0x00; mk_reg 0x3769 0x22; mk_reg 0x3773 0x08;
    mk_reg 0x3774 0x1f; mk_reg 0x3776 0x06; mk_reg 0x37a0 0x88;
    mk_reg 0x37a1 0x5c; mk_reg 0x37a7 0x88; mk_reg 0x37a8 0x70;
    mk_reg 0x37aa 0x88; mk_reg 0x37ab 0x48; mk_reg 0x37b3 0x66;
    mk_reg 0x37c2 0x04; mk_reg 0x37c5 0x00; mk_reg 0x37c8 0x00;
    mk_reg 0x3800 0x00; mk_reg 0x3801 0x0c; mk_reg 0x3802 0x00;
    mk_reg 0x3803 0x04; mk_reg 0x3804 0x0a; mk_reg 0x3805 0x33;
    mk_reg 0x3806 0x07; mk_reg 0x3807 0xa3; mk_reg 0x3808 0x0a;
    mk_reg 0x3809 0x20; mk_reg 0x380a 0x07; mk_reg 0x380b 0x98;
    mk_reg 0x380c 0x06; mk_reg 0x380d 0x90; mk_reg 0x380e 0x08;
    mk_reg 0x380f 0x08; mk_reg 0x3811 0x04; mk_reg 0x3813 0x02;
    mk_reg 0x3814 0x01; mk_reg 0x3815 0x01; mk_reg 0x3816 0x00;
    mk_reg 0x3817 0x00; mk_reg 0x3818 0x00; mk_reg 0x3819 0x00;
    mk_reg 0x3820 0x84; mk_reg 0x3821 0x46; mk_reg 0x3822 0x48;
    mk_reg 0x3826 0x00; mk_reg 0x3827 0x08; mk_reg 0x382a 0x01;
    mk_reg 0x382b 0x01; mk_reg 0x3830 0x08; mk_reg 0x3836 0x02;
    mk_reg 0x3837 0x00; mk_reg 0x3838 0x10; mk_reg 0x3841 0xff;
    mk_reg 0x3846 0x48; mk_reg 0x3861 0x00; mk_reg 0x3862 0x04;
    mk_reg 0x3863 0x06; mk_reg 0x3a11 0x01; mk_reg 0x3a12 0x78;
    mk_reg 0x3b00 0x00; mk_reg 0x3b02 0x00; mk_reg 0x3b03 0x00;
    mk_reg 0x3b04 0x00; mk_reg 0x3b05 0x00; mk_reg 0x3c00 0x89;
    mk_reg 0x3c01 0xab; mk_reg 0x3c02 0x01; mk_reg 0x3c03 0x00;
    mk_reg 0x3c04 0x00; mk_reg 0x3c05 0x03; mk_reg 0x3c06 0x00;
    mk_reg 0x3c07 0x05; mk_reg 0x3c0c 0x00; mk_reg 0x3c0d 0x00;
    mk_reg 0x3c0e 0x00; mk_reg 0x3c0f 0x00; mk_reg 0x3c40 0x00;
    mk_reg 0x3c41 0xa3; mk_reg 0x3c43 0x7d; mk_reg 0x3c45 0xd7;
    mk_reg 0x3c47 0xfc; mk_reg 0x3c50 0x05; mk_reg 0x3c52 0xaa;
    mk_reg 0x3c54 0x71; mk_reg 0x3c56 0x80; mk_reg 0x3d85 0x17;
    mk_reg 0x3f03 0x00; mk_reg 0x3f0a 0x00; mk_reg 0x3f0b 0x00;
    mk_reg 0x4001 0x60; mk_reg 0x4009 0x0d; mk_reg 0x4020 0x00;
    mk_reg 0x4021 0x00; mk_reg 0x4022 0x00; mk_reg 0x4023 0x00;
    mk_reg 0x4024 0x00; mk_reg 0x4025 0x00; mk_reg 0x4026 0x00;
    mk_reg 0x4027 0x00; mk_reg 0x4028 0x00; mk_reg 0x4029 0x00;
    mk_reg 0x402a 0x00; mk_reg 0x402b 0x00; mk_reg 0x402c 0x00;
    mk_reg 0x402d 0x00; mk_reg 0x402e 0x00; mk_reg 0x402f 0x00;
    mk_reg 0x4040 0x00; mk_reg 0x4041 0x03; mk_reg 0x4042 0x00;
    mk_reg 0x4043 0x7A; mk_reg 0x4044 0x00; mk_reg 0x4045 0x7A;
    mk_reg 0x4046 0x00; mk_reg 0x4047 0x7A; mk_reg 0x4048 0x00;
    mk_reg 0x4049 0x7A; mk_reg 0x4307 0x30; mk_reg 0x4500 0x58;
    mk_reg 0x4501 0x04; mk_reg 0x4502 0x40; mk_reg 0x4503 0x10;
    mk_reg 0x4508 0xaa; mk_reg 0x4509 0xaa; mk_reg 0x450a 0x00;
    mk_reg 0x450b 0x00; mk_reg 0x4600 0x01; mk_reg 0x4601 0x03;
    mk_reg 0x4700 0xa4; mk_reg 0x4800 0x4c; mk_reg 0x4816 0x53;
    mk_reg 0x481f 0x40; mk_reg 0x4837 0x13; mk_reg 0x5000 0x56;
    mk_reg 0x5001 0x01; mk_reg 0x5002 0x28; mk_reg 0x5004 0x0c;
    mk_reg 0x5006 0x0c; mk_reg 0x5007 0xe0; mk_reg 0x5008 0x01;
    mk_reg 0x5009 0xb0; mk_reg 0x5901 0x00; mk_reg 0x5a01 0x00;
    mk_reg 0x5a03 0x00; mk_reg 0x5a04 0x0c; mk_reg 0x5a05 0xe0;
    mk_reg 0x5a06 0x09; mk_reg 0x5a07 0xb0; mk_reg 0x5a08 0x06;
    mk_reg 0x5e00 0x00; mk_reg 0x3734 0x40; mk_reg 0x5b00 0x01;
    mk_reg 0x5b01 0x10; mk_reg 0x5b02 0x01; mk_reg 0x5b03 0xdb;
    mk_reg 0x3d8c 0x71; mk_reg 0x3d8d 0xea; mk_reg 0x4017 0x08;
    mk_reg 0x3618 0x2a; mk_reg 0x5780 0x3e; mk_reg 0x5781 0x0f;
    mk_reg 0x5782 0x44; mk_reg 0x5783 0x02; mk_reg 0x5784 0x01;
    mk_reg 0x5785 0x01; mk_reg 0x5786 0x00; mk_reg 0x5787 0x04;
    mk_reg 0x5788 0x02; mk_reg 0x5789 0x0f; mk_reg 0x578a 0xfd;
    mk_reg 0x578b 0xf5; mk_reg 0x578c 0xf5; mk_reg 0x578d 0x03;
    mk_reg 0x578e 0x08; mk_reg 0x578f 0x0c; mk_reg 0x5790 0x08;
    mk_reg 0x5791 0x06; mk_reg 0x5792 0x00; mk_reg 0x5793 0x52;
    mk_reg 0x5794 0xa3; mk_reg 0x3503 0x00; mk_reg 0x5045 0x05;
    mk_reg 0x4003 0x40; mk_reg 0x5048 0x40 ].

Definition mode_1296x972_regs : list ov5670_reg :=
  [ mk_reg 0x3000 0x00; mk_reg 0x3002 0x21; mk_reg 0x3005 0xf0;
    mk_reg 0x3007 0x00; mk_reg 0x3015 0x0f; mk_reg 0x3018 0x32;
    mk_reg 0x301a 0xf0; mk_reg 0x301b 0xf0; mk_reg 0x301c 0xf0;
    mk_reg 0x301d 0xf0; mk_reg 0x301e 0xf0; mk_reg 0x3030 0x00;
    mk_reg 0x3031 0x0a; mk_reg 0x303c 0xff; mk_reg 0x303e 0xff;
    mk_reg 0x3040 0xf0; mk_reg 0x3041 0x00; mk_reg 0x3042 0xf0;
    mk_reg 0x3106 0x11; mk_reg 0x3500 0x00; mk_reg 0x3501 0x80;
    mk_reg 0x3502 0x00; mk_reg 0x3503 0x04; mk_reg 0x3504 0x03;
    mk_reg 0x3505 0x83; mk_reg 0x3508 0x07; mk_reg 0x3509 0x80;
    mk_reg 0x350e 0x04; mk_reg 0x350f 0x00; mk_reg 0x3510 0x00;
    mk_reg 0x3511 0x02; mk_reg 0x3512 0x00; mk_reg 0x3601 0xc8;
    mk_reg 0x3610 0x88; mk_reg 0x3612 0x48; mk_reg 0x3614 0x5b;
    mk_reg 0x3615 0x96; mk_reg 0x3621 0xd0; mk_reg 0x3622 0x00;
    mk_reg 0x3623 0x00; mk_reg 0x3633 0x13; mk_reg 0x3634 0x13;
    mk_reg 0x3635 0x13; mk_reg 0x3636 0x13; mk_reg 0x3645 0x13;
    mk_reg 0x3646 0x82; mk_reg 0x3650 0x00; mk_reg 0x3652 0xff;
    mk_reg 0x3655 0x20; mk_reg 0x3656 0xff; mk_reg 0x365a 0xff;
    mk_reg 0x365e 0xff; mk_reg 0x3668 0x00; mk_reg 0x366a 0x07;
    mk_reg 0x366e 0x08; mk_reg 0x366d 0x00; mk_reg 0x366f 0x80;
    mk_reg 0x3700 0x28; mk_reg 0x3701 0x10; mk_reg 0x3702 0x3a;
    mk_reg 0x3703 0x19; mk_reg 0x3704 0x10; mk_reg 0x3705 0x00;
    mk_reg 0x3706 0x66; mk_reg 0x3707 0x08; mk_reg 0x3708 0x34;
    mk_reg 0x3709 0x40; mk_reg 0x370a 0x01; mk_reg 0x370b 0x1b;
    mk_reg 0x3714 0x24; mk_reg 0x371a 0x3e; mk_reg 0x3733 0x00;
    mk_reg 0x3734 0x00; mk_reg 0x373a 0x05; mk_reg 0x373b 0x06;
    mk_reg 0x373c 0x0a; mk_reg 0x373f 0xa0; mk_reg 0x3755 0x00;
    mk_reg 0x3758 0x00; mk_reg 0x375b 0x0e; mk_reg 0x3766 0x5f;
    mk_reg 0x3768 0x00; mk_reg 0x3769 0x22; mk_reg 0x3773 0x08;
    mk_reg 0x3774 0x1f; mk_reg 0x3776 0x06; mk_reg 0x37a0 0x88;
    mk_reg 0x37a1 0x5c; mk_reg 0x37a7 0x88; mk_reg 0x37a8 0x70;
    mk_reg 0x37aa 0x88; mk_reg 0x37ab 0x48; mk_reg 0x37b3 0x66;
    mk_reg 0x37c2 0x04; mk_reg 0x37c5 0x00; mk_reg 0x37c8 0x00;
    mk_reg 0x3800 0x00; mk_reg 0x3801 0x0c; mk_reg 0x3802 0x00;
    mk_reg 0x3803 0x04; mk_reg 0x3804 0x0a; mk_reg 0x3805 0x33;
    mk_reg 0x3806 0x07; mk_reg 0x3807 0xa3; mk_reg 0x3808 0x05;
    mk_reg 0x3809 0x10; mk_reg 0x380a 0x03; mk_reg 0x380b 0xcc;
    mk_reg 0x380c 0x06; mk_reg 0x380d 0x90; mk_reg 0x380e 0x08;
    mk_reg 0x380f 0x08; mk_reg 0x3811 0x04; mk_reg 0x3813 0x04;
    mk_reg 0x3814 0x03; mk_reg 0x3815 0x01; mk_reg 0x3816 0x00;
    mk_reg 0x3817 0x00; mk_reg 0x3818 0x00; mk_reg 0x3819 0x00;
    mk_reg 0x3820 0x94; mk_reg 0x3821 0x47; mk_reg 0x3822 0x48;
    mk_reg 0x3826 0x00; mk_reg 0x3827 0x08; mk_reg 0x382a 0x03;
    mk_reg 0x382b 0x01; mk_reg 0x3830 0x08; mk_reg 0x3836 0x02;
    mk_reg 0x3837 0x00; mk_reg 0x3838 0x10; mk_reg 0x3841 0xff;
    mk_reg 0x3846 0x48; mk_reg 0x3861 0x00; mk_reg 0x3862 0x04;
    mk_reg 0x3863 0x06; mk_reg 0x3a11 0x01; mk_reg 0x3a12 0x78;
    mk_reg 0x3b00 0x00; mk_reg 0x3b02 0x00; mk_reg 0x3b03 0x00;
    mk_reg 0x3b04 0x00; mk_reg 0x3b05 0x00; mk_reg 0x3c00 0x89;
    mk_reg 0x3c01 0xab; mk_reg 0x3c02 0x01; mk_reg 0x3c03 0x00;
    mk_reg 0x3c04 0x00; mk_reg 0x3c05 0x03; mk_reg 0x3c06 0x00;
    mk_reg 0x3c07 0x05; mk_reg 0x3c0c 0x00; mk_reg 0x3c0d 0x00;
    mk_reg 0x3c0e 0x00; mk_reg 0x3c0f 0x00; mk_reg 0x3c40 0x00;
    mk_reg 0x3c41 0xa3; mk_reg 0x3c43 0x7d; mk_reg 0x3c45 0xd7;
    mk_reg 0x3c47 0xfc; mk_reg 0x3c50 0x05; mk_reg 0x3c52 0xaa;
    mk_reg 0x3c54 0x71; mk_reg 0x3c56 0x80; mk_reg 0x3d85 0x17;
    mk_reg 0x3f03 0x00; mk_reg 0x3f0a 0x00; mk_reg 0x3f0b 0x00;
    mk_reg 0x4001 0x60; mk_reg 0x4009 0x05; mk_reg 0x4020 0x00;
    mk_reg 0x4021 0x00; mk_reg 0x4022 0x00; mk_reg 0x4023 0x00;
    mk_reg 0x4024 0x00; mk_reg 0x4025 0x00; mk_reg 0x4026 0x00;
    mk_reg 0x4027 0x00; mk_reg 0x4028 0x00; mk_reg 0x4029 0x00;
    mk_reg 0x402a 0x00; mk_reg 0x402b 0x00; mk_reg 0x402c 0x00;
    mk_reg 0x402d 0x00; mk_reg 0x402e 0x00; mk_reg 0x402f 0x00;
    mk_reg 0x4040 0x00; mk_reg 0x4041 0x03; mk_reg 0x4042 0x00;
    mk_reg 0x4043 0x7A; mk_reg 0x4044 0x00; mk_reg 0x4045 0x7A;
    mk_reg 0x4046 0x00; mk_reg 0x4047 0x7A; mk_reg 0x4048 0x00;
    mk_reg 0x4049 0x7A; mk_reg 0x4307 0x30; mk_reg 0x4500 0x58;
    mk_reg 0x4501 0x04; mk_reg 0x4502 0x48; mk_reg 0x4503 0x10;
    mk_reg 0x4508 0x55; mk_reg 0x4509 0x55; mk_reg 0x450a 0x00;
    mk_reg 0x450b 0x00; mk_reg 0x4600 0x00; mk_reg 0x4601 0x81;
    mk_reg 0x4700 0xa4; mk_reg 0x4800 0x4c; mk_reg 0x4816 0x53;
    mk_reg 0x481f 0x40; mk_reg 0x4837 0x13; mk_reg 0x5000 0x56;
    mk_reg 0x5001 0x01; mk_reg 0x5002 0x28; mk_reg 0x5004 0x0c;
    mk_reg 0x5006 0x0c; mk_reg 0x5007 0xe0; mk_reg 0x5008 0x01;
    mk_reg 0x5009 0xb0; mk_reg 0x5901 0x00; mk_reg 0x5a01 0x00;
    mk_reg 0x5a03 0x00; mk_reg 0x5a04 0x0c; mk_reg 0x5a05 0xe0;
    mk_reg 0x5a06 0x09; mk_reg 0x5a07 0xb0; mk_reg 0x5a08 0x06;
    mk_reg 0x5e00 0x00; mk_reg 0x3734 0x40; mk_reg 0x5b00 0x01;
    mk_reg 0x5b01 0x10; mk_reg 0x5b02 0x01; mk_reg 0x5b03 0xdb;
    mk_reg 0x3d8c 0x71; mk_reg 0x3d8d 0xea; mk_reg 0x4017 0x10;
    mk_reg 0x3618 0x2a; mk_reg 0x5780 0x3e; mk_reg 0x5781 0x0f;
    mk_reg 0x5782 0x44; mk_reg 0x5783 0x02; mk_reg 0x5784 0x01;
    mk_reg 0x5785 0x01; mk_reg 0x5786 0x00; mk_reg 0x5787 0x04;
    mk_reg 0x5788 0x02; mk_reg 0x5789 0x0f; mk_reg 0x578a 0xfd;
    mk_reg 0x578b 0xf5; mk_reg 0x578c 0xf5; mk_reg 0x578d 0x03;
    mk_reg 0x578e 0x08; mk_reg 0x578f 0x0c; mk_reg 0x5790 0x08;
    mk_reg 0x5791 0x04; mk_reg 0x5792 0x00; mk_reg 0x5793 0x52;
    mk_reg 0x5794 0xa3; mk_reg 0x3503 0x00; mk_reg 0x5045 0x05;
    mk_reg 0x4003 0x40; mk_reg 0x5048 0x40 ].

Definition mode_648x486_regs : list ov5670_reg :=
  [ mk_reg 0x3000 0x00; mk_reg 0x3002 0x21; mk_reg 0x3005 0xf0;
    mk_reg 0x3007 0x00; mk_reg 0x3015 0x0f; mk_reg 0x3018 0x32;
    mk_reg 0x301a 0xf0; mk_reg 0x301b 0xf0; mk_reg 0x301c 0xf0;
    mk_reg 0x301d 0xf0; mk_reg 0x301e 0xf0; mk_reg 0x3030 0x00;
    mk_reg 0x3031 0x0a; mk_reg 0x303c 0xff; mk_reg 0x303e 0xff;
    mk_reg 0x3040 0xf0; mk_reg 0x3041 0x00; mk_reg 0x3042 0xf0;
    mk_reg 0x3106 0x11; mk_reg 0x3500 0x00; mk_reg 0x3501 0x80;
    mk_reg 0x3502 0x00; mk_reg 0x3503 0x04; mk_reg 0x3504 0x03;
    mk_reg 0x3505 0x83; mk_reg 0x3508 0x04; mk_reg 0x3509 0x00;
    mk_reg 0x350e 0x04; mk_reg 0x350f 0x00; mk_reg 0x3510 0x00;
    mk_reg 0x3511 0x02; mk_reg 0x3512 0x00; mk_reg 0x3601 0xc8;
    mk_reg 0x3610 0x88; mk_reg 0x3612 0x48; mk_reg 0x3614 0x5b;
    mk_reg 0x3615 0x96; mk_reg 0x3621 0xd0; mk_reg 0x3622 0x00;
    mk_reg 0x3623 0x04; mk_reg 0x3633 0x13; mk_reg 0x3634 0x13;
    mk_reg 0x3635 0x13; mk_reg 0x3636 0x13; mk_reg 0x3645 0x13;
    mk_reg 0x3646 0x82; mk_reg 0x3650 0x00; mk_reg 0x3652 0xff;
    mk_reg 0x3655 0x20; mk_reg 0x3656 0xff; mk_reg 0x365a 0xff;
    mk_reg 0x365e 0xff; mk_reg 0x3668 0x00; mk_reg 0x366a 0x07;
    mk_reg 0x366e 0x08; mk_reg 0x366d 0x00; mk_reg 0x366f 0x80;
    mk_reg 0x3700 0x28; mk_reg 0x3701 0x10; mk_reg 0x3702 0x3a;
    mk_reg 0x3703 0x19; mk_reg 0x3704 0x10; mk_reg 0x3705 0x00;
    mk_reg 0x3706 0x66; mk_reg 0x3707 0x08; mk_reg 0x3708 0x34;
    mk_reg 0x3709 0x40; mk_reg 0x370a 0x01; mk_reg 0x370b 0x1b;
    mk_reg 0x3714 0x24; mk_reg 0x371a 0x3e; mk_reg 0x3733 0x00;
    mk_reg 0x3734 0x00; mk_reg 0x373a 0x05; mk_reg 0x373b 0x06;
    mk_reg 0x373c 0x0a; mk_reg 0x373f 0xa0; mk_reg 0x3755 0x00;
    mk_reg 0x3758 0x00; mk_reg 0x375b 0x0e; mk_reg 0x3766 0x5f;
    mk_reg 0x3768 0x00; mk_reg 0x3769 0x22; mk_reg 0x3773 0x08;
    mk_reg 0x3774 0x1f; mk_reg 0x3776 0x06; mk_reg 0x37a0 0x88;
    mk_reg 0x37a1 0x5c; mk_reg 0x37a7 0x88; mk_reg 0x37a8 0x70;
    mk_reg 0x37aa 0x88; mk_reg 0x37ab 0x48; mk_reg 0x37b3 0x66;
    mk_reg 0x37c2 0x04; mk_reg 0x37c5 0x00; mk_reg 0x37c8 0x00;
    mk_reg 0x3800 0x00; mk_reg 0x3801 0x0c; mk_reg 0x3802 0x00;
    mk_reg 0x3803 0x04; mk_reg 0x3804 0x0a; mk_reg 0x3805 0x33;
    mk_reg 0x3806 0x07; mk_reg 0x3807 0xa3; mk_reg 0x3808 0x02;
    mk_reg 0x3809 0x88; mk_reg 0x380a 0x01; mk_reg 0x380b 0xe6;
    mk_reg 0x380c 0x06; mk_reg 0x380d 0x90; mk_reg 0x380e 0x08;
    mk_reg 0x380f 0x08; mk_reg 0x3811 0x04; mk_reg 0x3813 0x02;
    mk_reg 0x3814 0x07; mk_reg 0x3815 0x01; mk_reg 0x3816 0x00;
    mk_reg 0x3817 0x00; mk_reg 0x3818 0x00; mk_reg 0x3819 0x00;
    mk_reg 0x3820 0x94; mk_reg 0x3821 0xc6; mk_reg 0x3822 0x48;
    mk_reg 0x3826 0x00; mk_reg 0x3827 0x08; mk_reg 0x382a 0x07;
    mk_reg 0x382b 0x01; mk_reg 0x3830 0x08; mk_reg 0x3836 0x02;
    mk_reg 0x3837 0x00; mk_reg 0x3838 0x10; mk_reg 0x3841 0xff;
    mk_reg 0x3846 0x48; mk_reg 0x3861 0x00; mk_reg 0x3862 0x04;
    mk_reg 0x3863 0x06; mk_reg 0x3a11 0x01; mk_reg 0x3a12 0x78;
    mk_reg 0x3b00 0x00; mk_reg 0x3b02 0x00; mk_reg 0x3b03 0x00;
    mk_reg 0x3b04 0x00; mk_reg 0x3b05 0x00; mk_reg 0x3c00 0x89;
    mk_reg 0x3c01 0xab; mk_reg 0x3c02 0x01; mk_reg 0x3c03 0x00;
    mk_reg 0x3c04 0x00; mk_reg 0x3c05 0x03; mk_reg 0x3c06 0x00;
    mk_reg 0x3c07 0x05; mk_reg 0x3c0c 0x00; mk_reg 0x3c0d 0x00;
    mk_reg 0x3c0e 0x00; mk_reg 0x3c0f 0x00; mk_reg 0x3c40 0x00;
    mk_reg 0x3c41 0xa3; mk_reg 0x3c43 0x7d; mk_reg 0x3c45 0xd7;
    mk_reg 0x3c47 0xfc; mk_reg 0x3c50 0x05; mk_reg 0x3c52 0xaa;
    mk_reg 0x3c54 0x71; mk_reg 0x3c56 0x80; mk_reg 0x3d85 0x17;
    mk_reg 0x3f03 0x00; mk_reg 0x3f0a 0x00; mk_reg 0x3f0b 0x00;
    mk_reg 0x4001 0x60; mk_reg 0x4009 0x05; mk_reg 0x4020 0x00;
    mk_reg 0x4021 0x00; mk_reg 0x4022 0x00; mk_reg 0x4023 0x00;
    mk_reg 0x4024 0x00; mk_reg 0x4025 0x00; mk_reg 0x4026 0x00;
    mk_reg 0x4027 0x00; mk_reg 0x4028 0x00; mk_reg 0x4029 0x00;
    mk_reg 0x402a 0x00; mk_reg 0x402b 0x00; mk_reg 0x402c 0x00;
    mk_reg 0x402d 0x00; mk_reg 0x402e 0x00; mk_reg 0x402f 0x00;
    mk_reg 0x4040 0x00; mk_reg 0x4041 0x03; mk_reg 0x4042 0x00;
    mk_reg 0x4043 0x7A; mk_reg 0x4044 0x00; mk_reg 0x4045 0x7A;
    mk_reg 0x4046 0x00; mk_reg 0x4047 0x7A; mk_reg 0x4048 0x00;
    mk_reg 0x4049 0x7A; mk_reg 0x4307 0x30; mk_reg 0x4500 0x58;
    mk_reg 0x4501 0x04; mk_reg 0x4502 0x40; mk_reg 0x4503 0x10;
    mk_reg 0x4508 0x55; mk_reg 0x4509 0x55; mk_reg 0x450a 0x02;
    mk_reg 0x450b 0x00; mk_reg 0x4600 0x00; mk_reg 0x4601 0x40;
    mk_reg 0x4700 0xa4; mk_reg 0x4800 0x4c; mk_reg 0x4816 0x53;
    mk_reg 0x481f 0x40; mk_reg 0x4837 0x13; mk_reg 0x5000 0x56;
    mk_reg 0x5001 0x01; mk_reg 0x5002 0x28; mk_reg 0x5004 0x0c;
    mk_reg 0x5006 0x0c; mk_reg 0x5007 0xe0; mk_reg 0x5008 0x01;
    mk_reg 0x5009 0xb0; mk_reg 0x5901 0x00; mk_reg 0x5a01 0x00;
    mk_reg 0x5a03 0x00; mk_reg 0x5a04 0x0c; mk_reg 0x5a05 0xe0;
    mk_reg 0x5a06 0x09; mk_reg 0x5a07 0xb0; mk_reg 0x5a08 0x06;
    mk_reg 0x5e00 0x00; mk_reg 0x3734 0x40; mk_reg 0x5b00 0x01;
    mk_reg 0x5b01 0x10; mk_reg 0x5b02 0x01; mk_reg 0x5b03 0xdb;
    mk_reg 0x3d8c 0x71; mk_reg 0x3d8d 0xea; mk_reg 0x4017 0x10;
    mk_reg 0x3618 0x2a; mk_reg 0x5780 0x3e; mk_reg 0x5781 0x0f;
    mk_reg 0x5782 0x44; mk_reg 0x5783 0x02; mk_reg 0x5784 0x01;
    mk_reg 0x5785 0x01; mk_reg 0x5786 0x00; mk_reg 0x5787 0x04;
    mk_reg 0x5788 0x02; mk_reg 0x5789 0x0f; mk_reg 0x578a 0xfd;
    mk_reg 0x578b 0xf5; mk_reg 0x578c 0xf5; mk_reg 0x578d 0x03;
    mk_reg 0x578e 0x08; mk_reg 0x578f 0x0c; mk_reg 0x5790 0x08;
    mk_reg 0x5791 0x06; mk_reg 0x5792 0x00; mk_reg 0x5793 0x52;
    mk_reg 0x5794 0xa3; mk_reg 0x3503 0x00; mk_reg 0x5045 0x05;
    mk_reg 0x4003 0x40; mk_reg 0x5048 0x40 ].

Definition mode_2560x1440_regs : list ov5670_reg :=
  [ mk_reg 0x3000 0x00; mk_reg 0x3002 0x21; mk_reg 0x3005 0xf0;
    mk_reg 0x3007 0x00; mk_reg 0x3015 0x0f; mk_reg 0x3018 0x32;
    mk_reg 0x301a 0xf0; mk_reg 0x301b 0xf0; mk_reg 0x301c 0xf0;
    mk_reg 0x301d 0xf0; mk_reg 0x301e 0xf0; mk_reg 0x3030 0x00;
    mk_reg 0x3031 0x0a; mk_reg 0x303c 0xff; mk_reg 0x303e 0xff;
    mk_reg 0x3040 0xf0; mk_reg 0x3041 0x00; mk_reg 0x3042 0xf0;
    mk_reg 0x3106 0x11; mk_reg 0x3500 0x00; mk_reg 0x3501 0x80;
    mk_reg 0x3502 0x00; mk_reg 0x3503 0x04; mk_reg 0x3504 0x03;
    mk_reg 0x3505 0x83; mk_reg 0x3508 0x04; mk_reg 0x3509 0x00;
    mk_reg 0x350e 0x04; mk_reg 0x350f 0x00; mk_reg 0x3510 0x00;
    mk_reg 0x3511 0x02; mk_reg 0x3512 0x00; mk_reg 0x3601 0xc8;
    mk_reg 0x3610 0x88; mk_reg 0x3612 0x48; mk_reg 0x3614 0x5b;
    mk_reg 0x3615 0x96; mk_reg 0x3621 0xd0; mk_reg 0x3622 0x00;
    mk_reg 0x3623 0x00; mk_reg 0x3633 0x13; mk_reg 0x3634 0x13;
    mk_reg 0x3635 0x13; mk_reg 0x3636 0x13; mk_reg 0x3645 0x13;
    mk_reg 0x3646 0x82; mk_reg 0x3650 0x00; mk_reg 0x3652 0xff;
    mk_reg 0x3655 0x20; mk_reg 0x3656 0xff; mk_reg 0x365a 0xff;
    mk_reg 0x365e 0xff; mk_reg 0x3668 0x00; mk_reg 0x366a 0x07;
    mk_reg 0x366e 0x10; mk_reg 0x366d 0x00; mk_reg 0x366f 0x80;
    mk_reg 0x3700 0x28; mk_reg 0x3701 0x10; mk_reg 0x3702 0x3a;
    mk_reg 0x3703 0x19; mk_reg 0x3704 0x10; mk_reg 0x3705 0x00;
    mk_reg 0x3706 0x66; mk_reg 0x3707 0x08; mk_reg 0x3708 0x34;
    mk_reg 0x3709 0x40; mk_reg 0x370a 0x01; mk_reg 0x370b 0x1b;
    mk_reg 0x3714 0x24; mk_reg 0x371a 0x3e; mk_reg 0x3733 0x00;
    mk_reg 0x3734 0x00; mk_reg 0x373a 0x05; mk_reg 0x373b 0x06;
    mk_reg 0x373c 0x0a; mk_reg 0x373f 0xa0; mk_reg 0x3755 0x00;
    mk_reg 0x3758 0x00; mk_reg 0x375b 0x0e; mk_reg 0x3766 0x5f;
    mk_reg 0x3768 0x00; mk_reg 0x3769 0x22; mk_reg 0x3773 0x08;
    mk_reg 0x3774 0x1f; mk_reg 0x3776 0x06; mk_reg 0x37a0 0x88;
    mk_reg 0x37a1 0x5c; mk_reg 0x37a7 0x88; mk_reg 0x37a8 0x70;
    mk_reg 0x37aa 0x88; mk_reg 0x37ab 0x48; mk_reg 0x37b3 0x66;
    mk_reg 0x37c2 0x04; mk_reg 0x37c5 0x00; mk_reg 0x37c8 0x00;
    mk_reg 0x3800 0x00; mk_reg 0x3801 0x0c; mk_reg 0x3802 0x00;
    mk_reg 0x3803 0x04; mk_reg 0x3804 0x0a; mk_reg 0x3805 0x33;
    mk_reg 0x3806 0x07; mk_reg 0x3807 0xa3; mk_reg 0x3808 0x0a;
    mk_reg 0x3809 0x00; mk_reg 0x380a 0x05; mk_reg 0x380b 0xa0;
    mk_reg 0x380c 0x06; mk_reg 0x380d 0x90; mk_reg 0x380e 0x08;
    mk_reg 0x380f 0x08; mk_reg 0x3811 0x04; mk_reg 0x3813 0x02;
    mk_reg 0x3814 0x01; mk_reg 0x3815 0x01; mk_reg 0x3816 0x00;
    mk_reg 0x3817 0x00; mk_reg 0x3818 0x00; mk_reg 0x3819 0x00;
    mk_reg 0x3820 0x84; mk_reg 0x3821 0x46; mk_reg 0x3822 0x48;
    mk_reg 0x3826 0x00; mk_reg 0x3827 0x08; mk_reg 0x382a 0x01;
    mk_reg 0x382b 0x01; mk_reg 0x3830 0x08; mk_reg 0x3836 0x02;
    mk_reg 0x3837 0x00; mk_reg 0x3838 0x10; mk_reg 0x3841 0xff;
    mk_reg 0x3846 0x48; mk_reg 0x3861 0x00; mk_reg 0x3862 0x04;
    mk_reg 0x3863 0x06; mk_reg 0x3a11 0x01; mk_reg 0x3a12 0x78;
    mk_reg 0x3b00 0x00; mk_reg 0x3b02 0x00; mk_reg 0x3b03 0x00;
    mk_reg 0x3b04 0x00; mk_reg 0x3b05 0x00; mk_reg 0x3c00 0x89;
    mk_reg 0x3c01 0xab; mk_reg 0x3c02 0x01; mk_reg 0x3c03 0x00;
    mk_reg 0x3c04 0x00; mk_reg 0x3c05 0x03; mk_reg 0x3c06 0x00;
    mk_reg 0x3c07 0x05; mk_reg 0x3c0c 0x00; mk_reg 0x3c0d 0x00;
    mk_reg 0x3c0e 0x00; mk_reg 0x3c0f 0x00; mk_reg 0x3c40 0x00;
    mk_reg 0x3c41 0xa3; mk_reg 0x3c43 0x7d; mk_reg 0x3c45 0xd7;
    mk_reg 0x3c47 0xfc; mk_reg 0x3c50 0x05; mk_reg 0x3c52 0xaa;
    mk_reg 0x3c54 0x71; mk_reg 0x3c56 0x80; mk_reg 0x3d85 0x17;
    mk_reg 0x3f03 0x00; mk_reg 0x3f0a 0x00; mk_reg 0x3f0b 0x00;
    mk_reg 0x4001 0x60; mk_reg 0x4009 0x0d; mk_reg 0x4020 0x00;
    mk_reg 0x4021 0x00; mk_reg 0x4022 0x00; mk_reg 0x4023 0x00;
    mk_reg 0x4024 0x00; mk_reg 0x4025 0x00; mk_reg 0x4026 0x00;
    mk_reg 0x4027 0x00; mk_reg 0x4028 0x00; mk_reg 0x4029 0x00;
    mk_reg 0x402a 0x00; mk_reg 0x402b 0x00; mk_reg 0x402c 0x00;
    mk_reg 0x402d 0x00; mk_reg 0x402e 0x00; mk_reg 0x402f 0x00;
    mk_reg 0x4040 0x00; mk_reg 0x4041 0x03; mk_reg 0x4042 0x00;
    mk_reg 0x4043 0x7A; mk_reg 0x4044 0x00; mk_reg 0x4045 0x7A;
    mk_reg 0x4046 0x00; mk_reg 0x4047 0x7A; mk_reg 0x4048 0x00;
    mk_reg 0x4049 0x7A; mk_reg 0x4307 0x30; mk_reg 0x4500 0x58;
    mk_reg 0x4501 0x04; mk_reg 0x4502 0x40; mk_reg 0x4503 0x10;
    mk_reg 0x4508 0xaa; mk_reg 0x4509 0xaa; mk_reg 0x450a 0x00;
    mk_reg 0x450b 0x00; mk_reg 0x4600 0x01; mk_reg 0x4601 0x00;
    mk_reg 0x4700 0xa4; mk_reg 0x4800 0x4c; mk_reg 0x4816 0x53;
    mk_reg 0x481f 0x40; mk_reg 0x4837 0x13; mk_reg 0x5000 0x56;
    mk_reg 0x5001 0x01; mk_reg 0x5002 0x28; mk_reg 0x5004 0x0c;
    mk_reg 0x5006 0x0c; mk_reg 0x5007 0xe0; mk_reg 0x5008 0x01;
    mk_reg 0x5009 0xb0; mk_reg 0x5901 0x00; mk_reg 0x5a01 0x00;
    mk_reg 0x5a03 0x00; mk_reg 0x5a04 0x0c; mk_reg 0x5a05 0xe0;
    mk_reg 0x5a06 0x09; mk_reg 0x5a07 0xb0; mk_reg 0x5a08 0x06;
    mk_reg 0x5e00 0x00; mk_reg 0x3734 0x40; mk_reg 0x5b00 0x01;
    mk_reg 0x5b01 0x10; mk_reg 0x5b02 0x01; mk_reg 0x5b03 0xdb;
    mk_reg 0x3d8c 0x71; mk_reg 0x3d8d 0xea; mk_reg 0x4017 0x08;
    mk_reg 0x3618 0x2a; mk_reg 0x5780 0x3e; mk_reg 0x5781 0x0f;
    mk_reg 0x5782 0x44; mk_reg 0x5783 0x02; mk_reg 0x5784 0x01;
    mk_reg 0x5785 0x01; mk_reg 0x5786 0x00; mk_reg 0x5787 0x04;
    mk_reg 0x5788 0x02; mk_reg 0x5789 0x0f; mk_reg 0x578a 0xfd;
    mk_reg 0x578b 0xf5; mk_reg 0x578c 0xf5; mk_reg 0x578d 0x03;
    mk_reg 0x578e 0x08; mk_reg 0x578f 0x0c; mk_reg 0x5790 0x08;
    mk_reg 0x5791 0x06; mk_reg 0x5792 0x00; mk_reg 0x5793 0x52;
    mk_reg 0x5794 0xa3; mk_reg 0x5045 0x05; mk_reg 0x4003 0x40;
    mk_reg 0x5048 0x40 ].

Definition mode_1280x720_regs : list ov5670_reg :=
  [ mk_reg 0x3000 0x00; mk_reg 0x3002 0x21; mk_reg 0x3005 0xf0;
    mk_reg 0x3007 0x00; mk_reg 0x3015 0x0f; mk_reg 0x3018 0x32;
    mk_reg 0x301a 0xf0; mk_reg 0x301b 0xf0; mk_reg 0x301c 0xf0;
    mk_reg 0x301d 0xf0; mk_reg 0x301e 0xf0; mk_reg 0x3030 0x00;
    mk_reg 0x3031 0x0a; mk_reg 0x303c 0xff; mk_reg 0x303e 0xff;
    mk_reg 0x3040 0xf0; mk_reg 0x3041 0x00; mk_reg 0x3042 0xf0;
    mk_reg 0x3106 0x11; mk_reg 0x3500 0x00; mk_reg 0x3501 0x80;
    mk_reg 0x3502 0x00; mk_reg 0x3503 0x04; mk_reg 0x3504 0x03;
    mk_reg 0x3505 0x83; mk_reg 0x3508 0x04; mk_reg 0x3509 0x00;
    mk_reg 0x350e 0x04; mk_reg 0x350f 0x00; mk_reg 0x3510 0x00;
    mk_reg 0x3511 0x02; mk_reg 0x3512 0x00; mk_reg 0x3601 0xc8;
    mk_reg 0x3610 0x88; mk_reg 0x3612 0x48; mk_reg 0x3614 0x5b;
    mk_reg 0x3615 0x96; mk_reg 0x3621 0xd0; mk_reg 0x3622 0x00;
    mk_reg 0x3623 0x00; mk_reg 0x3633 0x13; mk_reg 0x3634 0x13;
    mk_reg 0x3635 0x13; mk_reg 0x3636 0x13; mk_reg 0x3645 0x13;
    mk_reg 0x3646 0x82; mk_reg 0x3650 0x00; mk_reg 0x3652 0xff;
    mk_reg 0x3655 0x20; mk_reg 0x3656 0xff; mk_reg 0x365a 0xff;
    mk_reg 0x365e 0xff; mk_reg 0x3668 0x00; mk_reg 0x366a 0x07;
    mk_reg 0x366e 0x08; mk_reg 0x366d 0x00; mk_reg 0x366f 0x80;
    mk_reg 0x3700 0x28; mk_reg 0x3701 0x10; mk_reg 0x3702 0x3a;
    mk_reg 0x3703 0x19; mk_reg 0x3704 0x10; mk_reg 0x3705 0x00;
    mk_reg 0x3706 0x66; mk_reg 0x3707 0x08; mk_reg 0x3708 0x34;
    mk_reg 0x3709 0x40; mk_reg 0x370a 0x01; mk_reg 0x370b 0x1b;
    mk_reg 0x3714 0x24; mk_reg 0x371a 0x3e; mk_reg 0x3733 0x00;
    mk_reg 0x3734 0x00; mk_reg 0x373a 0x05; mk_reg 0x373b 0x06;
    mk_reg 0x373c 0x0a; mk_reg 0x373f 0xa0; mk_reg 0x3755 0x00;
    mk_reg 0x3758 0x00; mk_reg 0x375b 0x0e; mk_reg 0x3766 0x5f;
    mk_reg 0x3768 0x00; mk_reg 0x3769 0x22; mk_reg 0x3773 0x08;
    mk_reg 0x3774 0x1f; mk_reg 0x3776 0x06; mk_reg 0x37a0 0x88;
    mk_reg 0x37a1 0x5c; mk_reg 0x37a7 0x88; mk_reg 0x37a8 0x70;
    mk_reg 0x37aa 0x88; mk_reg 0x37ab 0x48; mk_reg 0x37b3 0x66;
    mk_reg 0x37c2 0x04; mk_reg 0x37c5 0x00; mk_reg 0x37c8 0x00;
    mk_reg 0x3800 0x00; mk_reg 0x3801 0x0c; mk_reg 0x3802 0x00;
    mk_reg 0x3803 0x04; mk_reg 0x3804 0x0a; mk_reg 0x3805 0x33;
    mk_reg 0x3806 0x07; mk_reg 0x3807 0xa3; mk_reg 0x3808 0x05;
    mk_reg 0x3809 0x00; mk_reg 0x380a 0x02; mk_reg 0x380b 0xd0;
    mk_reg 0x380c 0x06; mk_reg 0x380d 0x90; mk_reg 0x380e 0x08;
    mk_reg 0x380f 0x08; mk_reg 0x3811 0x04; mk_reg 0x3813 0x02;
    mk_reg 0x3814 0x03; mk_reg 0x3815 0x01; mk_reg 0x3816 0x00;
    mk_reg 0x3817 0x00; mk_reg 0x3818 0x00; mk_reg 0x3819 0x00;
    mk_reg 0x3820 0x94; mk_reg 0x3821 0x47; mk_reg 0x3822 0x48;
    mk_reg 0x3826 0x00; mk_reg 0x3827 0x08; mk_reg 0x382a 0x03;
    mk_reg 0x382b 0x01; mk_reg 0x3830 0x08; mk_reg 0x3836 0x02;
    mk_reg 0x3837 0x00; mk_reg 0x3838 0x10; mk_reg 0x3841 0xff;
    mk_reg 0x3846 0x48; mk_reg 0x3861 0x00; mk_reg 0x3862 0x04;
    mk_reg 0x3863 0x06; mk_reg 0x3a11 0x01; mk_reg 0x3a12 0x78;
    mk_reg 0x3b00 0x00; mk_reg 0x3b02 0x00; mk_reg 0x3b03 0x00;
    mk_reg 0x3b04 0x00; mk_reg 0x3b05 0x00; mk_reg 0x3c00 0x89;
    mk_reg 0x3c01 0xab; mk_reg 0x3c02 0x01; mk_reg 0x3c03 0x00;
    mk_reg 0x3c04 0x00; mk_reg 0x3c05 0x03; mk_reg 0x3c06 0x00;
    mk_reg 0x3c07 0x05; mk_reg 0x3c0c 0x00; mk_reg 0x3c0d 0x00;
    mk_reg 0x3c0e 0x00; mk_reg 0x3c0f 0x00; mk_reg 0x3c40 0x00;
    mk_reg 0x3c41 0xa3; mk_reg 0x3c43 0x7d; mk_reg 0x3c45 0xd7;
    mk_reg 0x3c47 0xfc; mk_reg 0x3c50 0x05; mk_reg 0x3c52 0xaa;
    mk_reg 0x3c54 0x71; mk_reg 0x3c56 0x80; mk_reg 0x3d85 0x17;
    mk_reg 0x3f03 0x00; mk_reg 0x3f0a 0x00; mk_reg 0x3f0b 0x00;
    mk_reg 0x4001 0x60; mk_reg 0x4009 0x05; mk_reg 0x4020 0x00;
    mk_reg 0x4021 0x00; mk_reg 0x4022 0x00; mk_reg 0x4023 0x00;
    mk_reg 0x4024 0x00; mk_reg 0x4025 0x00; mk_reg 0x4026 0x00;
    mk_reg 0x4027 0x00; mk_reg 0x4028 0x00; mk_reg 0x4029 0x00;
    mk_reg 0x402a 0x00; mk_reg 0x402b 0x00; mk_reg 0x402c 0x00;
    mk_reg 0x402d 0x00; mk_reg 0x402e 0x00; mk_reg 0x402f 0x00;
    mk_reg 0x4040 0x00; mk_reg 0x4041 0x03; mk_reg 0x4042 0x00;
    mk_reg 0x4043 0x7A; mk_reg 0x4044 0x00; mk_reg 0x4045 0x7A;
    mk_reg 0x4046 0x00; mk_reg 0x4047 0x7A; mk_reg 0x4048 0x00;
    mk_reg 0x4049 0x7A; mk_reg 0x4307 0x30; mk_reg 0x4500 0x58;
    mk_reg 0x4501 0x04; mk_reg 0x4502 0x48; mk_reg 0x4503 0x10;
    mk_reg 0x4508 0x55; mk_reg 0x4509 0x55; mk_reg 0x450a 0x00;
    mk_reg 0x450b 0x00; mk_reg 0x4600 0x00; mk_reg 0x4601 0x80;
    mk_reg 0x4700 0xa4; mk_reg 0x4800 0x4c; mk_reg 0x4816 0x53;
    mk_reg 0x481f 0x40; mk_reg 0x4837 0x13; mk_reg 0x5000 0x56;
    mk_reg 0x5001 0x01; mk_reg 0x5002 0x28; mk_reg 0x5004 0x0c;
    mk_reg 0x5006 0x0c; mk_reg 0x5007 0xe0; mk_reg 0x5008 0x01;
    mk_reg 0x5009 0xb0; mk_reg 0x5901 0x00; mk_reg 0x5a01 0x00;
    mk_reg 0x5a03 0x00; mk_reg 0x5a04 0x0c; mk_reg 0x5a05 0xe0;
    mk_reg 0x5a06 0x09; mk_reg 0x5a07 0xb0; mk_reg 0x5a08 0x06;
    mk_reg 0x5e00 0x00; mk_reg 0x3734 0x40; mk_reg 0x5b00 0x01;
    mk_reg 0x5b01 0x10; mk_reg 0x5b02 0x01; mk_reg 0x5b03 0xdb;
    mk_reg 0x3d8c 0x71; mk_reg 0x3d8d 0xea; mk_reg 0x4017 0x10;
    mk_reg 0x3618 0x2a; mk_reg 0x5780 0x3e; mk_reg 0x5781 0x0f;
    mk_reg 0x5782 0x44; mk_reg 0x5783 0x02; mk_reg 0x5784 0x01;
    mk_reg 0x5785 0x01; mk_reg 0x5786 0x00; mk_reg 0x5787 0x04;
    mk_reg 0x5788 0x02; mk_reg 0x5789 0x0f; mk_reg 0x578a 0xfd;
    mk_reg 0x578b 0xf5; mk_reg 0x578c 0xf5; mk_reg 0x578d 0x03;
    mk_reg 0x578e 0x08; mk_reg 0x578f 0x0c; mk_reg 0x5790 0x08;
    mk_reg 0x5791 0x06; mk_reg 0x5792 0x00; mk_reg 0x5793 0x52;
    mk_reg 0x5794 0xa3; mk_reg 0x3503 0x00; mk_reg 0x5045 0x05;
    mk_reg 0x4003 0x40; mk_reg 0x5048 0x40 ].

Definition mode_640x360_regs : list ov5670_reg :=
  [ mk_reg 0x3000 0x00; mk_reg 0x3002 0x21; mk_reg 0x3005 0xf0;
    mk_reg 0x3007 0x00; mk_reg 0x3015 0x0f; mk_reg 0x3018 0x32;
    mk_reg 0x301a 0xf0; mk_reg 0x301b 0xf0; mk_reg 0x301c 0xf0;
    mk_reg 0x301d 0xf0; mk_reg 0x301e 0xf0; mk_reg 0x3030 0x00;
    mk_reg 0x3031 0x0a; mk_reg 0x303c 0xff; mk_reg 0x303e 0xff;
    mk_reg 0x3040 0xf0; mk_reg 0x3041 0x00; mk_reg 0x3042 0xf0;
    mk_reg 0x3106 0x11; mk_reg 0x3500 0x00; mk_reg 0x3501 0x80;
    mk_reg 0x3502 0x00; mk_reg 0x3503 0x04; mk_reg 0x3504 0x03;
    mk_reg 0x3505 0x83; mk_reg 0x3508 0x04; mk_reg 0x3509 0x00;
    mk_reg 0x350e 0x04; mk_reg 0x350f 0x00; mk_reg 0x3510 0x00;
    mk_reg 0x3511 0x02; mk_reg 0x3512 0x00; mk_reg 0x3601 0xc8;
    mk_reg 0x3610 0x88; mk_reg 0x3612 0x48; mk_reg 0x3614 0x5b;
    mk_reg 0x3615 0x96; mk_reg 0x3621 0xd0; mk_reg 0x3622 0x00;
    mk_reg 0x3623 0x04; mk_reg 0x3633 0x13; mk_reg 0x3634 0x13;
    mk_reg 0x3635 0x13; mk_reg 0x3636 0x13; mk_reg 0x3645 0x13;
    mk_reg 0x3646 0x82; mk_reg 0x3650 0x00; mk_reg 0x3652 0xff;
    mk_reg 0x3655 0x20; mk_reg 0x3656 0xff; mk_reg 0x365a 0xff;
    mk_reg 0x365e 0xff; mk_reg 0x3668 0x00; mk_reg 0x366a 0x07;
    mk_reg 0x366e 0x08; mk_reg 0x366d 0x00; mk_reg 0x366f 0x80;
    mk_reg 0x3700 0x28; mk_reg 0x3701 0x10; mk_reg 0x3702 0x3a;
    mk_reg 0x3703 0x19; mk_reg 0x3704 0x10; mk_reg 0x3705 0x00;
    mk_reg 0x3706 0x66; mk_reg 0x3707 0x08; mk_reg 0x3708 0x34;
    mk_reg 0x3709 0x40; mk_reg 0x370a 0x01; mk_reg 0x370b 0x1b;
    mk_reg 0x3714 0x24; mk_reg 0x371a 0x3e; mk_reg 0x3733 0x00;
    mk_reg 0x3734 0x00; mk_reg 0x373a 0x05; mk_reg 0x373b 0x06;
    mk_reg 0x373c 0x0a; mk_reg 0x373f 0xa0; mk_reg 0x3755 0x00;
    mk_reg 0x3758 0x00; mk_reg 0x375b 0x0e; mk_reg 0x3766 0x5f;
    mk_reg 0x3768 0x00; mk_reg 0x3769 0x22; mk_reg 0x3773 0x08;
    mk_reg 0x3774 0x1f; mk_reg 0x3776 0x06; mk_reg 0x37a0 0x88;
    mk_reg 0x37a1 0x5c; mk_reg 0x37a7 0x88; mk_reg 0x37a8 0x70;
    mk_reg 0x37aa 0x88; mk_reg 0x37ab 0x48; mk_reg 0x37b3 0x66;
    mk_reg 0x37c2 0x04; mk_reg 0x37c5 0x00; mk_reg 0x37c8 0x00;
    mk_reg 0x3800 0x00; mk_reg 0x3801 0x0c; mk_reg 0x3802 0x00;
    mk_reg 0x3803 0x04; mk_reg 0x3804 0x0a; mk_reg 0x3805 0x33;
    mk_reg 0x3806 0x07; mk_reg 0x3807 0xa3; mk_reg 0x3808 0x02;
    mk_reg 0x3809 0x80; mk_reg 0x380a 0x01; mk_reg 0x380b 0x68;
    mk_reg 0x380c 0x06; mk_reg 0x380d 0x90; mk_reg 0x380e 0x08;
    mk_reg 0x380f 0x08; mk_reg 0x3811 0x04; mk_reg 0x3813 0x02;
    mk_reg 0x3814 0x07; mk_reg 0x3815 0x01; mk_reg 0x3816 0x00;
    mk_reg 0x3817 0x00; mk_reg 0x3818 0x00; mk_reg 0x3819 0x00;
    mk_reg 0x3820 0x94; mk_reg 0x3821 0xc6; mk_reg 0x3822 0x48;
    mk_reg 0x3826 0x00; mk_reg 0x3827 0x08; mk_reg 0x382a 0x07;
    mk_reg 0x382b 0x01; mk_reg 0x3830 0x08; mk_reg 0x3836 0x02;
    mk_reg 0x3837 0x00; mk_reg 0x3838 0x10; mk_reg 0x3841 0xff;
    mk_reg 0x3846 0x48; mk_reg 0x3861 0x00; mk_reg 0x3862 0x04;
    mk_reg 0x3863 0x06; mk_reg 0x3a11 0x01; mk_reg 0x3a12 0x78;
    mk_reg 0x3b00 0x00; mk_reg 0x3b02 0x00; mk_reg 0x3b03 0x00;
    mk_reg 0x3b04 0x00; mk_reg 0x3b05 0x00; mk_reg 0x3c00 0x89;
    mk_reg 0x3c01 0xab; mk_reg 0x3c02 0x01; mk_reg 0x3c03 0x00;
    mk_reg 0x3c04 0x00; mk_reg 0x3c05 0x03; mk_reg 0x3c06 0x00;
    mk_reg 0x3c07 0x05; mk_reg 0x3c0c 0x00; mk_reg 0x3c0d 0x00;
    mk_reg 0x3c0e 0x00; mk_reg 0x3c0f 0x00; mk_reg 0x3c40 0x00;
    mk_reg 0x3c41 0xa3; mk_reg 0x3c43 0x7d; mk_reg 0x3c45 0xd7;
    mk_reg 0x3c47 0xfc; mk_reg 0x3c50 0x05; mk_reg 0x3c52 0xaa;
    mk_reg 0x3c54 0x71; mk_reg 0x3c56 0x80; mk_reg 0x3d85 0x17;
    mk_reg 0x3f03 0x00; mk_reg 0x3f0a 0x00; mk_reg 0x3f0b 0x00;
    mk_reg 0x4001 0x60; mk_reg 0x4009 0x05; mk_reg 0x4020 0x00;
    mk_reg 0x4021 0x00; mk_reg 0x4022 0x00; mk_reg 0x4023 0x00;
    mk_reg 0x4024 0x00; mk_reg 0x4025 0x00; mk_reg 0x4026 0x00;
    mk_reg 0x4027 0x00; mk_reg 0x4028 0x00; mk_reg 0x4029 0x00;
    mk_reg 0x402a 0x00; mk_reg 0x402b 0x00; mk_reg 0x402c 0x00;
    mk_reg 0x402d 0x00; mk_reg 0x402e 0x00; mk_reg 0x402f 0x00;
    mk_reg 0x4040 0x00; mk_reg 0x4041 0x03; mk_reg 0x4042 0x00;
    mk_reg 0x4043 0x7A; mk_reg 0x4044 0x00; mk_reg 0x4045 0x7A;
    mk_reg 0x4046 0x00; mk_reg 0x4047 0x7A; mk_reg 0x4048 0x00;
    mk_reg 0x4049 0x7A; mk_reg 0x4307 0x30; mk_reg 0x4500 0x58;
    mk_reg 0x4501 0x04; mk_reg 0x4502 0x40; mk_reg 0x4503 0x10;
    mk_reg 0x4508 0x55; mk_reg 0x4509 0x55; mk_reg 0x450a 0x02;
    mk_reg 0x450b 0x00; mk_reg 0x4600 0x00; mk_reg 0x4601 0x40;
    mk_reg 0x4700 0xa4; mk_reg 0x4800 0x4c; mk_reg 0x4816 0x53;
    mk_reg 0x481f 0x40; mk_reg 0x4837 0x13; mk_reg 0x5000 0x56;
    mk_reg 0x5001 0x01; mk_reg 0x5002 0x28; mk_reg 0x5004 0x0c;
    mk_reg 0x5006 0x0c; mk_reg 0x5007 0xe0; mk_reg 0x5008 0x01;
    mk_reg 0x5009 0xb0; mk_reg 0x5901 0x00; mk_reg 0x5a01 0x00;
    mk_reg 0x5a03 0x00; mk_reg 0x5a04 0x0c; mk_reg 0x5a05 0xe0;
    mk_reg 0x5a06 0x09; mk_reg 0x5a07 0xb0; mk_reg 0x5a08 0x06;
    mk_reg 0x5e00 0x00; mk_reg 0x3734 0x40; mk_reg 0x5b00 0x01;
    mk_reg 0x5b01 0x10; mk_reg 0x5b02 0x01; mk_reg 0x5b03 0xdb;
    mk_reg 0x3d8c 0x71; mk_reg 0x3d8d 0xea; mk_reg 0x4017 0x10;
    mk_reg 0x3618 0x2a; mk_reg 0x5780 0x3e; mk_reg 0x5781 0x0f;
    mk_reg 0x5782 0x44; mk_reg 0x5783 0x02; mk_reg 0x5784 0x01;
    mk_reg 0x5785 0x01; mk_reg 0x5786 0x00; mk_reg 0x5787 0x04;
    mk_reg 0x5788 0x02; mk_reg 0x5789 0x0f; mk_reg 0x578a 0xfd;
    mk_reg 0x578b 0xf5; mk_reg 0x578c 0xf5; mk_reg 0x578d 0x03;
    mk_reg 0x578e 0x08; mk_reg 0x578f 0x0c; mk_reg 0x5790 0x08;
    mk_reg 0x5791 0x06; mk_reg 0x5792 0x00; mk_reg 0x5793 0x52;
    mk_reg 0x5794 0xa3; mk_reg 0x3503 0x00; mk_reg 0x5045 0x05;
    mk_reg 0x4003 0x40; mk_reg 0x5048 0x40 ].

(** Supported link frequencies *)
Definition OV5670_LINK_FREQ_422MHZ : Z := 422400000.
Definition OV5670_LINK_FREQ_422MHZ_INDEX : Z := 0.

Definition link_freq_configs : list ov5670_link_freq_config :=
  [ (* pixel_rate = link_freq * 2 * nr_of_lanes / bits_per_sample *)
    mk_link_freq_config ((OV5670_LINK_FREQ_422MHZ * 2 * 2) / 10)
                        mipi_data_rate_840mbps ].

Definition link_freq_menu_items : list Z := [ OV5670_LINK_FREQ_422MHZ ].

Definition OV5670_VTS_30FPS : Z := 0x0808.
Definition OV5670_VTS_MAX : Z := 0xffff.
Definition OV5670_FIXED_PPL : Z := 2724.
Definition OV5670_EXPOSURE_MIN : Z := 4.
Definition OV5670_EXPOSURE_STEP : Z := 1.
Definition ANALOG_GAIN_MIN : Z := 0.
Definition ANALOG_GAIN_MAX : Z := 8191.
Definition ANALOG_GAIN_STEP : Z := 1.
Definition ANALOG_GAIN_DEFAULT : Z := 128.
Definition OV5670_DGTL_GAIN_MIN : Z := 0.
Definition OV5670_DGTL_GAIN_MAX : Z := 4095.
Definition OV5670_DGTL_GAIN_STEP : Z := 1.
Definition OV5670_DGTL_GAIN_DEFAULT : Z := 1024.

Definition OV5670_REG_MODE_SELECT : Z := 0x0100.
Definition OV5670_MODE_STANDBY : Z := 0x00.
Definition OV5670_MODE_STREAMING : Z := 0x01.
Definition OV5670_REG_SOFTWARE_RST : Z := 0x0103.
Definition OV5670_SOFTWARE_RST : Z := 0x01.
Definition OV5670_REG_VTS : Z := 0x380e.
Definition OV5670_REG_EXPOSURE : Z := 0x3500.
Definition OV5670_REG_ANALOG_GAIN : Z := 0x3508.
Definition OV5670_REG_R_DGTL_GAIN : Z := 0x5032.
Definition OV5670_REG_G_DGTL_GAIN : Z := 0x5034.
Definition OV5670_REG_B_DGTL_GAIN : Z := 0x5036.
Definition OV5670_REG_TEST_PATTERN : Z := 0x4303.
Definition OV5670_TEST_PATTERN_ENABLE : Z := Z.shiftl 1 3.
Definition OV5670_REG_TEST_PATTERN_CTRL : Z := 0x4320.
Definition OV5670_REG_VALUE_08BIT : Z := 1.
Definition OV5670_REG_VALUE_16BIT : Z := 2.
Definition OV5670_REG_VALUE_24BIT : Z := 3.

(** OV5670 sensor supports following resolutions with full FOV:
    4:3  ==> {2592x1944, 1296x972, 648x486}
    16:9 ==> {2560x1440, 1280x720, 640x360} *)
Definition supported_modes : list ov5670_mode :=
  [ mk_mode 2592 1944 OV5670_VTS_30FPS OV5670_VTS_30FPS
            OV5670_LINK_FREQ_422MHZ_INDEX mode_2592x1944_regs;
    mk_mode 1296 972 OV5670_VTS_30FPS 996
            OV5670_LINK_FREQ_422MHZ_INDEX mode_1296x972_regs;
    mk_mode 648 486 OV5670_VTS_30FPS 516
            OV5670_LINK_FREQ_422MHZ_INDEX mode_648x486_regs;
    mk_mode 2560 1440 OV5670_VTS_30FPS OV5670_VTS_30FPS
            OV5670_LINK_FREQ_422MHZ_INDEX mode_2560x1440_regs;
    mk_mode 1280 720 OV5670_VTS_30FPS 1020
            OV5670_LINK_FREQ_422MHZ_INDEX mode_1280x720_regs;
    mk_mode 640 360 OV5670_VTS_30FPS 510
            OV5670_LINK_FREQ_422MHZ_INDEX mode_640x360_regs ].

(** ** Register access over I2C *)

(** [i2c_master_send]: the kernel reports how many bytes it sent, or a
    negative error. *)
Definition i2c_master_send (buf : list Z) : M Z :=
  n <- ask ;; in_kernel (log (EvI2cMasterSend buf n)) ;; pure n.

Fixpoint i2c_read_bytes (n : nat) : M (list Z) :=
  match n with
  | O => pure []
  | S n' => b <- ask ;; rest <- i2c_read_bytes n' ;; pure (u8 b :: rest)
  end.

(** [i2c_transfer] of the two messages of [ov5670_read_reg]: the register
    address is written, then [len] bytes are read.  The result is the number
    of messages completed (or a negative error) and the bytes read. *)
Definition i2c_transfer (addr : list Z) (len : Z) : M (Z * list Z) :=
  n <- ask ;;
  data <- i2c_read_bytes (Z.to_nat len) ;;
  in_kernel (log (EvI2cTransfer addr len n data)) ;;
  pure (n, data).

(** The four bytes of [cpu_to_be32 v], most significant first. *)
Definition be32_bytes (v : Z) : list Z :=
  [ Z.land (Z.shiftr v 24) 0xff; Z.land (Z.shiftr v 16) 0xff;
    Z.land (Z.shiftr v 8) 0xff; Z.land v 0xff ].

(** [be32_to_cpu] of bytes given most significant first. *)
Definition be_value (bytes : list Z) : Z :=
  fold_left (fun acc b => acc * 256 + b) bytes 0.

(** Read registers up to 4 at a time.  The result is the status and the
    value stored through [val] (the caller's value when nothing is stored). *)
Definition ov5670_read_reg (reg len : Z) (val0 : Z) : M (Z * Z) :=
  if 4 <? len then pure (- EINVAL, val0)
  else
    r <- i2c_transfer [Z.shiftr (u16 reg) 8; Z.land (u16 reg) 0xff] len ;;
    if negb (fst r =? 2) then pure (- EIO, val0)
    else pure (0, be_value (snd r)).

(** Write registers up to 4 at a time. *)
Definition ov5670_write_reg (reg len value : Z) : M Z :=
  if 4 <? len then pure (- EINVAL)
  else
    let buf := [Z.shiftr (u16 reg) 8; Z.land (u16 reg) 0xff]
               ++ skipn (Z.to_nat (4 - len)) (be32_bytes (u32 value)) in
    n <- i2c_master_send buf ;;
    if negb (n =? len + 2) then pure (- EIO) else pure 0.

(** Write a list of registers: one byte each, in order, stopping at the
    first failure. *)
Fixpoint ov5670_write_regs (regs : list ov5670_reg) : M Z :=
  match regs with
  | [] => pure 0
  | r :: rest =>
      ret <- ov5670_write_reg (address r) 1 (val r) ;;
      if negb (ret =? 0) then pure ret else ov5670_write_regs rest
  end.

Definition ov5670_write_reg_list (r_list : ov5670_reg_list) : M Z :=
  ov5670_write_regs r_list.

Definition ov5670_update_digital_gain (d_gain : Z) : M Z :=
  ret <- ov5670_write_reg OV5670_REG_R_DGTL_GAIN OV5670_REG_VALUE_16BIT d_gain ;;
  if negb (ret =? 0) then pure ret
  else
    ret <- ov5670_write_reg OV5670_REG_G_DGTL_GAIN OV5670_REG_VALUE_16BIT d_gain ;;
    if negb (ret =? 0) then pure ret
    else ov5670_write_reg OV5670_REG_B_DGTL_GAIN OV5670_REG_VALUE_16BIT d_gain.

Definition ov5670_enable_test_pattern (pattern : Z) : M Z :=
  (* Set the bayer order that we support *)
  ret <- ov5670_write_reg OV5670_REG_TEST_PATTERN_CTRL OV5670_REG_VALUE_08BIT 0 ;;
  if negb (ret =? 0) then pure ret
  else
    r <- ov5670_read_reg OV5670_REG_TEST_PATTERN OV5670_REG_VALUE_08BIT 0 ;;
    if negb (fst r =? 0) then pure (fst r)
    else
      let value :=
        if negb (u32 pattern =? 0)
        then Z.lor (snd r) OV5670_TEST_PATTERN_ENABLE
        else Z.land (snd r) (u32 (Z.lnot OV5670_TEST_PATTERN_ENABLE)) in
      ov5670_write_reg OV5670_REG_TEST_PATTERN OV5670_REG_VALUE_08BIT value.

(** ** Runtime power management *)

(** Modelled from the spec: the runtime-PM calls belong to the kernel; the
    spec calls runtime-PM activation "a reference-counted gate that keeps the
    device's power domain active while in use".  [usage_count] is that
    reference count.  [pm_runtime_get_sync] takes a reference whatever status
    it reports. *)
Definition pm_runtime_get_sync : M Z :=
  r <- ask ;;
  in_kernel (fun k => log (EvPmRuntimeGetSync r)
                          (set_usage_count (usage_count k + 1) k)) ;;
  pure r.

(** Modelled from the spec: [pm_runtime_get_if_in_use] takes a reference
    exactly when it reports a positive status. *)
Definition pm_runtime_get_if_in_use : M Z :=
  r <- ask ;;
  in_kernel (fun k => log (EvPmRuntimeGetIfInUse r)
                          (if 0 <? r then set_usage_count (usage_count k + 1) k
                           else k)) ;;
  pure r.

(** Modelled from the spec: [pm_runtime_put] drops a reference. *)
Definition pm_runtime_put : M unit :=
  in_kernel (fun k => log EvPmRuntimePut
                          (set_usage_count (usage_count k - 1) k)).

(** Modelled from the spec: [pm_runtime_put_noidle] drops a reference
    unless the count is already zero. *)
Definition pm_runtime_put_noidle : M unit :=
  in_kernel (fun k => log EvPmRuntimePutNoidle
                          (if usage_count k =? 0 then k
                           else set_usage_count (usage_count k - 1) k)).

(** ** Streaming *)

(** Modelled from the spec: [__v4l2_ctrl_handler_setup] belongs to the
    kernel's control framework; it "replays all current control values to
    hardware" and reports a status. *)
Definition __v4l2_ctrl_handler_setup : M Z :=
  r <- ask ;; in_kernel (log (EvCtrlHandlerSetup r)) ;; pure r.

Definition no_link_freq_config : ov5670_link_freq_config :=
  mk_link_freq_config 0 [].

(** [link_freq_configs[i]].  Every catalog mode has index 0; an index
    outside the table, which the source never computes, reads as an entry
    without registers. *)
Definition link_freq_config_at (i : Z) : ov5670_link_freq_config :=
  nth (Z.to_nat i) link_freq_configs no_link_freq_config.

(** Prepare streaming by writing default values and customized values. *)
Definition ov5670_start_streaming : M Z :=
  (* Get out of from software reset *)
  ret <- ov5670_write_reg OV5670_REG_SOFTWARE_RST OV5670_REG_VALUE_08BIT
                          OV5670_SOFTWARE_RST ;;
  if negb (ret =? 0) then pure ret
  else
    (* Setup PLL *)
    mode <- read cur_mode ;;
    ret <- ov5670_write_reg_list
             (link_reg_list (link_freq_config_at (link_freq_index mode))) ;;
    if negb (ret =? 0) then pure ret
    else
      (* Apply default values of current mode *)
      mode <- read cur_mode ;;
      ret <- ov5670_write_reg_list (reg_list mode) ;;
      if negb (ret =? 0) then pure ret
      else
        ret <- __v4l2_ctrl_handler_setup ;;
        if negb (ret =? 0) then pure ret
        else
          (* Write stream on list *)
          ret <- ov5670_write_reg OV5670_REG_MODE_SELECT OV5670_REG_VALUE_08BIT
                                  OV5670_MODE_STREAMING ;;
          if negb (ret =? 0) then pure ret
          else pure 0.

Definition ov5670_stop_streaming : M Z :=
  ret <- ov5670_write_reg OV5670_REG_MODE_SELECT OV5670_REG_VALUE_08BIT
                          OV5670_MODE_STANDBY ;;
  (* Return success even if it was an error, as there is nothing the
     caller can do about it. *)
  pure 0.

(** [bool] read as [int], and [int] stored into a [bool]. *)
Definition int_of_bool (b : bool) : Z := if b then 1 else 0.
Definition bool_of_int (z : Z) : bool := negb (z =? 0).

Definition ov5670_set_stream (enable : Z) : M Z :=
  on <- read streaming ;;
  if int_of_bool on =? enable then pure 0
  else if bool_of_int enable then
    ret <- pm_runtime_get_sync ;;
    if ret <? 0 then
      pm_runtime_put_noidle ;;
      pure ret
    else
      ret <- ov5670_start_streaming ;;
      if negb (ret =? 0) then
        (* error: *)
        pm_runtime_put ;;
        pure ret
      else
        driver (set_streaming (bool_of_int enable)) ;;
        pure ret
  else
    ret <- ov5670_stop_streaming ;;
    pm_runtime_put ;;
    driver (set_streaming (bool_of_int enable)) ;;
    pure ret.

Definition ov5670_suspend : M Z :=
  on <- read streaming ;;
  (if on then ov5670_stop_streaming else pure 0) ;;
  pure 0.

Definition ov5670_resume : M Z :=
  on <- read streaming ;;
  if on then
    ret <- ov5670_start_streaming ;;
    if negb (ret =? 0) then
      ov5670_stop_streaming ;;
      pure ret
    else pure 0
  else pure 0.

(** ** Computations that may dereference a NULL control pointer

    [None] stands for the fault. *)

Definition P (A : Type) : Type := state -> option (A * state).

Definition pureP {A : Type} (a : A) : P A := fun s => Some (a, s).
Definition bindP {A B : Type} (m : P A) (f : A -> P B) : P B :=
  fun s => match m s with
           | Some r => f (fst r) (snd r)
           | None => None
           end.
Definition lift {A : Type} (m : M A) : P A := fun s => Some (m s).
(** Follow a control pointer of [struct ov5670]. *)
Definition deref {A : Type} (f : ov5670 -> option A) : P A :=
  fun s => match f (drv s) with
           | Some a => Some (a, s)
           | None => None
           end.
(** Index an array. *)
Definition entry {A : Type} (o : option A) : P A :=
  fun s => match o with
           | Some a => Some (a, s)
           | None => None
           end.

Notation "x <~ m ;; k" := (bindP m (fun x => k))
  (at level 61, m at next level, right associativity) : monad_scope.
Notation "m ~;; k" := (bindP m (fun _ => k))
  (at level 61, right associativity) : monad_scope.

(** ** The control framework

    Control objects and their framework are kernel code outside the
    repository.  A control carries a range, a step, a default and a current
    value.  The framework calls the driver's handler back when it stores a
    value; here [ov5670_set_ctrl] is an entry point of its own, called with
    the identity and the new value of the control being set. *)

Definition V4L2_CTRL_FLAG_READ_ONLY : Z := 0x0004.

(** Modelled from the spec: the framework's test of a range.  A range is
    refused when its step is zero, its minimum exceeds its maximum or its
    default lies outside. *)
Definition check_range (min max step def : Z) : bool :=
  negb (step =? 0) && (min <=? max) && (min <=? def) && (def <=? max).

Definition clamp (min max v : Z) : Z := Z.max min (Z.min max v).

(** Modelled from the spec: [__v4l2_ctrl_modify_range] stores the new
    minimum, maximum, step and default and "immediately clamps" the current
    value into the new range; a refused range changes nothing and is reported
    with [-ERANGE].  The result is the status and the control afterwards. *)
Definition __v4l2_ctrl_modify_range (c : v4l2_ctrl) (min max step def : Z)
  : Z * v4l2_ctrl :=
  if check_range min max step def
  then (0, mk_ctrl (id c) min max step def (clamp min max (cur_val c)) (flags c))
  else (- ERANGE, c).

(** Modelled from the spec: [__v4l2_ctrl_s_ctrl] stores the value, clamped
    into the range of the control. *)
Definition __v4l2_ctrl_s_ctrl (c : v4l2_ctrl) (v : Z) : Z * v4l2_ctrl :=
  (0, mk_ctrl (id c) (minimum c) (maximum c) (step c) (default_value c)
              (clamp (minimum c) (maximum c) v) (flags c)).

(** Modelled from the spec: [__v4l2_ctrl_s_ctrl_int64], the same for a
    64-bit control. *)
Definition __v4l2_ctrl_s_ctrl_int64 (c : v4l2_ctrl) (v : Z) : Z * v4l2_ctrl :=
  __v4l2_ctrl_s_ctrl c v.

(** Modelled from the spec: creation of a control on a handler whose
    latched error is [err].  No control is made once the handler has latched
    an error; a range that is not valid latches [-ERANGE]; otherwise the
    kernel makes the control, which starts at its default, or reports an error
    that the handler latches.  The result is the new control, or NULL, and
    the handler's error afterwards. *)
Definition v4l2_ctrl_new (err : Z) (cid : ctrl_id) (min max step def : Z)
                         (range_ok : bool) : M (option v4l2_ctrl * Z) :=
  if negb (err =? 0) then pure (None, err)
  else if negb range_ok then pure (None, - ERANGE)
  else
    a <- ask ;;
    if a =? 0 then pure (Some (mk_ctrl cid min max step def def 0), 0)
    else pure (None, a).

(** Modelled from the spec: [v4l2_ctrl_new_std], a control with a range. *)
Definition v4l2_ctrl_new_std (err : Z) (cid : ctrl_id) (min max step def : Z)
  : M (option v4l2_ctrl * Z) :=
  v4l2_ctrl_new err cid min max step def (check_range min max step def).

(** Modelled from the spec: [v4l2_ctrl_new_int_menu], a menu control with
    entries [0 .. max] and no step. *)
Definition v4l2_ctrl_new_int_menu (err : Z) (cid : ctrl_id) (max def : Z)
  : M (option v4l2_ctrl * Z) :=
  v4l2_ctrl_new err cid 0 max 0 def ((0 <=? max) && (0 <=? def) && (def <=? max)).

(** Modelled from the spec: [v4l2_ctrl_new_std_menu_items], likewise. *)
Definition v4l2_ctrl_new_std_menu_items (err : Z) (cid : ctrl_id) (max def : Z)
  : M (option v4l2_ctrl * Z) :=
  v4l2_ctrl_new err cid 0 max 0 def ((0 <=? max) && (0 <=? def) && (def <=? max)).

(** [ctrl->flags |= f]. *)
Definition add_flag (f : Z) (c : v4l2_ctrl) : v4l2_ctrl :=
  mk_ctrl (id c) (minimum c) (maximum c) (step c) (default_value c) (cur_val c)
          (Z.lor (flags c) f).

(** ** The control handler of the driver *)

Definition ov5670_set_ctrl (cid : ctrl_id) (ctrl_val : Z) : P Z :=
  (* Propagate change of current control to all related controls *)
  (match cid with
   | V4L2_CID_VBLANK =>
       (* Update max exposure while meeting expected vblanking *)
       mode <~ lift (read cur_mode) ;;
       let max := u32 (height mode + ctrl_val - 8) in
       e <~ deref exposure ;;
       lift (driver (set_exposure
               (Some (snd (__v4l2_ctrl_modify_range e (minimum e) max (step e) max)))))
   | _ => pureP tt
   end) ~;;
  (* V4L2 controls values will be applied only when power is already up *)
  in_use <~ lift pm_runtime_get_if_in_use ;;
  if in_use =? 0 then pureP 0
  else
    ret <~ lift
      (match cid with
       | V4L2_CID_ANALOGUE_GAIN =>
           ov5670_write_reg OV5670_REG_ANALOG_GAIN OV5670_REG_VALUE_16BIT ctrl_val
       | V4L2_CID_DIGITAL_GAIN =>
           ov5670_update_digital_gain ctrl_val
       | V4L2_CID_EXPOSURE =>
           (* 4 least significant bits of expsoure are fractional part *)
           ov5670_write_reg OV5670_REG_EXPOSURE OV5670_REG_VALUE_24BIT
                            (Z.shiftl ctrl_val 4)
       | V4L2_CID_VBLANK =>
           (* Update VTS that meets expected vertical blanking *)
           mode <- read cur_mode ;;
           ov5670_write_reg OV5670_REG_VTS OV5670_REG_VALUE_16BIT
                            (height mode + ctrl_val)
       | V4L2_CID_TEST_PATTERN =>
           ov5670_enable_test_pattern ctrl_val
       | _ => pure 0
       end) ;;
    lift pm_runtime_put ~;;
    pureP ret.

(** ** Initialisation of the controls *)

Definition ov5670_test_pattern_menu_size : Z := 2.

(** Modelled from the spec: [v4l2_ctrl_handler_free] belongs to the
    kernel's control framework and releases the controls of the handler.
    The five pointers the driver keeps to them are not touched: they are
    left as they were. *)
Definition v4l2_ctrl_handler_free : M unit :=
  in_kernel (log EvCtrlHandlerFree).

Definition ov5670_init_controls : M Z :=
  ret <- ask ;;                                  (* v4l2_ctrl_handler_init *)
  if negb (ret =? 0) then pure ret
  else
    mode <- read cur_mode ;;
    c <- v4l2_ctrl_new_int_menu 0 V4L2_CID_LINK_FREQ 0 0 ;;
    driver (set_link_freq
              (option_map (add_flag V4L2_CTRL_FLAG_READ_ONLY) (fst c))) ;;
    (* By default, V4L2_CID_PIXEL_RATE is read only *)
    c <- v4l2_ctrl_new_std (snd c) V4L2_CID_PIXEL_RATE 0
           (pixel_rate_of (link_freq_config_at 0)) 1
           (pixel_rate_of (link_freq_config_at 0)) ;;
    driver (set_pixel_rate (fst c)) ;;
    let vblank_max := u32 (OV5670_VTS_MAX - height mode) in
    let vblank_def := u32 (vts_def mode - height mode) in
    let vblank_min := u32 (vts_min mode - height mode) in
    c <- v4l2_ctrl_new_std (snd c) V4L2_CID_VBLANK vblank_min vblank_max 1
                           vblank_def ;;
    driver (set_vblank (fst c)) ;;
    c <- v4l2_ctrl_new_std (snd c) V4L2_CID_HBLANK
           (u32 (OV5670_FIXED_PPL - width mode))
           (u32 (OV5670_FIXED_PPL - width mode)) 1
           (u32 (OV5670_FIXED_PPL - width mode)) ;;
    driver (set_hblank
              (option_map (add_flag V4L2_CTRL_FLAG_READ_ONLY) (fst c))) ;;
    (* Get min, max, step, default from sensor *)
    c <- v4l2_ctrl_new_std (snd c) V4L2_CID_ANALOGUE_GAIN ANALOG_GAIN_MIN
           ANALOG_GAIN_MAX ANALOG_GAIN_STEP ANALOG_GAIN_DEFAULT ;;
    (* Digital gain *)
    c <- v4l2_ctrl_new_std (snd c) V4L2_CID_DIGITAL_GAIN OV5670_DGTL_GAIN_MIN
           OV5670_DGTL_GAIN_MAX OV5670_DGTL_GAIN_STEP OV5670_DGTL_GAIN_DEFAULT ;;
    (* Get min, max, step, default from sensor *)
    let exposure_max := u32 (vts_def mode - 8) in
    c <- v4l2_ctrl_new_std (snd c) V4L2_CID_EXPOSURE OV5670_EXPOSURE_MIN
           exposure_max OV5670_EXPOSURE_STEP exposure_max ;;
    driver (set_exposure (fst c)) ;;
    c <- v4l2_ctrl_new_std_menu_items (snd c) V4L2_CID_TEST_PATTERN
           (ov5670_test_pattern_menu_size - 1) 0 ;;
    if negb (snd c =? 0) then
      v4l2_ctrl_handler_free ;; pure (snd c)
    else
      ret <- ask ;;                              (* v4l2_fwnode_device_parse *)
      if negb (ret =? 0) then v4l2_ctrl_handler_free ;; pure ret
      else
        ret <- ask ;;                 (* v4l2_ctrl_new_fwnode_properties *)
        if negb (ret =? 0) then v4l2_ctrl_handler_free ;; pure ret
        else pure 0.

(** ** Pad format and mode selection *)

Definition MEDIA_BUS_FMT_SGRBG10_1X10 : Z := 0x300a.
Definition V4L2_FIELD_NONE : Z := 1.
Definition V4L2_SUBDEV_FORMAT_TRY : Z := 0.
Definition V4L2_SUBDEV_FORMAT_ACTIVE : Z := 1.

(** [struct v4l2_mbus_framefmt]; its fields [width] and [height] are
    [fmt_width] and [fmt_height] here. *)
Record v4l2_mbus_framefmt : Type := mk_framefmt {
  fmt_width : Z;
  fmt_height : Z;
  code : Z;
  field : Z
}.

Record v4l2_subdev_format : Type := mk_subdev_format {
  which : Z;
  pad : Z;
  format : v4l2_mbus_framefmt
}.

(** Modelled from the spec: [v4l2_find_nearest_size] is a macro of the
    kernel's V4L2 core, absent from the repository.  It "selects the catalog
    entry whose (width, height) is nearest to the request by a
    nearest-neighbor-on-both-dimensions rule (ties resolved by catalog order
    -- first match wins)".  The distance of an entry is the sum of the
    absolute differences of the two dimensions; an entry replaces the best
    one so far only when it is strictly nearer.  An empty catalog has no
    nearest entry. *)
Definition size_error (m : ov5670_mode) (w h : Z) : Z :=
  Z.abs (width m - w) + Z.abs (height m - h).

Fixpoint nearest_from (best : ov5670_mode) (rest : list ov5670_mode) (w h : Z)
  : ov5670_mode :=
  match rest with
  | [] => best
  | m :: rest' =>
      if size_error m w h <? size_error best w h
      then nearest_from m rest' w h
      else nearest_from best rest' w h
  end.

Definition v4l2_find_nearest_size (array : list ov5670_mode) (w h : Z)
  : option ov5670_mode :=
  match array with
  | [] => None
  | m :: rest => Some (nearest_from m rest w h)
  end.

Definition ov5670_update_pad_format (mode : ov5670_mode) (fmt : v4l2_subdev_format)
  : v4l2_subdev_format :=
  mk_subdev_format (which fmt) (pad fmt)
    (mk_framefmt (width mode) (height mode) MEDIA_BUS_FMT_SGRBG10_1X10
                 V4L2_FIELD_NONE).

(** [ov5670_set_pad_format].  [try_fmt] is the try format kept in the pad
    configuration [cfg]; the result is the status, the try format and the
    caller's [fmt] afterwards. *)
Definition ov5670_set_pad_format (try_fmt : v4l2_mbus_framefmt)
                                 (fmt : v4l2_subdev_format)
  : P (Z * v4l2_mbus_framefmt * v4l2_subdev_format) :=
  let fmt := mk_subdev_format (which fmt) (pad fmt)
               (mk_framefmt (fmt_width (format fmt)) (fmt_height (format fmt))
                            MEDIA_BUS_FMT_SGRBG10_1X10 (field (format fmt))) in
  mode <~ entry (v4l2_find_nearest_size supported_modes
                   (s32 (fmt_width (format fmt))) (s32 (fmt_height (format fmt)))) ;;
  let fmt := ov5670_update_pad_format mode fmt in
  if which fmt =? V4L2_SUBDEV_FORMAT_TRY then
    pureP (0, format fmt, fmt)
  else
    lift (driver (set_cur_mode mode)) ~;;
    c <~ deref link_freq ;;
    lift (driver (set_link_freq
            (Some (snd (__v4l2_ctrl_s_ctrl c (s32 (link_freq_index mode))))))) ~;;
    c <~ deref pixel_rate ;;
    lift (driver (set_pixel_rate
            (Some (snd (__v4l2_ctrl_s_ctrl_int64 c
                          (pixel_rate_of
                             (link_freq_config_at (link_freq_index mode)))))))) ~;;
    (* Update limits and set FPS to default *)
    cur <~ lift (read cur_mode) ;;
    let vblank_def := s32 (u32 (vts_def cur - height cur)) in
    c <~ deref vblank ;;
    lift (driver (set_vblank
            (Some (snd (__v4l2_ctrl_modify_range c
                          (u32 (vts_min cur - height cur))
                          (u32 (OV5670_VTS_MAX - height cur)) 1 vblank_def))))) ~;;
    c <~ deref vblank ;;
    lift (driver (set_vblank (Some (snd (__v4l2_ctrl_s_ctrl c vblank_def))))) ~;;
    let h_blank := s32 (u32 (OV5670_FIXED_PPL - width cur)) in
    c <~ deref hblank ;;
    lift (driver (set_hblank
            (Some (snd (__v4l2_ctrl_modify_range c h_blank h_blank 1 h_blank))))) ~;;
    pureP (0, try_fmt, fmt).

(** ** Reading a firmware block ([get_acpi_data.c]) *)

Definition ACPI_TYPE_BUFFER : Z := 0x03.

(** [union acpi_object]: a buffer object carries its bytes, and its
    [length] field is their number; any other object only its type. *)
Inductive acpi_object : Type :=
| acpi_buffer (bytes : list Z)
| acpi_non_buffer (type : Z).

Definition acpi_object_type (o : acpi_object) : Z :=
  match o with
  | acpi_buffer _ => ACPI_TYPE_BUFFER
  | acpi_non_buffer t => t
  end.

(** What [acpi_evaluate_object] leaves: its status and [buffer.pointer]. *)
Record acpi_evaluation : Type := mk_evaluation {
  status : Z;
  pointer : option acpi_object
}.

Definition ACPI_SUCCESS (a : Z) : bool := a =? 0.

(** [memcpy (data, src, n)] on the bytes at [data]. *)
Definition memcpy (data src : list Z) (n : Z) : list Z :=
  firstn (Z.to_nat n) src ++ skipn (Z.to_nat n) data.

(** The outcome of [read_acpi_block]: the value returned, the caller's
    memory at [data], and whether [buffer.pointer] was passed to [kfree]. *)
Record acpi_read : Type := mk_acpi_read {
  returned : Z;
  data_after : list Z;
  kfreed : bool
}.

Definition read_acpi_block (ev : acpi_evaluation) (data : list Z) (size : Z)
  : acpi_read :=
  if negb (ACPI_SUCCESS (status ev)) then mk_acpi_read (- ENODEV) data false
  else
    match pointer ev with
    | None => mk_acpi_read (- ENODEV) data true
    | Some (acpi_non_buffer _) => mk_acpi_read (- ENODEV) data true
    | Some (acpi_buffer bytes) =>
        let length := Z.of_nat (List.length bytes) in
        if u32 size <? length then mk_acpi_read (- ENODEV) data true
        else
          mk_acpi_read (s32 length)
                       (memcpy data bytes (Z.min (u32 size) length))
                       true
    end.

(** ** Runs of the streaming state machine *)

(** References on the runtime-PM gate taken minus released, read off a
    trace. *)
Definition pm_taken (e : event) : Z :=
  match e with
  | EvPmRuntimeGetSync _ => 1
  | EvPmRuntimeGetIfInUse r => if 0 <? r then 1 else 0
  | _ => 0
  end.
Definition pm_released (e : event) : Z :=
  match e with
  | EvPmRuntimePut | EvPmRuntimePutNoidle => 1
  | _ => 0
  end.
Definition count_events (f : event -> Z) (t : list event) : Z :=
  fold_right (fun e n => f e + n) 0 t.

(** The status a sub-step of the start sequence hands to the driver: a
    register write fails with [-EIO] unless the whole buffer was sent; the
    control replay hands back its own status. *)
Definition step_status (e : event) : Z :=
  match e with
  | EvI2cMasterSend buf n => if n =? Z.of_nat (List.length buf) then 0 else - EIO
  | EvCtrlHandlerSetup r => r
  | _ => 0
  end.
Definition is_start_step (e : event) : bool :=
  match e with
  | EvI2cMasterSend _ _ | EvCtrlHandlerSetup _ => true
  | _ => false
  end.

(** A sub-step of a start of streaming as the trace shows it, with the
    status it hands to [ov5670_set_stream] and whether that makes it fail:
    the runtime-PM activation fails on a negative status, a register write
    when the buffer was not sent whole, the control replay on any status but
    0. *)
Definition sub_step_status (e : event) : Z :=
  match e with
  | EvPmRuntimeGetSync g => g
  | _ => step_status e
  end.
Definition sub_step_failed (e : event) : bool :=
  match e with
  | EvPmRuntimeGetSync g => g <? 0
  | _ => negb (step_status e =? 0)
  end.

(** The device as the gate sees it. *)
Definition powered (s : state) : bool := 0 <? usage_count (krn s).

(** The device right after probe as far as streaming goes: not streaming,
    nothing traced yet, and a usage count that only others contribute to. *)
Definition idle (s : state) : Prop :=
  streaming (drv s) = false /\ trace (krn s) = [] /\ 0 <= usage_count (krn s).

Inductive reachable : state -> Prop :=
| reach_idle s : idle s -> reachable s
| reach_set_stream s enable :
    reachable s -> reachable (snd (ov5670_set_stream enable s))
| reach_suspend s :
    reachable s -> reachable (snd (ov5670_suspend s))
| reach_resume s :
    reachable s -> reachable (snd (ov5670_resume s)).

(** ** What the GPIO helpers leave in the trace *)

Definition gpio_crs_events (flag : bool) : list event :=
  [ EvGpiodSetValue xshutdn flag; EvGpiodSetValue pwdnb flag;
    EvGpiodSetValue led_gpio flag ].

Definition gpio_pmic_events (flag : bool) : list event :=
  [ EvGpiodSetValue gpio0 flag; EvGpiodSetValue gpio1 flag;
    EvGpiodSetValue gpio2 flag; EvGpiodSetValue gpio3 flag;
    EvGpiodSetValue gpio4 flag; EvGpiodSetValue gpio5 flag;
    EvGpiodSetValue gpio6 flag; EvGpiodSetValue s_enable flag;
    EvGpiodSetValue s_idle flag; EvGpiodSetValue s_resetn flag ].

(** ** Sample states *)

Definition unprobed : ov5670 :=
  mk_ov5670 None None None None None
            (nth 0 supported_modes (mk_mode 0 0 0 0 0 []))
            false false false.

(** A kernel in which nothing has happened yet and that will answer
    [answer n] to the n-th fallible call. *)
Definition fresh_kernel (answer : nat -> Z) : kernel :=
  mk_kernel (fun _ => false) 0 answer 0 [].

Definition all_succeed : nat -> Z := fun _ => 0.

(** A kernel whose clock refuses to start: within [power_ctrl] the
    regulator bundle is the first fallible call and the clock the second. *)
Definition clock_fails : nat -> Z :=
  fun n => if Nat.eqb n 1 then - EINVAL else 0.


(** ** Runs of the start sequence *)

(** Sub-steps that all succeeded. *)
Definition all_ok (steps : list event) : Prop :=
  Forall (fun e => is_start_step e = true /\ step_status e = 0) steps.

(** [run r steps]: the sub-steps made by a run of the start sequence that
    ended with status [r]: all of them succeeded and [r] is 0, or the last
    one failed with [r] and the ones before it succeeded. *)
Definition run (r : Z) (steps : list event) : Prop :=
  (r = 0 /\ all_ok steps)
  \/ (r <> 0 /\ exists pre bad,
        steps = pre ++ [bad] /\ all_ok pre
        /\ is_start_step bad = true /\ step_status bad = r).

(** A computation that touches neither the driver's record nor the usage
    count and whose kernel calls are sub-steps of the start sequence. *)
Definition start_like (m : M Z) : Prop :=
  forall s,
    drv (snd (m s)) = drv s
    /\ usage_count (krn (snd (m s))) = usage_count (krn s)
    /\ exists steps,
         trace (krn (snd (m s))) = trace (krn s) ++ steps
         /\ run (fst (m s)) steps.

(** References held according to a trace. *)
Definition refs_held (t : list event) : Z :=
  count_events pm_taken t - count_events pm_released t.

(** The streaming flag never outruns the runtime-PM references. *)
Definition stream_inv (s : state) : Prop :=
  int_of_bool (streaming (drv s)) <= usage_count (krn s)
  /\ int_of_bool (streaming (drv s)) <= refs_held (trace (krn s)).

(** A kernel that lets the start sequence through: runtime PM and the
    control replay report 0, every register write sends its three bytes. *)
Definition start_succeeds : nat -> Z :=
  fun n => if Nat.eqb n 0 then 0
           else if Nat.eqb n 280 then 0
           else 3.

(** ** Control bookkeeping *)

Definition read_only (c : v4l2_ctrl) : Prop :=
  Z.land (flags c) V4L2_CTRL_FLAG_READ_ONLY = V4L2_CTRL_FLAG_READ_ONLY.

(** The horizontal-blanking control is there, read-only, and pinned to what
    the current mode leaves of the fixed line length. *)
Definition hblank_fixed (d : ov5670) : Prop :=
  exists c,
    hblank d = Some c
    /\ minimum c = OV5670_FIXED_PPL - width (cur_mode d)
    /\ maximum c = OV5670_FIXED_PPL - width (cur_mode d)
    /\ default_value c = OV5670_FIXED_PPL - width (cur_mode d)
    /\ read_only c.

(** The controls [ov5670_set_pad_format] follows are there. *)
Definition controls_present (d : ov5670) : Prop :=
  (exists c, link_freq d = Some c)
  /\ (exists c, pixel_rate d = Some c)
  /\ (exists c, vblank d = Some c)
  /\ (exists c, hblank d = Some c /\ read_only c).

(** The device once [ov5670_init_controls] went through with the first
    catalog mode current, as probe leaves it. *)
Definition probed : state :=
  snd (ov5670_init_controls (mk_state unprobed (fresh_kernel all_succeed))).

Definition request (w h which_ : Z) : v4l2_subdev_format :=
  mk_subdev_format which_ 0 (mk_framefmt w h 0 0).

Definition no_try_fmt : v4l2_mbus_framefmt := mk_framefmt 0 0 0 0.

(** ** Format enumeration and retrieval *)

(** [struct v4l2_subdev_mbus_code_enum], the fields the driver uses. *)
Record v4l2_subdev_mbus_code_enum : Type := mk_mbus_code_enum {
  mbus_index : Z;
  mbus_code : Z
}.

Definition ov5670_enum_mbus_code (code : v4l2_subdev_mbus_code_enum)
  : Z * v4l2_subdev_mbus_code_enum :=
  (* Only one bayer order GRBG is supported *)
  if 0 <? u32 (mbus_index code) then (- EINVAL, code)
  else (0, mk_mbus_code_enum (mbus_index code) MEDIA_BUS_FMT_SGRBG10_1X10).

(** [struct v4l2_subdev_frame_size_enum], the fields the driver uses. *)
Record v4l2_subdev_frame_size_enum : Type := mk_frame_size_enum {
  fse_index : Z;
  fse_code : Z;
  min_width : Z;
  max_width : Z;
  min_height : Z;
  max_height : Z
}.

Definition ov5670_enum_frame_size (fse : v4l2_subdev_frame_size_enum)
  : Z * v4l2_subdev_frame_size_enum :=
  if Z.of_nat (List.length supported_modes) <=? u32 (fse_index fse)
  then (- EINVAL, fse)
  else if negb (fse_code fse =? MEDIA_BUS_FMT_SGRBG10_1X10) then (- EINVAL, fse)
  else
    match nth_error supported_modes (Z.to_nat (u32 (fse_index fse))) with
    | Some mode =>
        (0, mk_frame_size_enum (fse_index fse) (fse_code fse)
              (width mode) (width mode) (height mode) (height mode))
    | None => (- EINVAL, fse)   (* not reached: the index was checked *)
    end.

Definition ov5670_do_get_pad_format (try_fmt : v4l2_mbus_framefmt)
                                    (fmt : v4l2_subdev_format)
  : M (Z * v4l2_subdev_format) :=
  if which fmt =? V4L2_SUBDEV_FORMAT_TRY then
    pure (0, mk_subdev_format (which fmt) (pad fmt) try_fmt)
  else
    mode <- read cur_mode ;;
    pure (0, ov5670_update_pad_format mode fmt).

Definition ov5670_get_pad_format (try_fmt : v4l2_mbus_framefmt)
                                 (fmt : v4l2_subdev_format)
  : M (Z * v4l2_subdev_format) :=
  ov5670_do_get_pad_format try_fmt fmt.

(** Open sub-device: the try format of the file handle is initialised from
    the current mode.  The result is the status and the try format. *)
Definition ov5670_open : M (Z * v4l2_mbus_framefmt) :=
  mode <- read cur_mode ;;
  pure (0, mk_framefmt (width mode) (height mode) MEDIA_BUS_FMT_SGRBG10_1X10
                       V4L2_FIELD_NONE).

Definition OV5670_NUM_OF_SKIP_FRAMES : Z := 2.

Definition ov5670_get_skip_frames : Z * Z := (0, OV5670_NUM_OF_SKIP_FRAMES).

(** ** Chip identity *)

Definition ENXIO : Z := 6.
Definition OV5670_REG_CHIP_ID : Z := 0x300a.
Definition OV5670_CHIP_ID : Z := 0x005670.

(** Verify chip ID *)
Definition ov5670_identify_module : M Z :=
  r <- ov5670_read_reg OV5670_REG_CHIP_ID OV5670_REG_VALUE_24BIT 0 ;;
  if negb (fst r =? 0) then pure (fst r)
  else if negb (snd r =? OV5670_CHIP_ID) then pure (- ENXIO)
  else pure 0.

(** ** The dependent device *)

(** A device on a bus: its name and the identity of its firmware node. *)
Record device : Type := mk_device {
  dev_name : string;
  fwnode : Z
}.

(** What [acpi_get_object_info] hands back: whether [ACPI_VALID_HID] is set
    in [valid], and the hardware id. *)
Record acpi_device_info : Type := mk_device_info {
  valid_hid : bool;
  hardware_id : string
}.

(** One handle of the [_DEP] list, as firmware describes it:
    [acpi_get_object_info] fails ([None]) or gives the info;
    [acpi_bus_get_device] fails ([None]) or gives the ACPI device, of which
    the firmware node is kept. *)
Record dep_handle : Type := mk_dep_handle {
  object_info : option acpi_device_info;
  bus_device : option Z
}.

(** The firmware node of the sensor: whether it has a [_DEP] method, and
    what evaluating it gives ([None] when evaluation fails). *)
Record acpi_node : Type := mk_acpi_node {
  has_dep_method : bool;
  dep_devices : option (list dep_handle)
}.

Definition match_depend (dev : option device) (data : Z) : Z :=
  match dev with
  | Some d => if fwnode d =? data then 1 else 0
  | None => 0
  end.

(** [bus_find_device (bus, NULL, data, match)]: the first device of the bus
    that the predicate accepts. *)
Definition bus_find_device (bus : list device) (data : Z)
                           (matches : option device -> Z -> Z)
  : option device :=
  find (fun d => negb (matches (Some d) data =? 0)) bus.

(** What a [struct device *] can hold: NULL, a value of the error range
    (what [IS_ERR] accepts, [e] being what [PTR_ERR] reads from it), or any
    other value, taken as the address of a device. *)
Definition MAX_ERRNO : Z := 4095.
Definition IS_ERR_VALUE (e : Z) : bool := (- MAX_ERRNO <=? e) && (e <? 0).

Inductive device_ptr : Type :=
| NULL_device
| ERR_device (e : Z) (in_range : IS_ERR_VALUE e = true)
| device_at (d : device).

(** The loop of [get_dep_dev].  [dep_dev] is the local of that name. *)
Fixpoint get_dep_dev_loop (bus : list device) (handles : list dep_handle)
                          (dep_dev : device_ptr) : Z + device_ptr :=
  match handles with
  | [] => inr dep_dev
  | h :: rest =>
      match object_info h with
      | None => inl (- ENODEV)
      | Some info =>
          if valid_hid info && String.eqb (hardware_id info) "INT3472" then
            match bus_device h with
            | None => inl (- ENODEV)
            | Some node =>
                match bus_find_device bus node match_depend with
                | Some d => inr (device_at d)                     (* break *)
                | None => get_dep_dev_loop bus rest NULL_device
                end
            end
          else get_dep_dev_loop bus rest dep_dev
      end
  end.

(** [get_dep_dev], of both files: the one of the driver searches the PCI
    bus, the one of [get_acpi_data.c] the platform bus, here [bus].  The
    result is an error pointer ([inl], with what [PTR_ERR] reads) or a
    device.  The local [dep_dev] has no initialiser and is read after the
    loop also when no iteration assigned it.  C gives that read no meaning;
    here it yields [indeterminate], any value a pointer can hold, which is
    what the slot of the local happens to contain. *)
Definition get_dep_dev (bus : list device) (indeterminate : device_ptr)
                       (node : acpi_node) : Z + device :=
  (* Get dependent INT3472 device *)
  if negb (has_dep_method node) then inl (- ENODEV)
  else
    match dep_devices node with
    | None => inl (- ENODEV)
    | Some handles =>
        match get_dep_dev_loop bus handles indeterminate with
        | inl e => inl e
        | inr NULL_device => inl (- EINVAL)
        | inr (ERR_device e _) => inl e
        | inr (device_at d) => inr d
        end
    end.

(** ** Dumping the firmware data ([get_acpi_data.c]) *)

(** Packed structures, as the sizes of their fields in declaration order. *)
Definition sensor_bios_data_packed : list (string * Z) :=
  [ ("version", 1); ("sku", 1); ("guid_csi2", 16); ("devfunction", 1);
    ("bus", 1); ("dphylinkenfuses", 4); ("clockdiv", 4); ("link", 1);
    ("lanes", 1); ("csiparams", 40); ("maxlanespeed", 4);
    ("sensorcalibfileidx", 1); ("sensorcalibfileidxInMBZ", 3);
    ("romtype", 1); ("vcmtype", 1); ("platforminfo", 1);
    ("platformsubinfo", 1); ("flash", 1); ("privacyled", 1); ("degree", 1);
    ("mipilinkdefined", 1); ("mclkspeed", 4); ("controllogicid", 1);
    ("reserved1", 3); ("mclkport", 1); ("reserved2", 13) ]%string.

Definition intel_ssdb : list (string * Z) :=
  [ ("version", 1); ("sensor_card_sku", 1);
    ("csi2_data_stream_interface", 16); ("bdf_value", 2);
    ("dphy_link_en_fuses", 4); ("lanes_clock_division", 4);
    ("link_used", 1); ("lanes_used", 1);
    ("csi_rx_dly_cnt_termen_clane", 4); ("csi_rx_dly_cnt_settle_clane", 4);
    ("csi_rx_dly_cnt_termen_dlane0", 4); ("csi_rx_dly_cnt_settle_dlane0", 4);
    ("csi_rx_dly_cnt_termen_dlane1", 4); ("csi_rx_dly_cnt_settle_dlane1", 4);
    ("csi_rx_dly_cnt_termen_dlane2", 4); ("csi_rx_dly_cnt_settle_dlane2", 4);
    ("csi_rx_dly_cnt_termen_dlane3", 4); ("csi_rx_dly_cnt_settle_dlane3", 4);
    ("max_lane_speed", 4); ("sensor_cal_file_idx", 1);
    ("sensor_cal_file_idx_mbz", 3); ("rom_type", 1); ("vcm_type", 1);
    ("platform", 1); ("platform_sub", 1); ("flash_support", 1);
    ("privacy_led", 1); ("degree", 1); ("mipi_define", 1); ("mclk_speed", 4);
    ("control_logic_id", 1); ("mipi_data_format", 1); ("silicon_version", 1);
    ("customer_id", 1); ("mclk_port", 1); ("reserved", 13) ]%string.

Definition intel_cldb : list (string * Z) :=
  [ ("version", 1); ("control_logic_type", 1); ("control_logic_id", 1);
    ("sensor_card_sku", 1); ("reserved", 28) ]%string.

Definition sizeof (layout : list (string * Z)) : Z :=
  fold_right (fun f n => snd f + n) 0 layout.

(** Offset and size of a field of a packed structure. *)
Fixpoint field_at (layout : list (string * Z)) (name : string) (offset : Z)
  : option (Z * Z) :=
  match layout with
  | [] => None
  | f :: rest =>
      if String.eqb (fst f) name then Some (offset, snd f)
      else field_at rest name (offset + snd f)
  end.

(** The value of bytes given least significant first. *)
Definition le_value (bytes : list Z) : Z :=
  fold_right (fun b acc => b + 256 * acc) 0 bytes.

(** Reading [data->name] through a pointer to a packed structure. *)
Definition member (layout : list (string * Z)) (name : string)
                  (data : list Z) : option Z :=
  match field_at layout name 0 with
  | Some (offset, size) =>
      Some (le_value (firstn (Z.to_nat size) (skipn (Z.to_nat offset) data)))
  | None => None
  end.

(** What a dump shows: the [data_len] bytes of the hex dump and the fields
    printed after it, in the order of the source. *)
Record dump : Type := mk_dump {
  hex : list Z;
  printed : list (string * option Z)
}.

(** Every field is printed with [%d]: as an [int], whatever its type. *)
Definition dump_fields (layout : list (string * Z)) (names : list string)
                       (data : list Z) (data_len : Z) : dump :=
  mk_dump (firstn (Z.to_nat data_len) data)
          (map (fun n => (n, option_map s32 (member layout n data))) names).

Definition dump_ssdb (data : list Z) (data_len : Z) : dump :=
  dump_fields intel_ssdb
    [ "link_used"; "lanes_used"; "vcm_type"; "flash_support"; "degree";
      "mclk_port"; "mclk_speed";
      (* Additional data *)
      "lanes_clock_division"; "rom_type"; "privacy_led"; "mipi_define";
      "control_logic_id" ]%string
    data data_len.

Definition dump_cldb (data : list Z) (data_len : Z) : dump :=
  dump_fields intel_cldb
    [ "version"; "control_logic_type"; "control_logic_id";
      "sensor_card_sku" ]%string
    data data_len.

(** The outcome of [get_acpi_data]: the value returned, the two dumps when
    they were made, and how often [put_device] was called on the dependent
    device. *)
Record acpi_data : Type := mk_acpi_data {
  acpi_ret : Z;
  ssdb_dump : option dump;
  cldb_dump : option dump;
  put_device_calls : nat
}.

(** [get_acpi_data].  [dep_dev] is what [get_dep_dev] returned; [ssdb] is
    what evaluating "SSDB" on the sensor gives, [cldb] what evaluating "CLDB"
    on a dependent device gives; [sensor_data] and [pmic_data] are the
    contents of the two locals before they are written. *)
Definition get_acpi_data (dep_dev : Z + device) (ssdb : acpi_evaluation)
                         (cldb : device -> acpi_evaluation)
                         (sensor_data pmic_data : list Z) : acpi_data :=
  let s := read_acpi_block ssdb sensor_data (sizeof intel_ssdb) in
  let ssdb_len := returned s in
  if ssdb_len <? 0 then mk_acpi_data ssdb_len None None 0
  else
    match dep_dev with
    | inr d =>
        let c := read_acpi_block (cldb d) pmic_data (sizeof intel_cldb) in
        let cldb_len := returned c in
        if cldb_len <? 0 then mk_acpi_data cldb_len None None 0
        else
          mk_acpi_data 0 (Some (dump_ssdb (data_after s) ssdb_len))
                       (Some (dump_cldb (data_after c) cldb_len)) 1
    | inl _ =>
        mk_acpi_data 0 (Some (dump_ssdb (data_after s) ssdb_len)) None 0
    end.

(** ** Vocabulary for the register layer *)

Definition is_byte (b : Z) : Prop := 0 <= b < 256.

Definition is_bus_event (e : event) : bool :=
  match e with
  | EvI2cMasterSend _ _ | EvI2cTransfer _ _ _ _ => true
  | _ => false
  end.

(** A computation that only talks to the bus: the driver's record, the
    usage count and the GPIO lines stay, the kernel's answers are consumed in
    order, and every traced call is a bus transaction. *)
Definition bus_only {A : Type} (m : M A) : Prop :=
  forall s,
    drv (snd (m s)) = drv s
    /\ usage_count (krn (snd (m s))) = usage_count (krn s)
    /\ gpio_value (krn (snd (m s))) = gpio_value (krn s)
    /\ answers (krn (snd (m s))) = answers (krn s)
    /\ exists calls,
         trace (krn (snd (m s))) = trace (krn s) ++ calls
         /\ forallb is_bus_event calls = true.

(** The buffer of a bus write. *)
Definition sent (e : event) : list Z :=
  match e with
  | EvI2cMasterSend buf _ => buf
  | _ => []
  end.

(** What [ov5670_write_regs] sends for one table entry: the address, high
    byte first, and the value. *)
Definition reg_buf (r : ov5670_reg) : list Z :=
  [ u16 (address r) / 256; u16 (address r) mod 256; u32 (val r) mod 256 ].

(** What [ov5670_update_digital_gain] sends to one of the three gain
    registers: the address and the two low bytes of the gain, high byte
    first. *)
Definition gain_buf (d_gain reg : Z) : list Z :=
  [ u16 reg / 256; u16 reg mod 256; (u32 d_gain / 256) mod 256;
    u32 d_gain mod 256 ].

(** A register write that the kernel reports as sent in full. *)
Definition written (r : ov5670_reg) : event := EvI2cMasterSend (reg_buf r) 3.

(** A handle of the [_DEP] list whose info could be read and names the
    INT3472 companion with a valid hardware id. *)
Definition is_int3472 (h : dep_handle) : bool :=
  match object_info h with
  | Some info => valid_hid info && String.eqb (hardware_id info) "INT3472"
  | None => false
  end.

(** A handle whose info could be read and that is not the companion. *)
Definition is_other_device (h : dep_handle) : bool :=
  match object_info h with
  | Some _ => negb (is_int3472 h)
  | None => false
  end.

(** ** Attaching and detaching the device

    [ov5670_probe] and [ov5670_remove] and the acquisition routines under
    them work on more than the earlier sections model: the GPIO descriptors
    the driver holds, the lookup table of the companion's lines, the sensor
    clock, the registration with the media framework.  [attach_state] adds
    these to the [state] of the earlier sections, and [journal] lists the
    kernel calls of this layer in the order they are made.  Calls made by the
    functions of the earlier sections stay in the [trace] of the kernel.
    Diagnostics are left out as before, except the message at the label
    [error_print], whose text is a local that some paths leave unassigned. *)

Definition ENOMEM : Z := 12.

(** A pointer as the driver tests it: NULL, an error pointer, or a pointer
    to an object. *)
Inductive ptr : Type :=
| null_ptr
| err_ptr (e : Z)
| valid_ptr.

Definition IS_ERR (p : ptr) : bool :=
  match p with
  | err_ptr _ => true
  | _ => false
  end.

Definition PTR_ERR (p : ptr) : Z :=
  match p with
  | err_ptr e => e
  | _ => 0
  end.

(** What a kernel function that returns a pointer hands back for the status
    [r] of the lookup: an error pointer for an error number, a pointer to
    the object otherwise. *)
Definition pointer_of_status (r : Z) : ptr :=
  if (- MAX_ERRNO <=? r) && (r <? 0) then err_ptr r else valid_ptr.

Inductive gpiod_flags : Type :=
| GPIOD_ASIS
| GPIOD_OUT_HIGH.

(** The device a managed resource is bound to. *)
Inductive owner : Type :=
| the_dep_dev
| the_client.

Inductive attach_event : Type :=
| EvDevmKzalloc (p : ptr)
| EvDevmGpiodGetIndex (dev : owner) (con_id : option string) (idx : Z)
                      (flags : gpiod_flags) (p : ptr)
| EvGpiodPut (g : gpio) (p : ptr)
| EvGpiodAddLookupTable
| EvGpiodRemoveLookupTable
| EvDevmRegulatorBulkGet (supplies : list string) (ret : Z)
| EvDevmClkGet (id : string) (p : ptr)
| EvClkSetRate (rate : Z) (ret : Z)
| EvClkGetRate (rate : Z)
| EvV4l2I2cSubdevInit
| EvMutexInit
| EvMutexDestroy
| EvMediaEntityPadsInit (ret : Z)
| EvMediaEntityCleanup
| EvV4l2AsyncRegisterSubdevSensorCommon (ret : Z)
| EvV4l2AsyncUnregisterSubdev
| EvPmRuntimeSetActive
| EvPmRuntimeEnable
| EvPmRuntimeIdle
| EvPmRuntimeDisable
| EvDevErr (err_msg : option string) (ret : Z).

Record attach_state : Type := mk_attach {
  sensor : state;
  gpio_desc : gpio -> ptr;    (* the thirteen descriptor fields *)
  xvclk_freq : Z;
  journal : list attach_event
}.

Definition W (A : Type) : Type := attach_state -> A * attach_state.

Definition pureW {A : Type} (a : A) : W A := fun w => (a, w).
Definition bindW {A B : Type} (m : W A) (f : A -> W B) : W B :=
  fun w => let r := m w in f (fst r) (snd r).

Notation "x <<- m ;; k" := (bindW m (fun x => k))
  (at level 61, m at next level, right associativity) : monad_scope.
Notation "m ;;; k" := (bindW m (fun _ => k))
  (at level 61, right associativity) : monad_scope.

(** A function of the earlier sections called from this layer. *)
Definition sensor_call {A : Type} (m : M A) : W A :=
  fun w => let r := m (sensor w) in
           (fst r, mk_attach (snd r) (gpio_desc w) (xvclk_freq w) (journal w)).

Definition note (e : attach_event) : W unit :=
  fun w => (tt, mk_attach (sensor w) (gpio_desc w) (xvclk_freq w)
                          (journal w ++ [e])).

Definition store_desc (g : gpio) (p : ptr) : W unit :=
  fun w => (tt, mk_attach (sensor w)
                          (fun g' => if gpio_eqb g g' then p else gpio_desc w g')
                          (xvclk_freq w) (journal w)).

Definition load_desc (g : gpio) : W ptr := fun w => (gpio_desc w g, w).

Definition store_xvclk_freq (f : Z) : W unit :=
  fun w => (tt, mk_attach (sensor w) (gpio_desc w) f (journal w)).

Definition load_xvclk_freq : W Z := fun w => (xvclk_freq w, w).

(** The record [devm_kzalloc] hands out: every field zero.  [cur_mode] is a
    NULL pointer then, which the record cannot hold; it reads as a mode
    without size or registers until probe assigns it. *)
Definition zeroed : ov5670 :=
  mk_ov5670 None None None None None (mk_mode 0 0 0 0 0 []) false false false.

(** Modelled from the spec: [devm_kzalloc] belongs to the kernel; it gives
    zeroed memory or NULL. *)
Definition devm_kzalloc : W ptr :=
  r <<- sensor_call ask ;;
  let p := if r =? 0 then valid_ptr else null_ptr in
  note (EvDevmKzalloc p) ;;;
  (if r =? 0
   then sensor_call (driver (fun _ => zeroed)) ;;;
        (fun w => (tt, mk_attach (sensor w) (fun _ => null_ptr) 0 (journal w)))
   else pureW tt) ;;;
  pureW p.

(** Modelled from the spec: "GPIO acquire-by-index/name with
    direction+default-state hint".  The line [g] is the one the lookup
    resolves to; with [GPIOD_OUT_HIGH] an acquired line is made an output
    that drives high, with [GPIOD_ASIS] it is left as it is. *)
Definition devm_gpiod_get_index (g : gpio) (dev : owner)
                                (con_id : option string) (idx : Z)
                                (flags : gpiod_flags) : W ptr :=
  r <<- sensor_call ask ;;
  let p := pointer_of_status r in
  note (EvDevmGpiodGetIndex dev con_id idx flags p) ;;;
  (match flags with
   | GPIOD_OUT_HIGH =>
       if IS_ERR p then pureW tt
       else sensor_call (in_kernel (set_gpio_value g true))
   | GPIOD_ASIS => pureW tt
   end) ;;;
  pureW p.

(** Modelled from the spec: release of a GPIO descriptor. *)
Definition gpiod_put (g : gpio) : W unit :=
  p <<- load_desc g ;; note (EvGpiodPut g p).

Definition gpiod_add_lookup_table : W unit := note EvGpiodAddLookupTable.
Definition gpiod_remove_lookup_table : W unit := note EvGpiodRemoveLookupTable.

(** Get GPIOs defined in dep_dev _CRS *)
Definition gpio_crs_get : W Z :=
  p <<- devm_gpiod_get_index xshutdn the_dep_dev None 0 GPIOD_ASIS ;;
  store_desc xshutdn p ;;;
  if IS_ERR p then pureW (- EINVAL)
  else
    p <<- devm_gpiod_get_index pwdnb the_dep_dev None 1 GPIOD_ASIS ;;
    store_desc pwdnb p ;;;
    if IS_ERR p then pureW (- EINVAL)
    else
      p <<- devm_gpiod_get_index led_gpio the_dep_dev None 2 GPIOD_ASIS ;;
      store_desc led_gpio p ;;;
      if IS_ERR p then pureW (- EINVAL)
      else pureW 0.

(** Put GPIOs defined in dep_dev _CRS *)
Definition gpio_crs_put : W unit :=
  gpiod_put xshutdn ;;;
  gpiod_put pwdnb ;;;
  gpiod_put led_gpio.

(** The label [fail] of [gpio_pmic_get]. *)
Definition gpio_pmic_get_fail : W Z :=
  gpiod_remove_lookup_table ;;;
  pureW (- EINVAL).

(** Get GPIOs provided by tps68470-gpio *)
Definition gpio_pmic_get : W Z :=
  gpiod_add_lookup_table ;;;
  p <<- devm_gpiod_get_index gpio0 the_client (Some "gpio.0"%string) 0 GPIOD_OUT_HIGH ;;
  store_desc gpio0 p ;;;
  if IS_ERR p then gpio_pmic_get_fail else
  p <<- devm_gpiod_get_index gpio1 the_client (Some "gpio.1"%string) 0 GPIOD_OUT_HIGH ;;
  store_desc gpio1 p ;;;
  if IS_ERR p then gpio_pmic_get_fail else
  p <<- devm_gpiod_get_index gpio2 the_client (Some "gpio.2"%string) 0 GPIOD_OUT_HIGH ;;
  store_desc gpio2 p ;;;
  if IS_ERR p then gpio_pmic_get_fail else
  p <<- devm_gpiod_get_index gpio3 the_client (Some "gpio.3"%string) 0 GPIOD_OUT_HIGH ;;
  store_desc gpio3 p ;;;
  if IS_ERR p then gpio_pmic_get_fail else
  p <<- devm_gpiod_get_index gpio4 the_client (Some "gpio.4"%string) 0 GPIOD_OUT_HIGH ;;
  store_desc gpio4 p ;;;
  if IS_ERR p then gpio_pmic_get_fail else
  p <<- devm_gpiod_get_index gpio5 the_client (Some "gpio.5"%string) 0 GPIOD_OUT_HIGH ;;
  store_desc gpio5 p ;;;
  if IS_ERR p then gpio_pmic_get_fail else
  p <<- devm_gpiod_get_index gpio6 the_client (Some "gpio.6"%string) 0 GPIOD_OUT_HIGH ;;
  store_desc gpio6 p ;;;
  if IS_ERR p then gpio_pmic_get_fail else
  p <<- devm_gpiod_get_index s_enable the_client (Some "s_enable"%string) 0 GPIOD_OUT_HIGH ;;
  store_desc s_enable p ;;;
  if IS_ERR p then gpio_pmic_get_fail else
  p <<- devm_gpiod_get_index s_idle the_client (Some "s_idle"%string) 0 GPIOD_OUT_HIGH ;;
  store_desc s_idle p ;;;
  if IS_ERR p then gpio_pmic_get_fail else
  p <<- devm_gpiod_get_index s_resetn the_client (Some "s_resetn"%string) 0 GPIOD_OUT_HIGH ;;
  store_desc s_resetn p ;;;
  if IS_ERR p then gpio_pmic_get_fail else
  pureW 0.

Definition gpio_pmic_put : W unit :=
  gpiod_put gpio0 ;;;
  gpiod_put gpio1 ;;;
  gpiod_put gpio2 ;;;
  gpiod_put gpio3 ;;;
  gpiod_put gpio4 ;;;
  gpiod_put gpio5 ;;;
  gpiod_put gpio6 ;;;
  gpiod_put s_enable ;;;
  gpiod_put s_idle ;;;
  gpiod_put s_resetn ;;;
  gpiod_remove_lookup_table.

Definition ov5670_supply_names : list string :=
  (* regulators provided by tps68470-regulator *)
  [ "CORE"; "ANA"; "VCM"; "VIO"; "VSIO"; "AUX1"; "AUX2" ]%string.

(** Modelled from the spec: "regulator bulk acquire-by-name-list". *)
Definition devm_regulator_bulk_get (supplies : list string) : W Z :=
  r <<- sensor_call ask ;;
  note (EvDevmRegulatorBulkGet supplies r) ;;;
  pureW r.

(** Get regulators provided by tps68470-regulator *)
Definition regulator_pmic_get : W Z :=
  devm_regulator_bulk_get ov5670_supply_names.

(** Modelled from the spec: "clock acquire-by-name, set-rate, get-rate". *)
Definition devm_clk_get (id : string) : W ptr :=
  r <<- sensor_call ask ;;
  note (EvDevmClkGet id (pointer_of_status r)) ;;;
  pureW (pointer_of_status r).
Definition clk_set_rate (rate : Z) : W Z :=
  r <<- sensor_call ask ;;
  note (EvClkSetRate rate r) ;;;
  pureW r.
Definition clk_get_rate : W Z :=
  r <<- sensor_call ask ;;
  note (EvClkGetRate r) ;;;
  pureW r.

(** Configure clock provided by tps68470-clk *)
Definition ov5670_configure_clock : W Z :=
  xvclk <<- devm_clk_get "tps68470-clk" ;;
  if IS_ERR xvclk then pureW (PTR_ERR xvclk)
  else
    (* TODO: get this value from SSDB *)
    store_xvclk_freq 19200000 ;;;
    freq <<- load_xvclk_freq ;;
    ret <<- clk_set_rate freq ;;
    if ret <? 0 then pureW (- EINVAL)
    else
      rate <<- clk_get_rate ;;
      let current_freq := u32 rate in
      freq <<- load_xvclk_freq ;;
      if negb (current_freq =? freq) then pureW (- EINVAL)
      else pureW 0.

(** Modelled from the spec: the calls into "the generic media/control-
    framework plumbing" and the locking and runtime-PM set-up calls of probe
    and remove; those that can fail report a status. *)
Definition v4l2_i2c_subdev_init : W unit := note EvV4l2I2cSubdevInit.
Definition mutex_init : W unit := note EvMutexInit.
Definition mutex_destroy : W unit := note EvMutexDestroy.
Definition media_entity_pads_init : W Z :=
  r <<- sensor_call ask ;; note (EvMediaEntityPadsInit r) ;;; pureW r.
Definition media_entity_cleanup : W unit := note EvMediaEntityCleanup.
Definition v4l2_async_register_subdev_sensor_common : W Z :=
  r <<- sensor_call ask ;;
  note (EvV4l2AsyncRegisterSubdevSensorCommon r) ;;;
  pureW r.
Definition v4l2_async_unregister_subdev : W unit :=
  note EvV4l2AsyncUnregisterSubdev.
Definition pm_runtime_set_active : W unit := note EvPmRuntimeSetActive.
Definition pm_runtime_enable : W unit := note EvPmRuntimeEnable.
Definition pm_runtime_idle : W unit := note EvPmRuntimeIdle.
Definition pm_runtime_disable : W unit := note EvPmRuntimeDisable.

(** The labels of [ov5670_probe], each falling through to the next.
    [err_msg] is the local of that name, [None] while nothing has been
    assigned to it. *)
Definition error_print (err_msg : option string) (ret : Z) : W Z :=
  note (EvDevErr err_msg ret) ;;;
  pureW ret.
Definition put_crs_gpio (err_msg : option string) (ret : Z) : W Z :=
  gpio_crs_put ;;;
  error_print err_msg ret.
Definition put_pmic_gpio (err_msg : option string) (ret : Z) : W Z :=
  gpio_pmic_put ;;;
  put_crs_gpio err_msg ret.
Definition disable_regulator (err_msg : option string) (ret : Z) : W Z :=
  sensor_call regulator_bulk_disable ;;;
  put_pmic_gpio err_msg ret.
Definition error_mutex_destroy (err_msg : option string) (ret : Z) : W Z :=
  mutex_destroy ;;;
  disable_regulator err_msg ret.
Definition error_handler_free (err_msg : option string) (ret : Z) : W Z :=
  sensor_call v4l2_ctrl_handler_free ;;;
  error_mutex_destroy err_msg ret.
Definition error_entity_cleanup (err_msg : option string) (ret : Z) : W Z :=
  media_entity_cleanup ;;;
  error_handler_free err_msg ret.

(** [ov5670_probe].  [bus], [indeterminate] and [node] are what
    [get_dep_dev] works on. *)
Definition ov5670_probe (bus : list device) (indeterminate : device_ptr)
                        (node : acpi_node) : W Z :=
  let err_msg : option string := None in
  p <<- devm_kzalloc ;;
  match p with
  | null_ptr =>
      error_print (Some "devm_kzalloc() error"%string) (- ENOMEM)
  | _ =>
  match get_dep_dev bus indeterminate node with
  | inl e => pureW e
  | inr dep_dev =>
  ret <<- gpio_crs_get ;;
  if negb (ret =? 0) then pureW ret else
  ret <<- gpio_pmic_get ;;
  if negb (ret =? 0) then put_crs_gpio err_msg ret else
  ret <<- regulator_pmic_get ;;
  if negb (ret =? 0) then put_pmic_gpio err_msg ret else
  ret <<- ov5670_configure_clock ;;
  if negb (ret =? 0) then disable_regulator err_msg ret else
  (* Initialize subdev *)
  v4l2_i2c_subdev_init ;;;
  ret <<- sensor_call power_up ;;
  if negb (ret =? 0) then
    sensor_call power_down ;;;
    error_print (Some "ov5670 power-up err."%string) ret
  else
  (* Check module identity *)
  ret <<- sensor_call ov5670_identify_module ;;
  if negb (ret =? 0) then
    error_print (Some "ov5670_identify_module() error"%string) ret
  else
  mutex_init ;;;
  (* Set default mode to max resolution *)
  sensor_call (driver (set_cur_mode (nth 0 supported_modes (cur_mode zeroed)))) ;;;
  ret <<- sensor_call ov5670_init_controls ;;
  if negb (ret =? 0) then
    error_mutex_destroy (Some "ov5670_init_controls() error"%string) ret
  else
  (* Source pad initialization *)
  ret <<- media_entity_pads_init ;;
  if negb (ret =? 0) then
    error_handler_free (Some "media_entity_pads_init() error"%string) ret
  else
  (* Async register for subdev *)
  ret <<- v4l2_async_register_subdev_sensor_common ;;
  if ret <? 0 then
    error_entity_cleanup (Some "v4l2_async_register_subdev() error"%string) ret
  else
  sensor_call (driver (set_streaming false)) ;;;
  (* Device is already turned on by i2c-core with ACPI domain PM.
     Enable runtime PM and turn off the device. *)
  pm_runtime_set_active ;;;
  pm_runtime_enable ;;;
  pm_runtime_idle ;;;
  (* turn off sensor, after probed *)
  ret <<- sensor_call power_down ;;
  pureW 0
  end
  end.

Definition ov5670_remove : W Z :=
  gpio_crs_put ;;;
  gpio_pmic_put ;;;
  v4l2_async_unregister_subdev ;;;
  media_entity_cleanup ;;;
  sensor_call v4l2_ctrl_handler_free ;;;
  mutex_destroy ;;;
  pm_runtime_disable ;;;
  pureW 0.

(** ** Vocabulary for the attach layer *)

(** One acquisition of [gpio_crs_get] or [gpio_pmic_get]: the field that
    receives the descriptor, the name and the index asked for. *)
Definition line : Type := (gpio * option string * Z)%type.

Definition crs_lines : list line :=
  [ (xshutdn, None, 0); (pwdnb, None, 1); (led_gpio, None, 2) ].

Definition pmic_lines : list line :=
  [ (gpio0, Some "gpio.0", 0); (gpio1, Some "gpio.1", 0);
    (gpio2, Some "gpio.2", 0); (gpio3, Some "gpio.3", 0);
    (gpio4, Some "gpio.4", 0); (gpio5, Some "gpio.5", 0);
    (gpio6, Some "gpio.6", 0); (s_enable, Some "s_enable", 0);
    (s_idle, Some "s_idle", 0); (s_resetn, Some "s_resetn", 0) ]%string.

(** The shape both acquisition routines have: get, store, test, one line
    after the other; [on_error] is what a failed acquisition leads to. *)
Fixpoint acquire (dev : owner) (flags : gpiod_flags) (on_error : W Z)
                 (lines : list line) : W Z :=
  match lines with
  | [] => pureW 0
  | (g, con_id, idx) :: rest =>
      p <<- devm_gpiod_get_index g dev con_id idx flags ;;
      store_desc g p ;;;
      if IS_ERR p then on_error else acquire dev flags on_error rest
  end.

(** The journal entry of an acquisition with result [p]. *)
Definition got (dev : owner) (flags : gpiod_flags) (p : ptr) (l : line)
  : attach_event :=
  EvDevmGpiodGetIndex dev (snd (fst l)) (snd l) flags p.

(** The journal entry of the release of a descriptor that is valid. *)
Definition put (l : line) : attach_event := EvGpiodPut (fst (fst l)) valid_ptr.

Definition line_of (l : line) : gpio := fst (fst l).

(** Registrations of the lookup table minus removals. *)
Definition lookup_tables (j : list attach_event) : Z :=
  fold_right (fun e n => match e with
                         | EvGpiodAddLookupTable => n + 1
                         | EvGpiodRemoveLookupTable => n - 1
                         | _ => n
                         end) 0 j.

Definition is_put (e : attach_event) : bool :=
  match e with
  | EvGpiodPut _ _ => true
  | _ => false
  end.


Definition is_get (e : attach_event) : bool :=
  match e with
  | EvDevmGpiodGetIndex _ _ _ _ _ => true
  | _ => false
  end.

(** What a step of this layer leaves alone in the sensor: the driver's
    record, the usage count and the trace of the earlier sections. *)
Definition same_sensor (w w' : attach_state) : Prop :=
  drv (sensor w') = drv (sensor w)
  /\ usage_count (krn (sensor w')) = usage_count (krn (sensor w))
  /\ trace (krn (sensor w')) = trace (krn (sensor w)).

(** The journal of the acquisitions of a probe that got everything:
    [r1] and [r2] are what [clk_set_rate] and [clk_get_rate] reported. *)
Definition acquisitions (r1 r2 : Z) : list attach_event :=
  [EvDevmKzalloc valid_ptr]
  ++ map (got the_dep_dev GPIOD_ASIS valid_ptr) crs_lines
  ++ EvGpiodAddLookupTable
     :: map (got the_client GPIOD_OUT_HIGH valid_ptr) pmic_lines
  ++ [ EvDevmRegulatorBulkGet ov5670_supply_names 0;
       EvDevmClkGet "tps68470-clk" valid_ptr;
       EvClkSetRate 19200000 r1;
       EvClkGetRate r2 ].

(** The journal of [gpio_pmic_put] followed by [gpio_crs_put] on valid
    descriptors. *)
Definition releases : list attach_event :=
  map put pmic_lines ++ [EvGpiodRemoveLookupTable] ++ map put crs_lines.

(** The mode probe makes current: the first of the catalog. *)
Definition default_mode : ov5670_mode :=
  nth 0 supported_modes (cur_mode zeroed).




(** Not the release of something that is no descriptor. *)
Definition valid_put (e : attach_event) : bool :=
  match e with
  | EvGpiodPut _ valid_ptr => true
  | EvGpiodPut _ _ => false
  | _ => true
  end.

(** The messages printed at [error_print]: the text, when one was assigned,
    and the status. *)
Definition messages (j : list attach_event) : list (option string * Z) :=
  flat_map (fun e => match e with
                     | EvDevErr err_msg ret => [(err_msg, ret)]
                     | _ => []
                     end) j.

(** A platform on which probe finds everything: the companion is on the bus
    and named by the [_DEP] list. *)
Definition companion_bus : list device := [mk_device "INT3472:00" 7].
Definition sensor_node : acpi_node :=
  mk_acpi_node true
    (Some [mk_dep_handle (Some (mk_device_info true "INT3472")) (Some 7)]).

Definition before_probe (answer : nat -> Z) : attach_state :=
  mk_attach (mk_state unprobed (fresh_kernel answer)) (fun _ => null_ptr) 0 [].

(** A kernel that grants every request, reads the clock back at 19.2 MHz
    and a chip that answers 00 56 70 to the identity read. *)
Definition probe_succeeds : nat -> Z :=
  fun n => if Nat.eqb n 17 then 19200000
           else if Nat.eqb n 21 then 2
           else if Nat.eqb n 23 then 0x56
           else if Nat.eqb n 24 then 0x70
           else 0.


(** * Properties *)

(** ** The power sequencer *)

Ltac open_state s :=
  let d := fresh "d" in
  let k := fresh "k" in
  destruct s as [d k]; destruct d; destruct k.

Lemma power_ctrl_returns_zero (flag : bool) (s : state) :
  fst (power_ctrl flag s) = 0.
Proof.
  open_state s.
  destruct flag, clk_enabled0, regulator_enabled0; reflexivity.
Qed.

Lemma power_ctrl_clears_flags (flag : bool) (s : state) :
  clk_enabled (drv (snd (power_ctrl flag s))) = false
  /\ regulator_enabled (drv (snd (power_ctrl flag s))) = false.
Proof.
  open_state s.
  destruct flag, clk_enabled0, regulator_enabled0; split; reflexivity.
Qed.

Lemma power_ctrl_off_lowers_gpios (s : state) (g : gpio) :
  gpio_value (krn (snd (power_ctrl false s))) g = false.
Proof.
  open_state s.
  destruct clk_enabled0, regulator_enabled0, g; reflexivity.
Qed.

Lemma power_down_is_power_ctrl_off (s : state) :
  power_down s = power_ctrl false s.
Proof.
  unfold power_down, bind, gpio_ctrl, pure; cbn [fst snd].
  change (negb (0 =? 0)) with false; cbv iota; cbn [fst snd].
  symmetry; apply surjective_pairing.
Qed.

Lemma power_down_switches_off (s : state) :
  clk_enabled (drv (snd (power_down s))) = false
  /\ regulator_enabled (drv (snd (power_down s))) = false
  /\ forall g, gpio_value (krn (snd (power_down s))) g = false.
Proof.
  rewrite power_down_is_power_ctrl_off.
  destruct (power_ctrl_clears_flags false s) as [Hc Hr].
  repeat split; auto using power_ctrl_off_lowers_gpios.
Qed.

Lemma power_up_loop_failed (attempt : M Z) (n : nat) (ret : Z) (s : state) :
  fst (attempt s) <> 0 ->
  power_up_loop attempt (S n) ret s
  = power_up_loop attempt n (fst (attempt s)) (snd (power_down (snd (attempt s)))).
Proof.
  intros Hfail. cbn [power_up_loop]. unfold bind at 1.
  destruct (Z.eqb_spec (fst (attempt s)) 0) as [H0 | _]; [contradiction |].
  reflexivity.
Qed.

Lemma power_up_loop_succeeded (attempt : M Z) (n : nat) (ret : Z) (s : state) :
  fst (attempt s) = 0 ->
  power_up_loop attempt (S n) ret s = (0, snd (attempt s)).
Proof.
  intros Hok. cbn [power_up_loop]. unfold bind at 1.
  rewrite Hok. reflexivity.
Qed.

Lemma __power_up_takes_success_path (s : state) :
  __power_up s
  = (power_ctrl true ;; usleep_range 10000 11000 ;;
     usleep_range 30000 31000 ;; pure 0) s.
Proof.
  unfold __power_up, bind.
  rewrite power_ctrl_returns_zero. reflexivity.
Qed.

Lemma __power_up_returns_zero (s : state) : fst (__power_up s) = 0.
Proof. rewrite __power_up_takes_success_path. reflexivity. Qed.

(** C10: whatever the flag, [power_ctrl] returns with [clk_enabled] and
    [regulator_enabled] both false.  A power-on call enables the regulator
    bundle and the clock and disables both again before it returns: its trace
    is the turn-on steps followed at once by the turn-off steps. *)
Theorem power_ctrl_leaves_flags_false :
  (forall (flag : bool) (s : state),
      clk_enabled (drv (snd (power_ctrl flag s))) = false
      /\ regulator_enabled (drv (snd (power_ctrl flag s))) = false)
  /\ (forall (s : state),
        let a := answers (krn s) in
        let n := asked (krn s) in
        trace (krn (snd (power_ctrl true s)))
        = trace (krn s)
          ++ gpio_crs_events true ++ gpio_pmic_events true
          ++ [ EvRegulatorBulkEnable (a n); EvClkPrepareEnable (a (S n));
               EvClkDisableUnprepare; EvRegulatorBulkDisable (a (S (S n))) ]
          ++ gpio_pmic_events true ++ gpio_crs_events true).
Proof.
  split.
  - apply power_ctrl_clears_flags.
  - intros s. open_state s.
    cbn. repeat rewrite <- app_assoc. reflexivity.
Qed.

(** C9: [gpio_ctrl] and [power_ctrl] return 0 on every call, hence so do
    [__power_up] and [power_up]: [__power_up] always runs its success path
    (never [fail_power]), and [power_up] is a single attempt, with no second
    iteration and no [power_down]. *)
Theorem power_up_always_succeeds :
  forall (s : state),
    (forall flag, fst (gpio_ctrl flag s) = 0)
    /\ (forall flag, fst (power_ctrl flag s) = 0)
    /\ fst (__power_up s) = 0
    /\ __power_up s
       = (power_ctrl true ;; usleep_range 10000 11000 ;;
          usleep_range 30000 31000 ;; pure 0) s
    /\ fst (power_up s) = 0
    /\ power_up s = __power_up s.
Proof.
  intros s.
  assert (Hup : power_up s = (0, snd (__power_up s))).
  { unfold power_up, power_up_retry, retry_count.
    apply power_up_loop_succeeded, __power_up_returns_zero. }
  refine (conj _ (conj _ (conj _ (conj _ (conj _ _))))).
  - intros flag. reflexivity.
  - intros flag. apply power_ctrl_returns_zero.
  - apply __power_up_returns_zero.
  - apply __power_up_takes_success_path.
  - rewrite Hup. reflexivity.
  - rewrite Hup. rewrite <- (__power_up_returns_zero s) at 1.
    symmetry. apply surjective_pairing.
Qed.

(** C1, at a kernel whose clock fails to start: every step of the turn-on
    block ran, in order, and the clock reported [-EINVAL]; yet [power_ctrl]
    returns 0, the status of its last GPIO step, and [__power_up] and
    [power_up] report success. *)
Theorem power_ctrl_masks_clock_failure :
  let s := mk_state unprobed (fresh_kernel clock_fails) in
  trace (krn (snd (power_ctrl true s)))
  = gpio_crs_events true ++ gpio_pmic_events true
    ++ [ EvRegulatorBulkEnable 0; EvClkPrepareEnable (- EINVAL);
         EvClkDisableUnprepare; EvRegulatorBulkDisable 0 ]
    ++ gpio_pmic_events true ++ gpio_crs_events true
  /\ fst (power_ctrl true s) = 0
  /\ fst (__power_up s) = 0
  /\ fst (power_up s) = 0.
Proof. cbv zeta. repeat split; reflexivity. Qed.


(** ** Streaming *)

Lemma count_events_app (f : event -> Z) (t t' : list event) :
  count_events f (t ++ t') = count_events f t + count_events f t'.
Proof.
  induction t as [| e t IH]; cbn [count_events fold_right app]; [reflexivity |].
  fold (count_events f (t ++ t')). fold (count_events f t). lia.
Qed.

Lemma all_ok_app (a b : list event) : all_ok a -> all_ok b -> all_ok (a ++ b).
Proof. unfold all_ok. intros Ha Hb. apply Forall_app. auto. Qed.

Lemma all_ok_no_pm (steps : list event) :
  all_ok steps ->
  count_events pm_taken steps = 0 /\ count_events pm_released steps = 0.
Proof.
  induction 1 as [| e t [He _] _ [IHt IHr]]; [split; reflexivity |].
  cbn [count_events fold_right] in *.
  fold (count_events pm_taken t). fold (count_events pm_released t).
  rewrite IHt, IHr.
  destruct e; try discriminate He; split; reflexivity.
Qed.

Lemma start_step_no_pm (e : event) :
  is_start_step e = true -> pm_taken e = 0 /\ pm_released e = 0.
Proof. destruct e; try discriminate; split; reflexivity. Qed.

Lemma run_no_pm (r : Z) (steps : list event) :
  run r steps ->
  count_events pm_taken steps = 0 /\ count_events pm_released steps = 0.
Proof.
  intros [[_ Hok] | [_ (pre & bad & -> & Hok & Hbad & _)]].
  - apply all_ok_no_pm, Hok.
  - destruct (all_ok_no_pm pre Hok) as [Ht Hr].
    destruct (start_step_no_pm bad Hbad) as [Bt Br].
    rewrite !count_events_app, Ht, Hr. cbn. rewrite Bt, Br. split; reflexivity.
Qed.

Lemma run_then (r : Z) (a b : list event) :
  all_ok a -> run r b -> run r (a ++ b).
Proof.
  intros Ha [[-> Hb] | [Hr (pre & bad & -> & Hpre & Hbad & Hst)]].
  - left. split; [reflexivity | apply all_ok_app; assumption].
  - right. split; [assumption |].
    exists (a ++ pre), bad. rewrite app_assoc.
    repeat split; auto using all_ok_app.
Qed.

Lemma start_like_pure_zero : start_like (pure 0).
Proof.
  intros s. cbn. repeat split. exists []. rewrite app_nil_r.
  split; [reflexivity | left; split; [reflexivity | constructor]].
Qed.

(** Sequencing as the start sequence does it: stop at the first failure. *)
Lemma start_like_seq (m k : M Z) :
  start_like m -> start_like k ->
  start_like (ret <- m ;; if negb (ret =? 0) then pure ret else k).
Proof.
  intros Hm Hk s. unfold bind.
  destruct (Hm s) as (Hd & Hu & steps & Ht & Hrun).
  destruct (Z.eqb_spec (fst (m s)) 0) as [H0 | Hn0]; cbn [negb].
  - destruct (Hk (snd (m s))) as (Hd' & Hu' & steps' & Ht' & Hrun').
    rewrite Hd', Hu', Ht', Hd, Hu, Ht. repeat split.
    exists (steps ++ steps'). rewrite app_assoc. split; [reflexivity |].
    apply run_then; [| assumption].
    destruct Hrun as [[_ Hok] | [Hr _]]; [assumption | contradiction].
  - cbn [pure fst snd]. repeat split; auto.
    exists steps. auto.
Qed.

Lemma start_like_read {A : Type} (f : ov5670 -> A) (k : A -> M Z) :
  (forall a, start_like (k a)) -> start_like (a <- read f ;; k a).
Proof. intros Hk s. unfold bind, read. cbn [fst snd]. apply Hk. Qed.

Lemma i2c_master_send_eq (buf : list Z) (s : state) :
  i2c_master_send buf s
  = (answers (krn s) (asked (krn s)),
     mk_state (drv s)
              (log (EvI2cMasterSend buf (answers (krn s) (asked (krn s))))
                   (next_answer (krn s)))).
Proof. reflexivity. Qed.

Lemma write_reg_8bit_start_like (reg value : Z) :
  start_like (ov5670_write_reg reg OV5670_REG_VALUE_08BIT value).
Proof.
  intros s. unfold ov5670_write_reg, OV5670_REG_VALUE_08BIT.
  change (4 <? 1) with false. cbv iota.
  set (buf := _ ++ _).
  unfold bind. rewrite i2c_master_send_eq. unfold pure, log.
  cbn [fst snd drv krn].
  set (n := answers (krn s) (asked (krn s))).
  assert (Hlen : Z.of_nat (length buf) = 3) by reflexivity.
  change (1 + 2) with 3.
  destruct (Z.eqb_spec n 3) as [H3 | Hn3]; cbn [negb fst snd drv krn trace usage_count next_answer];
    (repeat split; eexists; split; [reflexivity |]).
  - left. split; [reflexivity |]. constructor; [| constructor].
    split; [reflexivity |]. cbn [step_status]. rewrite Hlen, H3. reflexivity.
  - right. split; [unfold EIO; lia |]. exists [], (EvI2cMasterSend buf n).
    repeat split; [constructor |].
    cbn [step_status]. rewrite Hlen.
    destruct (Z.eqb_spec n 3); [contradiction | reflexivity].
Qed.

Lemma write_regs_start_like (regs : list ov5670_reg) :
  start_like (ov5670_write_regs regs).
Proof.
  induction regs as [| r rest IH]; cbn [ov5670_write_regs].
  - apply start_like_pure_zero.
  - apply start_like_seq; [apply write_reg_8bit_start_like | exact IH].
Qed.

Lemma handler_setup_start_like : start_like __v4l2_ctrl_handler_setup.
Proof.
  intros s. unfold __v4l2_ctrl_handler_setup, bind, ask, in_kernel, pure, log.
  cbn [fst snd drv krn trace usage_count next_answer].
  set (r := answers (krn s) (asked (krn s))).
  repeat split. eexists; split; [reflexivity |].
  destruct (Z.eq_dec r 0) as [H0 | Hn0].
  - left. split; [assumption |]. constructor; [| constructor].
    split; [reflexivity | exact H0].
  - right. split; [assumption |]. exists [], (EvCtrlHandlerSetup r).
    repeat split. constructor.
Qed.

Lemma start_streaming_start_like : start_like ov5670_start_streaming.
Proof.
  unfold ov5670_start_streaming.
  apply start_like_seq; [apply write_reg_8bit_start_like |].
  apply start_like_read; intros mode.
  apply start_like_seq; [apply write_regs_start_like |].
  apply start_like_read; intros mode'.
  apply start_like_seq; [apply write_regs_start_like |].
  apply start_like_seq; [apply handler_setup_start_like |].
  apply start_like_seq; [apply write_reg_8bit_start_like |].
  apply start_like_pure_zero.
Qed.

Lemma stop_streaming_frame (s : state) :
  fst (ov5670_stop_streaming s) = 0
  /\ drv (snd (ov5670_stop_streaming s)) = drv s
  /\ usage_count (krn (snd (ov5670_stop_streaming s))) = usage_count (krn s)
  /\ refs_held (trace (krn (snd (ov5670_stop_streaming s))))
     = refs_held (trace (krn s)).
Proof.
  unfold ov5670_stop_streaming, bind, pure. cbn [fst snd].
  destruct (write_reg_8bit_start_like OV5670_REG_MODE_SELECT OV5670_MODE_STANDBY s)
    as (Hd & Hu & steps & Ht & Hrun).
  repeat split; auto.
  rewrite Ht. unfold refs_held. rewrite !count_events_app.
  destruct (run_no_pm _ _ Hrun) as [-> ->]. lia.
Qed.

Lemma start_streaming_frame (s : state) :
  drv (snd (ov5670_start_streaming s)) = drv s
  /\ usage_count (krn (snd (ov5670_start_streaming s))) = usage_count (krn s)
  /\ refs_held (trace (krn (snd (ov5670_start_streaming s))))
     = refs_held (trace (krn s)).
Proof.
  destruct (start_streaming_start_like s) as (Hd & Hu & steps & Ht & Hrun).
  repeat split; auto.
  rewrite Ht. unfold refs_held. rewrite !count_events_app.
  destruct (run_no_pm _ _ Hrun) as [-> ->]. lia.
Qed.

(** [ov5670_set_stream], branch by branch. *)
Lemma set_stream_eq (enable : Z) (s : state) :
  ov5670_set_stream enable s
  = if int_of_bool (streaming (drv s)) =? enable then (0, s)
    else if bool_of_int enable then
      let got := pm_runtime_get_sync s in
      if fst got <? 0 then (fst got, snd (pm_runtime_put_noidle (snd got)))
      else
        let started := ov5670_start_streaming (snd got) in
        if negb (fst started =? 0)
        then (fst started, snd (pm_runtime_put (snd started)))
        else (fst started,
              snd (driver (set_streaming (bool_of_int enable)) (snd started)))
    else
      let stopped := ov5670_stop_streaming s in
      (fst stopped,
       snd (driver (set_streaming (bool_of_int enable))
                   (snd (pm_runtime_put (snd stopped))))).
Proof.
  unfold ov5670_set_stream, bind, read, pure. cbn [fst snd].
  destruct (int_of_bool (streaming (drv s)) =? enable); [reflexivity |].
  destruct (bool_of_int enable); [| reflexivity].
  cbv zeta.
  destruct (fst (pm_runtime_get_sync s) <? 0); [reflexivity |].
  destruct (negb (fst (ov5670_start_streaming (snd (pm_runtime_get_sync s))) =? 0));
    reflexivity.
Qed.

Lemma get_sync_eq (s : state) :
  pm_runtime_get_sync s
  = (answers (krn s) (asked (krn s)),
     mk_state (drv s)
       (log (EvPmRuntimeGetSync (answers (krn s) (asked (krn s))))
            (set_usage_count (usage_count (krn s) + 1) (next_answer (krn s))))).
Proof. reflexivity. Qed.

Lemma start_step_sub_step (e : event) :
  is_start_step e = true ->
  sub_step_status e = step_status e
  /\ sub_step_failed e = negb (step_status e =? 0).
Proof. destruct e; try discriminate; intros _; split; reflexivity. Qed.

Lemma all_ok_none_failed (steps : list event) :
  all_ok steps -> Forall (fun e => sub_step_failed e = false) steps.
Proof.
  intros Hok. eapply Forall_impl; [| exact Hok].
  intros e [Hstep Hst]. cbv beta in *.
  destruct (start_step_sub_step e Hstep) as [_ ->]. rewrite Hst. reflexivity.
Qed.

(** C3: a call that starts streaming makes the runtime-PM activation and
    then the sub-steps of the start sequence, as the trace shows.  If one of
    them fails (the activation with a negative status, a register write that
    did not send its whole buffer, the control replay with a status other
    than 0), the call returns the status of that sub-step, which is not 0;
    [streaming] stays false; every sub-step before the failing one succeeded
    and the only call made after it is the release of the reference; one
    reference is taken and one released, so that the usage count is what it
    was before the call.  If none fails, the call returns 0 with [streaming]
    set. *)
Theorem set_stream_failing_step_aborts :
  forall (s : state) (enable : Z),
    streaming (drv s) = false ->
    enable <> 0 ->
    0 <= usage_count (krn s) ->
    let r := fst (ov5670_set_stream enable s) in
    let s' := snd (ov5670_set_stream enable s) in
    exists calls,
      trace (krn s') = trace (krn s) ++ calls
      /\ (forall bad,
             In bad calls -> sub_step_failed bad = true ->
             r = sub_step_status bad
             /\ r <> 0
             /\ streaming (drv s') = false
             /\ usage_count (krn s') = usage_count (krn s)
             /\ count_events pm_taken calls = 1
             /\ count_events pm_released calls = 1
             /\ exists before release,
                  calls = before ++ [bad; release]
                  /\ Forall (fun e => sub_step_failed e = false) before
                  /\ ((bad = EvPmRuntimeGetSync r /\ before = []
                       /\ release = EvPmRuntimePutNoidle)
                      \/ (is_start_step bad = true
                          /\ release = EvPmRuntimePut
                          /\ exists g pre,
                               before = EvPmRuntimeGetSync g :: pre
                               /\ 0 <= g /\ all_ok pre)))
      /\ (Forall (fun e => sub_step_failed e = false) calls ->
          r = 0 /\ streaming (drv s') = true).
Proof.
  intros s enable Hidle Hen Hcount. cbv zeta.
  rewrite set_stream_eq, Hidle. cbn [int_of_bool].
  destruct (Z.eqb_spec 0 enable) as [H0 | _]; [congruence |].
  unfold bool_of_int.
  destruct (Z.eqb_spec enable 0) as [H0 | _]; [contradiction |].
  cbn [negb]. cbv zeta. rewrite get_sync_eq. cbn [fst snd].
  set (g := answers (krn s) (asked (krn s))).
  destruct (Z.ltb_spec g 0) as [Hneg | Hpos].
  - (* runtime-PM activation failed *)
    cbn [fst snd].
    unfold pm_runtime_put_noidle, in_kernel, log, set_usage_count.
    cbn [fst snd drv krn usage_count trace gpio_value answers asked next_answer].
    destruct (Z.eqb_spec (usage_count (krn s) + 1) 0) as [Hz | _]; [lia |].
    cbn [usage_count trace].
    exists [EvPmRuntimeGetSync g; EvPmRuntimePutNoidle].
    split; [rewrite <- app_assoc; reflexivity |]. split.
    + intros bad [<- | [<- | []]] Hbad; [| discriminate].
      cbn [sub_step_status].
      split; [reflexivity |]. split; [lia |]. split; [exact Hidle |].
      split; [lia |]. split; [reflexivity |]. split; [reflexivity |].
      exists [], EvPmRuntimePutNoidle.
      split; [reflexivity |]. split; [constructor |].
      left. repeat split.
    + intros Hall. apply Forall_inv in Hall. cbn [sub_step_failed] in Hall.
      apply Z.ltb_ge in Hall. lia.
  - (* the start sequence ran *)
    set (s1 := mk_state _ _).
    destruct (start_streaming_start_like s1) as (Hd & Hu & steps & Ht & Hrun).
    assert (Hg : sub_step_failed (EvPmRuntimeGetSync g) = false)
      by (apply Z.ltb_ge; exact Hpos).
    destruct (Z.eqb_spec (fst (ov5670_start_streaming s1)) 0) as [Hok | Hbad];
      cbn [negb fst snd].
    + (* every sub-step succeeded *)
      destruct Hrun as [[_ Hall] | [Hne _]]; [| contradiction].
      pose proof (all_ok_none_failed steps Hall) as Hnone.
      exists (EvPmRuntimeGetSync g :: steps).
      unfold driver. cbn [fst snd drv krn]. rewrite Ht. subst s1.
      cbn [drv krn usage_count trace log set_usage_count next_answer].
      split; [rewrite <- !app_assoc; reflexivity |]. split.
      * intros bad [<- | Hin] Hfailed; [congruence |].
        rewrite Forall_forall in Hnone. rewrite (Hnone bad Hin) in Hfailed.
        discriminate.
      * intros _. split; [exact Hok |].
        cbn [streaming set_streaming].
        destruct (Z.eqb_spec enable 0); [contradiction | reflexivity].
    + (* a sub-step of the start sequence failed *)
      destruct Hrun as [[H0 _] | [_ (pre & bad0 & Hsteps & Hpre & Hstep & Hst)]];
        [contradiction |].
      destruct (start_step_sub_step bad0 Hstep) as [Hss Hsf].
      pose proof (all_ok_none_failed pre Hpre) as Hnone.
      destruct (all_ok_no_pm pre Hpre) as [Ht0 Hr0].
      destruct (start_step_no_pm bad0 Hstep) as [Bt Br].
      assert (Hfailed0 : sub_step_failed bad0 = true).
      { rewrite Hsf, Hst.
        destruct (Z.eqb_spec (fst (ov5670_start_streaming s1)) 0);
          [contradiction | reflexivity]. }
      exists ((EvPmRuntimeGetSync g :: pre) ++ [bad0; EvPmRuntimePut]).
      unfold pm_runtime_put, in_kernel, log, set_usage_count.
      cbn [fst snd drv krn usage_count trace].
      rewrite Hd, Hu, Ht, Hsteps. subst s1.
      cbn [drv krn usage_count trace log set_usage_count next_answer].
      split; [cbn [app]; rewrite <- !app_assoc; reflexivity |]. split.
      * intros bad Hin Hfailed.
        assert (Hbad0 : bad = bad0).
        { apply in_app_or in Hin. destruct Hin as [[<- | Hin] | [Hin | [<- | []]]].
          - congruence.
          - rewrite Forall_forall in Hnone. rewrite (Hnone bad Hin) in Hfailed.
            discriminate.
          - symmetry. exact Hin.
          - discriminate. }
        subst bad. rewrite Hss, Hst.
        split; [reflexivity |]. split; [exact Hbad |].
        split; [exact Hidle |]. split; [lia |].
        split.
        { rewrite count_events_app. cbn [count_events fold_right pm_taken].
          fold (count_events pm_taken pre). rewrite Ht0, Bt. reflexivity. }
        split.
        { rewrite count_events_app. cbn [count_events fold_right pm_released].
          fold (count_events pm_released pre). rewrite Hr0, Br. reflexivity. }
        exists (EvPmRuntimeGetSync g :: pre), EvPmRuntimePut.
        split; [reflexivity |].
        split; [constructor; [exact Hg | exact Hnone] |].
        right. split; [exact Hstep |]. split; [reflexivity |].
        exists g, pre. split; [reflexivity |]. split; [exact Hpos | exact Hpre].
      * intros Hall. rewrite Forall_forall in Hall.
        rewrite (Hall bad0) in Hfailed0; [discriminate |].
        apply in_or_app. right. left. reflexivity.
Qed.

Lemma set_stream_failing_step_witness :
  let s := mk_state unprobed (fresh_kernel all_succeed) in
  let bad := EvI2cMasterSend [1; 3; 1] 0 in
  exists calls,
    trace (krn (snd (ov5670_set_stream 1 s))) = calls
    /\ In bad calls /\ sub_step_failed bad = true
    /\ fst (ov5670_set_stream 1 s) = - EIO
    /\ streaming (drv (snd (ov5670_set_stream 1 s))) = false
    /\ usage_count (krn (snd (ov5670_set_stream 1 s))) = 0.
Proof.
  cbv zeta.
  destruct (set_stream_failing_step_aborts
              (mk_state unprobed (fresh_kernel all_succeed)) 1
              eq_refl ltac:(discriminate) ltac:(cbn; lia))
    as (calls & Ht & Hfail & _).
  exists calls. cbn [trace krn fresh_kernel app] in Ht.
  split; [exact Ht |].
  assert (Hin : In (EvI2cMasterSend [1; 3; 1] 0) calls).
  { rewrite <- Ht. vm_compute. right. left. reflexivity. }
  split; [exact Hin |]. split; [reflexivity |].
  destruct (Hfail _ Hin eq_refl) as (Hr & _ & Hs & Hu & _).
  split; [rewrite Hr; reflexivity |]. split; [exact Hs | exact Hu].
Defined.

Lemma refs_held_app (t t' : list event) :
  refs_held (t ++ t') = refs_held t + refs_held t'.
Proof. unfold refs_held. rewrite !count_events_app. lia. Qed.

Lemma set_stream_keeps_inv (enable : Z) (s : state) :
  stream_inv s -> stream_inv (snd (ov5670_set_stream enable s)).
Proof.
  unfold stream_inv. intros [Hu Hh].
  rewrite set_stream_eq.
  destruct (Z.eqb_spec (int_of_bool (streaming (drv s))) enable) as [_ | Hne];
    [split; assumption |].
  assert (Hb : 0 <= int_of_bool (streaming (drv s)))
    by (destruct (streaming (drv s)); cbn; lia).
  destruct (bool_of_int enable) eqn:Hen; cbv zeta.
  - rewrite get_sync_eq. cbn [fst snd].
    set (g := answers (krn s) (asked (krn s))).
    set (s1 := mk_state _ _).
    assert (Hu1 : usage_count (krn s1) = usage_count (krn s) + 1) by reflexivity.
    assert (Hh1 : refs_held (trace (krn s1)) = refs_held (trace (krn s)) + 1).
    { subst s1. cbn [krn trace log]. rewrite refs_held_app. reflexivity. }
    assert (Hd1 : drv s1 = drv s) by reflexivity.
    destruct (g <? 0).
    + cbn [fst snd].
      unfold pm_runtime_put_noidle, in_kernel, log, set_usage_count.
      cbn [fst snd drv krn]. rewrite Hd1.
      destruct (Z.eqb_spec (usage_count (krn s1)) 0) as [Hz | _]; [lia |].
      cbn [usage_count trace]. rewrite refs_held_app, Hu1, Hh1.
      change (refs_held [EvPmRuntimePutNoidle]) with (-1). lia.
    + destruct (start_streaming_frame s1) as (Hd & Hus & Hhs).
      destruct (negb (fst (ov5670_start_streaming s1) =? 0)); cbn [fst snd].
      * unfold pm_runtime_put, in_kernel, log, set_usage_count.
        cbn [fst snd drv krn usage_count trace].
        rewrite Hd, Hd1, Hus, Hu1, refs_held_app, Hhs, Hh1.
        change (refs_held [EvPmRuntimePut]) with (-1). lia.
      * unfold driver. cbn [fst snd drv krn streaming set_streaming int_of_bool].
        rewrite Hus, Hu1, Hhs, Hh1. lia.
  - destruct (stop_streaming_frame s) as (_ & Hd & Hus & Hhs).
    cbn [fst snd].
    unfold driver, pm_runtime_put, in_kernel, log, set_usage_count.
    cbn [fst snd drv krn usage_count trace streaming set_streaming int_of_bool].
    rewrite Hus, refs_held_app, Hhs.
    change (refs_held [EvPmRuntimePut]) with (-1).
    assert (Hon : streaming (drv s) = true).
    { unfold bool_of_int in Hen.
      destruct (Z.eqb_spec enable 0) as [E0 | _]; [| discriminate Hen].
      destruct (streaming (drv s)); [reflexivity |].
      contradiction Hne. symmetry. exact E0. }
    rewrite Hon in Hu, Hh. cbn [int_of_bool] in Hu, Hh. lia.
Qed.

Lemma suspend_keeps_inv (s : state) :
  stream_inv s -> stream_inv (snd (ov5670_suspend s)).
Proof.
  unfold stream_inv, ov5670_suspend, bind, read, pure. cbn [fst snd].
  destruct (streaming (drv s)) eqn:Hon; cbn [fst snd]; [| rewrite Hon; auto].
  destruct (stop_streaming_frame s) as (_ & Hd & Hu & Hh).
  rewrite Hd, Hu, Hh, Hon. auto.
Qed.

Lemma resume_keeps_inv (s : state) :
  stream_inv s -> stream_inv (snd (ov5670_resume s)).
Proof.
  unfold stream_inv, ov5670_resume, bind, read, pure. cbn [fst snd].
  destruct (streaming (drv s)) eqn:Hon; cbn [fst snd]; [| rewrite Hon; auto].
  destruct (start_streaming_frame s) as (Hd & Hu & Hh).
  destruct (negb (fst (ov5670_start_streaming s) =? 0)); cbn [fst snd].
  - destruct (stop_streaming_frame (snd (ov5670_start_streaming s)))
      as (_ & Hd' & Hu' & Hh').
    rewrite Hd', Hu', Hh', Hd, Hu, Hh, Hon. auto.
  - rewrite Hd, Hu, Hh, Hon. auto.
Qed.

Lemma reachable_inv (s : state) : reachable s -> stream_inv s.
Proof.
  induction 1 as [s (Hs & Ht & Hu) | s enable _ IH | s _ IH | s _ IH].
  - unfold stream_inv. rewrite Hs, Ht. cbn. lia.
  - apply set_stream_keeps_inv, IH.
  - apply suspend_keeps_inv, IH.
  - apply resume_keeps_inv, IH.
Qed.

(** C8: in every state reached from an idle device by set-stream, suspend
    and resume calls, [streaming] implies that the device is powered: the
    usage count is positive and, by the trace, the driver holds at least one
    runtime-PM reference of its own.  The converse fails: a reachable state
    can be powered without streaming. *)
Theorem streaming_implies_powered :
  (forall s, reachable s ->
     streaming (drv s) = true ->
     powered s = true /\ 1 <= refs_held (trace (krn s)))
  /\ (exists s, reachable s
                /\ powered s = true /\ streaming (drv s) = false).
Proof.
  split.
  - intros s Hreach Hon.
    destruct (reachable_inv s Hreach) as [Hu Hh].
    rewrite Hon in Hu, Hh. cbn [int_of_bool] in Hu, Hh.
    split; [| exact Hh].
    unfold powered. apply Z.ltb_lt. lia.
  - exists (mk_state unprobed
              (set_usage_count 1 (fresh_kernel all_succeed))).
    split; [| split; reflexivity].
    apply reach_idle. repeat split. cbn. lia.
Qed.

(** A run that reaches the streaming state: the kernel lets the start
    sequence through. *)
Lemma streaming_implies_powered_witness :
  let s := snd (ov5670_set_stream 1
                  (mk_state unprobed (fresh_kernel start_succeeds))) in
  reachable s /\ streaming (drv s) = true
  /\ powered s = true /\ 1 <= refs_held (trace (krn s)).
Proof.
  cbv zeta.
  assert (Hreach : reachable (snd (ov5670_set_stream 1
                     (mk_state unprobed (fresh_kernel start_succeeds))))).
  { apply reach_set_stream, reach_idle. repeat split. cbn. lia. }
  assert (Hon : streaming (drv (snd (ov5670_set_stream 1
                     (mk_state unprobed (fresh_kernel start_succeeds))))) = true)
    by (vm_compute; reflexivity).
  split; [exact Hreach |]. split; [exact Hon |].
  exact (proj1 streaming_implies_powered _ Hreach Hon).
Defined.

(** ** Controls *)

Lemma write_reg_keeps_drv (reg len value : Z) (s : state) :
  drv (snd (ov5670_write_reg reg len value s)) = drv s.
Proof.
  unfold ov5670_write_reg.
  destruct (4 <? len); [reflexivity |].
  unfold bind. rewrite i2c_master_send_eq. cbn [fst snd].
  destruct (negb _); reflexivity.
Qed.

Lemma catalog_mode_bounds (m : ov5670_mode) :
  In m supported_modes ->
  360 <= height m <= 1944 /\ 640 <= width m <= 2592
  /\ height m + 24 <= vts_min m <= vts_def m /\ vts_def m <= OV5670_VTS_MAX
  /\ link_freq_index m = 0.
Proof.
  intros Hin. unfold supported_modes in Hin. cbn [In] in Hin.
  unfold OV5670_VTS_MAX.
  repeat (destruct Hin as [<- | Hin];
          [cbn [height width vts_min vts_def link_freq_index];
           unfold OV5670_VTS_30FPS, OV5670_LINK_FREQ_422MHZ_INDEX; lia |]).
  contradiction.
Qed.

Lemma u32_small (z : Z) : 0 <= z < 2 ^ 32 -> u32 z = z.
Proof. intros H. unfold u32. apply Z.mod_small, H. Qed.

Lemma s32_small (z : Z) : - 2 ^ 31 <= z < 2 ^ 31 -> s32 z = z.
Proof. intros H. unfold s32. rewrite Z.mod_small; lia. Qed.

Lemma clamp_in_range (lo hi v : Z) : lo <= hi -> lo <= clamp lo hi v <= hi.
Proof. unfold clamp. lia. Qed.

(** [ov5670_set_ctrl] on the vertical-blanking control: the range of the
    exposure control is updated first, then the hardware part runs on the
    updated state. *)
Lemma set_ctrl_vblank_eq (v : Z) (s : state) (e : v4l2_ctrl) :
  exposure (drv s) = Some e ->
  let max := u32 (height (cur_mode (drv s)) + v - 8) in
  let e' := snd (__v4l2_ctrl_modify_range e (minimum e) max (step e) max) in
  let s1 := mk_state (set_exposure (Some e') (drv s)) (krn s) in
  let got := pm_runtime_get_if_in_use s1 in
  ov5670_set_ctrl V4L2_CID_VBLANK v s
  = if fst got =? 0 then Some (0, snd got)
    else
      let w := ov5670_write_reg OV5670_REG_VTS OV5670_REG_VALUE_16BIT
                 (height (cur_mode (drv s)) + v) (snd got) in
      Some (fst w, snd (pm_runtime_put (snd w))).
Proof.
  intros He. cbv zeta.
  unfold ov5670_set_ctrl, bindP, lift, deref, read, driver, pureP.
  cbn [fst snd drv krn]. rewrite He. cbn [fst snd drv krn].
  destruct (fst (pm_runtime_get_if_in_use _) =? 0); [reflexivity |].
  unfold bind. cbn [fst snd drv krn cur_mode set_exposure].
  reflexivity.
Qed.

Lemma get_if_in_use_eq (s : state) :
  pm_runtime_get_if_in_use s
  = (answers (krn s) (asked (krn s)),
     mk_state (drv s)
       (log (EvPmRuntimeGetIfInUse (answers (krn s) (asked (krn s))))
            (if 0 <? answers (krn s) (asked (krn s))
             then set_usage_count (usage_count (krn s) + 1) (next_answer (krn s))
             else next_answer (krn s)))).
Proof. reflexivity. Qed.

(** C4: with a catalog mode current and [v] within the vertical-blanking
    range of that mode, setting the vertical-blanking control to [v] makes
    the maximum and the default of the exposure control [height + v - 8],
    keeps its minimum and step, and clamps its value into the new range.
    This happens whatever the runtime-PM gate answers; when the gate reports
    the device as not in use the call returns 0 with the range updated and
    without any register write. *)
Theorem vblank_recomputes_exposure_range :
  forall (s : state) (e : v4l2_ctrl) (v : Z),
    In (cur_mode (drv s)) supported_modes ->
    exposure (drv s) = Some e ->
    minimum e = OV5670_EXPOSURE_MIN ->
    step e = OV5670_EXPOSURE_STEP ->
    vts_min (cur_mode (drv s)) - height (cur_mode (drv s)) <= v
      <= OV5670_VTS_MAX - height (cur_mode (drv s)) ->
    let max := height (cur_mode (drv s)) + v - 8 in
    exists r s' e',
      ov5670_set_ctrl V4L2_CID_VBLANK v s = Some (r, s')
      /\ exposure (drv s') = Some e'
      /\ maximum e' = max /\ default_value e' = max
      /\ minimum e' = minimum e /\ step e' = step e
      /\ cur_val e' = clamp (minimum e) max (cur_val e)
      /\ minimum e' <= cur_val e' <= maximum e'
      /\ minimum e' <= default_value e' <= maximum e'
      /\ (answers (krn s) (asked (krn s)) = 0 ->
          r = 0
          /\ trace (krn s') = trace (krn s) ++ [EvPmRuntimeGetIfInUse 0]
          /\ usage_count (krn s') = usage_count (krn s)).
Proof.
  intros s e v Hin He Hmin Hstep Hv. cbv zeta.
  destruct (catalog_mode_bounds _ Hin) as (Hh & _ & Hvts & Hdef & _).
  unfold OV5670_VTS_MAX in *.
  set (h := height (cur_mode (drv s))) in *.
  assert (Hmax : u32 (h + v - 8) = h + v - 8) by (apply u32_small; lia).
  assert (Hrange : check_range (minimum e) (h + v - 8) (step e) (h + v - 8) = true).
  { unfold check_range. rewrite Hmin, Hstep.
    unfold OV5670_EXPOSURE_MIN, OV5670_EXPOSURE_STEP.
    change (negb (1 =? 0)) with true. cbn [andb].
    rewrite !andb_true_iff, !Z.leb_le. lia. }
  rewrite (set_ctrl_vblank_eq v s e He). cbv zeta. fold h.
  rewrite Hmax. unfold __v4l2_ctrl_modify_range. rewrite Hrange. cbn [snd].
  set (e' := mk_ctrl _ _ _ _ _ _ _).
  rewrite get_if_in_use_eq. cbn [fst snd].
  set (a := answers _ _).
  assert (Hclamp : minimum e <= clamp (minimum e) (h + v - 8) (cur_val e) <= h + v - 8).
  { apply clamp_in_range. rewrite Hmin. unfold OV5670_EXPOSURE_MIN. lia. }
  assert (Hdefault : minimum e <= h + v - 8 <= h + v - 8).
  { rewrite Hmin. unfold OV5670_EXPOSURE_MIN. lia. }
  destruct (Z.eqb_spec a 0) as [Ha | Ha].
  - eexists _, _, e'. split; [reflexivity |].
    cbn [drv exposure set_exposure].
    do 6 (split; [reflexivity |]). split; [exact Hclamp |].
    split; [exact Hdefault |].
    intros _. rewrite Ha. cbn [krn trace log usage_count next_answer].
    change (0 <? 0) with false. cbv iota. repeat split.
  - eexists _, _, e'. split; [reflexivity |].
    unfold pm_runtime_put, in_kernel. cbn [fst snd drv].
    rewrite write_reg_keeps_drv. cbn [drv exposure set_exposure].
    do 6 (split; [reflexivity |]). split; [exact Hclamp |].
    split; [exact Hdefault |].
    intros Ha0. subst a. cbn [krn answers asked] in Ha. contradiction.
Qed.

Lemma vblank_recomputes_exposure_range_witness :
  exists e,
    exposure (drv probed) = Some e
    /\ (exists r s' e',
          ov5670_set_ctrl V4L2_CID_VBLANK 1000 probed = Some (r, s')
          /\ exposure (drv s') = Some e'
          /\ maximum e' = 1944 + 1000 - 8
          /\ cur_val e' = 2048).
Proof.
  exists (mk_ctrl V4L2_CID_EXPOSURE 4 2048 1 2048 2048 0).
  split; [vm_compute; reflexivity |].
  destruct (vblank_recomputes_exposure_range probed
              (mk_ctrl V4L2_CID_EXPOSURE 4 2048 1 2048 2048 0) 1000)
    as (r & s' & e' & Hrun & He' & Hmax & _ & _ & _ & Hval & _ & _).
  - vm_compute. left. reflexivity.
  - vm_compute. reflexivity.
  - reflexivity.
  - reflexivity.
  - vm_compute. split; discriminate.
  - exists r, s', e'. repeat split; assumption.
Defined.

(** ** Mode selection *)

Lemma nearest_from_in (rest : list ov5670_mode) (best : ov5670_mode) (w h : Z) :
  In (nearest_from best rest w h) (best :: rest).
Proof.
  revert best. induction rest as [| m rest IH]; intros best; cbn [nearest_from].
  - left. reflexivity.
  - destruct (size_error m w h <? size_error best w h).
    + right. apply IH.
    + destruct (IH best) as [H | H]; [left; exact H | right; right; exact H].
Qed.

Lemma find_nearest_in (array : list ov5670_mode) (w h : Z) (m : ov5670_mode) :
  v4l2_find_nearest_size array w h = Some m -> In m array.
Proof.
  destruct array as [| m0 rest]; cbn [v4l2_find_nearest_size]; [discriminate |].
  intros [= <-]. apply nearest_from_in.
Qed.

Lemma find_nearest_supported (w h : Z) :
  exists m, v4l2_find_nearest_size supported_modes w h = Some m
            /\ In m supported_modes.
Proof.
  destruct (v4l2_find_nearest_size supported_modes w h) as [m |] eqn:Hfind.
  - exists m. split; [reflexivity | eapply find_nearest_in, Hfind].
  - discriminate Hfind.
Qed.

(** A request for the exact size of a catalog mode selects that mode. *)
Lemma find_nearest_exact (m : ov5670_mode) :
  In m supported_modes ->
  v4l2_find_nearest_size supported_modes (s32 (width m)) (s32 (height m)) = Some m.
Proof.
  intros Hin. unfold supported_modes in Hin. cbn [In] in Hin.
  repeat (destruct Hin as [<- | Hin]; [vm_compute; reflexivity |]).
  contradiction.
Qed.

(** [ov5670_set_pad_format] on an active format, once the catalog entry is
    chosen and the control pointers are followed. *)
Lemma set_pad_format_active (try_fmt : v4l2_mbus_framefmt)
      (fmt : v4l2_subdev_format) (s : state) (m : ov5670_mode)
      (lf pr vb hb : v4l2_ctrl) :
  v4l2_find_nearest_size supported_modes
    (s32 (fmt_width (format fmt))) (s32 (fmt_height (format fmt))) = Some m ->
  which fmt <> V4L2_SUBDEV_FORMAT_TRY ->
  link_freq (drv s) = Some lf ->
  pixel_rate (drv s) = Some pr ->
  vblank (drv s) = Some vb ->
  hblank (drv s) = Some hb ->
  let chosen := mk_framefmt (width m) (height m) MEDIA_BUS_FMT_SGRBG10_1X10
                            V4L2_FIELD_NONE in
  let h_blank := s32 (u32 (OV5670_FIXED_PPL - width m)) in
  exists s',
    ov5670_set_pad_format try_fmt fmt s
    = Some (0, try_fmt, mk_subdev_format (which fmt) (pad fmt) chosen, s')
    /\ cur_mode (drv s') = m
    /\ (exists c, link_freq (drv s') = Some c)
    /\ (exists c, pixel_rate (drv s') = Some c)
    /\ (exists c, vblank (drv s') = Some c)
    /\ hblank (drv s')
       = Some (snd (__v4l2_ctrl_modify_range hb h_blank h_blank 1 h_blank))
    /\ exposure (drv s') = exposure (drv s)
    /\ streaming (drv s') = streaming (drv s)
    /\ krn s' = krn s.
Proof.
  intros Hfind Hact Hlf Hpr Hvb Hhb. cbv zeta.
  unfold ov5670_set_pad_format.
  cbn [format fmt_width fmt_height which pad].
  unfold bindP at 1. unfold entry at 1. rewrite Hfind. cbn [fst snd].
  unfold ov5670_update_pad_format. cbn [which pad format].
  destruct (Z.eqb_spec (which fmt) V4L2_SUBDEV_FORMAT_TRY) as [E | _];
    [contradiction |].
  destruct s as [d k]. destruct d. cbn [drv link_freq pixel_rate vblank hblank] in *.
  subst.
  eexists. split; [reflexivity |].
  cbn [drv krn cur_mode link_freq pixel_rate vblank hblank exposure streaming].
  split; [reflexivity |].
  split; [eexists; reflexivity |].
  split; [eexists; reflexivity |].
  split; [eexists; reflexivity |].
  repeat split.
Qed.

Lemma check_range_point (v : Z) : check_range v v 1 v = true.
Proof.
  unfold check_range. change (negb (1 =? 0)) with true.
  rewrite Z.leb_refl. reflexivity.
Qed.

Lemma read_only_add_flag (c : v4l2_ctrl) :
  read_only (add_flag V4L2_CTRL_FLAG_READ_ONLY c).
Proof.
  unfold read_only, add_flag. cbn [flags].
  apply Z.bits_inj'; intros n _.
  rewrite Z.land_spec, Z.lor_spec.
  destruct (Z.testbit (flags c) n), (Z.testbit V4L2_CTRL_FLAG_READ_ONLY n);
    reflexivity.
Qed.

(** Creating a control: nothing happens once the handler has an error;
    otherwise the kernel is asked. *)
Lemma v4l2_ctrl_new_eq (err : Z) (cid : ctrl_id) (min max step def : Z)
      (s : state) :
  v4l2_ctrl_new err cid min max step def true s
  = if negb (err =? 0) then ((None, err), s)
    else
      ((if answers (krn s) (asked (krn s)) =? 0
        then (Some (mk_ctrl cid min max step def def 0), 0)
        else (None, answers (krn s) (asked (krn s)))),
       mk_state (drv s) (next_answer (krn s))).
Proof.
  unfold v4l2_ctrl_new. destruct (negb (err =? 0)); [reflexivity |].
  cbn [negb]. unfold bind, ask, pure. cbn [fst snd].
  destruct (answers (krn s) (asked (krn s)) =? 0); reflexivity.
Qed.

(** The handler's error is sticky: a creation that leaves no error found
    none, made the control, and left the driver's record alone. *)
Lemma v4l2_ctrl_new_sticky (err : Z) (cid : ctrl_id) (min max step def : Z)
      (s : state) :
  let r := v4l2_ctrl_new err cid min max step def true s in
  drv (snd r) = drv s
  /\ (snd (fst r) = 0 ->
      err = 0 /\ fst (fst r) = Some (mk_ctrl cid min max step def def 0)).
Proof.
  cbv zeta. rewrite v4l2_ctrl_new_eq.
  destruct (Z.eqb_spec err 0) as [-> | Hne]; cbn [negb fst snd].
  - split; [reflexivity |].
    destruct (Z.eqb_spec (answers (krn s) (asked (krn s))) 0) as [_ | Hn];
      cbn [fst snd]; [auto | intros H0; contradiction].
  - split; [reflexivity | intros H0; contradiction].
Qed.

Ltac run_bind :=
  lazymatch goal with
  | |- context [@bind ?A ?B ?m ?k ?s] =>
      change (@bind A B m k s) with (k (fst (m s)) (snd (m s))); cbv beta
  end.

Ltac run_new c s' Hd Hc :=
  run_bind;
  lazymatch goal with
  | |- context [v4l2_ctrl_new ?err ?cid ?min ?max ?step ?def true ?s] =>
      destruct (v4l2_ctrl_new_sticky err cid min max step def s) as [Hd Hc];
      destruct (v4l2_ctrl_new err cid min max step def true s) as [c s'];
      cbn [fst snd] in Hd, Hc |- *
  end.

Ltac run_driver :=
  run_bind;
  lazymatch goal with
  | |- context [driver ?f ?s] =>
      change (driver f s) with (tt, mk_state (f (drv s)) (krn s))
  end;
  cbn [fst snd].

(** What a successful [ov5670_init_controls] leaves. *)
Lemma init_controls_ok (s : state) :
  In (cur_mode (drv s)) supported_modes ->
  fst (ov5670_init_controls s) = 0 ->
  let d := drv (snd (ov5670_init_controls s)) in
  cur_mode d = cur_mode (drv s)
  /\ hblank_fixed d
  /\ controls_present d
  /\ exists e, exposure d = Some e
               /\ minimum e = OV5670_EXPOSURE_MIN
               /\ step e = OV5670_EXPOSURE_STEP.
Proof.
  intros Hin. cbv zeta.
  destruct (catalog_mode_bounds _ Hin) as (Hh & Hw & Hvts & Hdef & _).
  unfold OV5670_VTS_MAX in *.
  unfold ov5670_init_controls.
  unfold v4l2_ctrl_new_std, v4l2_ctrl_new_int_menu, v4l2_ctrl_new_std_menu_items.
  unfold read, ask.
  run_bind. cbn [fst snd drv krn].
  destruct (Z.eqb_spec (answers (krn s) (asked (krn s))) 0) as [_ | Hn];
    cbn [negb]; [| intros H0; contradiction].
  run_bind. cbn [fst snd drv krn].
  set (m := cur_mode (drv s)) in *.
  set (hb := u32 (OV5670_FIXED_PPL - width m)).
  assert (Hhb : hb = OV5670_FIXED_PPL - width m).
  { subst hb. apply u32_small. unfold OV5670_FIXED_PPL. lia. }
  rewrite (check_range_point hb).
  assert (Hvb : check_range (u32 (vts_min m - height m))
                  (u32 (65535 - height m)) 1 (u32 (vts_def m - height m)) = true).
  { rewrite !u32_small by lia. unfold check_range.
    change (negb (1 =? 0)) with true. cbn [andb].
    rewrite !andb_true_iff, !Z.leb_le. lia. }
  assert (Hex : check_range OV5670_EXPOSURE_MIN (u32 (vts_def m - 8))
                  OV5670_EXPOSURE_STEP (u32 (vts_def m - 8)) = true).
  { rewrite !u32_small by lia. unfold check_range, OV5670_EXPOSURE_MIN, OV5670_EXPOSURE_STEP.
    change (negb (1 =? 0)) with true. cbn [andb].
    rewrite !andb_true_iff, !Z.leb_le. lia. }
  change OV5670_VTS_MAX with 65535.
  rewrite Hvb, Hex.
  change ((0 <=? 0) && (0 <=? 0) && (0 <=? 0)) with true.
  change (check_range 0 (pixel_rate_of (link_freq_config_at 0)) 1
            (pixel_rate_of (link_freq_config_at 0))) with true.
  change (check_range ANALOG_GAIN_MIN ANALOG_GAIN_MAX ANALOG_GAIN_STEP
            ANALOG_GAIN_DEFAULT) with true.
  change (check_range OV5670_DGTL_GAIN_MIN OV5670_DGTL_GAIN_MAX
            OV5670_DGTL_GAIN_STEP OV5670_DGTL_GAIN_DEFAULT) with true.
  change ((0 <=? ov5670_test_pattern_menu_size - 1) && (0 <=? 0)
          && (0 <=? ov5670_test_pattern_menu_size - 1)) with true.
  run_new c0 s0 Hd0 Hc0. run_driver.
  run_new c1 s1 Hd1 Hc1. run_driver.
  run_new c2 s2 Hd2 Hc2. run_driver.
  run_new c3 s3 Hd3 Hc3. run_driver.
  run_new c4 s4 Hd4 Hc4.
  run_new c5 s5 Hd5 Hc5.
  run_new c6 s6 Hd6 Hc6. run_driver.
  run_new c7 s7 Hd7 Hc7.
  assert (Hfree : forall (r : Z) (s' : state),
             fst ((v4l2_ctrl_handler_free ;; pure r) s') = r) by reflexivity.
  destruct (Z.eqb_spec (snd c7) 0) as [H7 | Hn7]; cbn [negb];
    [| rewrite Hfree; intros H0; contradiction].
  run_bind. cbn [fst snd drv krn].
  destruct (Z.eqb_spec (answers (krn s7) (asked (krn s7))) 0) as [_ | Hn8];
    cbn [negb]; [| rewrite Hfree; intros H0; contradiction].
  run_bind. cbn [fst snd drv krn].
  destruct (Z.eqb_spec (answers (next_answer (krn s7)) (asked (next_answer (krn s7)))) 0)
    as [_ | Hn9]; cbn [negb]; [| rewrite Hfree; intros H0; contradiction].
  intros _. cbn [pure fst snd drv].
  destruct (Hc7 H7) as [H6 _].
  destruct (Hc6 H6) as [H5 E6].
  destruct (Hc5 H5) as [H4 _].
  destruct (Hc4 H4) as [H3 _].
  destruct (Hc3 H3) as [H2 E3].
  destruct (Hc2 H2) as [H1 E2].
  destruct (Hc1 H1) as [H0 E1].
  destruct (Hc0 H0) as [_ E0].
  rewrite Hd7. cbn [drv]. rewrite Hd6, Hd5, Hd4. cbn [drv].
  rewrite Hd3. cbn [drv]. rewrite Hd2. cbn [drv]. rewrite Hd1.
  cbn [drv]. rewrite Hd0. cbn [drv].
  rewrite E0, E1, E2, E3, E6. cbn [option_map].
  unfold hblank_fixed, controls_present.
  cbn [cur_mode hblank link_freq pixel_rate vblank exposure set_exposure
       set_hblank set_vblank set_pixel_rate set_link_freq].
  fold m.
  split; [reflexivity |].
  split.
  { eexists. split; [reflexivity |]. cbn [minimum maximum default_value add_flag].
    split; [exact Hhb |]. split; [exact Hhb |]. split; [exact Hhb |].
    apply (read_only_add_flag (mk_ctrl V4L2_CID_HBLANK hb hb 1 hb hb 0)). }
  split.
  { split; [eexists; reflexivity |].
    split; [eexists; reflexivity |].
    split; [eexists; reflexivity |].
    eexists. split; [reflexivity | apply read_only_add_flag]. }
  eexists. split; [reflexivity |]. split; reflexivity.
Qed.

(** A try format never follows a control pointer. *)
Lemma set_pad_format_try (try_fmt : v4l2_mbus_framefmt) (fmt : v4l2_subdev_format)
      (s : state) (m : ov5670_mode) :
  v4l2_find_nearest_size supported_modes
    (s32 (fmt_width (format fmt))) (s32 (fmt_height (format fmt))) = Some m ->
  which fmt = V4L2_SUBDEV_FORMAT_TRY ->
  let chosen := mk_framefmt (width m) (height m) MEDIA_BUS_FMT_SGRBG10_1X10
                            V4L2_FIELD_NONE in
  ov5670_set_pad_format try_fmt fmt s
  = Some (0, chosen, mk_subdev_format (which fmt) (pad fmt) chosen, s).
Proof.
  intros Hfind Htry. cbv zeta.
  unfold ov5670_set_pad_format.
  cbn [format fmt_width fmt_height which pad].
  unfold bindP at 1. unfold entry at 1. rewrite Hfind. cbn [fst snd].
  unfold ov5670_update_pad_format. cbn [which pad format].
  rewrite Htry. reflexivity.
Qed.

(** An active format follows the four control pointers: when the call
    returns, none of them was NULL. *)
Lemma set_pad_format_active_follows (try_fmt : v4l2_mbus_framefmt)
      (fmt : v4l2_subdev_format) (s : state)
      (x : Z * v4l2_mbus_framefmt * v4l2_subdev_format * state) :
  which fmt <> V4L2_SUBDEV_FORMAT_TRY ->
  ov5670_set_pad_format try_fmt fmt s = Some x ->
  exists lf pr vb hb,
    link_freq (drv s) = Some lf /\ pixel_rate (drv s) = Some pr
    /\ vblank (drv s) = Some vb /\ hblank (drv s) = Some hb.
Proof.
  intros Hact.
  destruct (find_nearest_supported (s32 (fmt_width (format fmt)))
              (s32 (fmt_height (format fmt)))) as (m & Hfind & _).
  unfold ov5670_set_pad_format.
  cbn [format fmt_width fmt_height which pad].
  unfold bindP at 1. unfold entry at 1. rewrite Hfind. cbn [fst snd].
  unfold ov5670_update_pad_format. cbn [which pad format].
  destruct (Z.eqb_spec (which fmt) V4L2_SUBDEV_FORMAT_TRY) as [E | _];
    [contradiction |].
  destruct s as [d k].
  destruct d as [lf pr vb hb ex cm st re ce].
  destruct lf as [lf |]; [| discriminate].
  destruct pr as [pr |]; [| discriminate].
  destruct vb as [vb |]; [| discriminate].
  destruct hb as [hb |]; [| discriminate].
  intros _. exists lf, pr, vb, hb. repeat split.
Qed.

Lemma modify_range_point (c : v4l2_ctrl) (v : Z) :
  snd (__v4l2_ctrl_modify_range c v v 1 v)
  = mk_ctrl (id c) v v 1 v (clamp v v (cur_val c)) (flags c).
Proof.
  unfold __v4l2_ctrl_modify_range. rewrite check_range_point. reflexivity.
Qed.

(** C5: the horizontal-blanking control is pinned to [2724 - width] of the
    current mode and read-only.  A successful [ov5670_init_controls] creates
    it so; every [ov5670_set_pad_format] that selects a mode leaves it so for
    the catalog mode it selected, and one that only tries a format leaves the
    device untouched; and a control so pinned has minimum, maximum and
    default each adding up with the mode's width to 2724. *)
Theorem hblank_fixed_per_mode :
  (forall s,
      In (cur_mode (drv s)) supported_modes ->
      fst (ov5670_init_controls s) = 0 ->
      hblank_fixed (drv (snd (ov5670_init_controls s))))
  /\ (forall s try_fmt fmt,
        controls_present (drv s) ->
        exists t fmt' s',
          ov5670_set_pad_format try_fmt fmt s = Some (0, t, fmt', s')
          /\ controls_present (drv s')
          /\ (which fmt <> V4L2_SUBDEV_FORMAT_TRY ->
              In (cur_mode (drv s')) supported_modes
              /\ hblank_fixed (drv s'))
          /\ (which fmt = V4L2_SUBDEV_FORMAT_TRY -> s' = s))
  /\ (forall d c,
        hblank_fixed d -> hblank d = Some c ->
        minimum c + width (cur_mode d) = 2724
        /\ maximum c + width (cur_mode d) = 2724
        /\ default_value c + width (cur_mode d) = 2724
        /\ read_only c).
Proof.
  split; [| split].
  - intros s Hin Hok. apply (init_controls_ok s Hin Hok).
  - intros s try_fmt fmt ((lf & Hlf) & (pr & Hpr) & (vb & Hvb) & (hb & Hhb & Hro)).
    destruct (find_nearest_supported (s32 (fmt_width (format fmt)))
                (s32 (fmt_height (format fmt)))) as (m & Hfind & Hin).
    destruct (Z.eq_dec (which fmt) V4L2_SUBDEV_FORMAT_TRY) as [Htry | Hact].
    + rewrite (set_pad_format_try try_fmt fmt s m Hfind Htry). cbv zeta.
      eexists _, _, s. split; [reflexivity |].
      split; [| split; [intros H; contradiction | reflexivity]].
      repeat split; eauto.
    + destruct (set_pad_format_active try_fmt fmt s m lf pr vb hb
                  Hfind Hact Hlf Hpr Hvb Hhb)
        as (s' & Hrun & Hcur & Hlf' & Hpr' & Hvb' & Hhb' & _).
      cbv zeta in Hrun, Hhb'.
      destruct (catalog_mode_bounds _ Hin) as (_ & Hw & _).
      assert (Hh : s32 (u32 (OV5670_FIXED_PPL - width m))
                   = OV5670_FIXED_PPL - width m).
      { unfold OV5670_FIXED_PPL.
        rewrite u32_small by lia. apply s32_small. lia. }
      rewrite Hh, modify_range_point in Hhb'.
      eexists _, _, s'. split; [exact Hrun |].
      unfold controls_present, hblank_fixed. rewrite Hhb', Hcur.
      split; [| split; [| intros H; contradiction]].
      * split; [exact Hlf' |]. split; [exact Hpr' |]. split; [exact Hvb' |].
        eexists. split; [reflexivity | exact Hro].
      * intros _. split; [exact Hin |].
        eexists. split; [reflexivity |].
        cbn [minimum maximum default_value].
        repeat split. exact Hro.
  - intros d c (c' & Hc' & Hmin & Hmax & Hdef & Hro) Hc.
    rewrite Hc' in Hc. injection Hc as <-.
    unfold OV5670_FIXED_PPL in *. repeat split; try lia. exact Hro.
Qed.

Lemma hblank_fixed_per_mode_witness :
  hblank (drv probed) = Some (mk_ctrl V4L2_CID_HBLANK 132 132 1 132 132 4)
  /\ exists t fmt' s',
       ov5670_set_pad_format no_try_fmt
         (request 1300 700 V4L2_SUBDEV_FORMAT_ACTIVE) probed
       = Some (0, t, fmt', s')
       /\ width (cur_mode (drv s')) = 1280
       /\ hblank_fixed (drv s').
Proof.
  split; [vm_compute; reflexivity |].
  assert (Hin : In (cur_mode (drv (mk_state unprobed (fresh_kernel all_succeed))))
                   supported_modes) by (left; reflexivity).
  assert (Hok : fst (ov5670_init_controls
                       (mk_state unprobed (fresh_kernel all_succeed))) = 0)
    by (vm_compute; reflexivity).
  destruct (init_controls_ok _ Hin Hok) as (_ & _ & Hpresent & _).
  destruct (proj1 (proj2 hblank_fixed_per_mode) probed no_try_fmt
              (request 1300 700 V4L2_SUBDEV_FORMAT_ACTIVE) Hpresent)
    as (t & fmt' & s' & Hrun & _ & Hact & _).
  exists t, fmt', s'. split; [exact Hrun |].
  split; [| apply Hact; discriminate].
  assert (Hs' : option_map (fun x => width (cur_mode (drv (snd x))))
                  (ov5670_set_pad_format no_try_fmt
                     (request 1300 700 V4L2_SUBDEV_FORMAT_ACTIVE) probed)
                = Some 1280) by (vm_compute; reflexivity).
  rewrite Hrun in Hs'. cbn [option_map snd] in Hs'.
  injection Hs' as Hs'. exact Hs'.
Defined.

(** A request for the exact size of a catalog mode, on a device whose
    controls are there. *)
Lemma set_pad_format_exact (try_fmt : v4l2_mbus_framefmt)
      (fmt : v4l2_subdev_format) (s : state) (m : ov5670_mode)
      (lf pr vb hb : v4l2_ctrl) :
  In m supported_modes ->
  format fmt = mk_framefmt (width m) (height m) MEDIA_BUS_FMT_SGRBG10_1X10
                           V4L2_FIELD_NONE ->
  which fmt <> V4L2_SUBDEV_FORMAT_TRY ->
  link_freq (drv s) = Some lf ->
  pixel_rate (drv s) = Some pr ->
  vblank (drv s) = Some vb ->
  hblank (drv s) = Some hb ->
  exists t2 s2,
    ov5670_set_pad_format try_fmt fmt s = Some (0, t2, fmt, s2)
    /\ cur_mode (drv s2) = m.
Proof.
  intros Hin Hfmt Hact Hlf Hpr Hvb Hhb.
  assert (Hfind : v4l2_find_nearest_size supported_modes
                    (s32 (fmt_width (format fmt))) (s32 (fmt_height (format fmt)))
                  = Some m).
  { rewrite Hfmt. cbn [fmt_width fmt_height]. apply find_nearest_exact, Hin. }
  destruct (set_pad_format_active try_fmt fmt s m lf pr vb hb
              Hfind Hact Hlf Hpr Hvb Hhb) as (s2 & Hrun & Hcur & _).
  cbv zeta in Hrun. rewrite <- Hfmt in Hrun.
  assert (Heta : mk_subdev_format (which fmt) (pad fmt) (format fmt) = fmt)
    by (destruct fmt; reflexivity).
  rewrite Heta in Hrun.
  exists try_fmt, s2. split; [exact Hrun | exact Hcur].
Qed.

(** C6: when [ov5670_set_pad_format] returns, it has selected a catalog
    mode [m], the nearest to the request with ties going to the earlier
    entry, and written its size into the caller's format; a request for
    exactly that size selects [m] again, so a second call with the format the
    first one handed back returns the same format and, when the format is
    active, leaves the same current mode. *)
Theorem mode_selection_idempotent :
  forall (s : state) (try_fmt : v4l2_mbus_framefmt) (fmt : v4l2_subdev_format)
         (r : Z) (t : v4l2_mbus_framefmt) (fmt1 : v4l2_subdev_format)
         (s1 : state),
    ov5670_set_pad_format try_fmt fmt s = Some (r, t, fmt1, s1) ->
    exists m,
      In m supported_modes
      /\ v4l2_find_nearest_size supported_modes
           (s32 (fmt_width (format fmt))) (s32 (fmt_height (format fmt)))
         = Some m
      /\ fmt_width (format fmt1) = width m
      /\ fmt_height (format fmt1) = height m
      /\ (which fmt <> V4L2_SUBDEV_FORMAT_TRY -> cur_mode (drv s1) = m)
      /\ v4l2_find_nearest_size supported_modes
           (s32 (width m)) (s32 (height m)) = Some m
      /\ forall try_fmt2,
           exists t2 s2,
             ov5670_set_pad_format try_fmt2 fmt1 s1 = Some (0, t2, fmt1, s2)
             /\ (which fmt <> V4L2_SUBDEV_FORMAT_TRY ->
                 cur_mode (drv s2) = m).
Proof.
  intros s try_fmt fmt r t fmt1 s1 Hrun.
  destruct (find_nearest_supported (s32 (fmt_width (format fmt)))
              (s32 (fmt_height (format fmt)))) as (m & Hfind & Hin).
  pose proof (find_nearest_exact m Hin) as Hexact.
  exists m. split; [exact Hin |]. split; [exact Hfind |].
  destruct (Z.eq_dec (which fmt) V4L2_SUBDEV_FORMAT_TRY) as [Htry | Hact].
  - (* try format *)
    rewrite (set_pad_format_try try_fmt fmt s m Hfind Htry) in Hrun.
    cbv zeta in Hrun. injection Hrun as Hr Ht Hf Hs.
    assert (Hfmt : format fmt1
                   = mk_framefmt (width m) (height m)
                       MEDIA_BUS_FMT_SGRBG10_1X10 V4L2_FIELD_NONE)
      by (rewrite <- Hf; reflexivity).
    assert (Hwhich : which fmt1 = V4L2_SUBDEV_FORMAT_TRY)
      by (rewrite <- Hf; exact Htry).
    rewrite Hfmt. cbn [fmt_width fmt_height].
    split; [reflexivity |]. split; [reflexivity |].
    split; [intros H; contradiction |]. split; [exact Hexact |].
    intros try_fmt2. exists (format fmt1), s1.
    rewrite (set_pad_format_try try_fmt2 fmt1 s1 m);
      [| rewrite Hfmt; exact Hexact | exact Hwhich].
    cbv zeta. rewrite <- Hfmt.
    split; [destruct fmt1; reflexivity | intros H; contradiction].
  - (* active format *)
    destruct (set_pad_format_active_follows _ _ _ _ Hact Hrun)
      as (lf & pr & vb & hb & Hlf & Hpr & Hvb & Hhb).
    destruct (set_pad_format_active try_fmt fmt s m lf pr vb hb
                Hfind Hact Hlf Hpr Hvb Hhb)
      as (s' & Hrun' & Hcur & Hlf1 & Hpr1 & Hvb1 & Hhb1 & _).
    cbv zeta in Hrun', Hhb1.
    rewrite Hrun' in Hrun. injection Hrun as Hr Ht Hf Hs.
    subst s'.
    assert (Hfmt : format fmt1
                   = mk_framefmt (width m) (height m)
                       MEDIA_BUS_FMT_SGRBG10_1X10 V4L2_FIELD_NONE)
      by (rewrite <- Hf; reflexivity).
    assert (Hwhich : which fmt1 <> V4L2_SUBDEV_FORMAT_TRY)
      by (rewrite <- Hf; exact Hact).
    clear Hf Hrun'.
    set (hb1 := snd _) in Hhb1. clearbody hb1.
    destruct Hlf1 as [lf1 Hlf1]. destruct Hpr1 as [pr1 Hpr1].
    destruct Hvb1 as [vb1 Hvb1].
    rewrite Hfmt. cbn [fmt_width fmt_height].
    split; [reflexivity |]. split; [reflexivity |].
    split; [intros _; exact Hcur |]. split; [exact Hexact |].
    intros try_fmt2.
    destruct (set_pad_format_exact try_fmt2 fmt1 s1 m lf1 pr1 vb1 hb1
                Hin Hfmt Hwhich Hlf1 Hpr1 Hvb1 Hhb1) as (t2 & s2 & Hrun2 & Hcur2).
    exists t2, s2. split; [exact Hrun2 | intros _; exact Hcur2].
Qed.

(** The scenario of the specification, on the full catalog: a request for
    1300x700 selects 1280x720, and asking for 1280x720 selects it again. *)
Lemma mode_selection_idempotent_witness :
  exists t fmt1 s1,
    ov5670_set_pad_format no_try_fmt
      (request 1300 700 V4L2_SUBDEV_FORMAT_ACTIVE) probed
    = Some (0, t, fmt1, s1)
    /\ fmt_width (format fmt1) = 1280 /\ fmt_height (format fmt1) = 720
    /\ exists t2 s2,
         ov5670_set_pad_format no_try_fmt fmt1 s1 = Some (0, t2, fmt1, s2)
         /\ cur_mode (drv s2) = cur_mode (drv s1).
Proof.
  destruct (ov5670_set_pad_format no_try_fmt
              (request 1300 700 V4L2_SUBDEV_FORMAT_ACTIVE) probed)
    as [[[[r t] fmt1] s1] |] eqn:Hrun; [| vm_compute in Hrun; discriminate].
  assert (Hr : option_map (fun x => fst (fst (fst x)))
                 (ov5670_set_pad_format no_try_fmt
                    (request 1300 700 V4L2_SUBDEV_FORMAT_ACTIVE) probed)
               = Some 0) by (vm_compute; reflexivity).
  assert (Hw : option_map (fun x => fmt_width (format (snd (fst x))))
                 (ov5670_set_pad_format no_try_fmt
                    (request 1300 700 V4L2_SUBDEV_FORMAT_ACTIVE) probed)
               = Some 1280) by (vm_compute; reflexivity).
  assert (Hh : option_map (fun x => fmt_height (format (snd (fst x))))
                 (ov5670_set_pad_format no_try_fmt
                    (request 1300 700 V4L2_SUBDEV_FORMAT_ACTIVE) probed)
               = Some 720) by (vm_compute; reflexivity).
  rewrite Hrun in Hr, Hw, Hh. cbn [option_map fst snd] in Hr, Hw, Hh.
  injection Hr as ->. injection Hw as Hw. injection Hh as Hh.
  destruct (mode_selection_idempotent _ _ _ _ _ _ _ Hrun)
    as (m & _ & _ & _ & _ & Hcur & _ & Hagain).
  destruct (Hagain no_try_fmt) as (t2 & s2 & Hrun2 & Hcur2).
  exists t, fmt1, s1. split; [reflexivity |].
  split; [exact Hw |]. split; [exact Hh |].
  exists t2, s2. split; [exact Hrun2 |].
  rewrite Hcur2, Hcur; [reflexivity | discriminate | discriminate].
Defined.

(** ** The firmware block reader *)

Lemma memcpy_whole (data bytes : list Z) :
  memcpy data bytes (Z.of_nat (length bytes))
  = bytes ++ skipn (length bytes) data.
Proof.
  unfold memcpy. rewrite Nat2Z.id, firstn_all. reflexivity.
Qed.

(** C7: [read_acpi_block] fails, with the caller's memory untouched, when
    the evaluation fails, when it yields no object or an object that is not
    a buffer, and when the buffer is longer than the caller's capacity;
    otherwise it copies [min (capacity, length)] bytes, which is the whole
    buffer, to the start of the caller's memory and returns the length of the
    buffer as an [int] (the length itself whenever that fits an [int]). *)
Theorem read_acpi_block_contract :
  forall (ev : acpi_evaluation) (data : list Z) (size : Z),
    0 <= size < 2 ^ 32 ->
    let out := read_acpi_block ev data size in
    (status ev <> 0 ->
       returned out = - ENODEV /\ data_after out = data)
    /\ (status ev = 0 -> pointer ev = None ->
          returned out = - ENODEV /\ data_after out = data)
    /\ (forall type, status ev = 0 ->
          pointer ev = Some (acpi_non_buffer type) ->
          returned out = - ENODEV /\ data_after out = data)
    /\ (forall bytes, status ev = 0 ->
          pointer ev = Some (acpi_buffer bytes) ->
          let length := Z.of_nat (List.length bytes) in
          (size < length ->
             returned out = - ENODEV /\ data_after out = data)
          /\ (length <= size ->
                returned out = s32 length
                /\ (length < 2 ^ 31 -> returned out = length)
                /\ data_after out = memcpy data bytes (Z.min size length)
                /\ data_after out = bytes ++ skipn (List.length bytes) data)).
Proof.
  intros ev data size Hsize. cbv zeta.
  unfold read_acpi_block, ACPI_SUCCESS.
  rewrite (u32_small size Hsize).
  destruct (Z.eqb_spec (status ev) 0) as [Hst | Hst]; cbn [negb].
  - split; [intros H; contradiction |].
    split; [intros _ ->; split; reflexivity |].
    split; [intros type _ ->; split; reflexivity |].
    intros bytes _ ->.
    destruct (Z.ltb_spec size (Z.of_nat (length bytes))) as [Hlt | Hge].
    + split; [intros _; split; reflexivity | intros H; lia].
    + split; [intros H; lia |]. intros _. cbn [returned data_after].
      split; [reflexivity |].
      split; [intros Hint; apply s32_small; lia |].
      split; [reflexivity |].
      rewrite Z.min_r by lia. apply memcpy_whole.
  - split; [intros _; split; reflexivity |].
    split; [intros H; contradiction |].
    split; [intros type H; contradiction |].
    intros bytes H; contradiction.
Qed.

(** A buffer of [N = 4] bytes read with capacity [N - 1] fails and copies
    nothing; read with capacity [N + 2] it is copied whole and its length
    returned. *)
Lemma read_acpi_block_contract_witness :
  let ev := mk_evaluation 0 (Some (acpi_buffer [1; 2; 3; 4])) in
  (returned (read_acpi_block ev [9; 9; 9] 3) = - ENODEV
   /\ data_after (read_acpi_block ev [9; 9; 9] 3) = [9; 9; 9])
  /\ (returned (read_acpi_block ev [9; 9; 9; 9; 9; 9] 6) = 4
      /\ data_after (read_acpi_block ev [9; 9; 9; 9; 9; 9] 6)
         = [1; 2; 3; 4; 9; 9]).
Proof.
  cbv zeta. split.
  - destruct (read_acpi_block_contract
                (mk_evaluation 0 (Some (acpi_buffer [1; 2; 3; 4])))
                [9; 9; 9] 3 ltac:(lia)) as (_ & _ & _ & Hbuf).
    destruct (Hbuf [1; 2; 3; 4] eq_refl eq_refl) as [Hsmall _].
    apply Hsmall. cbn. lia.
  - destruct (read_acpi_block_contract
                (mk_evaluation 0 (Some (acpi_buffer [1; 2; 3; 4])))
                [9; 9; 9; 9; 9; 9] 6 ltac:(lia)) as (_ & _ & _ & Hbuf).
    destruct (Hbuf [1; 2; 3; 4] eq_refl eq_refl) as [_ Hfits].
    destruct Hfits as (_ & Hlen & _ & Hdata); [cbn; lia |].
    split; [apply Hlen; cbn; lia | exact Hdata].
Defined.

(** ** Further properties *)

Lemma nearest_from_least (rest : list ov5670_mode) (best : ov5670_mode)
      (w h : Z) (m' : ov5670_mode) :
  In m' (best :: rest) ->
  size_error (nearest_from best rest w h) w h <= size_error m' w h.
Proof.
  revert best m'. induction rest as [| m rest IH]; intros best m' Hin;
    cbn [nearest_from].
  - destruct Hin as [<- | []]. lia.
  - destruct (Z.ltb_spec (size_error m w h) (size_error best w h)) as [Hlt | Hge].
    + destruct Hin as [<- | Hin].
      * specialize (IH m m (or_introl eq_refl)). lia.
      * apply IH. exact Hin.
    + destruct Hin as [<- | [<- | Hin]].
      * apply IH. left. reflexivity.
      * specialize (IH best best (or_introl eq_refl)). lia.
      * apply IH. right. exact Hin.
Qed.

Lemma find_nearest_least (array : list ov5670_mode) (w h : Z)
      (m m' : ov5670_mode) :
  v4l2_find_nearest_size array w h = Some m ->
  In m' array ->
  size_error m w h <= size_error m' w h.
Proof.
  destruct array as [| m0 rest]; cbn [v4l2_find_nearest_size]; [discriminate |].
  intros [= <-]. apply nearest_from_least.
Qed.

Lemma catalog_widths_distinct (m m' : ov5670_mode) :
  In m supported_modes -> In m' supported_modes ->
  width m = width m' -> m = m'.
Proof.
  unfold supported_modes. cbn [In]. intros Hm Hm'.
  repeat (destruct Hm as [<- | Hm]; [| try contradiction]);
    repeat (destruct Hm' as [<- | Hm']; [| try contradiction]);
    cbn [width]; intros Hw; first [reflexivity | discriminate Hw].
Qed.

(** X1: idempotence of mode selection does not hang on how ties are broken:
    whatever rule picks a catalog entry at least distance from the request,
    asking for the size of the entry it picked picks that entry again. *)
Theorem any_nearest_rule_is_idempotent :
  forall (select : Z -> Z -> option ov5670_mode),
    (forall w h m,
        select w h = Some m ->
        In m supported_modes
        /\ forall m', In m' supported_modes ->
                      size_error m w h <= size_error m' w h) ->
    forall w h m m2,
      select w h = Some m ->
      select (width m) (height m) = Some m2 ->
      m2 = m.
Proof.
  intros select Hnearest w h m m2 Hfirst Hsecond.
  destruct (Hnearest _ _ _ Hfirst) as [Hin _].
  destruct (Hnearest _ _ _ Hsecond) as [Hin2 Hleast].
  specialize (Hleast m Hin).
  apply catalog_widths_distinct; [exact Hin2 | exact Hin |].
  unfold size_error in Hleast.
  replace (width m - width m) with 0 in Hleast by lia.
  replace (height m - height m) with 0 in Hleast by lia.
  cbn [Z.abs Z.add] in Hleast. lia.
Qed.

(** The rule modelled here is such a rule; at the request 1300x700 it picks
    1280x720, and picks it again when asked for 1280x720. *)
Lemma any_nearest_rule_witness :
  exists m,
    v4l2_find_nearest_size supported_modes 1300 700 = Some m
    /\ width m = 1280 /\ height m = 720
    /\ v4l2_find_nearest_size supported_modes (width m) (height m) = Some m.
Proof.
  destruct (v4l2_find_nearest_size supported_modes 1300 700) as [m |] eqn:Hfind;
    [| discriminate Hfind].
  exists m. split; [reflexivity |].
  assert (Hsize : option_map (fun x => (width x, height x))
                    (v4l2_find_nearest_size supported_modes 1300 700)
                  = Some (1280, 720)) by (vm_compute; reflexivity).
  rewrite Hfind in Hsize. cbn [option_map] in Hsize. injection Hsize as Hw Hh.
  split; [exact Hw |]. split; [exact Hh |].
  destruct (find_nearest_supported (width m) (height m)) as (m2 & Hagain & _).
  rewrite Hagain. f_equal.
  apply (any_nearest_rule_is_idempotent (v4l2_find_nearest_size supported_modes))
    with (w := 1300) (h := 700); [| exact Hfind | exact Hagain].
  intros w h m0 Hsel. split; [eapply find_nearest_in, Hsel |].
  intros m' Hin'. eapply find_nearest_least; [exact Hsel | exact Hin'].
Defined.

(** X2: during power-up every step of the turn-on block runs, in order, whatever
    the steps before it reported: the firmware-declared GPIO lines, the
    companion's GPIO bank, the regulator bundle, then the clock. *)
Theorem power_ctrl_on_runs_every_step :
  forall (s : state),
    exists rest,
      trace (krn (snd (power_ctrl true s)))
      = trace (krn s)
        ++ gpio_crs_events true ++ gpio_pmic_events true
        ++ [ EvRegulatorBulkEnable (answers (krn s) (asked (krn s)));
             EvClkPrepareEnable (answers (krn s) (S (asked (krn s)))) ]
        ++ rest.
Proof.
  intros s. open_state s.
  eexists. cbn. repeat rewrite <- app_assoc. cbn [app]. reflexivity.
Qed.

(** ** The register layer *)

Lemma land_255 (x : Z) : Z.land x 0xff = x mod 256.
Proof. change 0xff with (Z.ones 8). rewrite Z.land_ones by lia. reflexivity. Qed.

Lemma shiftr_div (x n : Z) : 0 <= n -> Z.shiftr x n = x / 2 ^ n.
Proof. intros Hn. apply Z.shiftr_div_pow2, Hn. Qed.

Lemma be32_bytes_eq (v : Z) :
  be32_bytes v
  = [ (v / 16777216) mod 256; (v / 65536) mod 256; (v / 256) mod 256;
      v mod 256 ].
Proof.
  unfold be32_bytes. rewrite !land_255, !shiftr_div by lia. reflexivity.
Qed.

(** The [len] bytes [ov5670_write_reg] takes from the value. *)
Lemma payload_spec (v len : Z) :
  0 <= len <= 4 ->
  let payload := skipn (Z.to_nat (4 - len)) (be32_bytes (u32 v)) in
  Z.of_nat (length payload) = len
  /\ Forall is_byte payload
  /\ be_value payload = u32 v mod 2 ^ (8 * len).
Proof.
  intros Hlen. cbv zeta. rewrite be32_bytes_eq.
  assert (Hv : 0 <= u32 v < 2 ^ 32) by (unfold u32; apply Z.mod_pos_bound; lia).
  set (w := u32 v) in *. change (2 ^ 32) with 4294967296 in Hv.
  assert (Hcases : len = 0 \/ len = 1 \/ len = 2 \/ len = 3 \/ len = 4) by lia.
  assert (Hb : forall x, is_byte (x mod 256))
    by (intros x; unfold is_byte; apply Z.mod_pos_bound; lia).
  destruct Hcases as [-> | [-> | [-> | [-> | ->]]]].
  - change (Z.to_nat (4 - 0)) with 4%nat. cbn [skipn length be_value fold_left].
    split; [reflexivity |]. split; [constructor |].
    change (2 ^ (8 * 0)) with 1. rewrite Z.mod_1_r. reflexivity.
  - change (Z.to_nat (4 - 1)) with 3%nat. cbn [skipn length be_value fold_left].
    split; [reflexivity |]. split; [repeat constructor; apply Hb |].
    change (2 ^ (8 * 1)) with 256. lia.
  - change (Z.to_nat (4 - 2)) with 2%nat. cbn [skipn length be_value fold_left].
    split; [reflexivity |]. split; [repeat constructor; apply Hb |].
    change (2 ^ (8 * 2)) with 65536. Z.div_mod_to_equations. lia.
  - change (Z.to_nat (4 - 3)) with 1%nat. cbn [skipn length be_value fold_left].
    split; [reflexivity |]. split; [repeat constructor; apply Hb |].
    change (2 ^ (8 * 3)) with 16777216. Z.div_mod_to_equations. lia.
  - change (Z.to_nat (4 - 4)) with 0%nat. cbn [skipn length be_value fold_left].
    split; [reflexivity |]. split; [repeat constructor; apply Hb |].
    change (2 ^ (8 * 4)) with 4294967296. Z.div_mod_to_equations. lia.
Qed.

Lemma address_bytes (reg : Z) :
  [Z.shiftr (u16 reg) 8; Z.land (u16 reg) 0xff]
  = [u16 reg / 256; u16 reg mod 256].
Proof. rewrite land_255, shiftr_div by lia. reflexivity. Qed.

Lemma u16_bounds (reg : Z) : 0 <= u16 reg < 65536.
Proof. unfold u16. apply Z.mod_pos_bound. lia. Qed.

(** X3: [ov5670_write_reg] refuses a width above 4 with [-EINVAL] and
    without touching the bus.  For a width of 0 to 4 it makes exactly one
    bus write of [len + 2] bytes: the 16-bit address, high byte first, then
    [len] bytes that read back, most significant first, as the value modulo
    [2 ^ (8 * len)], that is the low bytes of the value.  It returns 0 when
    the kernel reports [len + 2] bytes sent and [-EIO] otherwise. *)
Theorem write_reg_wire_format :
  forall (reg len value : Z) (s : state),
    (4 < len -> ov5670_write_reg reg len value s = (- EINVAL, s))
    /\ (0 <= len <= 4 ->
        let r := ov5670_write_reg reg len value s in
        let n := answers (krn s) (asked (krn s)) in
        exists hi lo payload,
          trace (krn (snd r))
          = trace (krn s) ++ [EvI2cMasterSend (hi :: lo :: payload) n]
          /\ is_byte hi /\ is_byte lo /\ be_value [hi; lo] = u16 reg
          /\ Z.of_nat (length payload) = len
          /\ Forall is_byte payload
          /\ be_value payload = u32 value mod 2 ^ (8 * len)
          /\ fst r = (if n =? len + 2 then 0 else - EIO)
          /\ drv (snd r) = drv s).
Proof.
  intros reg len value s. split.
  - intros Hwide. unfold ov5670_write_reg.
    destruct (Z.ltb_spec 4 len) as [_ | H]; [reflexivity | lia].
  - intros Hlen. cbv zeta.
    destruct (payload_spec value len Hlen) as (Hn & Hbytes & Hval).
    unfold ov5670_write_reg.
    destruct (Z.ltb_spec 4 len) as [H | _]; [lia |].
    rewrite address_bytes. unfold bind. rewrite i2c_master_send_eq.
    cbn [fst snd drv krn].
    set (n := answers (krn s) (asked (krn s))).
    pose proof (u16_bounds reg) as Hreg.
    exists (u16 reg / 256), (u16 reg mod 256),
           (skipn (Z.to_nat (4 - len)) (be32_bytes (u32 value))).
    split.
    { destruct (n =? len + 2); reflexivity. }
    unfold is_byte.
    split; [Z.div_mod_to_equations; lia |].
    split; [apply Z.mod_pos_bound; lia |].
    split; [cbn [be_value fold_left]; Z.div_mod_to_equations; lia |].
    split; [exact Hn |]. split; [exact Hbytes |]. split; [exact Hval |].
    split; destruct (n =? len + 2); reflexivity.
Qed.

Lemma be_value_fold_bound (bytes : list Z) (acc : Z) :
  Forall is_byte bytes -> 0 <= acc ->
  0 <= fold_left (fun a b => a * 256 + b) bytes acc
    < (acc + 1) * 256 ^ Z.of_nat (length bytes).
Proof.
  intros Hbytes. revert acc.
  induction Hbytes as [| b t Hb _ IH]; intros acc Hacc.
  - cbn. lia.
  - cbn [fold_left length]. rewrite Nat2Z.inj_succ, Z.pow_succ_r by lia.
    unfold is_byte in Hb.
    specialize (IH (acc * 256 + b) ltac:(lia)).
    assert (Hpow : 0 < 256 ^ Z.of_nat (length t)) by (apply Z.pow_pos_nonneg; lia).
    nia.
Qed.

Lemma be_value_bound (bytes : list Z) :
  Forall is_byte bytes ->
  0 <= be_value bytes < 2 ^ (8 * Z.of_nat (length bytes)).
Proof.
  intros Hbytes.
  pose proof (be_value_fold_bound bytes 0 Hbytes ltac:(lia)) as H.
  unfold be_value. rewrite Z.pow_mul_r by lia. change (2 ^ 8) with 256. lia.
Qed.

Lemma i2c_read_bytes_succ (n : nat) (s : state) :
  i2c_read_bytes (S n) s
  = (u8 (answers (krn s) (asked (krn s)))
       :: fst (i2c_read_bytes n (mk_state (drv s) (next_answer (krn s)))),
     snd (i2c_read_bytes n (mk_state (drv s) (next_answer (krn s))))).
Proof. reflexivity. Qed.

Lemma i2c_read_bytes_spec (n : nat) (s : state) :
  length (fst (i2c_read_bytes n s)) = n
  /\ Forall is_byte (fst (i2c_read_bytes n s))
  /\ drv (snd (i2c_read_bytes n s)) = drv s
  /\ usage_count (krn (snd (i2c_read_bytes n s))) = usage_count (krn s)
  /\ gpio_value (krn (snd (i2c_read_bytes n s))) = gpio_value (krn s)
  /\ answers (krn (snd (i2c_read_bytes n s))) = answers (krn s)
  /\ trace (krn (snd (i2c_read_bytes n s))) = trace (krn s).
Proof.
  revert s. induction n as [| n IH]; intros s.
  - cbn. repeat split. constructor.
  - rewrite i2c_read_bytes_succ. cbn [fst snd].
    set (s1 := mk_state (drv s) (next_answer (krn s))).
    destruct (IH s1) as (Hl & Hb & Hd & Hu & Hg & Ha & Ht).
    rewrite Hd, Hu, Hg, Ha, Ht. cbn [length].
    repeat split; [f_equal; exact Hl |].
    constructor; [| exact Hb].
    unfold is_byte, u8. apply Z.mod_pos_bound. lia.
Qed.

Lemma i2c_transfer_eq (addr : list Z) (len : Z) (s : state) :
  let s1 := mk_state (drv s) (next_answer (krn s)) in
  let bytes := i2c_read_bytes (Z.to_nat len) s1 in
  i2c_transfer addr len s
  = ((answers (krn s) (asked (krn s)), fst bytes),
     mk_state (drv (snd bytes))
       (log (EvI2cTransfer addr len (answers (krn s) (asked (krn s)))
                           (fst bytes))
            (krn (snd bytes)))).
Proof. reflexivity. Qed.

(** X4: [ov5670_read_reg] refuses a width above 4 with [-EINVAL] and without
    touching the bus.  For a width of 0 to 4 it makes one transfer that
    writes the 16-bit address, high byte first, and reads [len] bytes; when
    the kernel does not complete both messages the result is [-EIO] and the
    caller's value is left alone; otherwise the result is 0 and the value is
    the bytes read, most significant first, so it is below [2 ^ (8 * len)]. *)
Theorem read_reg_contract :
  forall (reg len val0 : Z) (s : state),
    (4 < len -> ov5670_read_reg reg len val0 s = ((- EINVAL, val0), s))
    /\ (0 <= len <= 4 ->
        let r := ov5670_read_reg reg len val0 s in
        let n := answers (krn s) (asked (krn s)) in
        drv (snd r) = drv s
        /\ (exists data,
              trace (krn (snd r))
              = trace (krn s)
                ++ [EvI2cTransfer [u16 reg / 256; u16 reg mod 256] len n data]
              /\ Z.of_nat (length data) = len
              /\ Forall is_byte data
              /\ (n = 2 -> snd (fst r) = be_value data))
        /\ (n <> 2 -> fst r = (- EIO, val0))
        /\ (n = 2 -> fst (fst r) = 0 /\ 0 <= snd (fst r) < 2 ^ (8 * len))).
Proof.
  intros reg len val0 s. split.
  - intros Hwide. unfold ov5670_read_reg.
    destruct (Z.ltb_spec 4 len) as [_ | H]; [reflexivity | lia].
  - intros Hlen. cbv zeta. unfold ov5670_read_reg.
    destruct (Z.ltb_spec 4 len) as [H | _]; [lia |].
    rewrite address_bytes. unfold bind. rewrite i2c_transfer_eq. cbv zeta.
    cbn [fst snd].
    set (s1 := mk_state (drv s) (next_answer (krn s))).
    destruct (i2c_read_bytes_spec (Z.to_nat len) s1)
      as (Hl & Hb & Hd & _ & _ & _ & Ht).
    set (data := fst (i2c_read_bytes (Z.to_nat len) s1)) in *.
    set (n := answers (krn s) (asked (krn s))).
    assert (Hlen' : Z.of_nat (length data) = len) by (rewrite Hl; lia).
    pose proof (be_value_bound data Hb) as Hbound. rewrite Hlen' in Hbound.
    destruct (Z.eqb_spec n 2) as [H2 | H2]; cbn [negb pure fst snd drv krn trace log].
    + rewrite Hd, Ht. split; [reflexivity |].
      split; [exists data; repeat split; assumption |].
      split; [intros Hne; contradiction |].
      intros _. split; [reflexivity | exact Hbound].
    + rewrite Hd, Ht. split; [reflexivity |].
      split; [exists data; repeat split; try assumption; intros; contradiction |].
      split; [intros _; reflexivity | intros He; contradiction].
Qed.

Lemma write_reg_8bit_eq (r : ov5670_reg) (s : state) :
  let n := answers (krn s) (asked (krn s)) in
  ov5670_write_reg (address r) 1 (val r) s
  = ((if n =? 3 then 0 else - EIO),
     mk_state (drv s)
       (log (EvI2cMasterSend (reg_buf r) n) (next_answer (krn s)))).
Proof.
  cbv zeta. unfold ov5670_write_reg. change (4 <? 1) with false. cbv iota.
  rewrite address_bytes, be32_bytes_eq.
  change (Z.to_nat (4 - 1)) with 3%nat. cbn [skipn app].
  unfold bind. rewrite i2c_master_send_eq. cbn [fst snd]. change (1 + 2) with 3.
  unfold reg_buf.
  destruct (answers (krn s) (asked (krn s)) =? 3); reflexivity.
Qed.

(** X5: [ov5670_write_regs] writes the entries of a table in order, one
    three-byte bus write each (address high, address low, value), and stops
    at the first write that fails: what it sent is a prefix of the table, the
    failing write is the last one sent and every write before it succeeded.
    Nothing is rolled back.  It returns 0 exactly when the whole table was
    sent and every write succeeded, and [-EIO] otherwise. *)
Theorem write_regs_stops_at_first_failure :
  forall (regs : list ov5670_reg) (s : state),
    let r := ov5670_write_regs regs s in
    exists sends,
      trace (krn (snd r)) = trace (krn s) ++ sends
      /\ map sent sends = map reg_buf (firstn (length sends) regs)
      /\ (length sends <= length regs)%nat
      /\ run (fst r) sends
      /\ (fst r = 0 -> length sends = length regs)
      /\ (fst r = 0 \/ fst r = - EIO).
Proof.
  induction regs as [| r rest IH]; intros s; cbv zeta.
  - exists []. cbn. rewrite app_nil_r.
    repeat split; auto. left. split; [reflexivity | constructor].
  - cbn [ov5670_write_regs]. unfold bind. rewrite write_reg_8bit_eq.
    cbv zeta. cbn [fst snd].
    set (n := answers (krn s) (asked (krn s))).
    set (e := EvI2cMasterSend (reg_buf r) n).
    set (s1 := mk_state _ _).
    destruct (Z.eqb_spec n 3) as [H3 | H3].
    + change (negb (0 =? 0)) with false. cbv iota.
      destruct (IH s1) as (sends & Ht & Hmap & Hle & Hrun & Hall & Hret).
      cbv zeta in Ht, Hrun, Hall, Hret.
      exists (e :: sends). rewrite Ht.
      split; [subst s1; cbn [krn trace log]; rewrite <- app_assoc; reflexivity |].
      split; [cbn [length firstn map sent]; f_equal; exact Hmap |].
      split; [cbn [length]; lia |].
      split.
      { change (e :: sends) with ([e] ++ sends). apply run_then; [| exact Hrun].
        constructor; [| constructor]. split; [reflexivity |].
        cbn [step_status e]. subst e. cbn [step_status length reg_buf Z.of_nat].
        change (Z.of_nat 3) with 3. rewrite H3. reflexivity. }
      split; [intros H0; cbn [length]; f_equal; apply Hall, H0 | exact Hret].
    + change (negb (- EIO =? 0)) with true. cbv iota. cbn [pure fst snd].
      exists [e].
      split; [reflexivity |].
      split; [reflexivity |].
      split; [cbn [length]; lia |].
      split.
      { right. split; [unfold EIO; lia |]. exists [], e.
        split; [reflexivity |]. split; [constructor |].
        split; [reflexivity |].
        subst e. cbn [step_status length reg_buf]. change (Z.of_nat 3) with 3.
        destruct (Z.eqb_spec n 3); [contradiction | reflexivity]. }
      split; [intros H0; unfold EIO in H0; lia | right; reflexivity].
Qed.

Lemma write_reg_16bit_eq (reg value : Z) (s : state) :
  let n := answers (krn s) (asked (krn s)) in
  ov5670_write_reg reg OV5670_REG_VALUE_16BIT value s
  = ((if n =? 4 then 0 else - EIO),
     mk_state (drv s)
       (log (EvI2cMasterSend (gain_buf value reg) n) (next_answer (krn s)))).
Proof.
  cbv zeta. unfold ov5670_write_reg, OV5670_REG_VALUE_16BIT.
  change (4 <? 2) with false. cbv iota.
  rewrite address_bytes, be32_bytes_eq.
  change (Z.to_nat (4 - 2)) with 2%nat. cbn [skipn app].
  unfold bind. rewrite i2c_master_send_eq. cbn [fst snd]. change (2 + 2) with 4.
  unfold gain_buf.
  destruct (answers (krn s) (asked (krn s)) =? 4); reflexivity.
Qed.

Lemma send_ok (buf : list Z) (n : Z) :
  n = Z.of_nat (length buf) -> all_ok [EvI2cMasterSend buf n].
Proof.
  intros ->. constructor; [| constructor]. split; [reflexivity |].
  cbn [step_status]. rewrite Z.eqb_refl. reflexivity.
Qed.

Lemma send_failed (buf : list Z) (n : Z) :
  n <> Z.of_nat (length buf) -> run (- EIO) [EvI2cMasterSend buf n].
Proof.
  intros Hn. right. split; [unfold EIO; lia |].
  exists [], (EvI2cMasterSend buf n).
  split; [reflexivity |]. split; [constructor |]. split; [reflexivity |].
  cbn [step_status]. destruct (Z.eqb_spec n (Z.of_nat (length buf)));
    [contradiction | reflexivity].
Qed.

(** X6: [ov5670_update_digital_gain] writes the same two gain bytes to the
    red, green and blue gain registers, in that order, and stops at the first
    write that fails; it returns 0 exactly when all three were written. *)
Theorem digital_gain_written_to_three_registers :
  forall (d_gain : Z) (s : state),
    let r := ov5670_update_digital_gain d_gain s in
    exists sends,
      trace (krn (snd r)) = trace (krn s) ++ sends
      /\ map sent sends
         = firstn (length sends)
             (map (gain_buf d_gain)
                  [ OV5670_REG_R_DGTL_GAIN; OV5670_REG_G_DGTL_GAIN;
                    OV5670_REG_B_DGTL_GAIN ])
      /\ run (fst r) sends
      /\ (fst r = 0 -> length sends = 3%nat)
      /\ (fst r = 0 \/ fst r = - EIO)
      /\ drv (snd r) = drv s.
Proof.
  intros d_gain s. cbv zeta. unfold ov5670_update_digital_gain.
  unfold bind. rewrite write_reg_16bit_eq. cbv zeta. cbn [fst snd].
  set (n0 := answers (krn s) (asked (krn s))).
  destruct (Z.eqb_spec n0 4) as [H0 | H0].
  2:{ cbv iota. change (negb (- EIO =? 0)) with true. cbv iota. cbn [pure fst snd krn trace log drv next_answer].
      eexists [_]. split; [reflexivity |]. split; [reflexivity |].
      split; [apply send_failed; exact H0 |].
      split; [intros H; unfold EIO in H; lia |]. split; [right |]; reflexivity. }
  cbv iota. change (negb (0 =? 0)) with false. cbv beta iota.
  rewrite write_reg_16bit_eq. cbv zeta. cbn [fst snd krn answers asked next_answer log].
  set (n1 := answers (krn s) (S (asked (krn s)))).
  destruct (Z.eqb_spec n1 4) as [H1 | H1].
  2:{ cbv iota. change (negb (- EIO =? 0)) with true. cbv iota. cbn [pure fst snd krn trace log drv next_answer].
      eexists [_; _]. split; [rewrite <- app_assoc; reflexivity |].
      split; [reflexivity |].
      split.
      { apply (run_then _ [_] [_]); [apply send_ok; exact H0 | apply send_failed; exact H1]. }
      split; [intros H; unfold EIO in H; lia |]. split; [right |]; reflexivity. }
  cbv iota. change (negb (0 =? 0)) with false. cbv beta iota.
  rewrite write_reg_16bit_eq. cbv zeta. cbn [fst snd krn answers asked next_answer log trace drv].
  set (n2 := answers (krn s) (S (S (asked (krn s))))).
  eexists [_; _; _]. split; [rewrite <- !app_assoc; reflexivity |].
  split; [reflexivity |].
  destruct (Z.eqb_spec n2 4) as [H2 | H2].
  - split.
    { left. split; [reflexivity |].
      apply (all_ok_app [_] [_; _]); [apply send_ok; exact H0 |].
      apply (all_ok_app [_] [_]); apply send_ok; assumption. }
    split; [reflexivity |]. split; [left |]; reflexivity.
  - split.
    { apply (run_then _ [_] [_; _]); [apply send_ok; exact H0 |].
      apply (run_then _ [_] [_]); [apply send_ok; exact H1 | apply send_failed; exact H2]. }
    split; [intros H; unfold EIO in H; lia |]. split; [right |]; reflexivity.
Qed.

(** ** The test-pattern register *)

Lemma byte_bits_high (b i : Z) : is_byte b -> 8 <= i -> Z.testbit b i = false.
Proof.
  intros Hb Hi. rewrite <- (Z.mod_small b (2 ^ 8)) by (unfold is_byte in Hb; lia).
  apply Z.mod_pow2_bits_high. lia.
Qed.

Lemma low_byte_bits (v i : Z) :
  0 <= i ->
  Z.testbit (u32 v mod 256) i = if i <? 8 then Z.testbit v i else false.
Proof.
  intros Hi. change 256 with (2 ^ 8). unfold u32.
  destruct (Z.ltb_spec i 8) as [Hlt | Hge].
  - rewrite Z.mod_pow2_bits_low by lia. apply Z.mod_pow2_bits_low. lia.
  - apply Z.mod_pow2_bits_high. lia.
Qed.

Lemma bit3_mask (i : Z) : 0 <= i -> Z.testbit 8 i = (i =? 3).
Proof.
  intros Hi. change 8 with (2 ^ 3). rewrite Z.eqb_sym.
  apply Z.pow2_bits_eqb. lia.
Qed.

Lemma clear_mask_bits (i : Z) :
  0 <= i < 32 ->
  Z.testbit (u32 (Z.lnot OV5670_TEST_PATTERN_ENABLE)) i = negb (i =? 3).
Proof.
  intros Hi. unfold u32. rewrite Z.mod_pow2_bits_low by lia.
  rewrite Z.lnot_spec by lia. f_equal. apply bit3_mask. lia.
Qed.

Lemma write_reg_byte_eq (reg value : Z) (s : state) :
  ov5670_write_reg reg OV5670_REG_VALUE_08BIT value s
  = ((if answers (krn s) (asked (krn s)) =? 3 then 0 else - EIO),
     mk_state (drv s)
       (log (EvI2cMasterSend (reg_buf (mk_reg reg value))
                             (answers (krn s) (asked (krn s))))
            (next_answer (krn s)))).
Proof. exact (write_reg_8bit_eq (mk_reg reg value) s). Qed.

Lemma read_reg_byte_eq (reg val0 : Z) (s : state) :
  let n := answers (krn s) (asked (krn s)) in
  let b := u8 (answers (krn s) (S (asked (krn s)))) in
  ov5670_read_reg reg OV5670_REG_VALUE_08BIT val0 s
  = ((if n =? 2 then (0, b) else (- EIO, val0)),
     mk_state (drv s)
       (log (EvI2cTransfer [u16 reg / 256; u16 reg mod 256] 1 n [b])
            (next_answer (next_answer (krn s))))).
Proof.
  cbv zeta. unfold ov5670_read_reg, OV5670_REG_VALUE_08BIT.
  change (4 <? 1) with false. cbv iota. rewrite address_bytes.
  unfold bind. rewrite i2c_transfer_eq. cbv zeta.
  change (Z.to_nat 1) with 1%nat. rewrite i2c_read_bytes_succ.
  cbn [i2c_read_bytes]. unfold bind, ask, read, in_kernel, pure.
  cbn [fst snd krn drv answers asked next_answer log trace].
  destruct (answers (krn s) (asked (krn s)) =? 2); reflexivity.
Qed.

(** X7: [ov5670_enable_test_pattern] is a read-modify-write of the
    test-pattern register.  When the write of the bayer order and the read
    both succeed, the byte written back equals the byte read in every bit
    but bit 3, and bit 3 is set exactly when [pattern] is non-zero; the
    result is that of the last write. *)
Theorem test_pattern_changes_only_bit_3 :
  forall (pattern : Z) (s : state),
    answers (krn s) (asked (krn s)) = 3 ->
    answers (krn s) (S (asked (krn s))) = 2 ->
    let r := ov5670_enable_test_pattern pattern s in
    exists old new n,
      trace (krn (snd r))
      = trace (krn s)
        ++ [ EvI2cMasterSend [0x43; 0x20; 0] 3;
             EvI2cTransfer [0x43; 0x03] 1 2 [old];
             EvI2cMasterSend [0x43; 0x03; new] n ]
      /\ is_byte old /\ is_byte new
      /\ (forall i, 0 <= i -> i <> 3 -> Z.testbit new i = Z.testbit old i)
      /\ Z.testbit new 3 = negb (u32 pattern =? 0)
      /\ fst r = (if n =? 3 then 0 else - EIO)
      /\ drv (snd r) = drv s.
Proof.
  intros pattern s Hw Hr. cbv zeta. unfold ov5670_enable_test_pattern.
  run_bind. rewrite write_reg_byte_eq, Hw. cbn [fst snd].
  change (negb ((if 3 =? 3 then 0 else - EIO) =? 0)) with false. cbv iota.
  run_bind. rewrite read_reg_byte_eq. cbv zeta.
  cbn [fst snd krn drv answers asked next_answer log]. rewrite Hr.
  change (2 =? 2) with true. cbv iota. cbn [fst snd].
  change (negb (0 =? 0)) with false. cbv iota.
  set (old := u8 (answers (krn s) (S (S (asked (krn s)))))).
  assert (Hold : is_byte old)
    by (unfold is_byte, old, u8; apply Z.mod_pos_bound; lia).
  set (value := if negb (u32 pattern =? 0)
                then Z.lor old OV5670_TEST_PATTERN_ENABLE
                else Z.land old (u32 (Z.lnot OV5670_TEST_PATTERN_ENABLE))).
  rewrite write_reg_byte_eq.
  cbn [fst snd krn drv answers asked next_answer log trace].
  exists old, (u32 value mod 256), (answers (krn s) (S (S (S (asked (krn s)))))).
  split; [rewrite <- !app_assoc; reflexivity |].
  split; [exact Hold |].
  split; [unfold is_byte; apply Z.mod_pos_bound; lia |].
  split.
  { intros i Hi Hne. rewrite low_byte_bits by exact Hi.
    destruct (Z.ltb_spec i 8) as [Hlt | Hge];
      [| symmetry; apply byte_bits_high; assumption].
    unfold value. destruct (negb (u32 pattern =? 0)).
    - rewrite Z.lor_spec. change OV5670_TEST_PATTERN_ENABLE with 8.
      rewrite bit3_mask by exact Hi.
      destruct (Z.eqb_spec i 3) as [-> | _]; [contradiction | apply orb_false_r].
    - rewrite Z.land_spec, clear_mask_bits by lia.
      destruct (Z.eqb_spec i 3) as [-> | _]; [contradiction | apply andb_true_r]. }
  split.
  { rewrite low_byte_bits by lia. change (3 <? 8) with true. cbv iota.
    unfold value. destruct (negb (u32 pattern =? 0)).
    - rewrite Z.lor_spec. change OV5670_TEST_PATTERN_ENABLE with 8.
      rewrite bit3_mask by lia. apply orb_true_r.
    - rewrite Z.land_spec, clear_mask_bits by lia. apply andb_false_r. }
  split; reflexivity.
Qed.

Lemma test_pattern_changes_only_bit_3_witness :
  let s := mk_state unprobed
             (fresh_kernel (fun i => match i with
                                     | 0%nat => 3 | 1%nat => 2
                                     | 2%nat => 0x80 | _ => 3 end)) in
  let r := ov5670_enable_test_pattern 1 s in
  exists old new n,
    trace (krn (snd r))
    = trace (krn s)
      ++ [ EvI2cMasterSend [0x43; 0x20; 0] 3;
           EvI2cTransfer [0x43; 0x03] 1 2 [old];
           EvI2cMasterSend [0x43; 0x03; new] n ]
    /\ is_byte old /\ is_byte new
    /\ (forall i, 0 <= i -> i <> 3 -> Z.testbit new i = Z.testbit old i)
    /\ Z.testbit new 3 = negb (u32 1 =? 0)
    /\ fst r = (if n =? 3 then 0 else - EIO)
    /\ drv (snd r) = drv s.
Proof.
  cbv zeta. apply test_pattern_changes_only_bit_3; reflexivity.
Defined.

(** ** Computations that only talk to the bus *)

Lemma bus_only_pure {A : Type} (a : A) : bus_only (pure a).
Proof.
  intros s. cbn. do 4 (split; [reflexivity |]).
  exists []. split; [symmetry; apply app_nil_r | reflexivity].
Qed.

Lemma bus_only_read {A : Type} (f : ov5670 -> A) : bus_only (read f).
Proof.
  intros s. cbn. do 4 (split; [reflexivity |]).
  exists []. split; [symmetry; apply app_nil_r | reflexivity].
Qed.

Lemma bus_only_bind {A B : Type} (m : M A) (f : A -> M B) :
  bus_only m -> (forall a, bus_only (f a)) -> bus_only (bind m f).
Proof.
  intros Hm Hf s. unfold bind.
  destruct (Hm s) as (Hd & Hu & Hg & Ha & calls & Ht & Hc).
  destruct (Hf (fst (m s)) (snd (m s)))
    as (Hd' & Hu' & Hg' & Ha' & calls' & Ht' & Hc').
  rewrite Hd', Hu', Hg', Ha', Ht'. do 4 (split; [assumption |]).
  exists (calls ++ calls'). split.
  - rewrite Ht. symmetry. apply app_assoc.
  - rewrite forallb_app, Hc, Hc'. reflexivity.
Qed.

Lemma bus_only_send (buf : list Z) : bus_only (i2c_master_send buf).
Proof.
  intros s. rewrite i2c_master_send_eq. cbn [fst snd drv krn].
  do 4 (split; [reflexivity |]).
  exists [EvI2cMasterSend buf (answers (krn s) (asked (krn s)))].
  split; reflexivity.
Qed.

Lemma bus_only_transfer (addr : list Z) (len : Z) :
  bus_only (i2c_transfer addr len).
Proof.
  intros s. rewrite i2c_transfer_eq. cbv zeta. cbn [fst snd drv krn].
  destruct (i2c_read_bytes_spec (Z.to_nat len)
              (mk_state (drv s) (next_answer (krn s))))
    as (_ & _ & Hd & Hu & Hg & Ha & Ht).
  cbn [usage_count gpio_value answers trace log].
  rewrite Hd, Hu, Hg, Ha, Ht. do 4 (split; [reflexivity |]).
  eexists [_]. split; reflexivity.
Qed.

Lemma bus_only_write_reg (reg len value : Z) :
  bus_only (ov5670_write_reg reg len value).
Proof.
  unfold ov5670_write_reg. destruct (4 <? len); [apply bus_only_pure |].
  apply bus_only_bind; [apply bus_only_send |].
  intros n. destruct (negb (n =? len + 2)); apply bus_only_pure.
Qed.

Lemma bus_only_read_reg (reg len val0 : Z) :
  bus_only (ov5670_read_reg reg len val0).
Proof.
  unfold ov5670_read_reg. destruct (4 <? len); [apply bus_only_pure |].
  apply bus_only_bind; [apply bus_only_transfer |].
  intros r. destruct (negb (fst r =? 2)); apply bus_only_pure.
Qed.

Lemma bus_only_update_digital_gain (d_gain : Z) :
  bus_only (ov5670_update_digital_gain d_gain).
Proof.
  unfold ov5670_update_digital_gain.
  apply bus_only_bind; [apply bus_only_write_reg |].
  intros r. destruct (negb (r =? 0)); [apply bus_only_pure |].
  apply bus_only_bind; [apply bus_only_write_reg |].
  intros r'. destruct (negb (r' =? 0));
    [apply bus_only_pure | apply bus_only_write_reg].
Qed.

Lemma bus_only_enable_test_pattern (pattern : Z) :
  bus_only (ov5670_enable_test_pattern pattern).
Proof.
  unfold ov5670_enable_test_pattern.
  apply bus_only_bind; [apply bus_only_write_reg |].
  intros r. destruct (negb (r =? 0)); [apply bus_only_pure |].
  apply bus_only_bind; [apply bus_only_read_reg |].
  intros r'. destruct (negb (fst r' =? 0));
    [apply bus_only_pure | apply bus_only_write_reg].
Qed.

(** The part of [ov5670_set_ctrl] behind the runtime-PM gate, for a body
    that only talks to the bus. *)
Lemma gated_body (m : M Z) (s : state) :
  bus_only m ->
  let n := answers (krn s) (asked (krn s)) in
  exists ret s',
    (in_use <~ lift pm_runtime_get_if_in_use ;;
     if in_use =? 0 then pureP 0
     else ret <~ lift m ;; lift pm_runtime_put ~;; pureP ret) s
    = Some (ret, s')
    /\ drv s' = drv s
    /\ (n = 0 ->
        ret = 0
        /\ trace (krn s') = trace (krn s) ++ [EvPmRuntimeGetIfInUse 0]
        /\ usage_count (krn s') = usage_count (krn s))
    /\ (n <> 0 ->
        exists bus,
          trace (krn s')
          = trace (krn s) ++ EvPmRuntimeGetIfInUse n :: bus ++ [EvPmRuntimePut]
          /\ forallb is_bus_event bus = true
          /\ usage_count (krn s')
             = usage_count (krn s) + (if 0 <? n then 1 else 0) - 1).
Proof.
  intros Hm. cbv zeta. unfold bindP at 1. unfold lift at 1.
  rewrite get_if_in_use_eq. cbn [fst snd].
  set (n := answers (krn s) (asked (krn s))).
  set (s1 := mk_state _ _).
  destruct (Z.eqb_spec n 0) as [H0 | H0].
  - exists 0, s1. split; [reflexivity |]. split; [reflexivity |]. split.
    + intros _. split; [reflexivity |]. unfold s1. rewrite H0.
      change (0 <? 0) with false. cbv iota. split; reflexivity.
    + intros Hne. contradiction.
  - unfold bindP, lift, pureP. cbn [fst snd].
    destruct (Hm s1) as (Hd & Hu & Hg & Ha & bus & Ht & Hb).
    eexists _, _. split; [reflexivity |].
    unfold pm_runtime_put, in_kernel.
    cbn [fst snd drv krn trace usage_count log set_usage_count].
    split; [exact Hd |]. split; [intros He; contradiction |].
    intros _. exists bus. rewrite Ht, Hu. unfold s1.
    cbn [krn trace log usage_count].
    split; [rewrite <- !app_assoc; destruct (0 <? n); reflexivity |].
    split; [exact Hb |].
    destruct (0 <? n); cbn [trace usage_count set_usage_count next_answer];
      lia.
Qed.

Lemma bindP_pure {A B : Type} (a : A) (f : A -> P B) (s : state) :
  bindP (pureP a) f s = f a s.
Proof. reflexivity. Qed.

Ltac gated lem :=
  rewrite bindP_pure;
  let ret := fresh "ret" in
  let s' := fresh "s'" in
  let Hd := fresh "Hd" in
  let H0 := fresh "H0" in
  let H1 := fresh "H1" in
  lazymatch goal with
  | |- context [bindP _ _ ?s] =>
      destruct (gated_body _ s lem) as (ret & s' & -> & Hd & H0 & H1)
  end;
  cbv zeta; split; [exact H0 |]; split; [exact H1 | intros _; exact Hd].

(** X8: [ov5670_set_ctrl] and the runtime-PM gate.  The call faults only
    for the vertical-blanking control with a NULL exposure control.
    Otherwise: when [pm_runtime_get_if_in_use] answers 0 the call returns 0,
    makes no bus transaction and leaves the usage count alone; for any other
    answer the only kernel calls between the gate and the final
    [pm_runtime_put] are bus transactions, and the put is made even when the
    answer was negative, that is when no reference was taken.  Only the
    vertical-blanking control changes the driver's record. *)
Theorem set_ctrl_power_gate :
  forall (cid : ctrl_id) (ctrl_val : Z) (s : state),
    match ov5670_set_ctrl cid ctrl_val s with
    | None => cid = V4L2_CID_VBLANK /\ exposure (drv s) = None
    | Some (ret, s') =>
        let n := answers (krn s) (asked (krn s)) in
        (n = 0 ->
         ret = 0
         /\ trace (krn s') = trace (krn s) ++ [EvPmRuntimeGetIfInUse 0]
         /\ usage_count (krn s') = usage_count (krn s))
        /\ (n <> 0 ->
            exists bus,
              trace (krn s')
              = trace (krn s)
                ++ EvPmRuntimeGetIfInUse n :: bus ++ [EvPmRuntimePut]
              /\ forallb is_bus_event bus = true
              /\ usage_count (krn s')
                 = usage_count (krn s) + (if 0 <? n then 1 else 0) - 1)
        /\ (cid <> V4L2_CID_VBLANK -> drv s' = drv s)
    end.
Proof.
  intros cid ctrl_val s. destruct cid; unfold ov5670_set_ctrl.
  - gated (bus_only_pure 0).
  - gated (bus_only_pure 0).
  - unfold bindP at 1. unfold bindP at 1. unfold lift at 1. unfold read at 1.
    cbn [fst snd]. cbv zeta. unfold bindP at 1. unfold deref at 1.
    change (read cur_mode s) with (cur_mode (drv s), s). cbn [fst snd].
    destruct (exposure (drv s)) as [e |] eqn:He; [| cbv beta iota; split; reflexivity].
    cbn [fst snd]. unfold lift at 1. unfold driver at 1. cbn [fst snd].
    set (s1 := mk_state _ (krn s)).
    destruct (gated_body
                (mode <- read cur_mode ;;
                 ov5670_write_reg OV5670_REG_VTS OV5670_REG_VALUE_16BIT
                                  (height mode + ctrl_val)) s1)
      as (ret & s' & -> & Hd & H0 & H1).
    { apply bus_only_bind; [apply bus_only_read |].
      intros mode. apply bus_only_write_reg. }
    cbv zeta. split; [exact H0 |]. split; [exact H1 |].
    intros Hne. contradiction.
  - gated (bus_only_pure 0).
  - gated (bus_only_write_reg OV5670_REG_ANALOG_GAIN OV5670_REG_VALUE_16BIT
                              ctrl_val).
  - gated (bus_only_update_digital_gain ctrl_val).
  - gated (bus_only_write_reg OV5670_REG_EXPOSURE OV5670_REG_VALUE_24BIT
                              (Z.shiftl ctrl_val 4)).
  - gated (bus_only_enable_test_pattern ctrl_val).
  - gated (bus_only_pure 0).
Qed.

Lemma write_reg_eq (reg len value : Z) (s : state) :
  0 <= len <= 4 ->
  let n := answers (krn s) (asked (krn s)) in
  exists payload,
    ov5670_write_reg reg len value s
    = ((if n =? len + 2 then 0 else - EIO),
       mk_state (drv s)
         (log (EvI2cMasterSend (u16 reg / 256 :: u16 reg mod 256 :: payload) n)
              (next_answer (krn s))))
    /\ Z.of_nat (length payload) = len
    /\ Forall is_byte payload
    /\ be_value payload = u32 value mod 2 ^ (8 * len).
Proof.
  intros Hlen. cbv zeta.
  destruct (payload_spec value len Hlen) as (Hn & Hbytes & Hval).
  exists (skipn (Z.to_nat (4 - len)) (be32_bytes (u32 value))).
  split; [| split; [exact Hn | split; [exact Hbytes | exact Hval]]].
  unfold ov5670_write_reg.
  destruct (Z.ltb_spec 4 len) as [H | _]; [lia |].
  rewrite address_bytes. unfold bind. rewrite i2c_master_send_eq.
  cbn [fst snd drv krn].
  destruct (answers (krn s) (asked (krn s)) =? len + 2); reflexivity.
Qed.

Lemma u32_low_bits (x k : Z) :
  0 <= k <= 32 -> u32 x mod 2 ^ k = x mod 2 ^ k.
Proof.
  intros Hk. unfold u32. apply Z.mod_mod_divide.
  exists (2 ^ (32 - k)). rewrite <- Z.pow_add_r by lia. f_equal. lia.
Qed.

(** The part of [ov5670_set_ctrl] behind the gate when the body is a single
    register write and the device is in use. *)
Lemma gated_write (body : M Z) (reg len value : Z) (s : state) :
  (forall s0, drv s0 = drv s ->
              body s0 = ov5670_write_reg reg len value s0) ->
  0 <= len <= 4 ->
  let n := answers (krn s) (asked (krn s)) in
  n <> 0 ->
  exists payload m s',
    (in_use <~ lift pm_runtime_get_if_in_use ;;
     if in_use =? 0 then pureP 0
     else ret <~ lift body ;;
          lift pm_runtime_put ~;; pureP ret) s
    = Some ((if m =? len + 2 then 0 else - EIO), s')
    /\ trace (krn s')
       = trace (krn s)
         ++ [ EvPmRuntimeGetIfInUse n;
              EvI2cMasterSend (u16 reg / 256 :: u16 reg mod 256 :: payload) m;
              EvPmRuntimePut ]
    /\ Z.of_nat (length payload) = len
    /\ Forall is_byte payload
    /\ be_value payload = value mod 2 ^ (8 * len).
Proof.
  intros Hbody Hlen n Hn. unfold bindP at 1. unfold lift at 1.
  rewrite get_if_in_use_eq. cbn [fst snd]. fold n.
  destruct (Z.eqb_spec n 0) as [H0 | _]; [contradiction |].
  set (s1 := mk_state _ _).
  destruct (write_reg_eq reg len value s1 Hlen) as (payload & Heq & Hl & Hb & Hv).
  exists payload. unfold bindP, lift, pureP.
  rewrite (Hbody s1 eq_refl), Heq. cbn [fst snd].
  eexists _, _. split; [reflexivity |].
  split; [| split; [exact Hl | split; [exact Hb |]]].
  - unfold pm_runtime_put, in_kernel, s1.
    cbn [fst snd drv krn trace log set_usage_count next_answer].
    destruct (0 <? n); cbn [trace set_usage_count next_answer];
      rewrite <- !app_assoc; reflexivity.
  - rewrite Hv. apply u32_low_bits. lia.
Qed.

(** X9: what [ov5670_set_ctrl] writes when the device is in use.  The
    exposure is written to register 0x3500 as three bytes holding 16 times
    the control value (its four low bits are the fractional part); the
    analogue gain is written to 0x3508 as two bytes; the vertical blanking is
    written to 0x380e as two bytes holding the frame length, the height of the
    current mode plus the control value.  Each is one bus write between the
    gate and the put, and the call returns 0 when the kernel reports the whole
    buffer sent and [-EIO] otherwise. *)
Theorem set_ctrl_register_values :
  forall (v : Z) (s : state),
    let n := answers (krn s) (asked (krn s)) in
    n <> 0 ->
    (exists payload m s',
        ov5670_set_ctrl V4L2_CID_EXPOSURE v s
        = Some ((if m =? 5 then 0 else - EIO), s')
        /\ trace (krn s')
           = trace (krn s)
             ++ [ EvPmRuntimeGetIfInUse n;
                  EvI2cMasterSend (0x35 :: 0x00 :: payload) m;
                  EvPmRuntimePut ]
        /\ Z.of_nat (length payload) = 3
        /\ Forall is_byte payload
        /\ be_value payload = (16 * v) mod 2 ^ 24)
    /\ (exists payload m s',
        ov5670_set_ctrl V4L2_CID_ANALOGUE_GAIN v s
        = Some ((if m =? 4 then 0 else - EIO), s')
        /\ trace (krn s')
           = trace (krn s)
             ++ [ EvPmRuntimeGetIfInUse n;
                  EvI2cMasterSend (0x35 :: 0x08 :: payload) m;
                  EvPmRuntimePut ]
        /\ Z.of_nat (length payload) = 2
        /\ Forall is_byte payload
        /\ be_value payload = v mod 2 ^ 16)
    /\ (forall e, exposure (drv s) = Some e ->
        exists payload m s',
          ov5670_set_ctrl V4L2_CID_VBLANK v s
          = Some ((if m =? 4 then 0 else - EIO), s')
          /\ trace (krn s')
             = trace (krn s)
               ++ [ EvPmRuntimeGetIfInUse n;
                    EvI2cMasterSend (0x38 :: 0x0e :: payload) m;
                    EvPmRuntimePut ]
          /\ Z.of_nat (length payload) = 2
          /\ Forall is_byte payload
          /\ be_value payload = (height (cur_mode (drv s)) + v) mod 2 ^ 16).
Proof.
  intros v s n Hn.
  assert (H24 : 0 <= OV5670_REG_VALUE_24BIT <= 4)
    by (unfold OV5670_REG_VALUE_24BIT; lia).
  assert (H16 : 0 <= OV5670_REG_VALUE_16BIT <= 4)
    by (unfold OV5670_REG_VALUE_16BIT; lia).
  split; [| split].
  - unfold ov5670_set_ctrl. rewrite bindP_pure.
    destruct (gated_write _ OV5670_REG_EXPOSURE OV5670_REG_VALUE_24BIT
                          (Z.shiftl v 4) s (fun _ _ => eq_refl) H24 Hn)
      as (payload & m & s' & -> & Ht & Hl & Hb & Hv).
    exists payload, m, s'. split; [reflexivity |]. split; [exact Ht |].
    split; [exact Hl |]. split; [exact Hb |].
    rewrite Hv, Z.shiftl_mul_pow2 by lia. f_equal. lia.
  - unfold ov5670_set_ctrl. rewrite bindP_pure.
    destruct (gated_write _ OV5670_REG_ANALOG_GAIN OV5670_REG_VALUE_16BIT
                          v s (fun _ _ => eq_refl) H16 Hn)
      as (payload & m & s' & -> & Ht & Hl & Hb & Hv).
    exists payload, m, s'. split; [reflexivity |]. split; [exact Ht |].
    split; [exact Hl |]. split; [exact Hb | exact Hv].
  - intros e He. unfold ov5670_set_ctrl.
    unfold bindP at 1. unfold bindP at 1. unfold lift at 1. unfold read at 1.
    cbn [fst snd]. cbv zeta. unfold bindP at 1. unfold deref at 1.
    change (read cur_mode s) with (cur_mode (drv s), s). cbn [fst snd].
    rewrite He. cbn [fst snd]. unfold lift at 1. unfold driver at 1.
    cbn [fst snd].
    set (s1 := mk_state _ (krn s)).
    destruct (gated_write
                (mode <- read cur_mode ;;
                 ov5670_write_reg OV5670_REG_VTS OV5670_REG_VALUE_16BIT
                                  (height mode + v))
                OV5670_REG_VTS OV5670_REG_VALUE_16BIT
                (height (cur_mode (drv s)) + v) s1)
      as (payload & m & s' & -> & Ht & Hl & Hb & Hv);
      [| exact H16 | exact Hn |].
    { intros s0 Hd. unfold bind, read. cbn [fst snd]. rewrite Hd. reflexivity. }
    exists payload, m, s'. split; [reflexivity |]. split; [exact Ht |].
    split; [exact Hl |]. split; [exact Hb | exact Hv].
Qed.

Lemma set_ctrl_register_values_witness :
  let s := mk_state unprobed (fresh_kernel (fun _ => 1)) in
  exists payload m s',
    ov5670_set_ctrl V4L2_CID_EXPOSURE 100 s
    = Some ((if m =? 5 then 0 else - EIO), s')
    /\ trace (krn s')
       = trace (krn s)
         ++ [ EvPmRuntimeGetIfInUse 1;
              EvI2cMasterSend (0x35 :: 0x00 :: payload) m;
              EvPmRuntimePut ]
    /\ Z.of_nat (length payload) = 3
    /\ Forall is_byte payload
    /\ be_value payload = (16 * 100) mod 2 ^ 24.
Proof.
  cbv zeta.
  refine (proj1 (set_ctrl_register_values 100
                   (mk_state unprobed (fresh_kernel (fun _ => 1))) _)).
  cbn. lia.
Defined.

(** ** Formats *)

(** What a call of [ov5670_set_pad_format] that returns has done. *)
Lemma set_pad_format_result (try_fmt : v4l2_mbus_framefmt)
      (fmt : v4l2_subdev_format) (s : state)
      (x : Z * v4l2_mbus_framefmt * v4l2_subdev_format * state) :
  ov5670_set_pad_format try_fmt fmt s = Some x ->
  exists m,
    In m supported_modes
    /\ v4l2_find_nearest_size supported_modes
         (s32 (fmt_width (format fmt))) (s32 (fmt_height (format fmt)))
       = Some m
    /\ fst (fst (fst x)) = 0
    /\ snd (fst x)
       = mk_subdev_format (which fmt) (pad fmt)
           (mk_framefmt (width m) (height m) MEDIA_BUS_FMT_SGRBG10_1X10
                        V4L2_FIELD_NONE)
    /\ (which fmt = V4L2_SUBDEV_FORMAT_TRY ->
        snd x = s
        /\ snd (fst (fst x))
           = mk_framefmt (width m) (height m) MEDIA_BUS_FMT_SGRBG10_1X10
                         V4L2_FIELD_NONE)
    /\ (which fmt <> V4L2_SUBDEV_FORMAT_TRY ->
        cur_mode (drv (snd x)) = m /\ snd (fst (fst x)) = try_fmt).
Proof.
  intros Hrun.
  destruct (find_nearest_supported (s32 (fmt_width (format fmt)))
              (s32 (fmt_height (format fmt)))) as (m & Hfind & Hin).
  exists m. split; [exact Hin |]. split; [exact Hfind |].
  destruct (Z.eq_dec (which fmt) V4L2_SUBDEV_FORMAT_TRY) as [Htry | Hact].
  - rewrite (set_pad_format_try try_fmt fmt s m Hfind Htry) in Hrun.
    cbv zeta in Hrun. injection Hrun as <-. cbn [fst snd].
    split; [reflexivity |]. split; [reflexivity |].
    split; [intros _; split; reflexivity | intros H; contradiction].
  - destruct (set_pad_format_active_follows _ _ _ _ Hact Hrun)
      as (lf & pr & vb & hb & Hlf & Hpr & Hvb & Hhb).
    destruct (set_pad_format_active try_fmt fmt s m lf pr vb hb
                Hfind Hact Hlf Hpr Hvb Hhb)
      as (s' & Hrun' & Hcur & _).
    cbv zeta in Hrun'. rewrite Hrun' in Hrun. injection Hrun as <-.
    cbn [fst snd].
    split; [reflexivity |]. split; [reflexivity |].
    split; [intros H; contradiction | intros _; split; [exact Hcur | reflexivity]].
Qed.

Lemma catalog_index (i : nat) (m : ov5670_mode) :
  nth_error supported_modes i = Some m -> (i < 6)%nat.
Proof.
  intros Hnth.
  change 6%nat with (length supported_modes).
  apply nth_error_Some. rewrite Hnth. discriminate.
Qed.

Lemma enum_frame_size_of_mode (i : nat) (m : ov5670_mode) :
  nth_error supported_modes i = Some m ->
  ov5670_enum_frame_size
    (mk_frame_size_enum (Z.of_nat i) MEDIA_BUS_FMT_SGRBG10_1X10 0 0 0 0)
  = (0, mk_frame_size_enum (Z.of_nat i) MEDIA_BUS_FMT_SGRBG10_1X10
          (width m) (width m) (height m) (height m)).
Proof.
  intros Hnth.
  pose proof (catalog_index i m Hnth) as Hi.
  unfold ov5670_enum_frame_size. cbn [fse_index fse_code].
  change (Z.of_nat (length supported_modes)) with 6.
  rewrite u32_small by lia.
  destruct (Z.leb_spec 6 (Z.of_nat i)) as [H | _]; [lia |].
  rewrite Z.eqb_refl. cbn [negb]. rewrite Nat2Z.id, Hnth. reflexivity.
Qed.

(** X10: the sizes [ov5670_enum_frame_size] enumerates are exactly the
    sizes [ov5670_set_pad_format] selects.  An enumeration succeeds only for
    an index below 6 and the one supported code, gives minimum = maximum in
    both dimensions and leaves the structure alone otherwise; a request for
    an enumerated size is answered with that very size; and whatever
    [ov5670_set_pad_format] answers is the size enumerated at some index. *)
Theorem enumerated_sizes_are_the_selectable_ones :
  (forall fse,
      let r := ov5670_enum_frame_size fse in
      (fst r = 0 \/ fst r = - EINVAL)
      /\ (fst r <> 0 -> snd r = fse)
      /\ (fst r = 0 ->
          u32 (fse_index fse) < 6
          /\ fse_code fse = MEDIA_BUS_FMT_SGRBG10_1X10
          /\ max_width (snd r) = min_width (snd r)
          /\ max_height (snd r) = min_height (snd r)
          /\ forall try_fmt which_ pad_ code_ field_ s x,
               ov5670_set_pad_format try_fmt
                 (mk_subdev_format which_ pad_
                    (mk_framefmt (min_width (snd r)) (min_height (snd r))
                                 code_ field_)) s = Some x ->
               format (snd (fst x))
               = mk_framefmt (min_width (snd r)) (min_height (snd r))
                             MEDIA_BUS_FMT_SGRBG10_1X10 V4L2_FIELD_NONE))
  /\ (forall try_fmt fmt s x,
         ov5670_set_pad_format try_fmt fmt s = Some x ->
         exists i,
           0 <= i < 6
           /\ ov5670_enum_frame_size
                (mk_frame_size_enum i MEDIA_BUS_FMT_SGRBG10_1X10 0 0 0 0)
              = (0, mk_frame_size_enum i MEDIA_BUS_FMT_SGRBG10_1X10
                      (fmt_width (format (snd (fst x))))
                      (fmt_width (format (snd (fst x))))
                      (fmt_height (format (snd (fst x))))
                      (fmt_height (format (snd (fst x)))))).
Proof.
  split.
  - intros fse. cbv zeta. unfold ov5670_enum_frame_size.
    change (Z.of_nat (length supported_modes)) with 6.
    destruct (Z.leb_spec 6 (u32 (fse_index fse))) as [Hbig | Hsmall].
    { cbn [fst snd]. split; [right; reflexivity |].
      split; [reflexivity | intros H; unfold EINVAL in H; lia]. }
    destruct (Z.eqb_spec (fse_code fse) MEDIA_BUS_FMT_SGRBG10_1X10)
      as [Hcode | Hcode]; cbn [negb].
    2:{ cbn [fst snd]. split; [right; reflexivity |].
        split; [reflexivity | intros H; unfold EINVAL in H; lia]. }
    destruct (nth_error supported_modes (Z.to_nat (u32 (fse_index fse))))
      as [m |] eqn:Hnth.
    2:{ cbn [fst snd]. split; [right; reflexivity |].
        split; [reflexivity | intros H; unfold EINVAL in H; lia]. }
    cbn [fst snd min_width max_width min_height max_height].
    split; [left; reflexivity |]. split; [intros H; contradiction |].
    intros _. split; [exact Hsmall |]. split; [exact Hcode |].
    split; [reflexivity |]. split; [reflexivity |].
    intros try_fmt which_ pad_ code_ field_ s x Hrun.
    assert (Hin : In m supported_modes) by (eapply nth_error_In; exact Hnth).
    destruct (set_pad_format_result _ _ _ _ Hrun)
      as (m' & _ & Hfind & _ & Hfmt & _).
    cbn [format fmt_width fmt_height] in Hfind.
    rewrite (find_nearest_exact m Hin) in Hfind. injection Hfind as <-.
    rewrite Hfmt. reflexivity.
  - intros try_fmt fmt s x Hrun.
    destruct (set_pad_format_result _ _ _ _ Hrun)
      as (m & Hin & _ & _ & Hfmt & _).
    destruct (In_nth_error _ _ Hin) as (i & Hnth).
    pose proof (catalog_index i m Hnth) as Hi.
    exists (Z.of_nat i). split; [lia |].
    rewrite Hfmt. cbn [format fmt_width fmt_height].
    apply enum_frame_size_of_mode, Hnth.
Qed.

(** X11: reading the format back.  After [ov5670_set_pad_format] has
    returned, [ov5670_get_pad_format] for the same kind of format (try or
    active) returns the format that was selected, and changes nothing.  A try
    format leaves the active format as it was; an active format keeps the
    try format, and a handle opened afterwards starts from the format just
    set.  The code of the selected format is the only code
    [ov5670_enum_mbus_code] enumerates. *)
Theorem get_pad_format_after_set :
  forall (try_fmt : v4l2_mbus_framefmt) (fmt : v4l2_subdev_format) (s : state)
         (r : Z) (t : v4l2_mbus_framefmt) (fmt1 : v4l2_subdev_format)
         (s1 : state),
    ov5670_set_pad_format try_fmt fmt s = Some (r, t, fmt1, s1) ->
    (forall q, which q = which fmt ->
               ov5670_get_pad_format t q s1
               = ((0, mk_subdev_format (which q) (pad q) (format fmt1)), s1))
    /\ (which fmt = V4L2_SUBDEV_FORMAT_TRY ->
        forall q, which q <> V4L2_SUBDEV_FORMAT_TRY ->
                  ov5670_get_pad_format t q s1
                  = ov5670_get_pad_format try_fmt q s)
    /\ (which fmt <> V4L2_SUBDEV_FORMAT_TRY ->
        t = try_fmt /\ ov5670_open s1 = ((0, format fmt1), s1))
    /\ (forall e, fst (ov5670_enum_mbus_code e) = 0 ->
                  u32 (mbus_index e) = 0
                  /\ mbus_code (snd (ov5670_enum_mbus_code e))
                     = code (format fmt1)).
Proof.
  intros try_fmt fmt s r t fmt1 s1 Hrun.
  destruct (set_pad_format_result _ _ _ _ Hrun)
    as (m & Hin & _ & _ & Hfmt & Htry & Hact).
  cbn [fst snd] in Hfmt, Htry, Hact.
  unfold ov5670_get_pad_format, ov5670_do_get_pad_format.
  split; [| split; [| split]].
  - intros q Hq.
    destruct (Z.eqb_spec (which q) V4L2_SUBDEV_FORMAT_TRY) as [Hw | Hw].
    + rewrite Hq in Hw. destruct (Htry Hw) as [_ ->].
      rewrite Hfmt. reflexivity.
    + rewrite Hq in Hw. destruct (Hact Hw) as [Hcur _].
      unfold bind, read, pure. cbn [fst snd]. rewrite Hcur, Hfmt. reflexivity.
  - intros Hw q Hq. destruct (Htry Hw) as [-> _].
    destruct (Z.eqb_spec (which q) V4L2_SUBDEV_FORMAT_TRY) as [Hw' | _];
      [contradiction | reflexivity].
  - intros Hw. destruct (Hact Hw) as [Hcur ->]. split; [reflexivity |].
    unfold ov5670_open, bind, read, pure. cbn [fst snd].
    rewrite Hcur, Hfmt. reflexivity.
  - intros e He. unfold ov5670_enum_mbus_code in *.
    destruct (Z.ltb_spec 0 (u32 (mbus_index e))) as [Hpos | Hzero].
    + cbn [fst] in He. unfold EINVAL in He. lia.
    + cbn [snd mbus_code]. rewrite Hfmt. cbn [format code].
      split; [| reflexivity].
      assert (0 <= u32 (mbus_index e)) by (unfold u32; apply Z.mod_pos_bound; lia).
      lia.
Qed.

Lemma get_pad_format_after_set_witness :
  exists t fmt1 s1,
    ov5670_set_pad_format no_try_fmt
      (request 1300 700 V4L2_SUBDEV_FORMAT_ACTIVE) probed
    = Some (0, t, fmt1, s1)
    /\ fmt_width (format fmt1) = 1280
    /\ ov5670_get_pad_format t (request 0 0 V4L2_SUBDEV_FORMAT_ACTIVE) s1
       = ((0, mk_subdev_format V4L2_SUBDEV_FORMAT_ACTIVE 0 (format fmt1)), s1)
    /\ ov5670_open s1 = ((0, format fmt1), s1).
Proof.
  destruct (ov5670_set_pad_format no_try_fmt
              (request 1300 700 V4L2_SUBDEV_FORMAT_ACTIVE) probed)
    as [[[[r t] fmt1] s1] |] eqn:Hrun; [| vm_compute in Hrun; discriminate].
  assert (Hr : option_map (fun x => fst (fst (fst x)))
                 (ov5670_set_pad_format no_try_fmt
                    (request 1300 700 V4L2_SUBDEV_FORMAT_ACTIVE) probed)
               = Some 0) by (vm_compute; reflexivity).
  assert (Hw : option_map (fun x => fmt_width (format (snd (fst x))))
                 (ov5670_set_pad_format no_try_fmt
                    (request 1300 700 V4L2_SUBDEV_FORMAT_ACTIVE) probed)
               = Some 1280) by (vm_compute; reflexivity).
  rewrite Hrun in Hr, Hw. cbn [option_map fst snd] in Hr, Hw.
  injection Hr as ->. injection Hw as Hw.
  destruct (get_pad_format_after_set _ _ _ _ _ _ _ Hrun)
    as (Hget & _ & Hopen & _).
  exists t, fmt1, s1. split; [reflexivity |]. split; [exact Hw |].
  split; [apply (Hget (request 0 0 V4L2_SUBDEV_FORMAT_ACTIVE)); reflexivity |].
  apply Hopen. discriminate.
Defined.

(** ** Chip identity *)

Lemma read_reg_24bit_eq (reg val0 : Z) (s : state) :
  let n := answers (krn s) (asked (krn s)) in
  let b2 := u8 (answers (krn s) (S (asked (krn s)))) in
  let b1 := u8 (answers (krn s) (S (S (asked (krn s))))) in
  let b0 := u8 (answers (krn s) (S (S (S (asked (krn s)))))) in
  ov5670_read_reg reg OV5670_REG_VALUE_24BIT val0 s
  = ((if n =? 2 then (0, be_value [b2; b1; b0]) else (- EIO, val0)),
     mk_state (drv s)
       (log (EvI2cTransfer [u16 reg / 256; u16 reg mod 256] 3 n [b2; b1; b0])
            (next_answer (next_answer (next_answer (next_answer (krn s))))))).
Proof.
  cbv zeta. unfold ov5670_read_reg, OV5670_REG_VALUE_24BIT.
  change (4 <? 3) with false. cbv iota. rewrite address_bytes.
  unfold bind. rewrite i2c_transfer_eq. cbv zeta.
  change (Z.to_nat 3) with 3%nat. rewrite !i2c_read_bytes_succ.
  cbn [i2c_read_bytes]. unfold bind, ask, read, in_kernel, pure.
  cbn [fst snd krn drv answers asked next_answer log trace].
  destruct (answers (krn s) (asked (krn s)) =? 2); reflexivity.
Qed.

(** X12: [ov5670_identify_module] makes one bus transfer, a read of three
    bytes at register 0x300a, and nothing else.  It returns 0 exactly when
    the kernel completed both messages of the transfer and the bytes read
    are 00 56 70; [-EIO] when the transfer was not completed, whatever was
    read; and [-ENXIO] when it was completed with any other bytes. *)
Theorem identify_module_contract :
  forall (s : state),
    let r := ov5670_identify_module s in
    let n := answers (krn s) (asked (krn s)) in
    exists b2 b1 b0,
      trace (krn (snd r))
      = trace (krn s) ++ [EvI2cTransfer [0x30; 0x0a] 3 n [b2; b1; b0]]
      /\ is_byte b2 /\ is_byte b1 /\ is_byte b0
      /\ drv (snd r) = drv s
      /\ (fst r = 0 <-> n = 2 /\ [b2; b1; b0] = [0x00; 0x56; 0x70])
      /\ (n <> 2 -> fst r = - EIO)
      /\ (n = 2 -> [b2; b1; b0] <> [0x00; 0x56; 0x70] -> fst r = - ENXIO).
Proof.
  intros s. cbv zeta. unfold ov5670_identify_module.
  run_bind. rewrite read_reg_24bit_eq. cbv zeta.
  set (n := answers (krn s) (asked (krn s))).
  set (b2 := u8 (answers (krn s) (S (asked (krn s))))).
  set (b1 := u8 (answers (krn s) (S (S (asked (krn s)))))).
  set (b0 := u8 (answers (krn s) (S (S (S (asked (krn s))))))).
  assert (Hb : forall x, is_byte (u8 x))
    by (intros x; unfold is_byte, u8; apply Z.mod_pos_bound; lia).
  pose proof (Hb (answers (krn s) (S (asked (krn s))))) as H2.
  pose proof (Hb (answers (krn s) (S (S (asked (krn s)))))) as H1.
  pose proof (Hb (answers (krn s) (S (S (S (asked (krn s))))))) as H0.
  fold b2 in H2. fold b1 in H1. fold b0 in H0. clearbody b2 b1 b0.
  unfold is_byte in H2, H1, H0.
  exists b2, b1, b0. cbn [fst snd].
  assert (Hval : be_value [b2; b1; b0] = (b2 * 256 + b1) * 256 + b0)
    by (cbn [be_value fold_left]; lia).
  assert (Hid : be_value [b2; b1; b0] = OV5670_CHIP_ID
                <-> [b2; b1; b0] = [0x00; 0x56; 0x70]).
  { rewrite Hval. unfold OV5670_CHIP_ID. split.
    - intros He. assert (b2 = 0 /\ b1 = 0x56 /\ b0 = 0x70) as (-> & -> & ->) by lia.
      reflexivity.
    - intros He. injection He as -> -> ->. reflexivity. }
  destruct (Z.eqb_spec n 2) as [Hn | Hn]; cbn [fst snd negb].
  - change (0 =? 0) with true. cbv iota.
    destruct (Z.eqb_spec (be_value [b2; b1; b0]) OV5670_CHIP_ID) as [Hc | Hc];
      cbn [negb pure fst snd krn drv trace log next_answer].
    + split; [reflexivity |]. do 3 (split; [unfold is_byte; assumption |]).
      split; [reflexivity |].
      split; [split; [intros _; split; [exact Hn | apply Hid, Hc] | reflexivity] |].
      split; [intros H; contradiction |].
      intros _ Hne. exfalso. apply Hne, Hid, Hc.
    + split; [reflexivity |]. do 3 (split; [unfold is_byte; assumption |]).
      split; [reflexivity |].
      split.
      { split; [intros H; unfold ENXIO in H; lia |].
        intros [_ He]. exfalso. apply Hc, Hid, He. }
      split; [intros H; contradiction | intros _ _; reflexivity].
  - change (negb (- EIO =? 0)) with true. cbv iota.
    cbn [pure fst snd krn drv trace log next_answer].
    split; [reflexivity |]. do 3 (split; [unfold is_byte; assumption |]).
    split; [reflexivity |].
    split; [split; [intros H; unfold EIO in H; lia | intros [H _]; contradiction] |].
    split; [intros _; reflexivity | intros H; contradiction].
Qed.

(** ** Streaming *)

Lemma seq_ok (m k : M Z) (s : state) :
  fst ((ret <- m ;; if negb (ret =? 0) then pure ret else k) s) = 0 ->
  fst (m s) = 0
  /\ (ret <- m ;; if negb (ret =? 0) then pure ret else k) s = k (snd (m s)).
Proof.
  unfold bind.
  destruct (Z.eqb_spec (fst (m s)) 0) as [H0 | Hn0]; cbn [negb pure fst].
  - intros _. split; [exact H0 | reflexivity].
  - intros H. contradiction.
Qed.

Lemma read_bind {A B : Type} (f : ov5670 -> A) (k : A -> M B) (s : state) :
  (x <- read f ;; k x) s = k (f (drv s)) s.
Proof. reflexivity. Qed.

Lemma write_reg_byte_ok (reg value : Z) (s : state) :
  fst (ov5670_write_reg reg OV5670_REG_VALUE_08BIT value s) = 0 ->
  drv (snd (ov5670_write_reg reg OV5670_REG_VALUE_08BIT value s)) = drv s
  /\ usage_count (krn (snd (ov5670_write_reg reg OV5670_REG_VALUE_08BIT value s)))
     = usage_count (krn s)
  /\ trace (krn (snd (ov5670_write_reg reg OV5670_REG_VALUE_08BIT value s)))
     = trace (krn s) ++ [written (mk_reg reg value)].
Proof.
  rewrite write_reg_byte_eq. cbn [fst snd drv krn].
  destruct (Z.eqb_spec (answers (krn s) (asked (krn s))) 3) as [-> | _].
  - intros _. repeat split.
  - intros H. unfold EIO in H. lia.
Qed.

Lemma write_regs_ok (regs : list ov5670_reg) (s : state) :
  fst (ov5670_write_regs regs s) = 0 ->
  drv (snd (ov5670_write_regs regs s)) = drv s
  /\ usage_count (krn (snd (ov5670_write_regs regs s))) = usage_count (krn s)
  /\ trace (krn (snd (ov5670_write_regs regs s)))
     = trace (krn s) ++ map written regs.
Proof.
  revert s. induction regs as [| r rest IH]; intros s.
  - intros _. cbn. rewrite app_nil_r. repeat split.
  - cbn [ov5670_write_regs].
    change (ov5670_write_reg (address r) 1 (val r))
      with (ov5670_write_reg (address r) OV5670_REG_VALUE_08BIT (val r)).
    intros H.
    destruct (seq_ok _ _ _ H) as [H1 E]. rewrite E in H |- *.
    destruct (write_reg_byte_ok _ _ _ H1) as (Hd & Hu & Ht).
    destruct (IH _ H) as (Hd' & Hu' & Ht').
    rewrite Hd', Hu', Ht', Hd, Hu, Ht. cbn [map].
    rewrite <- app_assoc. destruct r. repeat split.
Qed.

Lemma handler_setup_ok (s : state) :
  fst (__v4l2_ctrl_handler_setup s) = 0 ->
  drv (snd (__v4l2_ctrl_handler_setup s)) = drv s
  /\ usage_count (krn (snd (__v4l2_ctrl_handler_setup s))) = usage_count (krn s)
  /\ trace (krn (snd (__v4l2_ctrl_handler_setup s)))
     = trace (krn s) ++ [EvCtrlHandlerSetup 0].
Proof.
  unfold __v4l2_ctrl_handler_setup, bind, ask, in_kernel, pure, log.
  cbn [fst snd drv krn trace usage_count next_answer].
  intros ->. repeat split.
Qed.

(** What a successful [ov5670_start_streaming] has done. *)
Lemma start_streaming_ok (s : state) :
  fst (ov5670_start_streaming s) = 0 ->
  drv (snd (ov5670_start_streaming s)) = drv s
  /\ usage_count (krn (snd (ov5670_start_streaming s))) = usage_count (krn s)
  /\ trace (krn (snd (ov5670_start_streaming s)))
     = trace (krn s)
       ++ [written (mk_reg OV5670_REG_SOFTWARE_RST OV5670_SOFTWARE_RST)]
       ++ map written
            (link_reg_list
               (link_freq_config_at (link_freq_index (cur_mode (drv s)))))
       ++ map written (reg_list (cur_mode (drv s)))
       ++ [ EvCtrlHandlerSetup 0;
            written (mk_reg OV5670_REG_MODE_SELECT OV5670_MODE_STREAMING) ].
Proof.
  unfold ov5670_start_streaming, ov5670_write_reg_list. intros H.
  destruct (seq_ok _ _ _ H) as [H1 E]. rewrite E in H |- *. clear E.
  destruct (write_reg_byte_ok _ _ _ H1) as (Hd1 & Hu1 & Ht1).
  set (s1 := snd (ov5670_write_reg _ _ _ s)) in *.
  rewrite read_bind in H |- *.
  destruct (seq_ok _ _ _ H) as [H2 E]. rewrite E in H |- *. clear E.
  destruct (write_regs_ok _ _ H2) as (Hd2 & Hu2 & Ht2).
  set (s2 := snd (ov5670_write_regs _ s1)) in *.
  rewrite read_bind in H |- *.
  destruct (seq_ok _ _ _ H) as [H3 E]. rewrite E in H |- *. clear E.
  destruct (write_regs_ok _ _ H3) as (Hd3 & Hu3 & Ht3).
  set (s3 := snd (ov5670_write_regs _ s2)) in *.
  destruct (seq_ok _ _ _ H) as [H4 E]. rewrite E in H |- *. clear E.
  destruct (handler_setup_ok _ H4) as (Hd4 & Hu4 & Ht4).
  set (s4 := snd (__v4l2_ctrl_handler_setup s3)) in *.
  destruct (seq_ok _ _ _ H) as [H5 E]. rewrite E. clear E.
  destruct (write_reg_byte_ok _ _ _ H5) as (Hd5 & Hu5 & Ht5).
  cbn [pure fst snd].
  rewrite Hd5, Hu5, Ht5, Hd4, Hu4, Ht4, Hd3, Hu3, Ht3, Hd2, Hu2, Ht2, Hd1, Hu1, Ht1.
  split; [reflexivity |]. split; [reflexivity |].
  rewrite <- !app_assoc. reflexivity.
Qed.

Lemma stop_streaming_eq (s : state) :
  ov5670_stop_streaming s
  = (0, mk_state (drv s)
          (log (EvI2cMasterSend [0x01; 0x00; 0x00]
                                (answers (krn s) (asked (krn s))))
               (next_answer (krn s)))).
Proof.
  unfold ov5670_stop_streaming, bind. rewrite write_reg_byte_eq. reflexivity.
Qed.

(** X13: switching the stream on and off again.  A [ov5670_set_stream]
    with a non-zero argument on a sensor that is not streaming, when it
    succeeds, has taken one runtime-PM reference and sent, in this order and
    nothing else: the software reset, the PLL table of the current mode's link
    frequency, the register table of the current mode, the replay of the
    controls, the stream-on write.  Switching off afterwards sends the single
    standby write and drops the reference; it returns 0 whatever the bus
    reports, and the driver's record and the usage count are back to what
    they were. *)
Theorem stream_on_then_off :
  forall (enable : Z) (s : state),
    enable <> 0 ->
    streaming (drv s) = false ->
    fst (ov5670_set_stream enable s) = 0 ->
    let s1 := snd (ov5670_set_stream enable s) in
    let r := ov5670_set_stream 0 s1 in
    streaming (drv s1) = true
    /\ usage_count (krn s1) = usage_count (krn s) + 1
    /\ (exists got,
          0 <= got
          /\ trace (krn s1)
             = trace (krn s)
               ++ [ EvPmRuntimeGetSync got;
                    written (mk_reg OV5670_REG_SOFTWARE_RST
                                    OV5670_SOFTWARE_RST) ]
               ++ map written
                    (link_reg_list
                       (link_freq_config_at
                          (link_freq_index (cur_mode (drv s)))))
               ++ map written (reg_list (cur_mode (drv s)))
               ++ [ EvCtrlHandlerSetup 0;
                    written (mk_reg OV5670_REG_MODE_SELECT
                                    OV5670_MODE_STREAMING) ])
    /\ fst r = 0
    /\ drv (snd r) = drv s
    /\ usage_count (krn (snd r)) = usage_count (krn s)
    /\ exists n,
         trace (krn (snd r))
         = trace (krn s1)
           ++ [EvI2cMasterSend [0x01; 0x00; 0x00] n; EvPmRuntimePut].
Proof.
  intros enable s Hen Hoff Hok. cbv zeta.
  assert (Hstart :
    exists started,
      ov5670_set_stream enable s
      = (0, mk_state (set_streaming true (drv started)) (krn started))
      /\ drv started = drv s
      /\ usage_count (krn started) = usage_count (krn s) + 1
      /\ exists got, 0 <= got
         /\ trace (krn started)
            = (trace (krn s) ++ [EvPmRuntimeGetSync got])
              ++ [written (mk_reg OV5670_REG_SOFTWARE_RST OV5670_SOFTWARE_RST)]
              ++ map written
                   (link_reg_list
                      (link_freq_config_at
                         (link_freq_index (cur_mode (drv s)))))
              ++ map written (reg_list (cur_mode (drv s)))
              ++ [ EvCtrlHandlerSetup 0;
                   written (mk_reg OV5670_REG_MODE_SELECT
                                   OV5670_MODE_STREAMING) ]).
  { rewrite set_stream_eq in Hok |- *. rewrite Hoff in Hok |- *.
    cbn [int_of_bool] in Hok |- *.
    destruct (Z.eqb_spec 0 enable) as [He | _]; [congruence |].
    unfold bool_of_int in Hok |- *.
    destruct (Z.eqb_spec enable 0) as [He | _]; [contradiction |].
    cbn [negb] in Hok |- *. cbv zeta in Hok |- *.
    rewrite get_sync_eq in Hok |- *. cbn [fst snd] in Hok |- *.
    set (got := answers (krn s) (asked (krn s))) in *.
    set (s0 := mk_state _ _) in *.
    destruct (Z.ltb_spec got 0) as [Hneg | Hpos];
      [cbn [fst] in Hok; lia |].
    destruct (Z.eqb_spec (fst (ov5670_start_streaming s0)) 0) as [H0 | Hn0];
      cbn [negb fst] in Hok |- *; [| contradiction].
    destruct (start_streaming_ok s0 H0) as (Hd & Hu & Ht).
    exists (snd (ov5670_start_streaming s0)).
    split; [rewrite H0; reflexivity |].
    split; [exact Hd |]. split; [rewrite Hu; reflexivity |].
    exists got. split; [exact Hpos |]. rewrite Ht. reflexivity. }
  destruct Hstart as (started & -> & Hd & Hu & got & Hgot & Ht).
  cbn [fst snd drv krn streaming set_streaming].
  split; [reflexivity |]. split; [exact Hu |].
  split; [exists got; split; [exact Hgot |]; rewrite Ht, <- !app_assoc; reflexivity |].
  rewrite set_stream_eq. cbn [fst snd drv krn streaming set_streaming int_of_bool].
  change (1 =? 0) with false. change (bool_of_int 0) with false. cbv iota zeta.
  rewrite stop_streaming_eq. cbn [fst snd drv krn].
  unfold pm_runtime_put, in_kernel, driver.
  cbn [fst snd drv krn trace usage_count log set_usage_count next_answer].
  split; [reflexivity |].
  split.
  { rewrite Hd. destruct (drv s) as [? ? ? ? ? ? str ? ?].
    cbn [streaming] in Hoff. subst str. reflexivity. }
  split; [rewrite Hu; lia |].
  eexists. rewrite <- app_assoc. reflexivity.
Qed.

Lemma stream_on_then_off_witness :
  let s := mk_state unprobed (fresh_kernel start_succeeds) in
  let s1 := snd (ov5670_set_stream 1 s) in
  streaming (drv s1) = true
  /\ usage_count (krn s1) = 1
  /\ fst (ov5670_set_stream 0 s1) = 0
  /\ drv (snd (ov5670_set_stream 0 s1)) = drv s
  /\ usage_count (krn (snd (ov5670_set_stream 0 s1))) = 0.
Proof.
  cbv zeta.
  assert (Hok : fst (ov5670_set_stream 1
                       (mk_state unprobed (fresh_kernel start_succeeds))) = 0)
    by (vm_compute; reflexivity).
  pose proof (stream_on_then_off 1
                (mk_state unprobed (fresh_kernel start_succeeds))
                ltac:(discriminate) eq_refl Hok) as W.
  cbv zeta in W. destruct W as (Hs & Hu & _ & Hr & Hd & Hu' & _).
  split; [exact Hs |]. split; [exact Hu |]. split; [exact Hr |].
  split; [exact Hd | exact Hu'].
Defined.


(** ** The power entry point *)

Lemma power_ctrl_sets_gpios (flag : bool) (s : state) (g : gpio) :
  gpio_value (krn (snd (power_ctrl flag s))) g = flag.
Proof.
  open_state s.
  destruct flag, clk_enabled0, regulator_enabled0, g; reflexivity.
Qed.

Lemma power_ctrl_frame (flag : bool) (s : state) :
  drv (snd (power_ctrl flag s))
  = set_clk_enabled false (set_regulator_enabled false (drv s))
  /\ usage_count (krn (snd (power_ctrl flag s))) = usage_count (krn s).
Proof.
  open_state s.
  destruct flag, clk_enabled0, regulator_enabled0; split; reflexivity.
Qed.

Lemma s_power_eq (on : Z) (s : state) :
  exists s',
    ov5670_s_power on s = (0, s')
    /\ drv s' = drv (snd (power_ctrl (bool_of_int on) s))
    /\ usage_count (krn s')
       = usage_count (krn (snd (power_ctrl (bool_of_int on) s)))
    /\ gpio_value (krn s')
       = gpio_value (krn (snd (power_ctrl (bool_of_int on) s))).
Proof.
  unfold ov5670_s_power, bool_of_int.
  destruct (Z.eqb_spec on 0) as [_ | _]; cbn [negb].
  - rewrite power_down_is_power_ctrl_off.
    exists (snd (power_ctrl false s)).
    split; [| split; [reflexivity | split; reflexivity]].
    rewrite <- (power_ctrl_returns_zero false s). apply surjective_pairing.
  - unfold bind at 1. unfold power_up, power_up_retry, retry_count.
    rewrite (power_up_loop_succeeded __power_up 3 0 s (__power_up_returns_zero s)).
    cbn [fst snd pure]. rewrite __power_up_takes_success_path.
    unfold bind, usleep_range, in_kernel, pure.
    generalize (power_ctrl true s). intros p. cbn [fst snd].
    eexists. split; [reflexivity |]. cbn [drv krn log usage_count gpio_value].
    split; [reflexivity |]. split; reflexivity.
Qed.

(** X15: [ov5670_s_power] returns 0 for every argument, in every state and
    whatever the regulators and the clock report.  When it returns the
    thirteen GPIO lines are high exactly when the argument was non-zero,
    while the regulators and the clock are recorded as disabled in both
    cases; the mode, the streaming flag and the usage count are untouched. *)
Theorem s_power_outcome :
  forall (on : Z) (s : state),
    let r := ov5670_s_power on s in
    fst r = 0
    /\ (forall g, gpio_value (krn (snd r)) g = bool_of_int on)
    /\ clk_enabled (drv (snd r)) = false
    /\ regulator_enabled (drv (snd r)) = false
    /\ cur_mode (drv (snd r)) = cur_mode (drv s)
    /\ streaming (drv (snd r)) = streaming (drv s)
    /\ usage_count (krn (snd r)) = usage_count (krn s).
Proof.
  intros on s. cbv zeta.
  destruct (s_power_eq on s) as (s' & -> & Hd & Hu & Hg).
  destruct (power_ctrl_frame (bool_of_int on) s) as [Hd' Hu'].
  cbn [fst snd]. rewrite Hd, Hu, Hg, Hd', Hu'.
  split; [reflexivity |].
  split; [intros g; apply power_ctrl_sets_gpios |].
  split; [reflexivity |]. split; [reflexivity |]. split; [reflexivity |].
  split; reflexivity.
Qed.

(** ** The dependent device *)

Lemma dep_loop_independent (bus : list device) (handles : list dep_handle)
      (dep dep' : device_ptr) :
  existsb is_int3472 handles = true ->
  get_dep_dev_loop bus handles dep = get_dep_dev_loop bus handles dep'.
Proof.
  revert dep dep'. induction handles as [| h rest IH]; intros dep dep' Hex.
  - discriminate.
  - cbn [get_dep_dev_loop existsb] in *. unfold is_int3472 in Hex at 1.
    destruct (object_info h) as [info |]; [| reflexivity].
    destruct (valid_hid info && String.eqb (hardware_id info) "INT3472").
    + reflexivity.
    + apply IH. exact Hex.
Qed.

Lemma dep_loop_no_companion (bus : list device) (handles : list dep_handle)
      (dep : device_ptr) :
  forallb is_other_device handles = true ->
  get_dep_dev_loop bus handles dep = inr dep.
Proof.
  induction handles as [| h rest IH]; intros Hall; [reflexivity |].
  cbn [get_dep_dev_loop forallb] in *.
  apply andb_prop in Hall. destruct Hall as [Hh Hrest].
  unfold is_other_device, is_int3472 in Hh.
  destruct (object_info h) as [info |]; [| discriminate].
  destruct (valid_hid info && String.eqb (hardware_id info) "INT3472");
    [discriminate | apply IH, Hrest].
Qed.

(** What the loop leaves in [dep_dev] is what the local held before, NULL,
    or a device of the bus found for an INT3472 handle. *)
Lemma dep_loop_found (bus : list device) (handles : list dep_handle)
      (dep p : device_ptr) :
  get_dep_dev_loop bus handles dep = inr p ->
  (p = dep /\ existsb is_int3472 handles = false)
  \/ (p = NULL_device /\ existsb is_int3472 handles = true)
  \/ exists d h n,
       p = device_at d /\ In h handles /\ is_int3472 h = true
       /\ bus_device h = Some n /\ In d bus /\ fwnode d = n.
Proof.
  revert dep. induction handles as [| h rest IH]; intros dep Hrun.
  - cbn in Hrun. injection Hrun as ->. left. split; reflexivity.
  - cbn [get_dep_dev_loop existsb] in *.
    destruct (object_info h) as [info |] eqn:Hinfo; [| discriminate].
    destruct (valid_hid info && String.eqb (hardware_id info) "INT3472")
      eqn:Hhid;
      (assert (Hh : is_int3472 h = _)
         by (unfold is_int3472; rewrite Hinfo; exact Hhid));
      rewrite Hh; cbn [orb].
    + destruct (bus_device h) as [n |] eqn:Hdev; [| discriminate].
      destruct (bus_find_device bus n match_depend) as [d' |] eqn:Hfind.
      * injection Hrun as <-. right. right. exists d', h, n.
        unfold bus_find_device in Hfind. apply find_some in Hfind.
        destruct Hfind as [Hin Hmatch]. cbn [match_depend] in Hmatch.
        split; [reflexivity |]. split; [left; reflexivity |].
        split; [exact Hh |].
        split; [exact Hdev |]. split; [exact Hin |].
        destruct (Z.eqb_spec (fwnode d') n) as [He | _];
          [exact He | discriminate].
      * destruct (IH NULL_device Hrun)
          as [[-> _] | [[-> _] | (d & h' & n' & -> & Hin & Hrest)]].
        -- right. left. split; reflexivity.
        -- right. left. split; reflexivity.
        -- right. right. exists d, h', n'.
           split; [reflexivity |]. split; [right; exact Hin | exact Hrest].
    + destruct (IH dep Hrun)
        as [[-> Hno] | [[-> Hyes] | (d & h' & n' & -> & Hin & Hrest)]].
      * left. split; [reflexivity | exact Hno].
      * right. left. split; [reflexivity | exact Hyes].
      * right. right. exists d, h', n'.
        split; [reflexivity |]. split; [right; exact Hin | exact Hrest].
Qed.

Lemma dep_loop_error (bus : list device) (handles : list dep_handle)
      (dep : device_ptr) (e : Z) :
  get_dep_dev_loop bus handles dep = inl e -> e = - ENODEV.
Proof.
  revert dep. induction handles as [| h rest IH]; intros dep Hrun.
  - discriminate.
  - cbn [get_dep_dev_loop] in Hrun.
    destruct (object_info h) as [info |];
      [| injection Hrun as <-; reflexivity].
    destruct (valid_hid info && String.eqb (hardware_id info) "INT3472").
    + destruct (bus_device h) as [n |];
        [| injection Hrun as <-; reflexivity].
      destruct (bus_find_device bus n match_depend);
        [discriminate | exact (IH _ Hrun)].
    + exact (IH _ Hrun).
Qed.

(** X16: [get_dep_dev].  It fails with [-ENODEV] when the sensor has no
    [_DEP] method or the method cannot be evaluated.  The local [dep_dev]
    has no initialiser: when the [_DEP] list names no INT3472 device, the
    result is whatever value the local happened to hold, [-EINVAL] for NULL,
    the error it reads as for a value of the error range, and otherwise that
    value handed back as a device.  Apart from that case every error is
    [-ENODEV] or [-EINVAL] and every device returned is a device of the bus
    whose firmware node is that of an INT3472 handle of the list; and as
    soon as the list holds an INT3472 handle the result does not depend on
    what the local held. *)
Theorem get_dep_dev_contract :
  forall (bus : list device) (junk : device_ptr) (node : acpi_node),
    let r := get_dep_dev bus junk node in
    let unassigned :=
      exists handles, has_dep_method node = true
                      /\ dep_devices node = Some handles
                      /\ existsb is_int3472 handles = false in
    (has_dep_method node = false \/ dep_devices node = None ->
     r = inl (- ENODEV))
    /\ (forall e, r = inl e ->
        e = - ENODEV \/ e = - EINVAL
        \/ ((exists in_range, junk = ERR_device e in_range) /\ unassigned))
    /\ (forall d, r = inr d ->
        (junk = device_at d /\ unassigned)
        \/ exists handles h n,
             dep_devices node = Some handles /\ In h handles
             /\ is_int3472 h = true /\ bus_device h = Some n
             /\ In d bus /\ fwnode d = n)
    /\ (forall handles,
           has_dep_method node = true -> dep_devices node = Some handles ->
           (existsb is_int3472 handles = true ->
            forall junk', get_dep_dev bus junk' node = r)
           /\ (forallb is_other_device handles = true ->
               r = match junk with
                   | NULL_device => inl (- EINVAL)
                   | ERR_device e _ => inl e
                   | device_at d => inr d
                   end)).
Proof.
  intros bus junk node. cbv zeta. unfold get_dep_dev.
  split; [| split; [| split]].
  - intros [Hno | Hfail].
    + rewrite Hno. reflexivity.
    + rewrite Hfail. destruct (has_dep_method node); reflexivity.
  - intros e. destruct (has_dep_method node) eqn:Hdep; cbn [negb];
      [| intros H; injection H as <-; left; reflexivity].
    destruct (dep_devices node) as [handles |];
      [| intros H; injection H as <-; left; reflexivity].
    destruct (get_dep_dev_loop bus handles junk) as [e' | p] eqn:Hloop.
    + intros H. injection H as <-. left. exact (dep_loop_error _ _ _ _ Hloop).
    + destruct (dep_loop_found _ _ _ _ Hloop)
        as [[-> Hno] | [[-> _] | (d & h & n & -> & _)]].
      * destruct junk as [| e' He' | d]; intros H;
          [injection H as <-; right; left; reflexivity | | discriminate].
        injection H as <-. right. right.
        split; [exists He'; reflexivity |].
        exists handles. repeat split. exact Hno.
      * intros H. injection H as <-. right. left. reflexivity.
      * discriminate.
  - intros d. destruct (has_dep_method node) eqn:Hdep; cbn [negb];
      [| discriminate].
    destruct (dep_devices node) as [handles |]; [| discriminate].
    destruct (get_dep_dev_loop bus handles junk) as [e' | p] eqn:Hloop;
      [discriminate |].
    destruct (dep_loop_found _ _ _ _ Hloop)
      as [[-> Hno] | [[-> _] | (d' & h & n & -> & Hrest)]].
    + destruct junk as [| e' He' | d']; intros H; [discriminate .. |].
      injection H as <-. left.
      split; [reflexivity |]. exists handles. repeat split. exact Hno.
    + discriminate.
    + intros H. injection H as <-. right. exists handles, h, n.
      split; [reflexivity | exact Hrest].
  - intros handles -> ->. cbn [negb]. split.
    + intros Hex junk'.
      rewrite (dep_loop_independent bus handles junk' junk Hex). reflexivity.
    + intros Hall. rewrite (dep_loop_no_companion bus handles junk Hall).
      destruct junk; reflexivity.
Qed.

(** ** Dumping the firmware data *)

(** The two outcomes of [read_acpi_block] when the capacity fits an [int]. *)
Lemma read_acpi_block_cases (ev : acpi_evaluation) (data : list Z) (size : Z) :
  0 <= size < 2 ^ 31 ->
  let out := read_acpi_block ev data size in
  (returned out = - ENODEV /\ data_after out = data)
  \/ (exists bytes,
        status ev = 0 /\ pointer ev = Some (acpi_buffer bytes)
        /\ Z.of_nat (length bytes) <= size
        /\ returned out = Z.of_nat (length bytes)
        /\ data_after out = bytes ++ skipn (length bytes) data).
Proof.
  intros Hsize. cbv zeta. unfold read_acpi_block, ACPI_SUCCESS.
  rewrite (u32_small size) by (change (2 ^ 32) with 4294967296;
                               change (2 ^ 31) with 2147483648 in Hsize; lia).
  destruct (Z.eqb_spec (status ev) 0) as [Hst | Hst]; cbn [negb];
    [| left; split; reflexivity].
  destruct (pointer ev) as [[bytes | type] |];
    [| left; split; reflexivity | left; split; reflexivity].
  destruct (Z.ltb_spec size (Z.of_nat (length bytes))) as [Hlt | Hge];
    [left; split; reflexivity |].
  right. exists bytes. cbn [returned data_after].
  split; [exact Hst |]. split; [reflexivity |]. split; [exact Hge |].
  split; [apply s32_small; lia |].
  rewrite Z.min_r by lia. apply memcpy_whole.
Qed.

Lemma hex_of_copied (bytes data : list Z) :
  firstn (Z.to_nat (Z.of_nat (length bytes))) (bytes ++ skipn (length bytes) data)
  = bytes.
Proof.
  rewrite Nat2Z.id, firstn_app, firstn_all, Nat.sub_diag. cbn [firstn].
  apply app_nil_r.
Qed.

(** X17: [get_acpi_data] returns 0 or [-ENODEV].  It returns 0 exactly
    when the SSDB block could be read and, if a dependent device was found,
    its CLDB block too.  On success the hex dump of each block shows exactly
    the bytes of the firmware buffer.  Without a dependent device the CLDB is
    neither read nor dumped.  [put_device] is called once when the function
    succeeds with a dependent device and not at all otherwise: when one of
    the reads fails the reference on the dependent device is kept. *)
Theorem get_acpi_data_contract :
  forall (dep_dev : Z + device) (ssdb : acpi_evaluation)
         (cldb : device -> acpi_evaluation) (sensor_data pmic_data : list Z),
    let r := get_acpi_data dep_dev ssdb cldb sensor_data pmic_data in
    let ssdb_len := returned (read_acpi_block ssdb sensor_data 108) in
    (acpi_ret r = 0 \/ acpi_ret r = - ENODEV)
    /\ (acpi_ret r = 0 <->
        0 <= ssdb_len
        /\ forall d, dep_dev = inr d ->
                     0 <= returned (read_acpi_block (cldb d) pmic_data 32))
    /\ (acpi_ret r = 0 ->
        exists bytes,
          pointer ssdb = Some (acpi_buffer bytes)
          /\ Z.of_nat (length bytes) <= 108
          /\ option_map hex (ssdb_dump r) = Some bytes)
    /\ (forall d, dep_dev = inr d -> acpi_ret r = 0 ->
        exists bytes,
          pointer (cldb d) = Some (acpi_buffer bytes)
          /\ Z.of_nat (length bytes) <= 32
          /\ option_map hex (cldb_dump r) = Some bytes)
    /\ (forall e, dep_dev = inl e -> cldb_dump r = None)
    /\ put_device_calls r
       = match dep_dev with
         | inr _ => if acpi_ret r =? 0 then 1%nat else 0%nat
         | inl _ => 0%nat
         end.
Proof.
  intros dep_dev ssdb cldb sensor_data pmic_data. cbv zeta.
  unfold get_acpi_data.
  change (sizeof intel_ssdb) with 108. change (sizeof intel_cldb) with 32.
  destruct (read_acpi_block_cases ssdb sensor_data 108 ltac:(lia))
    as [[Hs Hsd] | (sb & Hst & Hsp & Hsl & Hsr & Hsd)]; cbv zeta in *.
  - rewrite Hs. change (- ENODEV <? 0) with true. cbv iota.
    cbn [acpi_ret ssdb_dump cldb_dump put_device_calls].
    split; [right; reflexivity |].
    split; [split; [intros H; unfold ENODEV in H; lia
                   | intros [H _]; unfold ENODEV in H; lia] |].
    split; [intros H; unfold ENODEV in H; lia |].
    split; [intros d _ H; unfold ENODEV in H; lia |].
    split; [intros e _; reflexivity |].
    destruct dep_dev; reflexivity.
  - rewrite Hsr, Hsd.
    destruct (Z.ltb_spec (Z.of_nat (length sb)) 0) as [Hneg | _]; [lia |].
    destruct dep_dev as [e | d].
    + cbn [acpi_ret ssdb_dump cldb_dump put_device_calls option_map].
      unfold dump_ssdb, dump_fields. cbn [hex]. rewrite hex_of_copied.
      split; [left; reflexivity |].
      split; [split; [intros _; split; [lia | intros d H; discriminate]
                     | intros _; reflexivity] |].
      split; [intros _; exists sb; repeat split; assumption |].
      split; [intros d H; discriminate |].
      split; [intros e' _; reflexivity | reflexivity].
    + destruct (read_acpi_block_cases (cldb d) pmic_data 32 ltac:(lia))
        as [[Hc Hcd] | (cb & Hct & Hcp & Hcl & Hcr & Hcd)]; cbv zeta in *.
      * rewrite Hc. change (- ENODEV <? 0) with true. cbv iota.
        cbn [acpi_ret ssdb_dump cldb_dump put_device_calls].
        split; [right; reflexivity |].
        split.
        { split; [intros H; unfold ENODEV in H; lia |].
          intros [_ H]. specialize (H d eq_refl). rewrite Hc in H.
          unfold ENODEV in H. lia. }
        split; [intros H; unfold ENODEV in H; lia |].
        split; [intros d' _ H; unfold ENODEV in H; lia |].
        split; [intros e H; discriminate | reflexivity].
      * rewrite Hcr, Hcd.
        destruct (Z.ltb_spec (Z.of_nat (length cb)) 0) as [Hneg | _]; [lia |].
        cbn [acpi_ret ssdb_dump cldb_dump put_device_calls option_map].
        unfold dump_ssdb, dump_cldb, dump_fields. cbn [hex].
        rewrite !hex_of_copied.
        split; [left; reflexivity |].
        split.
        { split; [| intros _; reflexivity].
          intros _. split; [lia |]. intros d' H. injection H as <-.
          rewrite Hcr. lia. }
        split; [intros _; exists sb; repeat split; assumption |].
        split.
        { intros d' H _. injection H as <-. exists cb.
          repeat split; assumption. }
        split; [intros e H; discriminate | reflexivity].
Qed.

(** X18: the layout of the firmware blocks.  The SSDB structure is 108
    bytes and the CLDB structure 32 bytes, the capacities [get_acpi_data]
    reads with.  The two declarations of the SSDB, the packed one taken from
    Intel's driver and the one taken from coreboot, have the same size and
    agree on every field [dump_ssdb] prints: whatever the bytes, the field
    read through one declaration is the field read through the other.  The
    clock speed is the four bytes at offset 86, least significant first. *)
Theorem ssdb_declarations_agree :
  sizeof intel_ssdb = 108
  /\ sizeof sensor_bios_data_packed = 108
  /\ sizeof intel_cldb = 32
  /\ forall (data : list Z),
       member intel_ssdb "link_used" data
       = member sensor_bios_data_packed "link" data
       /\ member intel_ssdb "lanes_used" data
          = member sensor_bios_data_packed "lanes" data
       /\ member intel_ssdb "vcm_type" data
          = member sensor_bios_data_packed "vcmtype" data
       /\ member intel_ssdb "flash_support" data
          = member sensor_bios_data_packed "flash" data
       /\ member intel_ssdb "degree" data
          = member sensor_bios_data_packed "degree" data
       /\ member intel_ssdb "mclk_port" data
          = member sensor_bios_data_packed "mclkport" data
       /\ member intel_ssdb "mclk_speed" data
          = member sensor_bios_data_packed "mclkspeed" data
       /\ member intel_ssdb "lanes_clock_division" data
          = member sensor_bios_data_packed "clockdiv" data
       /\ member intel_ssdb "rom_type" data
          = member sensor_bios_data_packed "romtype" data
       /\ member intel_ssdb "privacy_led" data
          = member sensor_bios_data_packed "privacyled" data
       /\ member intel_ssdb "mipi_define" data
          = member sensor_bios_data_packed "mipilinkdefined" data
       /\ member intel_ssdb "control_logic_id" data
          = member sensor_bios_data_packed "controllogicid" data
       /\ member intel_ssdb "mclk_speed" data
          = Some (le_value (firstn 4 (skipn 86 data))).
Proof.
  split; [reflexivity |]. split; [reflexivity |]. split; [reflexivity |].
  intros data. unfold member.
  repeat (split; [reflexivity |]). reflexivity.
Qed.

(** ** Initialisation of the controls *)

Lemma v4l2_ctrl_new_keeps_drv (err : Z) (cid : ctrl_id) (min max step def : Z)
      (ok : bool) (s : state) :
  drv (snd (v4l2_ctrl_new err cid min max step def ok s)) = drv s.
Proof.
  unfold v4l2_ctrl_new. destruct (negb (err =? 0)); [reflexivity |].
  destruct (negb ok); [reflexivity |].
  unfold bind, ask, pure. cbn [fst snd].
  destruct (answers (krn s) (asked (krn s)) =? 0); reflexivity.
Qed.

Ltac run_create c s' Hd :=
  run_bind;
  lazymatch goal with
  | |- context [v4l2_ctrl_new ?err ?cid ?min ?max ?step ?def ?ok ?s] =>
      pose proof (v4l2_ctrl_new_keeps_drv err cid min max step def ok s) as Hd;
      destruct (v4l2_ctrl_new err cid min max step def ok s) as [c s'];
      cbn [fst snd] in Hd |- *
  end.

(** What a successful [ov5670_init_controls] creates, control by control. *)
Lemma init_controls_created (s : state) :
  In (cur_mode (drv s)) supported_modes ->
  fst (ov5670_init_controls s) = 0 ->
  let d := drv (snd (ov5670_init_controls s)) in
  let m := cur_mode (drv s) in
  cur_mode d = m
  /\ link_freq d
     = Some (add_flag V4L2_CTRL_FLAG_READ_ONLY
               (mk_ctrl V4L2_CID_LINK_FREQ 0 0 0 0 0 0))
  /\ pixel_rate d
     = Some (mk_ctrl V4L2_CID_PIXEL_RATE 0
               (pixel_rate_of (link_freq_config_at 0)) 1
               (pixel_rate_of (link_freq_config_at 0))
               (pixel_rate_of (link_freq_config_at 0)) 0)
  /\ vblank d
     = Some (mk_ctrl V4L2_CID_VBLANK (vts_min m - height m)
               (OV5670_VTS_MAX - height m) 1 (vts_def m - height m)
               (vts_def m - height m) 0)
  /\ hblank d
     = Some (add_flag V4L2_CTRL_FLAG_READ_ONLY
               (mk_ctrl V4L2_CID_HBLANK (OV5670_FIXED_PPL - width m)
                  (OV5670_FIXED_PPL - width m) 1 (OV5670_FIXED_PPL - width m)
                  (OV5670_FIXED_PPL - width m) 0))
  /\ exposure d
     = Some (mk_ctrl V4L2_CID_EXPOSURE OV5670_EXPOSURE_MIN (vts_def m - 8)
               OV5670_EXPOSURE_STEP (vts_def m - 8) (vts_def m - 8) 0).
Proof.
  intros Hin. cbv zeta.
  destruct (catalog_mode_bounds _ Hin) as (Hh & Hw & Hvts & Hdef & _).
  unfold OV5670_VTS_MAX in *.
  unfold ov5670_init_controls.
  unfold v4l2_ctrl_new_std, v4l2_ctrl_new_int_menu, v4l2_ctrl_new_std_menu_items.
  unfold read, ask.
  run_bind. cbn [fst snd drv krn].
  destruct (Z.eqb_spec (answers (krn s) (asked (krn s))) 0) as [_ | Hn];
    cbn [negb]; [| intros H0; contradiction].
  run_bind. cbn [fst snd drv krn].
  set (m := cur_mode (drv s)) in *.
  set (hb := u32 (OV5670_FIXED_PPL - width m)).
  assert (Hhb : hb = OV5670_FIXED_PPL - width m).
  { subst hb. apply u32_small. unfold OV5670_FIXED_PPL. lia. }
  rewrite (check_range_point hb).
  assert (Hvb : check_range (u32 (vts_min m - height m))
                  (u32 (65535 - height m)) 1 (u32 (vts_def m - height m)) = true).
  { rewrite !u32_small by lia. unfold check_range.
    change (negb (1 =? 0)) with true. cbn [andb].
    rewrite !andb_true_iff, !Z.leb_le. lia. }
  assert (Hex : check_range OV5670_EXPOSURE_MIN (u32 (vts_def m - 8))
                  OV5670_EXPOSURE_STEP (u32 (vts_def m - 8)) = true).
  { rewrite !u32_small by lia. unfold check_range, OV5670_EXPOSURE_MIN, OV5670_EXPOSURE_STEP.
    change (negb (1 =? 0)) with true. cbn [andb].
    rewrite !andb_true_iff, !Z.leb_le. lia. }
  change OV5670_VTS_MAX with 65535.
  rewrite Hvb, Hex.
  change ((0 <=? 0) && (0 <=? 0) && (0 <=? 0)) with true.
  change (check_range 0 (pixel_rate_of (link_freq_config_at 0)) 1
            (pixel_rate_of (link_freq_config_at 0))) with true.
  change (check_range ANALOG_GAIN_MIN ANALOG_GAIN_MAX ANALOG_GAIN_STEP
            ANALOG_GAIN_DEFAULT) with true.
  change (check_range OV5670_DGTL_GAIN_MIN OV5670_DGTL_GAIN_MAX
            OV5670_DGTL_GAIN_STEP OV5670_DGTL_GAIN_DEFAULT) with true.
  change ((0 <=? ov5670_test_pattern_menu_size - 1) && (0 <=? 0)
          && (0 <=? ov5670_test_pattern_menu_size - 1)) with true.
  run_new c0 s0 Hd0 Hc0. run_driver.
  run_new c1 s1 Hd1 Hc1. run_driver.
  run_new c2 s2 Hd2 Hc2. run_driver.
  run_new c3 s3 Hd3 Hc3. run_driver.
  run_new c4 s4 Hd4 Hc4.
  run_new c5 s5 Hd5 Hc5.
  run_new c6 s6 Hd6 Hc6. run_driver.
  run_new c7 s7 Hd7 Hc7.
  assert (Hfree : forall (r : Z) (s' : state),
             fst ((v4l2_ctrl_handler_free ;; pure r) s') = r) by reflexivity.
  destruct (Z.eqb_spec (snd c7) 0) as [H7 | Hn7]; cbn [negb];
    [| rewrite Hfree; intros H0; contradiction].
  run_bind. cbn [fst snd drv krn].
  destruct (Z.eqb_spec (answers (krn s7) (asked (krn s7))) 0) as [_ | Hn8];
    cbn [negb]; [| rewrite Hfree; intros H0; contradiction].
  run_bind. cbn [fst snd drv krn].
  destruct (Z.eqb_spec (answers (next_answer (krn s7)) (asked (next_answer (krn s7)))) 0)
    as [_ | Hn9]; cbn [negb]; [| rewrite Hfree; intros H0; contradiction].
  intros _. cbn [pure fst snd drv].
  destruct (Hc7 H7) as [H6 _].
  destruct (Hc6 H6) as [H5 E6].
  destruct (Hc5 H5) as [H4 _].
  destruct (Hc4 H4) as [H3 _].
  destruct (Hc3 H3) as [H2 E3].
  destruct (Hc2 H2) as [H1 E2].
  destruct (Hc1 H1) as [H0 E1].
  destruct (Hc0 H0) as [_ E0].
  rewrite Hd7. cbn [drv]. rewrite Hd6, Hd5, Hd4. cbn [drv].
  rewrite Hd3. cbn [drv]. rewrite Hd2. cbn [drv]. rewrite Hd1.
  cbn [drv]. rewrite Hd0. cbn [drv].
  rewrite E0, E1, E2, E3, E6. cbn [option_map].
  cbn [cur_mode hblank link_freq pixel_rate vblank exposure set_exposure
       set_hblank set_vblank set_pixel_rate set_link_freq].
  fold m. rewrite Hhb.
  change 65535 with OV5670_VTS_MAX.
  rewrite !(u32_small (vts_min m - height m)),
          !(u32_small (OV5670_VTS_MAX - height m)),
          !(u32_small (vts_def m - height m)),
          !(u32_small (vts_def m - 8)) by (unfold OV5670_VTS_MAX; lia).
  repeat (split; [reflexivity |]). reflexivity.
Qed.

(** X19: the controls [ov5670_init_controls] creates.  When it succeeds for
    a mode of the catalog, the current mode is unchanged; the vertical
    blanking ranges over [vts_min - height, 0xffff - height] and starts at
    [vts_def - height]; the exposure ranges over [4, vts_def - 8] and starts
    at its maximum, which is the height plus the initial vertical blanking
    minus 8, the relation [ov5670_set_ctrl] keeps afterwards; the link
    frequency and the horizontal blanking are read-only. *)
Theorem init_controls_ranges :
  forall (s : state),
    let r := ov5670_init_controls s in
    let d := drv (snd r) in
    let m := cur_mode (drv s) in
    fst r = 0 ->
    In m supported_modes ->
    exists lf hb vb ex,
      link_freq d = Some lf /\ read_only lf
      /\ hblank d = Some hb /\ read_only hb
      /\ vblank d = Some vb
      /\ minimum vb = vts_min m - height m
      /\ maximum vb = OV5670_VTS_MAX - height m
      /\ default_value vb = vts_def m - height m
      /\ cur_val vb = vts_def m - height m
      /\ exposure d = Some ex
      /\ minimum ex = OV5670_EXPOSURE_MIN
      /\ maximum ex = vts_def m - 8
      /\ cur_val ex = vts_def m - 8
      /\ maximum ex = height m + cur_val vb - 8
      /\ cur_mode d = m.
Proof.
  intros s. cbv zeta. intros Hok Hin.
  destruct (init_controls_created s Hin Hok)
    as (Hcur & Hlf & _ & Hvb & Hhb & Hex).
  cbv zeta in Hhb, Hvb, Hex.
  eexists _, _, _, _.
  split; [exact Hlf |]. split; [apply read_only_add_flag |].
  split; [exact Hhb |]. split; [apply read_only_add_flag |].
  split; [exact Hvb |]. cbn [minimum maximum default_value cur_val].
  do 4 (split; [reflexivity |]).
  split; [exact Hex |]. cbn [minimum maximum default_value cur_val].
  do 3 (split; [reflexivity |]).
  split; [lia | exact Hcur].
Qed.

Lemma init_controls_ranges_witness :
  let s := mk_state unprobed (fresh_kernel all_succeed) in
  let d := drv (snd (ov5670_init_controls s)) in
  fst (ov5670_init_controls s) = 0
  /\ In (cur_mode (drv s)) supported_modes
  /\ exists vb ex,
       vblank d = Some vb /\ exposure d = Some ex
       /\ maximum ex = height (cur_mode (drv s)) + cur_val vb - 8.
Proof.
  cbv zeta.
  assert (Hok : fst (ov5670_init_controls
                       (mk_state unprobed (fresh_kernel all_succeed))) = 0)
    by (vm_compute; reflexivity).
  assert (Hin : In (cur_mode (drv (mk_state unprobed
                                     (fresh_kernel all_succeed))))
                   supported_modes)
    by (left; reflexivity).
  destruct (init_controls_ranges _ Hok Hin)
    as (lf & hb & vb & ex & _ & _ & _ & _ & Hvb & _ & _ & _ & _ & Hex
        & _ & _ & _ & Hrel & _).
  split; [exact Hok |]. split; [exact Hin |].
  exists vb, ex. split; [exact Hvb |]. split; [exact Hex | exact Hrel].
Defined.

(** ** Attaching and detaching the device *)

Lemma gpio_crs_get_is_acquire :
  gpio_crs_get = acquire the_dep_dev GPIOD_ASIS (pureW (- EINVAL)) crs_lines.
Proof. reflexivity. Qed.

Lemma gpio_pmic_get_is_acquire :
  gpio_pmic_get
  = (gpiod_add_lookup_table ;;;
     acquire the_client GPIOD_OUT_HIGH gpio_pmic_get_fail pmic_lines).
Proof. reflexivity. Qed.

Lemma same_sensor_refl (w : attach_state) : same_sensor w w.
Proof. repeat split. Qed.

Lemma same_sensor_trans (a b c : attach_state) :
  same_sensor a b -> same_sensor b c -> same_sensor a c.
Proof.
  intros (H1 & H2 & H3) (H4 & H5 & H6).
  split; [congruence |]. split; congruence.
Qed.

(** One acquisition followed by the store into its field. *)
Lemma get_and_store (g : gpio) (dev : owner) (con_id : option string)
      (idx : Z) (flags : gpiod_flags) (w : attach_state) :
  let p := pointer_of_status
             (answers (krn (sensor w)) (asked (krn (sensor w)))) in
  exists w1,
    (forall (k : ptr -> W Z),
        (p <<- devm_gpiod_get_index g dev con_id idx flags ;;
         store_desc g p ;;; k p) w = k p w1)
    /\ same_sensor w w1
    /\ journal w1
       = journal w ++ [EvDevmGpiodGetIndex dev con_id idx flags p]
    /\ gpio_desc w1 g = p
    /\ (forall g', g' <> g -> gpio_desc w1 g' = gpio_desc w g')
    /\ xvclk_freq w1 = xvclk_freq w
    /\ (flags = GPIOD_OUT_HIGH -> IS_ERR p = false ->
        gpio_value (krn (sensor w1)) g = true)
    /\ (forall g', g' <> g ->
        gpio_value (krn (sensor w1)) g' = gpio_value (krn (sensor w)) g').
Proof.
  cbv zeta. unfold devm_gpiod_get_index, bindW, sensor_call, note, store_desc,
    pureW, ask. cbn [fst snd sensor journal gpio_desc xvclk_freq].
  set (p := pointer_of_status _).
  assert (Hsame : forall g', g' <> g -> gpio_eqb g g' = false)
    by (intros g' Hne; destruct g, g'; try reflexivity; contradiction).
  assert (Hrefl : gpio_eqb g g = true) by (destruct g; reflexivity).
  destruct flags.
  - eexists. split; [intros k; reflexivity |].
    cbn [fst snd sensor journal gpio_desc xvclk_freq drv krn].
    split; [repeat split |]. split; [reflexivity |].
    split; [rewrite Hrefl; reflexivity |].
    split; [intros g' Hne; rewrite (Hsame g' Hne); reflexivity |].
    split; [reflexivity |]. split; [discriminate |].
    intros g' _. reflexivity.
  - destruct (IS_ERR p) eqn:Herr.
    + eexists. split; [intros k; reflexivity |].
      cbn [fst snd sensor journal gpio_desc xvclk_freq drv krn].
      split; [repeat split |]. split; [reflexivity |].
      split; [rewrite Hrefl; reflexivity |].
      split; [intros g' Hne; rewrite (Hsame g' Hne); reflexivity |].
      split; [reflexivity |]. split; [intros _ H; discriminate |].
      intros g' _. reflexivity.
    + eexists. split; [intros k; reflexivity |].
      unfold in_kernel, set_gpio_value.
      cbn [fst snd sensor journal gpio_desc xvclk_freq drv krn gpio_value
           usage_count trace next_answer].
      split; [repeat split |]. split; [reflexivity |].
      split; [rewrite Hrefl; reflexivity |].
      split; [intros g' Hne; rewrite (Hsame g' Hne); reflexivity |].
      split; [reflexivity |].
      split; [intros _ _; rewrite Hrefl; reflexivity |].
      intros g' Hne. rewrite (Hsame g' Hne). reflexivity.
Qed.

Lemma pointer_of_status_cases (r : Z) :
  pointer_of_status r = valid_ptr
  \/ (pointer_of_status r = err_ptr r /\ - MAX_ERRNO <= r < 0).
Proof.
  unfold pointer_of_status.
  destruct (Z.leb_spec (- MAX_ERRNO) r), (Z.ltb_spec r 0); cbn [andb];
    [right; split; [reflexivity | lia] | left; reflexivity ..].
Qed.

(** The two ways an acquisition routine ends: every line acquired, or the
    first failure handed to [on_error] with the earlier lines acquired. *)
Lemma acquire_spec (dev : owner) (flags : gpiod_flags) (on_error : W Z)
      (lines : list line) (w : attach_state) :
  NoDup (map line_of lines) ->
  (exists w',
      acquire dev flags on_error lines w = (0, w')
      /\ same_sensor w w'
      /\ journal w' = journal w ++ map (got dev flags valid_ptr) lines
      /\ (forall l, In l lines -> gpio_desc w' (line_of l) = valid_ptr)
      /\ (forall g, ~ In g (map line_of lines) -> gpio_desc w' g = gpio_desc w g)
      /\ xvclk_freq w' = xvclk_freq w
      /\ (flags = GPIOD_OUT_HIGH ->
          forall l, In l lines ->
                    gpio_value (krn (sensor w')) (line_of l) = true)
      /\ (forall g, ~ In g (map line_of lines) ->
          gpio_value (krn (sensor w')) g = gpio_value (krn (sensor w)) g))
  \/ (exists k e w1,
      (k < length lines)%nat
      /\ acquire dev flags on_error lines w = on_error w1
      /\ same_sensor w w1
      /\ journal w1
         = journal w ++ map (got dev flags valid_ptr) (firstn k lines)
           ++ map (got dev flags (err_ptr e)) (firstn 1 (skipn k lines))
      /\ xvclk_freq w1 = xvclk_freq w
      /\ (forall l, In l (firstn k lines) ->
                    gpio_desc w1 (line_of l) = valid_ptr)
      /\ (forall g, ~ In g (map line_of lines) -> gpio_desc w1 g = gpio_desc w g)).
Proof.
  revert w. induction lines as [| [[g con_id] idx] rest IH]; intros w Hnd.
  - left. exists w. cbn. rewrite app_nil_r.
    split; [reflexivity |]. split; [apply same_sensor_refl |].
    split; [reflexivity |]. split; [intros l H; contradiction |].
    split; [reflexivity |]. split; [reflexivity |].
    split; [intros _ l H; contradiction | reflexivity].
  - cbn [map line_of fst] in Hnd. apply NoDup_cons_iff in Hnd.
    destruct Hnd as [Hfresh Hnd].
    cbn [acquire].
    destruct (get_and_store g dev con_id idx flags w)
      as (w1 & Hrun & Hs1 & Hj1 & Hg1 & Hother1 & Hx1 & Hhigh1 & Hval1).
    cbv zeta in Hrun, Hj1, Hg1, Hhigh1.
    rewrite (Hrun (fun p => if IS_ERR p then on_error
                            else acquire dev flags on_error rest)).
    assert (Hne : forall g', ~ (g = g' \/ In g' (map line_of rest)) -> g' <> g)
      by (intros g' Hnot ->; tauto).
    destruct (pointer_of_status_cases
                (answers (krn (sensor w)) (asked (krn (sensor w)))))
      as [Hp | [Hp _]]; rewrite Hp in *; cbn [IS_ERR] in *.
    + destruct (IH w1 Hnd)
        as [(w' & Hrun' & Hs' & Hj' & Hd' & Hkeep' & Hx' & Hhigh' & Hval')
           | (k & e & w2 & Hk & Hrun' & Hs' & Hj' & Hx' & Hd' & Hkeep')].
      * left. exists w'. split; [exact Hrun' |].
        split; [exact (same_sensor_trans _ _ _ Hs1 Hs') |].
        split; [rewrite Hj', Hj1, <- app_assoc; reflexivity |].
        split.
        { intros l [<- | Hin]; [| exact (Hd' l Hin)].
          cbn [line_of fst]. rewrite (Hkeep' g Hfresh). exact Hg1. }
        split.
        { intros g' Hnot. cbn [map In line_of fst] in Hnot.
          rewrite Hkeep' by tauto. apply Hother1, Hne, Hnot. }
        split; [congruence |].
        split.
        { intros Hflag l [<- | Hin]; [| exact (Hhigh' Hflag l Hin)].
          cbn [line_of fst]. rewrite (Hval' g Hfresh).
          apply Hhigh1; [exact Hflag | reflexivity]. }
        intros g' Hnot. cbn [map In line_of fst] in Hnot.
        rewrite Hval' by tauto. apply Hval1, Hne, Hnot.
      * right. exists (S k), e, w2. split; [cbn [length]; lia |].
        split; [exact Hrun' |].
        split; [exact (same_sensor_trans _ _ _ Hs1 Hs') |].
        split; [rewrite Hj', Hj1, <- app_assoc; reflexivity |].
        split; [congruence |].
        split.
        { intros l. cbn [firstn]. intros [<- | Hin]; [| exact (Hd' l Hin)].
          cbn [line_of fst]. rewrite (Hkeep' g Hfresh). exact Hg1. }
        intros g' Hnot. cbn [map In line_of fst] in Hnot.
        rewrite Hkeep' by tauto. apply Hother1, Hne, Hnot.
    + right. exists 0%nat, (answers (krn (sensor w)) (asked (krn (sensor w)))), w1.
      split; [cbn [length]; lia |]. split; [reflexivity |].
      split; [exact Hs1 |]. split; [rewrite Hj1; reflexivity |].
      split; [exact Hx1 |]. split; [intros l H; contradiction |].
      intros g' Hnot. cbn [map In line_of fst] in Hnot.
      apply Hother1, Hne, Hnot.
Qed.

Lemma crs_lines_distinct : NoDup (map line_of crs_lines).
Proof.
  cbn. repeat constructor; cbn; intuition discriminate.
Qed.

Lemma pmic_lines_distinct : NoDup (map line_of pmic_lines).
Proof.
  cbn. repeat constructor; cbn; intuition discriminate.
Qed.

Lemma gpio_crs_get_spec (w : attach_state) :
  (exists w',
      gpio_crs_get w = (0, w')
      /\ same_sensor w w'
      /\ journal w'
         = journal w ++ map (got the_dep_dev GPIOD_ASIS valid_ptr) crs_lines
      /\ (forall l, In l crs_lines -> gpio_desc w' (line_of l) = valid_ptr)
      /\ (forall g, ~ In g (map line_of crs_lines) ->
                    gpio_desc w' g = gpio_desc w g)
      /\ xvclk_freq w' = xvclk_freq w)
  \/ (exists k e w',
      (k < 3)%nat
      /\ gpio_crs_get w = (- EINVAL, w')
      /\ same_sensor w w'
      /\ journal w'
         = journal w
           ++ map (got the_dep_dev GPIOD_ASIS valid_ptr) (firstn k crs_lines)
           ++ map (got the_dep_dev GPIOD_ASIS (err_ptr e))
                  (firstn 1 (skipn k crs_lines))
      /\ (forall l, In l (firstn k crs_lines) ->
                    gpio_desc w' (line_of l) = valid_ptr)).
Proof.
  rewrite gpio_crs_get_is_acquire.
  destruct (acquire_spec the_dep_dev GPIOD_ASIS (pureW (- EINVAL)) crs_lines w
              crs_lines_distinct)
    as [(w' & Hrun & Hs & Hj & Hd & Hkeep & Hx & _)
       | (k & e & w1 & Hk & Hrun & Hs & Hj & Hx & Hd & _)].
  - left. exists w'. repeat (split; [assumption |]). assumption.
  - right. exists k, e, w1. split; [exact Hk |].
    split; [exact Hrun |]. split; [exact Hs |]. split; [exact Hj | exact Hd].
Qed.

Lemma gpio_pmic_get_spec (w : attach_state) :
  (exists w',
      gpio_pmic_get w = (0, w')
      /\ same_sensor w w'
      /\ journal w'
         = journal w
           ++ EvGpiodAddLookupTable
              :: map (got the_client GPIOD_OUT_HIGH valid_ptr) pmic_lines
      /\ (forall l, In l pmic_lines -> gpio_desc w' (line_of l) = valid_ptr)
      /\ (forall g, ~ In g (map line_of pmic_lines) ->
                    gpio_desc w' g = gpio_desc w g)
      /\ xvclk_freq w' = xvclk_freq w
      /\ (forall l, In l pmic_lines ->
                    gpio_value (krn (sensor w')) (line_of l) = true))
  \/ (exists k e w',
      (k < 10)%nat
      /\ gpio_pmic_get w = (- EINVAL, w')
      /\ same_sensor w w'
      /\ journal w'
         = journal w
           ++ EvGpiodAddLookupTable
              :: map (got the_client GPIOD_OUT_HIGH valid_ptr)
                     (firstn k pmic_lines)
           ++ map (got the_client GPIOD_OUT_HIGH (err_ptr e))
                  (firstn 1 (skipn k pmic_lines))
           ++ [EvGpiodRemoveLookupTable]
      /\ (forall l, In l (firstn k pmic_lines) ->
                    gpio_desc w' (line_of l) = valid_ptr)
      /\ (forall g, ~ In g (map line_of pmic_lines) ->
                    gpio_desc w' g = gpio_desc w g)).
Proof.
  set (w0 := mk_attach (sensor w) (gpio_desc w) (xvclk_freq w)
                        (journal w ++ [EvGpiodAddLookupTable])).
  assert (E : gpio_pmic_get w
              = acquire the_client GPIOD_OUT_HIGH gpio_pmic_get_fail
                        pmic_lines w0) by reflexivity.
  rewrite E. clear E.
  destruct (acquire_spec the_client GPIOD_OUT_HIGH gpio_pmic_get_fail
              pmic_lines w0 pmic_lines_distinct)
    as [(w' & Hrun & Hs & Hj & Hd & Hkeep & Hx & Hhigh & _)
       | (k & e & w1 & Hk & Hrun & Hs & Hj & Hx & Hd & Hkeep)].
  - left. exists w'. split; [exact Hrun |]. split; [exact Hs |].
    split; [rewrite Hj; unfold w0; cbn [journal];
            rewrite <- app_assoc; reflexivity |].
    split; [exact Hd |]. split; [exact Hkeep |]. split; [exact Hx |].
    exact (Hhigh eq_refl).
  - right. exists k, e.
    exists (mk_attach (sensor w1) (gpio_desc w1) (xvclk_freq w1)
                      (journal w1 ++ [EvGpiodRemoveLookupTable])).
    split; [exact Hk |]. split; [rewrite Hrun; reflexivity |].
    split; [exact Hs |]. cbn [journal gpio_desc].
    split; [rewrite Hj; unfold w0; cbn [journal];
            rewrite <- !app_assoc; reflexivity |].
    split; [exact Hd | exact Hkeep].
Qed.

(** X20: acquiring the GPIO lines.  [gpio_crs_get] asks the dependent
    device for its lines 0, 1 and 2, as they are, in that order;
    [gpio_pmic_get] registers the lookup table and asks the sensor's own
    device for the ten named lines of the companion, each as an output
    driving high, in the order of the source.  Both stop at the first line
    that cannot be had and return [-EINVAL]; the lines acquired before it
    stay acquired, and [gpio_pmic_get] removes the lookup table again.  When
    they return 0 every descriptor field they fill holds a valid descriptor,
    the lookup table stays registered, and the ten companion lines are
    high. *)
Theorem gpio_acquisition_contract :
  forall (w : attach_state),
    ((exists w',
         gpio_crs_get w = (0, w')
         /\ journal w'
            = journal w ++ map (got the_dep_dev GPIOD_ASIS valid_ptr) crs_lines
         /\ (forall l, In l crs_lines -> gpio_desc w' (line_of l) = valid_ptr))
     \/ (exists k e w',
         (k < 3)%nat
         /\ gpio_crs_get w = (- EINVAL, w')
         /\ journal w'
            = journal w
              ++ map (got the_dep_dev GPIOD_ASIS valid_ptr) (firstn k crs_lines)
              ++ map (got the_dep_dev GPIOD_ASIS (err_ptr e))
                     (firstn 1 (skipn k crs_lines))
         /\ (forall l, In l (firstn k crs_lines) ->
                       gpio_desc w' (line_of l) = valid_ptr)))
    /\ ((exists w',
            gpio_pmic_get w = (0, w')
            /\ journal w'
               = journal w
                 ++ EvGpiodAddLookupTable
                    :: map (got the_client GPIOD_OUT_HIGH valid_ptr) pmic_lines
            /\ (forall l, In l pmic_lines ->
                          gpio_desc w' (line_of l) = valid_ptr
                          /\ gpio_value (krn (sensor w')) (line_of l) = true))
        \/ (exists k e w',
            (k < 10)%nat
            /\ gpio_pmic_get w = (- EINVAL, w')
            /\ journal w'
               = journal w
                 ++ EvGpiodAddLookupTable
                    :: map (got the_client GPIOD_OUT_HIGH valid_ptr)
                           (firstn k pmic_lines)
                 ++ map (got the_client GPIOD_OUT_HIGH (err_ptr e))
                        (firstn 1 (skipn k pmic_lines))
                 ++ [EvGpiodRemoveLookupTable]
            /\ (forall l, In l (firstn k pmic_lines) ->
                          gpio_desc w' (line_of l) = valid_ptr)))
    /\ drv (sensor (snd (gpio_crs_get w))) = drv (sensor w)
    /\ drv (sensor (snd (gpio_pmic_get w))) = drv (sensor w).
Proof.
  intros w. split; [| split; [| split]].
  - destruct (gpio_crs_get_spec w)
      as [(w' & Hrun & _ & Hj & Hd & _) | (k & e & w' & Hk & Hrun & _ & Hj & Hd)].
    + left. exists w'. split; [exact Hrun |]. split; [exact Hj | exact Hd].
    + right. exists k, e, w'. split; [exact Hk |]. split; [exact Hrun |].
      split; [exact Hj | exact Hd].
  - destruct (gpio_pmic_get_spec w)
      as [(w' & Hrun & _ & Hj & Hd & _ & _ & Hhigh)
         | (k & e & w' & Hk & Hrun & _ & Hj & Hd & _)].
    + left. exists w'. split; [exact Hrun |]. split; [exact Hj |].
      intros l Hin. split; [exact (Hd l Hin) | exact (Hhigh l Hin)].
    + right. exists k, e, w'. split; [exact Hk |]. split; [exact Hrun |].
      split; [exact Hj | exact Hd].
  - destruct (gpio_crs_get_spec w)
      as [(w' & -> & (Hs & _) & _) | (k & e & w' & _ & -> & (Hs & _) & _)];
      exact Hs.
  - destruct (gpio_pmic_get_spec w)
      as [(w' & -> & (Hs & _) & _) | (k & e & w' & _ & -> & (Hs & _) & _)];
      exact Hs.
Qed.

Ltac stepW :=
  lazymatch goal with
  | |- context [@bindW ?A ?B ?m ?k ?w] =>
      change (@bindW A B m k w) with (k (fst (m w)) (snd (m w))); cbv beta
  end.

Ltac stepW_in H :=
  lazymatch type of H with
  | context [@bindW ?A ?B ?m ?k ?w] =>
      change (@bindW A B m k w) with (k (fst (m w)) (snd (m w))) in H;
      cbv beta in H
  end.

Lemma devm_kzalloc_spec (w : attach_state) :
  (exists w',
      devm_kzalloc w = (valid_ptr, w')
      /\ drv (sensor w') = zeroed
      /\ (forall g, gpio_desc w' g = null_ptr)
      /\ journal w' = journal w ++ [EvDevmKzalloc valid_ptr])
  \/ (exists w',
      devm_kzalloc w = (null_ptr, w')
      /\ same_sensor w w'
      /\ journal w' = journal w ++ [EvDevmKzalloc null_ptr]).
Proof.
  unfold devm_kzalloc, bindW, sensor_call, note, pureW, ask, driver.
  cbn [fst snd sensor journal gpio_desc xvclk_freq].
  destruct (answers (krn (sensor w)) (asked (krn (sensor w))) =? 0).
  - left. eexists. split; [reflexivity |].
    cbn [fst snd sensor journal gpio_desc xvclk_freq drv].
    split; [reflexivity |]. split; [reflexivity | reflexivity].
  - right. eexists. split; [reflexivity |].
    cbn [fst snd sensor journal gpio_desc xvclk_freq drv].
    split; [repeat split | reflexivity].
Qed.

Lemma regulator_pmic_get_spec (w : attach_state) :
  exists ret w',
    regulator_pmic_get w = (ret, w')
    /\ same_sensor w w'
    /\ gpio_desc w' = gpio_desc w
    /\ journal w'
       = journal w ++ [EvDevmRegulatorBulkGet ov5670_supply_names ret].
Proof.
  unfold regulator_pmic_get, devm_regulator_bulk_get, bindW, sensor_call,
    note, pureW, ask.
  cbn [fst snd sensor journal gpio_desc xvclk_freq].
  eexists _, _. split; [reflexivity |].
  cbn [sensor journal gpio_desc]. split; [repeat split |].
  split; reflexivity.
Qed.

Lemma configure_clock_spec (w : attach_state) :
  let a0 := answers (krn (sensor w)) (asked (krn (sensor w))) in
  let a1 := answers (krn (sensor w)) (S (asked (krn (sensor w)))) in
  let a2 := answers (krn (sensor w)) (S (S (asked (krn (sensor w))))) in
  exists ret w' clk,
    ov5670_configure_clock w = (ret, w')
    /\ same_sensor w w'
    /\ gpio_desc w' = gpio_desc w
    /\ journal w' = journal w ++ clk
    /\ ((IS_ERR (pointer_of_status a0) = true
         /\ ret = a0 /\ - MAX_ERRNO <= a0 < 0
         /\ clk = [EvDevmClkGet "tps68470-clk" (err_ptr a0)])
        \/ (IS_ERR (pointer_of_status a0) = false /\ a1 < 0
            /\ ret = - EINVAL
            /\ clk = [ EvDevmClkGet "tps68470-clk" valid_ptr;
                       EvClkSetRate 19200000 a1 ])
        \/ (IS_ERR (pointer_of_status a0) = false /\ 0 <= a1
            /\ u32 a2 <> 19200000 /\ ret = - EINVAL
            /\ clk = [ EvDevmClkGet "tps68470-clk" valid_ptr;
                       EvClkSetRate 19200000 a1; EvClkGetRate a2 ])
        \/ (IS_ERR (pointer_of_status a0) = false /\ 0 <= a1
            /\ u32 a2 = 19200000 /\ ret = 0
            /\ xvclk_freq w' = 19200000
            /\ clk = [ EvDevmClkGet "tps68470-clk" valid_ptr;
                       EvClkSetRate 19200000 a1; EvClkGetRate a2 ])).
Proof.
  cbv zeta.
  unfold ov5670_configure_clock, devm_clk_get, clk_set_rate, clk_get_rate,
    store_xvclk_freq, load_xvclk_freq, bindW, sensor_call, note, pureW, ask.
  cbn [fst snd sensor journal gpio_desc xvclk_freq drv krn answers asked
       next_answer].
  set (a0 := answers (krn (sensor w)) (asked (krn (sensor w)))).
  set (a1 := answers (krn (sensor w)) (S (asked (krn (sensor w))))).
  set (a2 := answers (krn (sensor w)) (S (S (asked (krn (sensor w)))))).
  destruct (pointer_of_status_cases a0) as [Hp | [Hp Hrange]]; rewrite Hp;
    cbn [IS_ERR PTR_ERR].
  2:{ eexists _, _, _. split; [reflexivity |].
      cbn [sensor journal gpio_desc]. split; [repeat split |].
      split; [reflexivity |]. split; [reflexivity |].
      left. repeat split; try reflexivity; lia. }
  cbn [fst snd sensor journal gpio_desc xvclk_freq drv krn answers asked
       next_answer].
  fold a1.
  destruct (Z.ltb_spec a1 0) as [Hneg | Hpos].
  2:{ cbn [fst snd sensor journal gpio_desc xvclk_freq drv krn answers asked
           next_answer]. fold a2.
      destruct (Z.eqb_spec (u32 a2) 19200000) as [Hrate | Hrate]; cbn [negb].
      - eexists _, _, _. split; [reflexivity |].
        cbn [sensor journal gpio_desc xvclk_freq]. split; [repeat split |].
        split; [reflexivity |]. split; [rewrite <- !app_assoc; reflexivity |].
        right. right. right. repeat split; try reflexivity; assumption.
      - eexists _, _, _. split; [reflexivity |].
        cbn [sensor journal gpio_desc]. split; [repeat split |].
        split; [reflexivity |]. split; [rewrite <- !app_assoc; reflexivity |].
        right. right. left. repeat split; try reflexivity; assumption. }
  { eexists _, _, _. split; [reflexivity |].
    cbn [sensor journal gpio_desc]. split; [repeat split |].
    split; [reflexivity |]. split; [rewrite <- app_assoc; reflexivity |].
    right. left. repeat split; try reflexivity; assumption. }
Qed.

(** X21: [ov5670_configure_clock] succeeds exactly when the clock
    "tps68470-clk" can be had, setting its rate to 19.2 MHz does not report
    a negative status, and the rate read back, truncated to 32 bits, is
    19200000.  A missing clock is reported with its own error number, the two
    other failures with [-EINVAL].  The calls are made in that order and stop
    at the first failure; no other rate is ever asked for.
    [regulator_pmic_get] asks for the seven supplies of the companion in one
    call and returns its status. *)
Theorem configure_clock_contract :
  forall (w : attach_state),
    let a0 := answers (krn (sensor w)) (asked (krn (sensor w))) in
    let a1 := answers (krn (sensor w)) (S (asked (krn (sensor w)))) in
    let a2 := answers (krn (sensor w)) (S (S (asked (krn (sensor w))))) in
    let r := ov5670_configure_clock w in
    (fst r = 0 <->
     IS_ERR (pointer_of_status a0) = false /\ 0 <= a1 /\ u32 a2 = 19200000)
    /\ (fst r = 0 -> xvclk_freq (snd r) = 19200000)
    /\ (IS_ERR (pointer_of_status a0) = true ->
        fst r = a0
        /\ journal (snd r)
           = journal w ++ [EvDevmClkGet "tps68470-clk" (err_ptr a0)])
    /\ (IS_ERR (pointer_of_status a0) = false ->
        (fst r = 0 \/ fst r = - EINVAL)
        /\ exists rest,
             journal (snd r)
             = journal w
               ++ EvDevmClkGet "tps68470-clk" valid_ptr
                  :: EvClkSetRate 19200000 a1 :: rest
             /\ (rest = [] \/ rest = [EvClkGetRate a2])
             /\ (rest = [] <-> a1 < 0))
    /\ drv (sensor (snd r)) = drv (sensor w)
    /\ (let g := regulator_pmic_get w in
        fst g = a0
        /\ journal (snd g)
           = journal w ++ [EvDevmRegulatorBulkGet ov5670_supply_names a0]
        /\ length ov5670_supply_names = 7%nat).
Proof.
  intros w. cbv zeta.
  destruct (configure_clock_spec w)
    as (ret & w' & clk & -> & (Hd & _) & _ & Hj & Hcases).
  cbv zeta in Hcases. cbn [fst snd]. rewrite Hj.
  set (a0 := answers (krn (sensor w)) (asked (krn (sensor w)))) in *.
  set (a1 := answers (krn (sensor w)) (S (asked (krn (sensor w))))) in *.
  set (a2 := answers (krn (sensor w)) (S (S (asked (krn (sensor w)))))) in *.
  assert (Hreg : fst (regulator_pmic_get w) = a0
                 /\ journal (snd (regulator_pmic_get w))
                    = journal w
                      ++ [EvDevmRegulatorBulkGet ov5670_supply_names a0]
                 /\ length ov5670_supply_names = 7%nat)
    by (repeat split).
  destruct Hcases
    as [(He & -> & Hr & ->)
       | [(He & Hneg & -> & ->)
         | [(He & Hpos & Hrate & -> & ->)
           | (He & Hpos & Hrate & -> & Hx & ->)]]]; rewrite He.
  - split; [split; [intros H; lia | intros [H _]; discriminate] |].
    split; [intros H; lia |].
    split; [intros _; split; reflexivity |].
    split; [intros H; discriminate |]. split; [exact Hd | exact Hreg].
  - split; [split; [intros H; unfold EINVAL in H; lia | intros (_ & H & _); lia] |].
    split; [intros H; unfold EINVAL in H; lia |].
    split; [intros H; discriminate |].
    split; [| split; [exact Hd | exact Hreg]].
    intros _. split; [right; reflexivity |].
    exists []. split; [reflexivity |]. split; [left; reflexivity |].
    split; [intros _; exact Hneg | reflexivity].
  - split; [split; [intros H; unfold EINVAL in H; lia
                   | intros (_ & _ & H); contradiction] |].
    split; [intros H; unfold EINVAL in H; lia |].
    split; [intros H; discriminate |].
    split; [| split; [exact Hd | exact Hreg]].
    intros _. split; [right; reflexivity |].
    exists [EvClkGetRate a2]. split; [reflexivity |].
    split; [right; reflexivity |].
    split; [intros H; discriminate | intros H; lia].
  - split; [split; [intros _; repeat split; assumption | reflexivity] |].
    split; [intros _; exact Hx |].
    split; [intros H; discriminate |].
    split; [| split; [exact Hd | exact Hreg]].
    intros _. split; [left; reflexivity |].
    exists [EvClkGetRate a2]. split; [reflexivity |].
    split; [right; reflexivity |].
    split; [intros H; discriminate | intros H; lia].
Qed.

(** The labels of [ov5670_probe]: what each adds to the journal when the
    descriptors it releases are valid. *)
Lemma error_print_spec (msg : option string) (ret : Z) (w : attach_state) :
  error_print msg ret w
  = (ret, mk_attach (sensor w) (gpio_desc w) (xvclk_freq w)
                    (journal w ++ [EvDevErr msg ret])).
Proof. reflexivity. Qed.

Lemma gpiod_put_eq (g : gpio) (w : attach_state) :
  gpiod_put g w
  = (tt, mk_attach (sensor w) (gpio_desc w) (xvclk_freq w)
                   (journal w ++ [EvGpiodPut g (gpio_desc w g)])).
Proof. reflexivity. Qed.

Ltac put_step Hd :=
  stepW; rewrite gpiod_put_eq;
  cbn [fst snd sensor journal gpio_desc xvclk_freq]; rewrite ?Hd.

Lemma put_crs_gpio_spec (msg : option string) (ret : Z) (w : attach_state) :
  (forall l, In l crs_lines -> gpio_desc w (line_of l) = valid_ptr) ->
  put_crs_gpio msg ret w
  = (ret, mk_attach (sensor w) (gpio_desc w) (xvclk_freq w)
                    (journal w ++ map put crs_lines ++ [EvDevErr msg ret])).
Proof.
  intros Hd.
  pose proof (Hd (xshutdn, None, 0) ltac:(cbn; tauto)) as H0.
  pose proof (Hd (pwdnb, None, 1) ltac:(cbn; tauto)) as H1.
  pose proof (Hd (led_gpio, None, 2) ltac:(cbn; tauto)) as H2.
  cbn [line_of fst] in H0, H1, H2.
  unfold put_crs_gpio, gpio_crs_put.
  stepW. put_step H0. put_step H1. rewrite gpiod_put_eq.
  cbn [fst snd sensor journal gpio_desc xvclk_freq].
  rewrite ?H0, ?H1, ?H2.
  rewrite error_print_spec. cbn [sensor journal gpio_desc xvclk_freq].
  rewrite <- !app_assoc. reflexivity.
Qed.

Lemma put_pmic_gpio_spec (msg : option string) (ret : Z) (w : attach_state) :
  (forall g, gpio_desc w g = valid_ptr) ->
  put_pmic_gpio msg ret w
  = (ret, mk_attach (sensor w) (gpio_desc w) (xvclk_freq w)
                    (journal w ++ releases ++ [EvDevErr msg ret])).
Proof.
  intros Hd. unfold put_pmic_gpio, gpio_pmic_put.
  stepW. do 10 (put_step Hd).
  unfold gpiod_remove_lookup_table at 1. unfold note at 1. cbn [fst snd].
  rewrite put_crs_gpio_spec by (intros l _; apply Hd).
  cbn [sensor journal gpio_desc xvclk_freq].
  rewrite <- !app_assoc. reflexivity.
Qed.

Lemma disable_regulator_spec (msg : option string) (ret : Z)
      (w : attach_state) :
  (forall g, gpio_desc w g = valid_ptr) ->
  fst (disable_regulator msg ret w) = ret
  /\ journal (snd (disable_regulator msg ret w))
     = journal w ++ releases ++ [EvDevErr msg ret]
  /\ exists r,
       trace (krn (sensor (snd (disable_regulator msg ret w))))
       = trace (krn (sensor w)) ++ [EvRegulatorBulkDisable r].
Proof.
  intros Hd. unfold disable_regulator. stepW.
  rewrite put_pmic_gpio_spec by (intros g; apply Hd).
  cbn [fst snd sensor journal]. split; [reflexivity |].
  split; [reflexivity |]. eexists. reflexivity.
Qed.

Lemma error_mutex_destroy_spec (msg : option string) (ret : Z)
      (w : attach_state) :
  (forall g, gpio_desc w g = valid_ptr) ->
  fst (error_mutex_destroy msg ret w) = ret
  /\ journal (snd (error_mutex_destroy msg ret w))
     = journal w ++ [EvMutexDestroy] ++ releases ++ [EvDevErr msg ret].
Proof.
  intros Hd. unfold error_mutex_destroy. stepW.
  destruct (disable_regulator_spec msg ret (snd (mutex_destroy w)) Hd)
    as (Hr & Hj & _).
  rewrite Hr, Hj. cbn [mutex_destroy note snd journal].
  rewrite <- app_assoc. split; reflexivity.
Qed.

Lemma error_handler_free_spec (msg : option string) (ret : Z)
      (w : attach_state) :
  (forall g, gpio_desc w g = valid_ptr) ->
  fst (error_handler_free msg ret w) = ret
  /\ journal (snd (error_handler_free msg ret w))
     = journal w ++ [EvMutexDestroy] ++ releases ++ [EvDevErr msg ret].
Proof.
  intros Hd. unfold error_handler_free. stepW.
  exact (error_mutex_destroy_spec msg ret _ Hd).
Qed.

Lemma error_entity_cleanup_spec (msg : option string) (ret : Z)
      (w : attach_state) :
  (forall g, gpio_desc w g = valid_ptr) ->
  fst (error_entity_cleanup msg ret w) = ret
  /\ journal (snd (error_entity_cleanup msg ret w))
     = journal w ++ [EvMediaEntityCleanup; EvMutexDestroy] ++ releases
       ++ [EvDevErr msg ret].
Proof.
  intros Hd. unfold error_entity_cleanup. stepW.
  destruct (error_handler_free_spec msg ret (snd (media_entity_cleanup w)) Hd)
    as (Hr & Hj).
  rewrite Hr, Hj. cbn [media_entity_cleanup note snd journal].
  rewrite <- app_assoc. split; reflexivity.
Qed.

Lemma sensor_call_eq {A : Type} (m : M A) (w : attach_state) :
  sensor_call m w
  = (fst (m (sensor w)),
     mk_attach (snd (m (sensor w))) (gpio_desc w) (xvclk_freq w) (journal w)).
Proof. reflexivity. Qed.

Lemma note_eq (e : attach_event) (w : attach_state) :
  note e w
  = (tt, mk_attach (sensor w) (gpio_desc w) (xvclk_freq w) (journal w ++ [e])).
Proof. reflexivity. Qed.

Lemma power_up_eq (s : state) :
  exists s',
    power_up s = (0, s')
    /\ drv s' = set_clk_enabled false (set_regulator_enabled false (drv s))
    /\ (forall g, gpio_value (krn s') g = true).
Proof.
  unfold power_up, power_up_retry, retry_count.
  rewrite (power_up_loop_succeeded __power_up 3 0 s (__power_up_returns_zero s)).
  rewrite __power_up_takes_success_path.
  destruct (power_ctrl_frame true s) as [Hd _].
  pose proof (power_ctrl_sets_gpios true s) as Hg.
  unfold bind, usleep_range, in_kernel, pure.
  revert Hd Hg. generalize (power_ctrl true s). intros p Hd Hg.
  cbn [fst snd]. eexists. split; [reflexivity |].
  cbn [drv krn log gpio_value]. split; [exact Hd | exact Hg].
Qed.

Lemma power_down_eq (s : state) :
  exists s',
    power_down s = (0, s')
    /\ drv s' = set_clk_enabled false (set_regulator_enabled false (drv s))
    /\ (forall g, gpio_value (krn s') g = false).
Proof.
  rewrite power_down_is_power_ctrl_off.
  destruct (power_ctrl_frame false s) as [Hd _].
  exists (snd (power_ctrl false s)).
  split; [| split; [exact Hd | intros g; apply power_ctrl_off_lowers_gpios]].
  rewrite <- (power_ctrl_returns_zero false s). apply surjective_pairing.
Qed.

Lemma bus_only_identify_module : bus_only ov5670_identify_module.
Proof.
  unfold ov5670_identify_module.
  apply bus_only_bind; [apply bus_only_read_reg |].
  intros r. destruct (negb (fst r =? 0)); [apply bus_only_pure |].
  destruct (negb (snd r =? OV5670_CHIP_ID)); apply bus_only_pure.
Qed.

Lemma get_dep_dev_error (bus : list device) (junk : device_ptr)
      (node : acpi_node) (e : Z) :
  get_dep_dev bus junk node = inl e -> e < 0.
Proof.
  unfold get_dep_dev.
  destruct (has_dep_method node); cbn [negb];
    [| intros H; injection H as <-; unfold ENODEV; lia].
  destruct (dep_devices node) as [handles |];
    [| intros H; injection H as <-; unfold ENODEV; lia].
  destruct (get_dep_dev_loop bus handles junk) as [e' | [| e' He' | d]]
    eqn:Hloop.
  - intros H. injection H as <-. rewrite (dep_loop_error _ _ _ _ Hloop).
    unfold ENODEV. lia.
  - intros H. injection H as <-. unfold EINVAL. lia.
  - intros H. injection H as <-.
    pose proof He' as Hrange. unfold IS_ERR_VALUE in Hrange.
    apply andb_prop in Hrange. apply Z.ltb_lt, Hrange.
  - discriminate.
Qed.

Lemma gets_are_gets (dev : owner) (flags : gpiod_flags) (p : ptr)
      (lines : list line) :
  forallb is_get (map (got dev flags p) lines) = true.
Proof. induction lines as [| l rest IH]; [reflexivity | exact IH]. Qed.

Lemma every_line (g : gpio) :
  In g (map line_of crs_lines) \/ In g (map line_of pmic_lines).
Proof. destruct g; cbn; tauto. Qed.

Lemma crs_not_pmic (g : gpio) :
  In g (map line_of crs_lines) -> ~ In g (map line_of pmic_lines).
Proof. cbn. intuition (subst; discriminate). Qed.

Lemma all_lines_valid (before after : gpio -> ptr) :
  (forall l, In l crs_lines -> before (line_of l) = valid_ptr) ->
  (forall l, In l pmic_lines -> after (line_of l) = valid_ptr) ->
  (forall g, ~ In g (map line_of pmic_lines) -> after g = before g) ->
  forall g, after g = valid_ptr.
Proof.
  intros Hc Hp Hkeep g.
  destruct (every_line g) as [Hin | Hin].
  - rewrite (Hkeep g (crs_not_pmic g Hin)).
    apply in_map_iff in Hin. destruct Hin as (l & <- & Hl). exact (Hc l Hl).
  - apply in_map_iff in Hin. destruct Hin as (l & <- & Hl). exact (Hp l Hl).
Qed.

Lemma media_entity_pads_init_eq (w : attach_state) :
  media_entity_pads_init w
  = (answers (krn (sensor w)) (asked (krn (sensor w))),
     mk_attach (mk_state (drv (sensor w)) (next_answer (krn (sensor w))))
               (gpio_desc w) (xvclk_freq w)
               (journal w
                ++ [EvMediaEntityPadsInit
                      (answers (krn (sensor w)) (asked (krn (sensor w))))])).
Proof. reflexivity. Qed.

Lemma async_register_eq (w : attach_state) :
  v4l2_async_register_subdev_sensor_common w
  = (answers (krn (sensor w)) (asked (krn (sensor w))),
     mk_attach (mk_state (drv (sensor w)) (next_answer (krn (sensor w))))
               (gpio_desc w) (xvclk_freq w)
               (journal w
                ++ [EvV4l2AsyncRegisterSubdevSensorCommon
                      (answers (krn (sensor w)) (asked (krn (sensor w))))])).
Proof. reflexivity. Qed.

(** Stepping over a call whose result is known. *)
Lemma bindW_result {A B : Type} (m : W A) (k : A -> W B) (w w' : attach_state)
      (a : A) :
  m w = (a, w') -> bindW m k w = k a w'.
Proof. intros E. unfold bindW. rewrite E. reflexivity. Qed.

Lemma bindW_sensor_call {A B : Type} (m : M A) (k : A -> W B)
      (w : attach_state) (a : A) (s' : state) :
  m (sensor w) = (a, s') ->
  bindW (sensor_call m) k w
  = k a (mk_attach s' (gpio_desc w) (xvclk_freq w) (journal w)).
Proof. intros E. unfold bindW, sensor_call. rewrite E. reflexivity. Qed.

Lemma bindW_note {B : Type} (e : attach_event) (k : unit -> W B)
      (w : attach_state) :
  bindW (note e) k w
  = k tt (mk_attach (sensor w) (gpio_desc w) (xvclk_freq w) (journal w ++ [e])).
Proof. reflexivity. Qed.

(** The ways [ov5670_probe] ends, with what each leaves in the journal. *)
Lemma probe_cases (bus : list device) (junk : device_ptr)
      (node : acpi_node) (w : attach_state) :
  forall r, r = ov5670_probe bus junk node w ->
  exists new,
    journal (snd r) = journal w ++ new
    /\ ((fst r = - ENOMEM
         /\ new = [ EvDevmKzalloc null_ptr;
                    EvDevErr (Some "devm_kzalloc() error"%string) (- ENOMEM) ])
        \/ (fst r < 0
            /\ get_dep_dev bus junk node = inl (fst r)
            /\ new = [EvDevmKzalloc valid_ptr])
        \/ (fst r = - EINVAL
            /\ exists gets,
                 forallb is_get gets = true
                 /\ new = EvDevmKzalloc valid_ptr :: gets)
        \/ (fst r = - EINVAL
            /\ exists gets,
                 forallb is_get gets = true
                 /\ new = [EvDevmKzalloc valid_ptr]
                          ++ map (got the_dep_dev GPIOD_ASIS valid_ptr) crs_lines
                          ++ EvGpiodAddLookupTable :: gets
                          ++ [EvGpiodRemoveLookupTable]
                          ++ map put crs_lines
                          ++ [EvDevErr None (- EINVAL)])
        \/ (fst r <> 0
            /\ new = [EvDevmKzalloc valid_ptr]
                     ++ map (got the_dep_dev GPIOD_ASIS valid_ptr) crs_lines
                     ++ EvGpiodAddLookupTable
                        :: map (got the_client GPIOD_OUT_HIGH valid_ptr)
                               pmic_lines
                     ++ [EvDevmRegulatorBulkGet ov5670_supply_names (fst r)]
                     ++ releases ++ [EvDevErr None (fst r)])
        \/ (fst r <> 0
            /\ exists clk,
                 ((exists p, clk = [EvDevmClkGet "tps68470-clk" p])
                  \/ (exists p r1, clk = [ EvDevmClkGet "tps68470-clk" p;
                                           EvClkSetRate 19200000 r1 ])
                  \/ (exists p r1 r2, clk = [ EvDevmClkGet "tps68470-clk" p;
                                              EvClkSetRate 19200000 r1;
                                              EvClkGetRate r2 ]))
                 /\ new = [EvDevmKzalloc valid_ptr]
                          ++ map (got the_dep_dev GPIOD_ASIS valid_ptr) crs_lines
                          ++ EvGpiodAddLookupTable
                             :: map (got the_client GPIOD_OUT_HIGH valid_ptr)
                                    pmic_lines
                          ++ [EvDevmRegulatorBulkGet ov5670_supply_names 0]
                          ++ clk ++ releases ++ [EvDevErr None (fst r)])
        \/ (fst r <> 0
            /\ (forall g, gpio_value (krn (sensor (snd r))) g = true)
            /\ (forall g, gpio_desc (snd r) g = valid_ptr)
            /\ exists r1 r2,
                 new = acquisitions r1 r2
                       ++ [ EvV4l2I2cSubdevInit;
                            EvDevErr
                              (Some "ov5670_identify_module() error"%string)
                              (fst r) ])
        \/ (fst r <> 0
            /\ exists r1 r2,
                 new = acquisitions r1 r2
                       ++ [EvV4l2I2cSubdevInit; EvMutexInit; EvMutexDestroy]
                       ++ releases
                       ++ [EvDevErr
                             (Some "ov5670_init_controls() error"%string)
                             (fst r)])
        \/ (fst r <> 0
            /\ exists r1 r2,
                 new = acquisitions r1 r2
                       ++ [ EvV4l2I2cSubdevInit; EvMutexInit;
                            EvMediaEntityPadsInit (fst r); EvMutexDestroy ]
                       ++ releases
                       ++ [EvDevErr
                             (Some "media_entity_pads_init() error"%string)
                             (fst r)])
        \/ (fst r < 0
            /\ exists r1 r2,
                 new = acquisitions r1 r2
                       ++ [ EvV4l2I2cSubdevInit; EvMutexInit;
                            EvMediaEntityPadsInit 0;
                            EvV4l2AsyncRegisterSubdevSensorCommon (fst r);
                            EvMediaEntityCleanup; EvMutexDestroy ]
                       ++ releases
                       ++ [EvDevErr
                             (Some "v4l2_async_register_subdev() error"%string)
                             (fst r)])
        \/ (fst r = 0
            /\ (exists dep, get_dep_dev bus junk node = inr dep)
            /\ (forall g, gpio_desc (snd r) g = valid_ptr)
            /\ xvclk_freq (snd r) = 19200000
            /\ (forall g, gpio_value (krn (sensor (snd r))) g = false)
            /\ (exists s0,
                  cur_mode (drv s0) = default_mode
                  /\ fst (ov5670_init_controls s0) = 0
                  /\ drv (sensor (snd r))
                     = set_clk_enabled false
                         (set_regulator_enabled false
                            (set_streaming false
                               (drv (snd (ov5670_init_controls s0))))))
            /\ exists r1 r2 r3,
                 0 <= r1 /\ u32 r2 = 19200000 /\ 0 <= r3
                 /\ new = acquisitions r1 r2
                          ++ [ EvV4l2I2cSubdevInit; EvMutexInit;
                               EvMediaEntityPadsInit 0;
                               EvV4l2AsyncRegisterSubdevSensorCommon r3;
                               EvPmRuntimeSetActive; EvPmRuntimeEnable;
                               EvPmRuntimeIdle ])).
Proof.
  intros r Hr. unfold ov5670_probe in Hr. cbv zeta in Hr.
  pose proof power_up_eq as Hpu. pose proof power_down_eq as Hpd.
  pose proof bus_only_identify_module as Hidm.
  revert Hpu Hpd Hidm Hr.
  generalize power_up, power_down, ov5670_identify_module,
    ov5670_init_controls.
  intros pu pd idm ic Hpu Hpd Hidm Hr.
  stepW_in Hr.
  destruct (devm_kzalloc_spec w)
    as [(w0 & E0 & Hd0 & Hg0 & Hj0) | (w0 & E0 & _ & Hj0)];
    rewrite E0 in Hr; cbn [fst snd] in Hr.
  2:{ rewrite error_print_spec in Hr. subst r. cbn [fst snd journal].
      exists [ EvDevmKzalloc null_ptr;
               EvDevErr (Some "devm_kzalloc() error"%string) (- ENOMEM) ].
      split; [rewrite Hj0, <- app_assoc; reflexivity |].
      left. split; reflexivity. }
  destruct (get_dep_dev bus junk node) as [e | dep] eqn:Hdep.
  { unfold pureW in Hr. subst r. cbn [fst snd].
    exists [EvDevmKzalloc valid_ptr].
    split; [exact Hj0 |]. right. left.
    split; [exact (get_dep_dev_error _ _ _ _ Hdep) |].
    split; reflexivity. }
  stepW_in Hr.
  destruct (gpio_crs_get_spec w0)
    as [(w1 & E1 & Hs1 & Hj1 & Hc1 & Hk1 & Hx1)
       | (k1 & e1 & w1 & Hlt1 & E1 & Hs1 & Hj1 & Hc1)];
    rewrite E1 in Hr; cbn [fst snd] in Hr.
  2:{ change (negb (- EINVAL =? 0)) with true in Hr. cbv iota in Hr.
      unfold pureW in Hr. subst r. cbn [fst snd].
      exists (EvDevmKzalloc valid_ptr
              :: map (got the_dep_dev GPIOD_ASIS valid_ptr) (firstn k1 crs_lines)
              ++ map (got the_dep_dev GPIOD_ASIS (err_ptr e1))
                     (firstn 1 (skipn k1 crs_lines))).
      split; [rewrite Hj1, Hj0, <- app_assoc; reflexivity |].
      right. right. left. split; [reflexivity |].
      eexists. split; [| reflexivity].
      rewrite forallb_app, !gets_are_gets. reflexivity. }
  change (negb (0 =? 0)) with false in Hr. cbv iota in Hr.
  stepW_in Hr.
  destruct (gpio_pmic_get_spec w1)
    as [(w2 & E2 & Hs2 & Hj2 & Hc2 & Hk2 & Hx2 & Hhigh2)
       | (k2 & e2 & w2 & Hlt2 & E2 & Hs2 & Hj2 & Hc2 & Hk2)];
    rewrite E2 in Hr; cbn [fst snd] in Hr.
  2:{ change (negb (- EINVAL =? 0)) with true in Hr. cbv iota in Hr.
      rewrite put_crs_gpio_spec in Hr.
      2:{ intros l Hl. rewrite Hk2; [exact (Hc1 l Hl) |].
          apply crs_not_pmic, in_map, Hl. }
      subst r. cbn [fst snd journal].
      eexists. split.
      { rewrite Hj2, Hj1, Hj0, <- ?app_assoc. cbn [app]. reflexivity. }
      right. right. right. left. split; [reflexivity |].
      exists (map (got the_client GPIOD_OUT_HIGH valid_ptr) (firstn k2 pmic_lines)
              ++ map (got the_client GPIOD_OUT_HIGH (err_ptr e2))
                     (firstn 1 (skipn k2 pmic_lines))).
      split; [| rewrite <- ?app_assoc; reflexivity].
      rewrite forallb_app, !gets_are_gets. reflexivity. }
  change (negb (0 =? 0)) with false in Hr. cbv iota in Hr.
  assert (Hv2 : forall g, gpio_desc w2 g = valid_ptr)
    by exact (all_lines_valid (gpio_desc w1) (gpio_desc w2) Hc1 Hc2 Hk2).
  stepW_in Hr.
  destruct (regulator_pmic_get_spec w2) as (ret3 & w3 & E3 & Hs3 & Hg3 & Hj3).
  rewrite E3 in Hr. cbn [fst snd] in Hr.
  assert (Hv3 : forall g, gpio_desc w3 g = valid_ptr)
    by (intros g; rewrite Hg3; apply Hv2).
  destruct (Z.eqb_spec ret3 0) as [-> | Hne3]; cbn [negb] in Hr.
  2:{ rewrite put_pmic_gpio_spec in Hr by exact Hv3.
      subst r. cbn [fst snd journal].
      eexists. split.
      { rewrite Hj3, Hj2, Hj1, Hj0, <- ?app_assoc. cbn [app]. reflexivity. }
      do 4 right. left. split; [exact Hne3 |].
      rewrite <- ?app_assoc. reflexivity. }
  stepW_in Hr.
  destruct (configure_clock_spec w3)
    as (ret4 & w4 & clk & E4 & Hs4 & Hg4 & Hj4 & Hclk).
  cbv zeta in Hclk. rewrite E4 in Hr. cbn [fst snd] in Hr.
  assert (Hv4 : forall g, gpio_desc w4 g = valid_ptr)
    by (intros g; rewrite Hg4; apply Hv3).
  assert (Hacq0 : journal w3
                  = journal w ++ [EvDevmKzalloc valid_ptr]
                    ++ map (got the_dep_dev GPIOD_ASIS valid_ptr) crs_lines
                    ++ EvGpiodAddLookupTable
                       :: map (got the_client GPIOD_OUT_HIGH valid_ptr)
                              pmic_lines
                    ++ [EvDevmRegulatorBulkGet ov5670_supply_names 0]).
  { rewrite Hj3, Hj2, Hj1, Hj0, <- ?app_assoc. cbn [app]. reflexivity. }
  destruct (Z.eqb_spec ret4 0) as [-> | Hne4]; cbn [negb] in Hr.
  2:{ destruct (disable_regulator_spec None ret4 w4 Hv4) as (Hr4 & Hj & _).
      subst r. rewrite Hr4, Hj.
      eexists. split.
      { rewrite Hj4, Hacq0, <- ?app_assoc. cbn [app]. reflexivity. }
      do 5 right. left. split; [exact Hne4 |].
      exists clk. split; [| rewrite <- ?app_assoc; reflexivity].
      destruct Hclk
        as [(_ & _ & _ & ->)
           | [(_ & _ & _ & ->)
             | [(_ & _ & _ & _ & ->) | (_ & _ & _ & H0 & _)]]];
        [left; eexists; reflexivity
        | right; left; eexists _, _; reflexivity
        | right; right; eexists _, _, _; reflexivity
        | contradiction]. }
  destruct Hclk
    as [(_ & H0 & Hr0 & _)
       | [(_ & _ & H0 & _)
         | [(_ & _ & _ & H0 & _) | (_ & Hr1 & Hr2 & _ & Hx4 & ->)]]];
    [lia | unfold EINVAL in H0; lia | unfold EINVAL in H0; lia |].
  set (r1 := answers (krn (sensor w3)) (S (asked (krn (sensor w3))))) in *.
  set (r2 := answers (krn (sensor w3)) (S (S (asked (krn (sensor w3)))))) in *.
  assert (Hacq : journal w4 = journal w ++ acquisitions r1 r2).
  { rewrite Hj4, Hacq0. unfold acquisitions.
    rewrite <- ?app_assoc. cbn [app]. reflexivity. }
  clear Hacq0 Hj4 Hj3 Hj2 Hj1 Hj0 E0 E1 E2 E3 E4.
  unfold v4l2_i2c_subdev_init in Hr. rewrite bindW_note in Hr.
  destruct (Hpu (sensor w4)) as (s6 & E6 & Hd6 & Hg6).
  match type of Hr with
  | r = bindW (sensor_call pu) ?k ?w' =>
      rewrite (bindW_sensor_call pu k w' 0 s6 E6) in Hr
  end.
  cbn [sensor gpio_desc xvclk_freq journal] in Hr.
  change (negb (0 =? 0)) with false in Hr. cbv iota in Hr.
  destruct (Hidm s6) as (Hd7 & _ & Hg7 & _).
  destruct (idm s6) as [ret7 s7] eqn:E7.
  cbn [fst snd] in Hd7, Hg7.
  match type of Hr with
  | r = bindW (sensor_call idm) ?k ?w' =>
      rewrite (bindW_sensor_call idm k w' ret7 s7 E7) in Hr
  end.
  cbn [sensor gpio_desc xvclk_freq journal] in Hr.
  destruct (Z.eqb_spec ret7 0) as [Hid | Hid]; cbn [negb] in Hr.
  2:{ rewrite error_print_spec in Hr. subst r.
      cbn [fst snd sensor gpio_desc xvclk_freq journal].
      eexists. split.
      { rewrite Hacq, <- ?app_assoc. cbn [app]. reflexivity. }
      do 6 right. left. split; [exact Hid |].
      split; [intros g; rewrite Hg7; apply Hg6 |].
      split; [exact Hv4 |].
      exists r1, r2. rewrite <- ?app_assoc. reflexivity. }
  unfold mutex_init in Hr. rewrite bindW_note in Hr.
  cbn [sensor gpio_desc xvclk_freq journal] in Hr.
  match type of Hr with
  | r = bindW (sensor_call (driver ?f)) ?k ?w' =>
      rewrite (bindW_sensor_call (driver f) k w' tt
                 (mk_state (set_cur_mode default_mode (drv s7)) (krn s7))
                 eq_refl) in Hr
  end.
  cbn [sensor gpio_desc xvclk_freq journal] in Hr.
  set (s0 := mk_state (set_cur_mode default_mode (drv s7)) (krn s7)) in *.
  assert (Hmode : cur_mode (drv s0) = default_mode) by reflexivity.
  destruct (ic s0) as [ret8 s8] eqn:E8.
  match type of Hr with
  | r = bindW (sensor_call ic) ?k ?w' =>
      rewrite (bindW_sensor_call ic k w' ret8 s8 E8) in Hr
  end.
  cbn [sensor gpio_desc xvclk_freq journal] in Hr.
  destruct (Z.eqb_spec ret8 0) as [Hic | Hic]; cbn [negb] in Hr.
  2:{ match type of Hr with
      | r = error_mutex_destroy ?msg ?ret ?w' =>
          destruct (error_mutex_destroy_spec msg ret w' Hv4) as (Hret & Hj)
      end.
      subst r. rewrite Hret, Hj. cbn [journal].
      eexists. split.
      { rewrite Hacq, <- ?app_assoc. cbn [app]. reflexivity. }
      do 7 right. left. split; [exact Hic |].
      exists r1, r2. rewrite <- ?app_assoc. reflexivity. }
  match type of Hr with
  | r = bindW media_entity_pads_init ?k ?w' =>
      rewrite (bindW_result media_entity_pads_init k w' _ _
                 (media_entity_pads_init_eq w')) in Hr
  end.
  cbn [sensor gpio_desc xvclk_freq journal drv krn] in Hr.
  set (pads := answers (krn s8) (asked (krn s8))) in *.
  destruct (Z.eqb_spec pads 0) as [Hpads | Hpads]; cbn [negb] in Hr.
  2:{ match type of Hr with
      | r = error_handler_free ?msg ?ret ?w' =>
          destruct (error_handler_free_spec msg ret w' Hv4) as (Hret & Hj)
      end.
      subst r. rewrite Hret, Hj. cbn [journal].
      eexists. split.
      { rewrite Hacq, <- ?app_assoc. cbn [app]. reflexivity. }
      do 8 right. left. split; [exact Hpads |].
      exists r1, r2. rewrite <- ?app_assoc. reflexivity. }
  match type of Hr with
  | r = bindW v4l2_async_register_subdev_sensor_common ?k ?w' =>
      rewrite (bindW_result v4l2_async_register_subdev_sensor_common k w' _ _
                 (async_register_eq w')) in Hr
  end.
  cbn [sensor gpio_desc xvclk_freq journal drv krn answers asked
       next_answer] in Hr.
  set (reg := answers (krn s8) (S (asked (krn s8)))) in *.
  destruct (Z.ltb_spec reg 0) as [Hreg | Hreg].
  { match type of Hr with
    | r = error_entity_cleanup ?msg ?ret ?w' =>
        destruct (error_entity_cleanup_spec msg ret w' Hv4) as (Hret & Hj)
    end.
    subst r. rewrite Hret, Hj. cbn [journal].
    eexists. split.
    { rewrite Hacq, <- ?app_assoc. cbn [app]. reflexivity. }
    do 9 right. left. split; [exact Hreg |].
    exists r1, r2. rewrite Hpads, <- ?app_assoc. reflexivity. }
  match type of Hr with
  | r = bindW (sensor_call (driver ?f)) ?k ?w' =>
      rewrite (bindW_sensor_call (driver f) k w' tt
                 (mk_state (f (drv (sensor w'))) (krn (sensor w'))) eq_refl)
        in Hr
  end.
  cbn [sensor gpio_desc xvclk_freq journal drv krn] in Hr.
  unfold pm_runtime_set_active, pm_runtime_enable, pm_runtime_idle in Hr.
  rewrite !bindW_note in Hr.
  cbn [sensor gpio_desc xvclk_freq journal] in Hr.
  match type of Hr with
  | r = bindW (sensor_call pd) ?k ?w' =>
      destruct (Hpd (sensor w')) as (s9 & E9 & Hd9 & Hg9);
      rewrite (bindW_sensor_call pd k w' 0 s9 E9) in Hr
  end.
  cbn [sensor gpio_desc xvclk_freq journal drv] in Hd9, Hr. unfold pureW in Hr.
  subst r. cbn [fst snd sensor gpio_desc xvclk_freq journal].
  eexists. split.
  { rewrite Hacq, <- ?app_assoc. cbn [app]. reflexivity. }
  do 10 right. split; [reflexivity |].
  split; [exists dep; reflexivity |]. split; [exact Hv4 |].
  split; [exact Hx4 |]. split; [exact Hg9 |].
  split.
  { exists s0. split; [exact Hmode |]. rewrite E8. cbn [fst snd].
    split; [exact Hic | exact Hd9]. }
  exists r1, r2, reg. split; [exact Hr1 |]. split; [exact Hr2 |].
  split; [exact Hreg |]. rewrite Hpads, <- ?app_assoc. reflexivity.
Qed.

Lemma default_mode_in_catalog : In default_mode supported_modes.
Proof. left. reflexivity. Qed.

(** X22: a successful [ov5670_probe].  When probe returns 0 the dependent
    device was found; the kernel calls of the attach layer were, in this
    order and nothing else: the allocation, the three lines of the dependent
    device, the lookup table and the ten lines of the companion, the
    regulators, the clock set to and read back at 19.2 MHz, the sub-device
    initialisation, the mutex, the pad, the registration, and the runtime-PM
    set-up.  All thirteen descriptors are valid and the lookup table is
    registered.  The first catalog mode, 2592x1944, is current, the controls
    exist with the ranges of that mode, the sensor is not streaming, and it
    has been switched off again: every line is low and the regulators and
    the clock are recorded as disabled. *)
Theorem probe_success :
  forall (bus : list device) (junk : device_ptr) (node : acpi_node)
         (w : attach_state),
    let r := ov5670_probe bus junk node w in
    fst r = 0 ->
    let d := drv (sensor (snd r)) in
    (exists dep, get_dep_dev bus junk node = inr dep)
    /\ (exists r1 r2 r3,
          0 <= r1 /\ u32 r2 = 19200000 /\ 0 <= r3
          /\ journal (snd r)
             = journal w ++ acquisitions r1 r2
               ++ [ EvV4l2I2cSubdevInit; EvMutexInit;
                    EvMediaEntityPadsInit 0;
                    EvV4l2AsyncRegisterSubdevSensorCommon r3;
                    EvPmRuntimeSetActive; EvPmRuntimeEnable;
                    EvPmRuntimeIdle ])
    /\ (forall g, gpio_desc (snd r) g = valid_ptr)
    /\ xvclk_freq (snd r) = 19200000
    /\ (forall g, gpio_value (krn (sensor (snd r))) g = false)
    /\ cur_mode d = default_mode
    /\ width default_mode = 2592 /\ height default_mode = 1944
    /\ streaming d = false
    /\ clk_enabled d = false /\ regulator_enabled d = false
    /\ hblank_fixed d
    /\ (exists lf, link_freq d = Some lf /\ read_only lf)
    /\ (exists pr, pixel_rate d = Some pr)
    /\ vblank d
       = Some (mk_ctrl V4L2_CID_VBLANK (vts_min default_mode - 1944)
                 (OV5670_VTS_MAX - 1944) 1 (vts_def default_mode - 1944)
                 (vts_def default_mode - 1944) 0)
    /\ exposure d
       = Some (mk_ctrl V4L2_CID_EXPOSURE OV5670_EXPOSURE_MIN
                 (vts_def default_mode - 8) OV5670_EXPOSURE_STEP
                 (vts_def default_mode - 8) (vts_def default_mode - 8) 0).
Proof.
  intros bus junk node w r Hok d.
  destruct (probe_cases bus junk node w r eq_refl) as (new & Hj & Hcases).
  destruct Hcases
    as [(H & _) | [(H & _) | [(H & _) | [(H & _) | [(H & _) | [(H & _)
       | [(H & _) | [(H & _) | [(H & _) | [(H & _) | Hsucc]]]]]]]]]];
    try (unfold ENOMEM, EINVAL in H; lia).
  destruct Hsucc
    as (_ & Hdep & Hdesc & Hfreq & Hlow & (s0 & Hmode & Hic & Hdrv)
        & r1 & r2 & r3 & Hr1 & Hr2 & Hr3 & ->).
  assert (Hin : In (cur_mode (drv s0)) supported_modes)
    by (rewrite Hmode; apply default_mode_in_catalog).
  destruct (init_controls_created s0 Hin Hic)
    as (Hcur & Hlf & Hpr & Hvb & Hhb & Hex).
  cbv zeta in Hlf, Hpr, Hvb, Hhb, Hex. rewrite Hmode in *.
  split; [exact Hdep |].
  split; [exists r1, r2, r3; repeat (split; [assumption |]); exact Hj |].
  split; [exact Hdesc |]. split; [exact Hfreq |]. split; [exact Hlow |].
  unfold d. rewrite Hdrv.
  cbn [cur_mode streaming clk_enabled regulator_enabled link_freq pixel_rate
       vblank hblank exposure set_clk_enabled set_regulator_enabled
       set_streaming].
  split; [exact Hcur |]. split; [reflexivity |]. split; [reflexivity |].
  split; [reflexivity |]. split; [reflexivity |]. split; [reflexivity |].
  split.
  { unfold hblank_fixed.
    cbn [hblank cur_mode set_clk_enabled set_regulator_enabled set_streaming].
    rewrite Hhb, Hcur.
    eexists. split; [reflexivity |].
    cbn [minimum maximum default_value add_flag].
    do 3 (split; [reflexivity |]). apply read_only_add_flag. }
  split; [eexists; split; [exact Hlf | apply read_only_add_flag] |].
  split; [eexists; exact Hpr |].
  split; [exact Hvb | exact Hex].
Qed.

Lemma probe_success_witness :
  let r := ov5670_probe companion_bus NULL_device sensor_node
             (before_probe probe_succeeds) in
  fst r = 0
  /\ (forall g, gpio_desc (snd r) g = valid_ptr)
  /\ (forall g, gpio_value (krn (sensor (snd r))) g = false)
  /\ width (cur_mode (drv (sensor (snd r)))) = 2592
  /\ streaming (drv (sensor (snd r))) = false.
Proof.
  cbv zeta.
  assert (Hok : fst (ov5670_probe companion_bus NULL_device sensor_node
                       (before_probe probe_succeeds)) = 0)
    by (vm_compute; reflexivity).
  pose proof (probe_success companion_bus NULL_device sensor_node
                (before_probe probe_succeeds) Hok) as W.
  cbv zeta in W.
  destruct W as (_ & _ & Hdesc & _ & Hlow & Hcur & Hw & _ & Hstr & _).
  split; [exact Hok |]. split; [exact Hdesc |]. split; [exact Hlow |].
  split; [rewrite Hcur; exact Hw | exact Hstr].
Defined.







(** [gpio_crs_put] and [gpio_pmic_put] on valid descriptors. *)
Lemma gpio_crs_put_spec (w : attach_state) :
  (forall g, gpio_desc w g = valid_ptr) ->
  gpio_crs_put w
  = (tt, mk_attach (sensor w) (gpio_desc w) (xvclk_freq w)
                   (journal w ++ map put crs_lines)).
Proof.
  intros Hd. unfold gpio_crs_put.
  do 2 (put_step Hd). rewrite gpiod_put_eq.
  cbn [fst snd sensor journal gpio_desc xvclk_freq]. rewrite ?Hd.
  rewrite <- !app_assoc. reflexivity.
Qed.

Lemma gpio_pmic_put_spec (w : attach_state) :
  (forall g, gpio_desc w g = valid_ptr) ->
  gpio_pmic_put w
  = (tt, mk_attach (sensor w) (gpio_desc w) (xvclk_freq w)
                   (journal w ++ map put pmic_lines
                    ++ [EvGpiodRemoveLookupTable])).
Proof.
  intros Hd. unfold gpio_pmic_put.
  do 10 (put_step Hd).
  unfold gpiod_remove_lookup_table, note.
  cbn [fst snd sensor journal gpio_desc xvclk_freq].
  rewrite <- !app_assoc. reflexivity.
Qed.

Lemma remove_spec (w : attach_state) :
  (forall g, gpio_desc w g = valid_ptr) ->
  exists w',
    ov5670_remove w = (0, w')
    /\ journal w'
       = journal w ++ map put crs_lines ++ map put pmic_lines
         ++ [ EvGpiodRemoveLookupTable; EvV4l2AsyncUnregisterSubdev;
              EvMediaEntityCleanup; EvMutexDestroy; EvPmRuntimeDisable ]
    /\ sensor w' = snd (v4l2_ctrl_handler_free (sensor w)).
Proof.
  intros Hd. unfold ov5670_remove.
  rewrite (bindW_result gpio_crs_put _ w _ tt (gpio_crs_put_spec w Hd)).
  match goal with
  | |- context [bindW gpio_pmic_put ?k ?w1] =>
      rewrite (bindW_result gpio_pmic_put k w1 _ tt
                 (gpio_pmic_put_spec w1 Hd))
  end.
  cbn [sensor journal gpio_desc xvclk_freq].
  unfold v4l2_async_unregister_subdev, media_entity_cleanup.
  rewrite !bindW_note. cbn [sensor journal gpio_desc xvclk_freq].
  match goal with
  | |- context [bindW (sensor_call v4l2_ctrl_handler_free) ?k ?w1] =>
      rewrite (bindW_sensor_call v4l2_ctrl_handler_free k w1 tt
                 (snd (v4l2_ctrl_handler_free (sensor w))) eq_refl)
  end.
  cbn [sensor journal gpio_desc xvclk_freq].
  unfold mutex_destroy, pm_runtime_disable.
  rewrite !bindW_note. cbn [sensor journal gpio_desc xvclk_freq].
  unfold pureW. eexists. split; [reflexivity |].
  cbn [journal sensor]. split; [| reflexivity].
  rewrite <- !app_assoc. reflexivity.
Qed.

(** X24: [ov5670_probe] followed by [ov5670_remove].  After a probe that
    returned 0, remove returns 0 and adds to the journal the release of the
    three lines of the dependent device, the release of the ten lines of the
    companion, the removal of the lookup table, the unregistration of the
    sub-device, the entity clean-up, the destruction of the mutex and the
    disabling of runtime PM, in this order.  Over probe and remove together
    every line acquired is released exactly once, each time with a valid
    descriptor, the lookup table added is removed, and [error_print] is never
    reached.  Below this layer remove makes one call, the release of the
    control handler: the driver's record is left as probe left it, its five
    pointers to the released controls included, and the power sequence is
    not run, every line staying low. *)
Theorem probe_then_remove :
  forall (bus : list device) (junk : device_ptr) (node : acpi_node)
         (w : attach_state),
    let r := ov5670_probe bus junk node w in
    fst r = 0 ->
    let q := ov5670_remove (snd r) in
    fst q = 0
    /\ journal (snd q)
       = journal (snd r) ++ map put crs_lines ++ map put pmic_lines
         ++ [ EvGpiodRemoveLookupTable; EvV4l2AsyncUnregisterSubdev;
              EvMediaEntityCleanup; EvMutexDestroy; EvPmRuntimeDisable ]
    /\ (exists new,
          journal (snd q) = journal w ++ new
          /\ filter is_put new = map put crs_lines ++ map put pmic_lines
          /\ forallb valid_put new = true
          /\ lookup_tables new = 0
          /\ messages new = [])
    /\ drv (sensor (snd q)) = drv (sensor (snd r))
    /\ trace (krn (sensor (snd q)))
       = trace (krn (sensor (snd r))) ++ [EvCtrlHandlerFree]
    /\ (forall g, gpio_value (krn (sensor (snd q))) g = false).
Proof.
  intros bus junk node w r Hok q.
  destruct (probe_cases bus junk node w r eq_refl) as (new & Hj & Hcases).
  destruct Hcases
    as [(H & _) | [(H & _) | [(H & _) | [(H & _) | [(H & _) | [(H & _)
       | [(H & _) | [(H & _) | [(H & _) | [(H & _) | Hsucc]]]]]]]]]];
    try (unfold ENOMEM, EINVAL in H; lia).
  destruct Hsucc
    as (_ & _ & Hdesc & _ & Hlow & _
        & r1 & r2 & r3 & _ & _ & _ & ->).
  destruct (remove_spec (snd r) Hdesc) as (w' & E & Hj' & Hs').
  unfold q. rewrite E. cbn [fst snd]. rewrite Hs'.
  split; [reflexivity |]. split; [exact Hj' |].
  split.
  { eexists. split; [rewrite Hj', Hj, <- app_assoc; reflexivity |].
    unfold acquisitions. cbn. split; [reflexivity |].
    split; [reflexivity |]. split; reflexivity. }
  split; [reflexivity |]. split; [reflexivity | exact Hlow].
Qed.

Lemma probe_then_remove_witness :
  let w := before_probe probe_succeeds in
  let r := ov5670_probe companion_bus NULL_device sensor_node w in
  let q := ov5670_remove (snd r) in
  fst r = 0 /\ fst q = 0
  /\ exists new,
       journal (snd q) = journal w ++ new
       /\ filter is_put new = map put crs_lines ++ map put pmic_lines
       /\ lookup_tables new = 0.
Proof.
  cbv zeta.
  assert (Hok : fst (ov5670_probe companion_bus NULL_device sensor_node
                       (before_probe probe_succeeds)) = 0)
    by (vm_compute; reflexivity).
  destruct (probe_then_remove companion_bus NULL_device sensor_node
              (before_probe probe_succeeds) Hok)
    as (Hq & _ & (new & Hj & Hput & _ & Htab & _) & _).
  split; [exact Hok |]. split; [exact Hq |].
  exists new. split; [exact Hj |]. split; [exact Hput | exact Htab].
Defined.
